(** * A shallow embedding of the DRA multi-device driver's orchestration core

    The Go program prepares and releases node-local devices on behalf of
    resource claims.  This development embeds, function by function,

    - [pkg/handler]: the data model ([types.go]) and the two-level handler
      registry ([registry.go]), with its listing;
    - [pkg/nri]: the relocation tracker ([tracker.go]) and the sandbox event
      plugin ([RunPodSandbox], [StopPodSandbox], the claim UID scanner);
    - [pkg/handler/rdma] and [pkg/handler/netdev]: the uverbs and the dummy
      handler, the two handlers [main.go] composes into the RoCE combo, and
      the IPoIB handler;
    - [pkg/handler/combo]: the RoCE combo handler ([roce.go]);
    - [pkg/driver]: the allocate/release orchestrator ([driver.go]);
    - the discovery of the RDMA devices the driver publishes
      ([discoverRDMADevices]).

    Conventions.  A Go [string] is a [string] (a list of bytes); where Go
    ranges over a string it decodes UTF-8, and so does [decodeRune].  A Go
    [map[string]T] is a [gmap string T]; reading a missing key of a
    [map[string]string] yields the empty string ([mget]).  The memory of the
    process (the cached netns mode, the relocation tracker, the allocations
    of the driver) is lost in a restart; the interfaces, the devices and the
    files of the node are not ([restarted]).  A Go [error] is
    its message: [option string] for a function returning [error], [Result]
    for a function returning a value and an [error].  [fmt.Errorf] with [%w]
    or [%v] is concatenation of messages.  Code that touches the node runs in
    the monad [M] over [World]; a run-time panic (an out-of-range slice) is
    the outcome [Panic].  Log output ([klog]) is not modelled. *)

From stdpp Require Import base gmap strings list fin_maps sorting.
From Stdlib Require Import Ascii ZArith Lia HexString.

Local Open Scope string_scope.
Local Open Scope Z_scope.
Local Open Scope nat_scope.
Local Open Scope list_scope.

(* ================================================================== *)
(** * Strings, errors, results *)
(* ================================================================== *)

(** Go's [error]: the message. *)
Abbreviation error := string.

(** The result of a Go function returning [(T, error)]. *)
Inductive Result (A : Type) : Type :=
| Ok (a : A)
| Err (e : error).
Arguments Ok {A} a.
Arguments Err {A} e.

(** [m[k]] on a [map[string]string]: the zero value for a missing key. *)
Definition mget (m : gmap string string) (k : string) : string :=
  default "" (m !! k).

(** [s[:n]]: Go panics when [n] exceeds [len(s)]; [None] is that panic. *)
Definition slice_to (s : string) (n : nat) : option string :=
  if decide (n ≤ String.length s) then Some (String.substring 0 n s) else None.

(** [strings.ReplaceAll(s, "/", "-")]. *)
Fixpoint replaceSlash (s : string) : string :=
  match s with
  | EmptyString => EmptyString
  | String c r =>
      String (if Ascii.eqb c "/"%char then "-"%char else c) (replaceSlash r)
  end.

(** [strings.HasPrefix(s, p)]. *)
Definition hasPrefix (s p : string) : bool := String.prefix p s.

(** [strings.HasSuffix(s, p)]. *)
Definition hasSuffix (s p : string) : bool :=
  let n := String.length s in
  let k := String.length p in
  if decide (k ≤ n) then String.eqb (String.substring (n - k) k s) p else false.

(** [fmt.Sprintf("%v", errs)] for a slice of errors: [[e1 e2 ...]]. *)
Fixpoint joinSpace (l : list string) : string :=
  match l with
  | [] => ""
  | [e] => e
  | e :: r => e +:+ " " +:+ joinSpace r
  end.

Definition showErrs (errs : list error) : string := "[" +:+ joinSpace errs +:+ "]".

(* ================================================================== *)
(** * pkg/handler/types.go: the data model *)
(* ================================================================== *)

Abbreviation DeviceType := string.

Definition DeviceTypeNetdev : DeviceType := "netdev".
Definition DeviceTypeRDMA : DeviceType := "rdma".
Definition DeviceTypeCombo : DeviceType := "combo".

Record NetdevConfig := {
  nc_Kind : string;
  nc_InterfaceName : string;
  nc_MTU : Z;
  nc_Parent : string;
  nc_Mode : string;
  nc_VFIndex : Z;
  nc_HostDevice : string;
  nc_Pkey : Z;
}.

Record RDMAConfig := { rc_PreferDevice : string }.

Record ComboConfig := { cc_RDMA : RDMAConfig; cc_Netdev : NetdevConfig }.

(** The three payloads are pointers in Go: [None] is [nil]. *)
Record DeviceConfig := {
  dc_Type : DeviceType;
  dc_Netdev : option NetdevConfig;
  dc_RDMA : option RDMAConfig;
  dc_Combo : option ComboConfig;
}.

Record AllocationInfo := {
  ai_Type : DeviceType;
  ai_Kind : string;
  ai_ClaimUID : string;
  ai_DeviceName : string;
  ai_Metadata : gmap string string;
}.

(** The container edits of the CDI specification, as far as the handlers
    fill them in. *)
Record DeviceNode := { dn_Path : string; dn_HostPath : string; dn_Permissions : string }.
Record Mount := { mt_HostPath : string; mt_ContainerPath : string; mt_Options : list string }.
Record LinuxNetDevice := { nd_HostInterfaceName : string; nd_Name : string }.

Record ContainerEdits := {
  ce_DeviceNodes : list DeviceNode;
  ce_Mounts : list Mount;
  ce_NetDevices : list LinuxNetDevice;
  ce_Env : list string;
}.

Record PrepareRequest := {
  pq_ClaimUID : string;
  pq_Namespace : string;
  pq_ClaimName : string;
  pq_AllocatedDevice : string;
  pq_Config : DeviceConfig;
}.

(** A handler that returns no error returns a result whose [CDIEdits] and
    [Allocation] pointers are set, as every handler of the repository does. *)
Record PrepareResult := {
  pr_PoolName : string;
  pr_DeviceName : string;
  pr_CDIEdits : ContainerEdits;
  pr_Allocation : AllocationInfo;
}.

Record UnprepareRequest := {
  uq_ClaimUID : string;
  uq_Allocation : AllocationInfo;
}.

(** [DeviceConfig.GetKind]. *)
Definition GetKind (c : DeviceConfig) : string :=
  if String.eqb (dc_Type c) DeviceTypeNetdev then
    match dc_Netdev c with
    | Some n => nc_Kind n
    | None => ""
    end
  else if String.eqb (dc_Type c) DeviceTypeRDMA then "uverbs"
  else if String.eqb (dc_Type c) DeviceTypeCombo then "roce"
  else "".

(* ================================================================== *)
(** * pkg/nri/tracker.go: the relocation tracker *)
(* ================================================================== *)

Record PendingMove := { pm_IBDev : string; pm_ClaimUID : string }.

Record ActiveMove := { am_IBDev : string; am_PodUID : string; am_NetnsPath : string }.

(** Both maps are keyed by claim UID.  Every method takes the tracker's
    mutex for its whole body, so each is one atomic state transformer. *)
Record RDMANetnsTracker := {
  pending : gmap string PendingMove;
  active : gmap string ActiveMove;
}.

Definition NewRDMANetnsTracker : RDMANetnsTracker :=
  {| pending := ∅; active := ∅ |}.

Definition AddPending (t : RDMANetnsTracker) (claimUID ibDev : string) : RDMANetnsTracker :=
  {| pending := <[claimUID := {| pm_IBDev := ibDev; pm_ClaimUID := claimUID |}]> (pending t);
     active := active t |}.

Definition RemovePending (t : RDMANetnsTracker) (claimUID : string) : RDMANetnsTracker :=
  {| pending := delete claimUID (pending t); active := active t |}.

(** The loop of [ConsumePendingForClaims]: returns the moves found, in the
    order of [claimUIDs], and the tracker without them. *)
Fixpoint ConsumePendingForClaims (t : RDMANetnsTracker) (claimUIDs : list string)
  : list PendingMove * RDMANetnsTracker :=
  match claimUIDs with
  | [] => ([], t)
  | uid :: rest =>
      match pending t !! uid with
      | Some m =>
          let '(moves, t') :=
            ConsumePendingForClaims
              {| pending := delete uid (pending t); active := active t |} rest in
          (m :: moves, t')
      | None => ConsumePendingForClaims t rest
      end
  end.

Definition MarkActive (t : RDMANetnsTracker) (claimUID podUID ibDev netnsPath : string)
  : RDMANetnsTracker :=
  {| pending := pending t;
     active := <[claimUID := {| am_IBDev := ibDev; am_PodUID := podUID;
                                am_NetnsPath := netnsPath |}]> (active t) |}.

(** Go iterates a map in an unspecified order; the list returned here is in
    the order of [map_to_list], one of the orders Go may produce. *)
Definition GetActiveForPod (t : RDMANetnsTracker) (podUID : string) : list ActiveMove :=
  (map_to_list (filter (λ kv, am_PodUID kv.2 = podUID) (active t))).*2.

Definition RemoveActive (t : RDMANetnsTracker) (claimUID : string)
  : option ActiveMove * RDMANetnsTracker :=
  match active t !! claimUID with
  | Some m => (Some m, {| pending := pending t; active := delete claimUID (active t) |})
  | None => (None, t)
  end.

Definition RemoveActiveForPod (t : RDMANetnsTracker) (podUID : string)
  : list ActiveMove * RDMANetnsTracker :=
  ((map_to_list (filter (λ kv, am_PodUID kv.2 = podUID) (active t))).*2,
   {| pending := pending t;
      active := filter (λ kv, am_PodUID kv.2 ≠ podUID) (active t) |}).

(** [String]: the two counters of the debugging summary. *)
Definition trackerSummary (t : RDMANetnsTracker) : nat * nat :=
  (size (pending t), size (active t)).

(* ================================================================== *)
(** * The node: what the program reads and changes outside its structs *)
(* ================================================================== *)

(** [cdispec.Spec], as [createCDISpec] fills it in. *)
Record CDIDevice := { cd_Name : string; cd_ContainerEdits : ContainerEdits }.
Record CDISpec := { cs_Version : string; cs_Kind : string; cs_Devices : list CDIDevice }.

(** The content of a file of [/etc/cdi].  [encoding/json] is modelled as a
    faithful round trip: a file written from an [AllocationInfo] parses back
    to it, a CDI document parses into an [AllocationInfo] with empty fields,
    anything else does not parse. *)
Inductive FileData :=
| CDISpecFile (spec : CDISpec)
| AllocFile (alloc : AllocationInfo)
| Unparsable.

Inductive NetnsMode := NetnsShared | NetnsExclusive.

(** A network interface: what [netlink.LinkAdd] was given, and whether the
    interface is up. *)
Inductive LinkKind :=
| Dummy
| IPoIB (parent : string) (pkey : Z) (connected : bool).

Record Link := { lk_Kind : LinkKind; lk_MTU : Z; lk_Up : bool }.

(** What the node answers, and does not change while the program runs: which
    paths exist, what the kernel refuses.  An [option error] answer is the
    error the call returns, [None] for success. *)
Record Env := {
  statOK : gset string;                 (* paths for which [os.Stat] succeeds *)
  ibDevEntries : Result (list string);  (* [os.ReadDir("/dev/infiniband")] *)
  sysfsFiles : gmap string string;      (* readable files, for [resolveIBDevice] *)
  rdmaSysMode : Result string;          (* [netlink.RdmaSystemGetNetnsMode] *)
  linkAddErr : string → option error;
  linkSetUpErr : string → option error;
  linkDelErr : string → option error;
  rdmaSetNsErr : string → option error; (* [netlink.RdmaLinkSetNsFd], by device *)
  netnsOpen : gset string;              (* paths [netns.GetFromPath] can open *)
  netnsSetErr : string → option error;  (* [netns.Set], by path *)
  cdiMkdirErr : option error;           (* [os.MkdirAll("/etc/cdi")] *)
  cdiWriteErr : string → option error;  (* [os.WriteFile], by file name *)
  cdiReadErr : string → option error;   (* [os.ReadFile], by file name *)
  cdiRemoveErr : string → option error; (* [os.Remove] of an existing file *)
}.

(** The mutable part: kernel objects, the files of [/etc/cdi] (by file
    name), and the two process-wide variables that the handlers and the
    sandbox plugin share: the cached netns mode of [rdma/system.go] and the
    tracker [main.go] creates once. *)
Record Node := {
  env : Env;
  links : gmap string Link;        (* network interfaces, by name *)
  rdmaDevs : gmap string string;   (* RDMA device ↦ path of the netns owning it *)
  cdiFiles : gmap string FileData;
  cachedMode : option NetnsMode;   (* [None]: [detectOnce] has not run *)
  rdmaTracker : RDMANetnsTracker;
}.

Definition set_links (f : gmap string Link → gmap string Link) (n : Node) : Node :=
  {| env := env n; links := f (links n); rdmaDevs := rdmaDevs n; cdiFiles := cdiFiles n;
     cachedMode := cachedMode n; rdmaTracker := rdmaTracker n |}.

Definition set_rdmaDevs (f : gmap string string → gmap string string) (n : Node) : Node :=
  {| env := env n; links := links n; rdmaDevs := f (rdmaDevs n); cdiFiles := cdiFiles n;
     cachedMode := cachedMode n; rdmaTracker := rdmaTracker n |}.

Definition set_cdiFiles (f : gmap string FileData → gmap string FileData) (n : Node) : Node :=
  {| env := env n; links := links n; rdmaDevs := rdmaDevs n; cdiFiles := f (cdiFiles n);
     cachedMode := cachedMode n; rdmaTracker := rdmaTracker n |}.

Definition set_cachedMode (m : option NetnsMode) (n : Node) : Node :=
  {| env := env n; links := links n; rdmaDevs := rdmaDevs n; cdiFiles := cdiFiles n;
     cachedMode := m; rdmaTracker := rdmaTracker n |}.

Definition set_tracker (f : RDMANetnsTracker → RDMANetnsTracker) (n : Node) : Node :=
  {| env := env n; links := links n; rdmaDevs := rdmaDevs n; cdiFiles := cdiFiles n;
     cachedMode := cachedMode n; rdmaTracker := f (rdmaTracker n) |}.

(** ** Calls of handler methods

    To state which handler method ran, and how often, every call site of a
    [DeviceHandler] method records the call before making it.  The callee is
    named by the expression the source calls through: the registry entry the
    driver resolved, or a field of the combo handler. *)
Inductive Callee :=
| ViaRegistry (typ : DeviceType) (kind : string)
| RdmaSub      (* [h.rdmaHandler] *)
| NetdevSub.   (* [h.netdevHandler] *)

Inductive Method :=
| MValidate (cfg : DeviceConfig)
| MPrepare (req : PrepareRequest)
| MUnprepare (req : UnprepareRequest).

Record Call := { callee : Callee; method : Method }.

Record World := { node : Node; calls : list Call }.

(** ** The state-and-panic monad *)

Inductive Outcome (S A : Type) : Type :=
| Done (a : A) (s : S)
| Panic (s : S).   (* the state in which the goroutine panicked *)
Arguments Done {S A} a s.
Arguments Panic {S A} s.

Definition St (S A : Type) : Type := S → Outcome S A.

Definition ret {S A} (a : A) : St S A := λ s, Done a s.

Definition bind {S A B} (m : St S A) (k : A → St S B) : St S B :=
  λ s, match m s with
       | Done a s' => k a s'
       | Panic s' => Panic s'
       end.

Definition panic {S A} : St S A := λ s, Panic s.
Definition get {S} : St S S := λ s, Done s s.
Definition modify {S} (f : S → S) : St S unit := λ s, Done tt (f s).

Notation "'let*' x ':=' m 'in' k" := (bind m (λ x, k))
  (at level 10, x name, m at level 100, k at level 200).
Notation "m ';;' k" := (bind m (λ _, k))
  (at level 100, k at level 200, right associativity).

(** Code of the handlers runs on the node, code of the driver and of the
    combo on the world. *)
Abbreviation N := (St Node).
Abbreviation M := (St World).

Definition liftN {A} (m : N A) : M A :=
  λ w, match m (node w) with
       | Done a n => Done a {| node := n; calls := calls w |}
       | Panic n => Panic {| node := n; calls := calls w |}
       end.

Definition record (c : Callee) (m : Method) : M unit :=
  modify (λ w, {| node := node w; calls := calls w ++ [{| callee := c; method := m |}] |}).

(* ================================================================== *)
(** * pkg/handler: the handler interface and the registry *)
(* ================================================================== *)

(** The interface [DeviceHandler].  [Type()] and [Kinds()] return constants
    in every implementation. *)
Record DeviceHandler := {
  Type_ : DeviceType;
  Kinds : list string;
  Prepare : PrepareRequest → M (Result PrepareResult);
  Unprepare : UnprepareRequest → M (option error);
  Validate : DeviceConfig → M (option error);
}.

(** A handler that is not composed of others acts on the node only. *)
Record LeafHandler := {
  lh_Type : DeviceType;
  lh_Kinds : list string;
  lh_Prepare : PrepareRequest → N (Result PrepareResult);
  lh_Unprepare : UnprepareRequest → N (option error);
  lh_Validate : DeviceConfig → N (option error);
}.

Definition leaf (l : LeafHandler) : DeviceHandler :=
  {| Type_ := lh_Type l;
     Kinds := lh_Kinds l;
     Prepare := λ req, liftN (lh_Prepare l req);
     Unprepare := λ req, liftN (lh_Unprepare l req);
     Validate := λ cfg, liftN (lh_Validate l cfg) |}.

(** The three call sites. *)
Definition callValidate (c : Callee) (h : DeviceHandler) (cfg : DeviceConfig) : M (option error) :=
  record c (MValidate cfg) ;; Validate h cfg.

Definition callPrepare (c : Callee) (h : DeviceHandler) (req : PrepareRequest)
  : M (Result PrepareResult) :=
  record c (MPrepare req) ;; Prepare h req.

Definition callUnprepare (c : Callee) (h : DeviceHandler) (req : UnprepareRequest)
  : M (option error) :=
  record c (MUnprepare req) ;; Unprepare h req.

(** [registry.go]: device type ↦ kind ↦ handler. *)
Record HandlerRegistry := { handlers : gmap string (gmap string DeviceHandler) }.

Definition NewHandlerRegistry : HandlerRegistry := {| handlers := ∅ |}.

(** One iteration of the loop of [Register]: [r.handlers[typ][kind] = h]. *)
Definition registerKind (h : DeviceHandler) (typ : DeviceType)
    (hs : gmap string (gmap string DeviceHandler)) (kind : string)
  : gmap string (gmap string DeviceHandler) :=
  <[typ := <[kind := h]> (default ∅ (hs !! typ))]> hs.

Definition Register (r : HandlerRegistry) (h : DeviceHandler) : HandlerRegistry :=
  let typ := Type_ h in
  let hs := match handlers r !! typ with
            | Some _ => handlers r
            | None => <[typ := ∅]> (handlers r)
            end in
  {| handlers := foldl (registerKind h typ) hs (Kinds h) |}.

Definition Get (r : HandlerRegistry) (typ : DeviceType) (kind : string) : option DeviceHandler :=
  match handlers r !! typ with
  | Some kinds => kinds !! kind
  | None => None
  end.

Definition MustGet (r : HandlerRegistry) (typ : DeviceType) (kind : string)
  : Result DeviceHandler :=
  match Get r typ kind with
  | None => Err ("no handler registered for type=" +:+ typ +:+ " kind=" +:+ kind)
  | Some h => Ok h
  end.

(** [ListRegistered]: the two loops range over Go maps; the lists are in the
    order of [map_to_list], one of the orders Go may produce.  A type whose
    inner map is empty gets no entry: nothing is ever appended for it. *)
Definition listKind (typ : DeviceType) (result : gmap string (list string))
    (kh : string * DeviceHandler) : gmap string (list string) :=
  <[typ := default [] (result !! typ) ++ [kh.1]]> result.

Definition ListRegistered (r : HandlerRegistry) : gmap string (list string) :=
  foldl (λ result tk, foldl (listKind tk.1) result (map_to_list tk.2))
        ∅ (map_to_list (handlers r)).

Definition forEach {S A} (f : A → St S unit) (l : list A) : St S unit :=
  foldr (λ a k, f a ;; k) (ret tt) l.

(* ================================================================== *)
(** * Kernel calls: network namespaces and netlink *)
(* ================================================================== *)

(** The init network namespace, as both callers open it. *)
Definition hostNetns : string := "/proc/1/ns/net".

(** [netns.GetFromPath]: the handle is the path. *)
Definition netnsGetFromPath (path : string) : N (Result string) :=
  λ n, if decide (path ∈ netnsOpen (env n)) then Done (Ok path) n
       else Done (Err ("open " +:+ path +:+ ": no such file or directory")) n.

(** [netns.Set], by path. *)
Definition netnsSet (path : string) : N (option error) :=
  λ n, Done (netnsSetErr (env n) path) n.

(** [netlink.RdmaLinkByName] called from a thread in namespace [cur]: in
    exclusive mode, the only mode in which the program makes this call, a
    device is visible from the namespace that owns it and from no other. *)
Definition RdmaLinkByName (cur name : string) : N (Result string) :=
  λ n, match rdmaDevs n !! name with
       | Some owner =>
           if decide (owner = cur) then Done (Ok name) n
           else Done (Err ("RDMA link " +:+ name +:+ " not found")) n
       | None => Done (Err ("RDMA link " +:+ name +:+ " not found")) n
       end.

(** [netlink.RdmaLinkSetNsFd]: on success the namespace [ns] owns the device. *)
Definition RdmaLinkSetNsFd (link ns : string) : N (option error) :=
  λ n, match rdmaSetNsErr (env n) link with
       | Some e => Done (Some e) n
       | None => Done None (set_rdmaDevs (<[link := ns]>) n)
       end.

(** [netlink.LinkAdd] of an interface named [name]. *)
Definition LinkAdd (name : string) (kind : LinkKind) (mtu : Z) : N (option error) :=
  λ n, match links n !! name with
       | Some _ => Done (Some "file exists") n
       | None =>
           match linkAddErr (env n) name with
           | Some e => Done (Some e) n
           | None =>
               Done None (set_links (<[name := {| lk_Kind := kind; lk_MTU := mtu;
                                                  lk_Up := false |}]>) n)
           end
       end.

(** [netlink.LinkByName]: the link is its name. *)
Definition LinkByName (name : string) : N (Result string) :=
  λ n, match links n !! name with
       | Some _ => Done (Ok name) n
       | None => Done (Err "Link not found") n
       end.

Definition LinkSetUp (name : string) : N (option error) :=
  λ n, match links n !! name with
       | None => Done (Some "no such device") n
       | Some l =>
           match linkSetUpErr (env n) name with
           | Some e => Done (Some e) n
           | None =>
               Done None (set_links (<[name := {| lk_Kind := lk_Kind l; lk_MTU := lk_MTU l;
                                                  lk_Up := true |}]>) n)
           end
       end.

Definition LinkDel (name : string) : N (option error) :=
  λ n, match links n !! name with
       | None => Done (Some "no such device") n
       | Some _ =>
           match linkDelErr (env n) name with
           | Some e => Done (Some e) n
           | None => Done None (set_links (delete name) n)
           end
       end.

(** [os.Stat]: the error, if any. *)
Definition osStat (path : string) : N (option error) :=
  λ n, if decide (path ∈ statOK (env n)) then Done None n
       else Done (Some ("stat " +:+ path +:+ ": no such file or directory")) n.

(** [filepath.Join(dir, name)] for a [name] that [filepath.Clean] leaves as
    it is (no empty, [.] or [..] element). *)
Definition pathJoin (dir name : string) : string := dir +:+ "/" +:+ name.

(* ================================================================== *)
(** * pkg/nri: the sandbox event plugin *)
(* ================================================================== *)

Definition isHexDigit (c : ascii) : bool :=
  let k := nat_of_ascii c in
  (Nat.leb 48 k && Nat.leb k 57) || (Nat.leb 97 k && Nat.leb k 102)
  || (Nat.leb 65 k && Nat.leb k 70).

(** The value of a byte. *)
Definition byteOf (c : ascii) : Z := Z.of_nat (nat_of_ascii c).

(** Whether the byte [c] lies in [[lo, hi]]. *)
Definition inRange (c : ascii) (lo hi : Z) : bool :=
  (lo <=? byteOf c)%Z && (byteOf c <=? hi)%Z.

(** [utf8.RuneError]. *)
Definition RuneError : Z := 0xFFFD.

(** The rune a [range] over a string yields at the head of [s], and its
    width in bytes: the UTF-8 decoding of the head, or [RuneError] of width
    one where the head is no valid encoding (over-long forms, surrogates
    and values above U+10FFFF included). *)
Definition decodeRune (s : string) : Z * nat :=
  match s with
  | EmptyString => (RuneError, 0)
  | String c0 r =>
      let b0 := byteOf c0 in
      if (b0 <? 0x80)%Z then (b0, 1)
      else if inRange c0 0xC2 0xDF then
        match r with
        | String c1 _ =>
            if inRange c1 0x80 0xBF
            then (Z.lor (Z.shiftl (Z.land b0 0x1F) 6) (Z.land (byteOf c1) 0x3F), 2)
            else (RuneError, 1)
        | _ => (RuneError, 1)
        end
      else if inRange c0 0xE0 0xEF then
        match r with
        | String c1 (String c2 _) =>
            let lo := if (b0 =? 0xE0)%Z then 0xA0%Z else 0x80%Z in
            let hi := if (b0 =? 0xED)%Z then 0x9F%Z else 0xBF%Z in
            if inRange c1 lo hi && inRange c2 0x80 0xBF
            then (Z.lor (Z.shiftl (Z.land b0 0x0F) 12)
                    (Z.lor (Z.shiftl (Z.land (byteOf c1) 0x3F) 6) (Z.land (byteOf c2) 0x3F)), 3)
            else (RuneError, 1)
        | _ => (RuneError, 1)
        end
      else if inRange c0 0xF0 0xF4 then
        match r with
        | String c1 (String c2 (String c3 _)) =>
            let lo := if (b0 =? 0xF0)%Z then 0x90%Z else 0x80%Z in
            let hi := if (b0 =? 0xF4)%Z then 0x8F%Z else 0xBF%Z in
            if inRange c1 lo hi && inRange c2 0x80 0xBF && inRange c3 0x80 0xBF
            then (Z.lor (Z.shiftl (Z.land b0 0x07) 18)
                    (Z.lor (Z.shiftl (Z.land (byteOf c1) 0x3F) 12)
                       (Z.lor (Z.shiftl (Z.land (byteOf c2) 0x3F) 6)
                          (Z.land (byteOf c3) 0x3F))), 4)
            else (RuneError, 1)
        | _ => (RuneError, 1)
        end
      else (RuneError, 1)
  end.

(** [byte(c)] for a rune [c]: its low eight bits. *)
Definition byteOfRune (c : Z) : ascii := ascii_of_nat (Z.to_nat (c mod 256)).

(** The loop of [isUUID] from the byte index [i] on.  Go ranges over the
    runes of the string: [i] is the index of the first byte of a rune, and
    the [skip] bytes that follow belong to the rune just seen and are not
    looked at. *)
Fixpoint isUUID_from (i skip : nat) (s : string) : bool :=
  match s with
  | EmptyString => true
  | String _ r =>
      match skip with
      | S k => isUUID_from (S i) k r
      | O =>
          let '(c, width) := decodeRune s in
          (if bool_decide (i = 8 ∨ i = 13 ∨ i = 18 ∨ i = 23)
           then (c =? 45)%Z                                (* ['-'] *)
           else isHexDigit (byteOfRune c))
          && isUUID_from (S i) (width - 1) r
      end
  end.

Definition isUUID (s : string) : bool :=
  if decide (String.length s = 36) then isUUID_from 0 0 s else false.

(** The scan of [extractUUIDs] over the suffix [s]; [skip] bytes are passed
    over first (the [i += 35] after a match). *)
Fixpoint extractUUIDs_from (skip : nat) (s : string) : list string :=
  match s with
  | EmptyString => []
  | String _ r =>
      match skip with
      | S k => extractUUIDs_from k r
      | O =>
          if bool_decide (36 ≤ String.length s) && isUUID (String.substring 0 36 s)
          then String.substring 0 36 s :: extractUUIDs_from 35 r
          else extractUUIDs_from 0 r
      end
  end.

Definition extractUUIDs (s : string) : list string := extractUUIDs_from 0 s.

(** The inner loop body of [extractClaimUIDs]: the [seen] set and the list. *)
Definition addCandidate (acc : gset string * list string) (candidate : string)
  : gset string * list string :=
  if decide (candidate ∈ acc.1) then acc
  else ({[candidate]} ∪ acc.1, acc.2 ++ [candidate]).

(** The annotations are a Go map; the list is the order in which the loop
    happens to visit them. *)
Definition extractClaimUIDs (annotations : list (string * string)) : list string :=
  (foldl (λ acc kv,
            if hasPrefix kv.1 "resource.kubernetes.io/"
            then foldl addCandidate acc (extractUUIDs kv.2)
            else acc)
         (∅, []) annotations).2.

Record LinuxNamespace := { ns_Type : string; ns_Path : string }.

Record PodSandbox := {
  ps_Uid : string;
  ps_Namespace : string;
  ps_Name : string;
  ps_Annotations : list (string * string);
  ps_Linux : option (list LinuxNamespace);
}.

Definition getNetNSPath (pod : PodSandbox) : string :=
  match ps_Linux pod with
  | None => ""
  | Some nss =>
      match List.find (λ ns, String.eqb (ns_Type ns) "network") nss with
      | Some ns => ns_Path ns
      | None => ""
      end
  end.

(** The tracker calls of the plugin, on the tracker of the node. *)
Definition trackerConsume (claimUIDs : list string) : N (list PendingMove) :=
  λ n, let '(moves, t) := ConsumePendingForClaims (rdmaTracker n) claimUIDs in
       Done moves (set_tracker (λ _, t) n).

Definition trackerRemoveActive (claimUID : string) : N (option ActiveMove) :=
  λ n, let '(m, t) := RemoveActive (rdmaTracker n) claimUID in
       Done m (set_tracker (λ _, t) n).

Definition trackerRemoveActiveForPod (podUID : string) : N (list ActiveMove) :=
  λ n, let '(moves, t) := RemoveActiveForPod (rdmaTracker n) podUID in
       Done moves (set_tracker (λ _, t) n).

(** "Re-register the moves so they aren't lost." *)
Definition reAddPending (moves : list PendingMove) : N unit :=
  forEach (λ m, modify (set_tracker (λ t, AddPending t (pm_ClaimUID m) (pm_IBDev m)))) moves.

(** One iteration of the move loop of [RunPodSandbox]. *)
Definition moveIntoPod (podUID netnsPath podNS : string) (m : PendingMove) : N unit :=
  let* r := RdmaLinkByName hostNetns (pm_IBDev m) in
  match r with
  | Err _ => ret tt                               (* logged; [continue] *)
  | Ok rdmaLink =>
      let* e := RdmaLinkSetNsFd rdmaLink podNS in
      match e with
      | Some _ => ret tt                          (* logged; [continue] *)
      | None =>
          modify (set_tracker (λ t, MarkActive t (pm_ClaimUID m) podUID (pm_IBDev m) netnsPath))
      end
  end.

Definition RunPodSandbox (pod : PodSandbox) : N (option error) :=
  let podUID := ps_Uid pod in
  let claimUIDs := extractClaimUIDs (ps_Annotations pod) in
  if decide (length claimUIDs = 0) then ret None
  else
    let* moves := trackerConsume claimUIDs in
    if decide (length moves = 0) then ret None
    else
      let netnsPath := getNetNSPath pod in
      if decide (netnsPath ≠ "") then
        let* r := netnsGetFromPath netnsPath in
        match r with
        | Err e =>
            reAddPending moves ;;
            ret (Some ("get pod netns: " +:+ e))
        | Ok podNS =>
            forEach (moveIntoPod podUID netnsPath podNS) moves ;;
            ret None
        end
      else
        reAddPending moves ;;
        ret None.

(** One iteration of the return loop of [StopPodSandbox], run by a thread in
    namespace [cur]. *)
Definition returnFromPod (cur hostNS : string) (m : ActiveMove) : N unit :=
  let* r := RdmaLinkByName cur (am_IBDev m) in
  match r with
  | Err _ => ret tt
  | Ok rdmaLink => RdmaLinkSetNsFd rdmaLink hostNS ;; ret tt
  end.

(** The thread is locked and starts in the host namespace; the deferred
    [netns.Set(hostNS)] brings it back there. *)
Definition enterPodNetns (netnsPath : string) : N bool :=
  if decide (netnsPath ≠ "") then
    let* r := netnsGetFromPath netnsPath in
    match r with
    | Err _ => ret false
    | Ok podNS =>
        let* e := netnsSet podNS in
        match e with
        | Some _ => ret false
        | None => ret true
        end
    end
  else ret false.

Definition StopPodSandbox (pod : PodSandbox) : N (option error) :=
  let podUID := ps_Uid pod in
  let* moves := trackerRemoveActiveForPod podUID in
  if decide (length moves = 0) then ret None
  else
    let* r := netnsGetFromPath hostNetns in
    match r with
    | Err _ => ret None
    | Ok hostNS =>
        let netnsPath := getNetNSPath pod in
        let* enteredPodNS := enterPodNetns netnsPath in
        let cur := if enteredPodNS : bool then netnsPath else hostNetns in
        forEach (returnFromPod cur hostNS) moves ;;
        ret None
    end.

(* ================================================================== *)
(** * pkg/handler/rdma: netns mode detection and the uverbs handler *)
(* ================================================================== *)

(** [DetectNetnsMode]: [detectOnce] runs the detection the first time only. *)
Definition DetectNetnsMode : N NetnsMode :=
  λ n, match cachedMode n with
       | Some m => Done m n
       | None =>
           let m := match rdmaSysMode (env n) with
                    | Err _ => NetnsShared
                    | Ok mode => if String.eqb mode "exclusive" then NetnsExclusive
                                 else NetnsShared
                    end in
           Done m (set_cachedMode (Some m) n)
       end.

Definition ResetDetectedMode : N unit := modify (set_cachedMode None).

Definition ibDevDir : string := "/dev/infiniband".

Definition findAvailableUverbs : N (Result string) :=
  λ n, match ibDevEntries (env n) with
       | Err e => Done (Err ("failed to read " +:+ ibDevDir +:+ ": " +:+ e)) n
       | Ok entries =>
           match List.find (λ name, hasPrefix name "uverbs") entries with
           | Some name => Done (Ok name) n
           | None => Done (Err ("no uverbs devices found in " +:+ ibDevDir)) n
           end
       end.

(** [strings.TrimSpace], on ASCII white space. *)
Definition isSpace (c : ascii) : bool :=
  let k := nat_of_ascii c in
  (Nat.leb 9 k && Nat.leb k 13) || Nat.eqb k 32.

Fixpoint trimLeft (s : string) : string :=
  match s with
  | EmptyString => EmptyString
  | String c r => if isSpace c then trimLeft r else s
  end.

Fixpoint trimRight (s : string) : string :=
  match s with
  | EmptyString => EmptyString
  | String c r =>
      let r' := trimRight r in
      if isSpace c && String.eqb r' "" then EmptyString else String c r'
  end.

Definition TrimSpace (s : string) : string := trimRight (trimLeft s).

Definition resolveIBDevice (uverbsName : string) : N string :=
  λ n, let sysPath := pathJoin (pathJoin "/sys/class/infiniband_verbs" uverbsName) "ibdev" in
       match sysfsFiles (env n) !! sysPath with
       | None => Done "" n
       | Some data => Done (TrimSpace data) n
       end.

(** [strings.Replace(s, old, new, 1)] for a non-empty [old]. *)
Fixpoint replaceFirst (old new s : string) : string :=
  if hasPrefix s old then
    new +:+ String.substring (String.length old) (String.length s - String.length old) s
  else
    match s with
    | EmptyString => EmptyString
    | String c r => String c (replaceFirst old new r)
    end.

Definition rwNode (path : string) : DeviceNode :=
  {| dn_Path := path; dn_HostPath := path; dn_Permissions := "rw" |}.

(** The struct [UverbsHandler]: whether its [Tracker] pointer is set.  The
    tracker it points to is the one of the node. *)
Record UverbsHandler := { uh_Tracker : bool }.

(** The return of a device to the host namespace, best effort. *)
Definition returnRDMAToHost (ibDev podNetnsPath : string) : N unit :=
  let* r := netnsGetFromPath hostNetns in
  match r with
  | Err _ => ret tt
  | Ok hostNS =>
      let* enteredPodNS := enterPodNetns podNetnsPath in
      let cur := if enteredPodNS : bool then podNetnsPath else hostNetns in
      let* l := RdmaLinkByName cur ibDev in
      match l with
      | Err _ => ret tt
      | Ok link => RdmaLinkSetNsFd link hostNS ;; ret tt
      end
  end.

Definition UverbsHandler_Prepare (h : UverbsHandler) (req : PrepareRequest)
  : N (Result PrepareResult) :=
  let* found :=
    (if String.eqb (pq_AllocatedDevice req) "" then findAvailableUverbs
     else ret (Ok (pq_AllocatedDevice req))) in
  match found with
  | Err e => ret (Err ("no uverbs device allocated or available: " +:+ e))
  | Ok deviceName =>
      let devPath := pathJoin ibDevDir deviceName in
      let* st := osStat devPath in
      match st with
      | Some e => ret (Err ("uverbs device " +:+ devPath +:+ " not found: " +:+ e))
      | None =>
          let* ibDev := resolveIBDevice deviceName in
          let rdmaCMPath := pathJoin ibDevDir "rdma_cm" in
          let* cm := osStat rdmaCMPath in
          let umadPath := pathJoin ibDevDir (replaceFirst "uverbs" "umad" deviceName) in
          let* umad := osStat umadPath in
          let sysPath := pathJoin "/sys/class/infiniband" ibDev in
          let* sys := (if String.eqb ibDev "" then ret (Some "") else osStat sysPath) in
          let edits :=
            {| ce_DeviceNodes :=
                 [rwNode devPath]
                 ++ (if cm is None then [rwNode rdmaCMPath] else [])
                 ++ (if umad is None then [rwNode umadPath] else []);
               ce_Mounts :=
                 (if sys is None
                  then [{| mt_HostPath := sysPath; mt_ContainerPath := sysPath;
                           mt_Options := ["ro"; "bind"] |}]
                  else []);
               ce_NetDevices := [];
               ce_Env := [] |} in
          let* mode := DetectNetnsMode in
          (if mode is NetnsExclusive
           then if negb (String.eqb ibDev "") && uh_Tracker h
                then modify (set_tracker (λ t, AddPending t (pq_ClaimUID req) ibDev))
                else ret tt
           else ret tt) ;;
          ret (Ok {| pr_PoolName := "default";
                     pr_DeviceName := deviceName;
                     pr_CDIEdits := edits;
                     pr_Allocation :=
                       {| ai_Type := DeviceTypeRDMA;
                          ai_Kind := "uverbs";
                          ai_ClaimUID := pq_ClaimUID req;
                          ai_DeviceName := deviceName;
                          ai_Metadata :=
                            <["uverbsDevice" := deviceName]>
                              (<["ibdev" := ibDev]> (<["devPath" := devPath]> ∅)) |} |})
      end
  end.

Definition UverbsHandler_Unprepare (h : UverbsHandler) (req : UnprepareRequest)
  : N (option error) :=
  let ibDev := mget (ai_Metadata (uq_Allocation req)) "ibdev" in
  let* mode := DetectNetnsMode in
  (if mode is NetnsExclusive
   then if negb (String.eqb ibDev "") && uh_Tracker h
        then
          modify (set_tracker (λ t, RemovePending t (ai_ClaimUID (uq_Allocation req)))) ;;
          let* act := trackerRemoveActive (ai_ClaimUID (uq_Allocation req)) in
          let podNetnsPath := match act with
                              | Some a => am_NetnsPath a
                              | None => ""
                              end in
          returnRDMAToHost ibDev podNetnsPath
        else ret tt
   else ret tt) ;;
  ret None.

Definition uverbsHandler (h : UverbsHandler) : LeafHandler :=
  {| lh_Type := DeviceTypeRDMA;
     lh_Kinds := ["uverbs"];
     lh_Prepare := UverbsHandler_Prepare h;
     lh_Unprepare := UverbsHandler_Unprepare h;
     lh_Validate := λ _, ret None |}.

(* ================================================================== *)
(** * pkg/handler/netdev: the dummy handler *)
(* ================================================================== *)

Definition DummyHandler_Validate (cfg : DeviceConfig) : N (option error) :=
  match dc_Netdev cfg with
  | None => ret (Some "netdev config is required for dummy")
  | Some _ => ret None
  end.

Definition DummyHandler_Prepare (req : PrepareRequest) : N (Result PrepareResult) :=
  match dc_Netdev (pq_Config req) with
  | None => ret (Err "netdev config is required for dummy")
  | Some cfg =>
      match slice_to (pq_ClaimUID req) 8 with
      | None => panic                                (* [req.ClaimUID[:8]] *)
      | Some uid8 =>
          let ifName := "dm" +:+ uid8 in
          let containerName :=
            if String.eqb (nc_InterfaceName cfg) "" then "eth1" else nc_InterfaceName cfg in
          let mtu := if (0 <? nc_MTU cfg)%Z then nc_MTU cfg else 0%Z in
          let* e := LinkAdd ifName Dummy mtu in
          match e with
          | Some e => ret (Err ("failed to create dummy interface " +:+ ifName +:+ ": " +:+ e))
          | None =>
              let* l := LinkByName ifName in
              match l with
              | Err e =>
                  LinkDel ifName ;;
                  ret (Err ("failed to find dummy interface " +:+ ifName
                            +:+ " after creation: " +:+ e))
              | Ok link =>
                  let* u := LinkSetUp link in
                  match u with
                  | Some e =>
                      LinkDel link ;;
                      ret (Err ("failed to bring up dummy interface " +:+ ifName +:+ ": " +:+ e))
                  | None =>
                      ret (Ok {| pr_PoolName := "default";
                                 pr_DeviceName := ifName;
                                 pr_CDIEdits :=
                                   {| ce_DeviceNodes := []; ce_Mounts := [];
                                      ce_NetDevices :=
                                        [{| nd_HostInterfaceName := ifName;
                                            nd_Name := containerName |}];
                                      ce_Env := [] |};
                                 pr_Allocation :=
                                   {| ai_Type := DeviceTypeNetdev;
                                      ai_Kind := "dummy";
                                      ai_ClaimUID := pq_ClaimUID req;
                                      ai_DeviceName := ifName;
                                      ai_Metadata :=
                                        <["createdInterface" := ifName]>
                                          (<["containerName" := containerName]> ∅) |} |})
                  end
              end
          end
      end
  end.

Definition DummyHandler_Unprepare (req : UnprepareRequest) : N (option error) :=
  let ifName := mget (ai_Metadata (uq_Allocation req)) "createdInterface" in
  if String.eqb ifName "" then ret None
  else
    let* l := LinkByName ifName in
    match l with
    | Err _ => ret None
    | Ok link =>
        let* e := LinkDel link in
        match e with
        | Some e => ret (Some ("failed to delete dummy interface " +:+ ifName +:+ ": " +:+ e))
        | None => ret None
        end
    end.

Definition dummyHandler : LeafHandler :=
  {| lh_Type := DeviceTypeNetdev;
     lh_Kinds := ["dummy"];
     lh_Prepare := DummyHandler_Prepare;
     lh_Unprepare := DummyHandler_Unprepare;
     lh_Validate := DummyHandler_Validate |}.

(* ================================================================== *)
(** * pkg/handler/netdev: the IPoIB handler *)
(* ================================================================== *)

(** [fmt.Sprintf("%04x", z)]: lower-case digits, padded with zeros to four
    characters, the sign of a negative number counted in. *)
Definition padZeros (width : nat) (s : string) : string :=
  String.string_of_list_ascii (replicate (width - String.length s) "0"%char) +:+ s.

Definition hex04 (z : Z) : string :=
  match z with
  | Z0 => "0000"
  | Zpos p => padZeros 4 (HexString.Raw.of_pos p "")
  | Zneg p => "-" +:+ padZeros 3 (HexString.Raw.of_pos p "")
  end.

Definition IpoibHandler_Validate (cfg : DeviceConfig) : N (option error) :=
  match dc_Netdev cfg with
  | None => ret (Some "netdev config is required for ipoib")
  | Some nd =>
      if String.eqb (nc_Parent nd) "" then ret (Some "parent interface is required for ipoib")
      else if (nc_Pkey nd =? 0)%Z then ret (Some "pkey is required for ipoib")
      else ret None
  end.

(** The mode switch of [Prepare]: whether the mode is "connected", or the
    error of an unsupported mode. *)
Definition ipoibMode (mode : string) : Result bool :=
  if String.eqb mode "connected" then Ok true
  else if String.eqb mode "datagram" || String.eqb mode "" then Ok false
  else Err ("unsupported ipoib mode: " +:+ mode +:+ " (want datagram or connected)").

Definition IpoibHandler_Prepare (req : PrepareRequest) : N (Result PrepareResult) :=
  match dc_Netdev (pq_Config req) with
  | None => ret (Err "netdev config is required for ipoib")
  | Some cfg =>
      let parent := nc_Parent cfg in
      if String.eqb parent "" then ret (Err "parent interface is required for ipoib")
      else if (nc_Pkey cfg =? 0)%Z then ret (Err "pkey is required for ipoib")
      else
        (* Ensure the full-membership bit (0x8000) is set. *)
        let pkey := Z.lor (nc_Pkey cfg) 0x8000 in
        match ipoibMode (nc_Mode cfg) with
        | Err e => ret (Err e)
        | Ok connected =>
            match slice_to (pq_ClaimUID req) 8 with
            | None => panic                              (* [req.ClaimUID[:8]] *)
            | Some uid8 =>
                let ifName := "ib" +:+ uid8 in
                let containerName :=
                  if String.eqb (nc_InterfaceName cfg) "" then "ib1"
                  else nc_InterfaceName cfg in
                let* pl := LinkByName parent in
                match pl with
                | Err e =>
                    ret (Err ("parent interface " +:+ parent +:+ " not found: " +:+ e))
                | Ok parentLink =>
                    let mtu := if (0 <? nc_MTU cfg)%Z then nc_MTU cfg else 0%Z in
                    (* [Pkey: uint16(pkey)] *)
                    let* e := LinkAdd ifName (IPoIB parentLink (Z.land pkey 0xFFFF) connected)
                                mtu in
                    match e with
                    | Some e =>
                        ret (Err ("failed to create ipoib interface " +:+ ifName
                                  +:+ " (parent=" +:+ parent +:+ ", pkey=0x" +:+ hex04 pkey
                                  +:+ "): " +:+ e))
                    | None =>
                        let* u := LinkSetUp ifName in
                        match u with
                        | Some e =>
                            LinkDel ifName ;;
                            ret (Err ("failed to bring up ipoib interface " +:+ ifName
                                      +:+ ": " +:+ e))
                        | None =>
                            ret (Ok {| pr_PoolName := "default";
                                       pr_DeviceName := ifName;
                                       pr_CDIEdits :=
                                         {| ce_DeviceNodes := []; ce_Mounts := [];
                                            ce_NetDevices :=
                                              [{| nd_HostInterfaceName := ifName;
                                                  nd_Name := containerName |}];
                                            ce_Env := [] |};
                                       pr_Allocation :=
                                         {| ai_Type := DeviceTypeNetdev;
                                            ai_Kind := "ipoib";
                                            ai_ClaimUID := pq_ClaimUID req;
                                            ai_DeviceName := ifName;
                                            ai_Metadata :=
                                              <["createdInterface" := ifName]>
                                              (<["parent" := parent]>
                                              (<["pkey" := "0x" +:+ hex04 pkey]>
                                              (<["containerName" := containerName]> ∅))) |} |})
                        end
                    end
                end
            end
        end
  end.

Definition IpoibHandler_Unprepare (req : UnprepareRequest) : N (option error) :=
  let ifName := mget (ai_Metadata (uq_Allocation req)) "createdInterface" in
  if String.eqb ifName "" then ret None
  else
    let* l := LinkByName ifName in
    match l with
    | Err _ => ret None
    | Ok link =>
        let* e := LinkDel link in
        match e with
        | Some e => ret (Some ("failed to delete ipoib interface " +:+ ifName +:+ ": " +:+ e))
        | None => ret None
        end
    end.

Definition ipoibHandler : LeafHandler :=
  {| lh_Type := DeviceTypeNetdev;
     lh_Kinds := ["ipoib"];
     lh_Prepare := IpoibHandler_Prepare;
     lh_Unprepare := IpoibHandler_Unprepare;
     lh_Validate := IpoibHandler_Validate |}.

(* ================================================================== *)
(** * pkg/handler/combo/roce.go: the RoCE combo handler *)
(* ================================================================== *)

Record RoCEHandler := {
  rdmaHandler : DeviceHandler;
  netdevHandler : DeviceHandler;
}.

Definition NewRoCEHandler (rdmaHandler netdevHandler : DeviceHandler) : RoCEHandler :=
  {| rdmaHandler := rdmaHandler; netdevHandler := netdevHandler |}.

Definition mergeCDIEdits (a b : ContainerEdits) : ContainerEdits :=
  {| ce_DeviceNodes := ce_DeviceNodes a ++ ce_DeviceNodes b;
     ce_Mounts := ce_Mounts a ++ ce_Mounts b;
     ce_NetDevices := ce_NetDevices a ++ ce_NetDevices b;
     ce_Env := ce_Env a ++ ce_Env b |}.

Definition RoCEHandler_Validate (h : RoCEHandler) (cfg : DeviceConfig) : M (option error) :=
  match dc_Combo cfg with
  | None => ret (Some "combo config is required for roce")
  | Some _ => ret None
  end.

(** The request [Prepare] builds for the RDMA side. *)
Definition rdmaReqOf (req : PrepareRequest) (cfg : ComboConfig) : PrepareRequest :=
  {| pq_ClaimUID := pq_ClaimUID req;
     pq_Namespace := pq_Namespace req;
     pq_ClaimName := pq_ClaimName req;
     pq_AllocatedDevice := pq_AllocatedDevice req;
     pq_Config := {| dc_Type := DeviceTypeRDMA; dc_Netdev := None;
                     dc_RDMA := Some (cc_RDMA cfg); dc_Combo := None |} |}.

(** The request [Prepare] builds for the netdev side. *)
Definition netReqOf (req : PrepareRequest) (cfg : ComboConfig) : PrepareRequest :=
  {| pq_ClaimUID := pq_ClaimUID req;
     pq_Namespace := pq_Namespace req;
     pq_ClaimName := pq_ClaimName req;
     pq_AllocatedDevice := "";
     pq_Config := {| dc_Type := DeviceTypeNetdev; dc_Netdev := Some (cc_Netdev cfg);
                     dc_RDMA := None; dc_Combo := None |} |}.

(** The result [Prepare] returns on joint success.  The [AllocationInfo]
    literal of the source sets [Type], [Kind], [ClaimUID] and [Metadata];
    [DeviceName] keeps its zero value. *)
Definition roceResult (req : PrepareRequest) (rdmaResult netResult : PrepareResult)
  : PrepareResult :=
  {| pr_PoolName := pr_PoolName rdmaResult;
     pr_DeviceName := pr_DeviceName rdmaResult;
     pr_CDIEdits := mergeCDIEdits (pr_CDIEdits rdmaResult) (pr_CDIEdits netResult);
     pr_Allocation :=
       {| ai_Type := DeviceTypeCombo;
          ai_Kind := "roce";
          ai_ClaimUID := pq_ClaimUID req;
          ai_DeviceName := "";
          ai_Metadata :=
            <["rdma_device" := pr_DeviceName rdmaResult]>
            (<["net_interface" := pr_DeviceName netResult]>
            (<["rdma_uverbs_device" :=
                 mget (ai_Metadata (pr_Allocation rdmaResult)) "uverbsDevice"]>
            (<["rdma_ibdev" := mget (ai_Metadata (pr_Allocation rdmaResult)) "ibdev"]>
            (<["net_created" :=
                 mget (ai_Metadata (pr_Allocation netResult)) "createdInterface"]>
            (<["net_host_end" :=
                 mget (ai_Metadata (pr_Allocation netResult)) "hostEnd"]> ∅))))) |} |}.

Definition RoCEHandler_Prepare (h : RoCEHandler) (req : PrepareRequest)
  : M (Result PrepareResult) :=
  match dc_Combo (pq_Config req) with
  | None => ret (Err "combo config is required for roce")
  | Some cfg =>
      (* Prepare RDMA first (finite resource) *)
      let* r := callPrepare RdmaSub (rdmaHandler h) (rdmaReqOf req cfg) in
      match r with
      | Err e => ret (Err ("rdma prepare failed: " +:+ e))
      | Ok rdmaResult =>
          let* r' := callPrepare NetdevSub (netdevHandler h) (netReqOf req cfg) in
          match r' with
          | Err e =>
              (* Rollback RDMA; the error of the rollback is dropped *)
              callUnprepare RdmaSub (rdmaHandler h)
                {| uq_ClaimUID := pq_ClaimUID req;
                   uq_Allocation := pr_Allocation rdmaResult |} ;;
              ret (Err ("netdev prepare failed: " +:+ e))
          | Ok netResult => ret (Ok (roceResult req rdmaResult netResult))
          end
      end
  end.

(** The synthetic allocation of the netdev side. *)
Definition netAllocOf (req : UnprepareRequest) : AllocationInfo :=
  {| ai_Type := DeviceTypeNetdev;
     ai_Kind := "dummy";
     ai_ClaimUID := uq_ClaimUID req;
     ai_DeviceName := "";
     ai_Metadata :=
       <["createdInterface" := mget (ai_Metadata (uq_Allocation req)) "net_created"]>
       (<["hostEnd" := mget (ai_Metadata (uq_Allocation req)) "net_host_end"]> ∅) |}.

(** The synthetic allocation of the RDMA side. *)
Definition rdmaAllocOf (req : UnprepareRequest) : AllocationInfo :=
  {| ai_Type := DeviceTypeRDMA;
     ai_Kind := "uverbs";
     ai_ClaimUID := uq_ClaimUID req;
     ai_DeviceName := "";
     ai_Metadata :=
       <["uverbsDevice" := mget (ai_Metadata (uq_Allocation req)) "rdma_uverbs_device"]>
       (<["ibdev" := mget (ai_Metadata (uq_Allocation req)) "rdma_ibdev"]> ∅) |}.

Definition RoCEHandler_Unprepare (h : RoCEHandler) (req : UnprepareRequest)
  : M (option error) :=
  let errs : list error := [] in
  let* e1 := callUnprepare NetdevSub (netdevHandler h)
               {| uq_ClaimUID := uq_ClaimUID req; uq_Allocation := netAllocOf req |} in
  let errs := match e1 with
              | Some e => errs ++ ["netdev unprepare: " +:+ e]
              | None => errs
              end in
  let* e2 := callUnprepare RdmaSub (rdmaHandler h)
               {| uq_ClaimUID := uq_ClaimUID req; uq_Allocation := rdmaAllocOf req |} in
  let errs := match e2 with
              | Some e => errs ++ ["rdma unprepare: " +:+ e]
              | None => errs
              end in
  if decide (0 < length errs) then ret (Some ("roce unprepare errors: " +:+ showErrs errs))
  else ret None.

(** [RoCEHandler] as a [DeviceHandler]. *)
Definition roceHandler (h : RoCEHandler) : DeviceHandler :=
  {| Type_ := DeviceTypeCombo;
     Kinds := ["roce"];
     Prepare := RoCEHandler_Prepare h;
     Unprepare := RoCEHandler_Unprepare h;
     Validate := RoCEHandler_Validate h |}.

(* ================================================================== *)
(** * pkg/driver/driver.go: the allocate/release orchestrator *)
(* ================================================================== *)

Fixpoint foldM {S A B} (f : B → A → St S B) (b : B) (l : list A) : St S B :=
  match l with
  | [] => ret b
  | a :: r => let* b' := f b a in foldM f b' r
  end.

Definition cdiVersion : string := "1.1.0".

(** What the driver reads of a [ResourceClaim].  [oc_Parameters] is the
    outcome of [json.Unmarshal] on the raw parameters, [None] when it fails;
    an entry of [cl_Config] is [None] when its [Opaque] pointer is nil. *)
Record OpaqueConfig := { oc_Driver : string; oc_Parameters : option DeviceConfig }.

Record AllocationResult := {
  ar_Driver : string;
  ar_Pool : string;
  ar_Device : string;
  ar_Request : string;
}.

Record ResourceClaim := {
  cl_UID : string;
  cl_Namespace : string;
  cl_Name : string;
  cl_Config : list (option OpaqueConfig);
  cl_Allocation : option (list AllocationResult);
}.

(** [kubeletplugin.NamespacedObject]. *)
Record NamespacedObject := { no_UID : string; no_Namespace : string; no_Name : string }.

(** [kubeletplugin.Device] and [kubeletplugin.PrepareResult]. *)
Record Device := {
  dv_PoolName : string;
  dv_DeviceName : string;
  dv_CDIDeviceIDs : list string;
}.

Record ClaimResult := { kr_Devices : list Device; kr_Err : option error }.

Record Driver := {
  driverName : string;
  registry : HandlerRegistry;
  allocations : gmap string AllocationInfo;   (* claimUID ↦ AllocationInfo *)
}.

Definition New (driverName : string) (registry : HandlerRegistry) : Driver :=
  {| driverName := driverName; registry := registry; allocations := ∅ |}.

Definition set_allocations (f : gmap string AllocationInfo → gmap string AllocationInfo)
    (d : Driver) : Driver :=
  {| driverName := driverName d; registry := registry d; allocations := f (allocations d) |}.

(** ** Files of [/etc/cdi], by file name *)

Definition osMkdirAll : N (option error) := λ n, Done (cdiMkdirErr (env n)) n.

Definition osWriteFile (name : string) (data : FileData) : N (option error) :=
  λ n, match cdiWriteErr (env n) name with
       | Some e => Done (Some e) n
       | None => Done None (set_cdiFiles (<[name := data]>) n)
       end.

Definition osReadFile (name : string) : N (Result FileData) :=
  λ n, match cdiFiles n !! name with
       | None => Done (Err ("open " +:+ name +:+ ": no such file or directory")) n
       | Some data =>
           match cdiReadErr (env n) name with
           | Some e => Done (Err e) n
           | None => Done (Ok data) n
           end
       end.

Definition osRemove (name : string) : N (option error) :=
  λ n, match cdiFiles n !! name with
       | None => Done (Some ("remove " +:+ name +:+ ": no such file or directory")) n
       | Some _ =>
           match cdiRemoveErr (env n) name with
           | Some e => Done (Some e) n
           | None => Done None (set_cdiFiles (delete name) n)
           end
       end.

(** [filepath.Glob("/etc/cdi/" + prefix + "*.alloc.json")], for a [prefix]
    without pattern characters: the matching names, sorted. *)
Definition globMatch (prefix suffix name : string) : bool :=
  hasPrefix name prefix && hasSuffix name suffix
  && bool_decide (String.length prefix + String.length suffix ≤ String.length name).

Definition osGlob (prefix suffix : string) : N (list string) :=
  λ n, Done (merge_sort (λ a b, Is_true (String.leb a b))
               (List.filter (globMatch prefix suffix) (map_to_list (cdiFiles n)).*1)) n.

(** [json.Unmarshal] of a file into an [AllocationInfo]. *)
Definition parseAllocation (data : FileData) : option AllocationInfo :=
  match data with
  | AllocFile alloc => Some alloc
  | CDISpecFile spec =>
      Some {| ai_Type := ""; ai_Kind := cs_Kind spec; ai_ClaimUID := "";
              ai_DeviceName := ""; ai_Metadata := ∅ |}
  | Unparsable => None
  end.

(** ** Internal helpers *)

Definition defaultConfig : DeviceConfig :=
  {| dc_Type := DeviceTypeNetdev;
     dc_Netdev := Some {| nc_Kind := "dummy"; nc_InterfaceName := "eth1"; nc_MTU := 0;
                          nc_Parent := ""; nc_Mode := ""; nc_VFIndex := 0;
                          nc_HostDevice := ""; nc_Pkey := 0 |};
     dc_RDMA := None;
     dc_Combo := None |}.

Fixpoint parseConfigLoop (driverName : string) (cfgs : list (option OpaqueConfig))
  : DeviceConfig :=
  match cfgs with
  | [] => defaultConfig
  | cfg :: rest =>
      match cfg with
      | Some o =>
          if String.eqb (oc_Driver o) driverName then
            match oc_Parameters o with
            | Some parsed => parsed
            | None => parseConfigLoop driverName rest
            end
          else parseConfigLoop driverName rest
      | None => parseConfigLoop driverName rest
      end
  end.

Definition parseConfig (d : Driver) (rc : ResourceClaim) : DeviceConfig :=
  parseConfigLoop (driverName d) (cl_Config rc).

Definition getAllocatedDevice (d : Driver) (rc : ResourceClaim) : string :=
  match cl_Allocation rc with
  | None => ""
  | Some results =>
      match List.find (λ r, String.eqb (ar_Driver r) (driverName d)) results with
      | Some r => ar_Device r
      | None => ""
      end
  end.

Definition prepareClaim (d : Driver) (rc : ResourceClaim) : M (Result PrepareResult) :=
  let config := parseConfig d rc in
  let allocatedDevice := getAllocatedDevice d rc in
  let kind := GetKind config in
  match MustGet (registry d) (dc_Type config) kind with
  | Err e => ret (Err e)
  | Ok h =>
      let* v := callValidate (ViaRegistry (dc_Type config) kind) h config in
      match v with
      | Some e => ret (Err ("config validation failed: " +:+ e))
      | None =>
          callPrepare (ViaRegistry (dc_Type config) kind) h
            {| pq_ClaimUID := cl_UID rc;
               pq_Namespace := cl_Namespace rc;
               pq_ClaimName := cl_Name rc;
               pq_AllocatedDevice := allocatedDevice;
               pq_Config := config |}
      end
  end.

Definition unprepareAllocation (d : Driver) (alloc : AllocationInfo) : M (option error) :=
  match Get (registry d) (ai_Type alloc) (ai_Kind alloc) with
  | None =>
      ret (Some ("no handler for type=" +:+ ai_Type alloc +:+ " kind=" +:+ ai_Kind alloc
                 +:+ " during unprepare"))
  | Some h =>
      callUnprepare (ViaRegistry (ai_Type alloc) (ai_Kind alloc)) h
        {| uq_ClaimUID := ai_ClaimUID alloc; uq_Allocation := alloc |}
  end.

Definition prepareResultFromAlloc (d : Driver) (alloc : AllocationInfo) (cdiDeviceID : string)
  : ClaimResult :=
  let poolName := match ai_Metadata alloc !! "poolName" with
                  | Some p => p
                  | None => "default"
                  end in
  {| kr_Devices := [{| dv_PoolName := poolName;
                       dv_DeviceName := ai_DeviceName alloc;
                       dv_CDIDeviceIDs := [cdiDeviceID] |}];
     kr_Err := None |}.

(** ** CDI spec management *)

(** [cdiFilePrefix]: the slice [claimUID[:8]] panics on a shorter UID. *)
Definition cdiFilePrefix (d : Driver) (claimUID : string) : N string :=
  match slice_to claimUID 8 with
  | None => panic
  | Some uid8 => ret (replaceSlash (driverName d) +:+ "-" +:+ uid8)
  end.

Definition saveAllocation (d : Driver) (claimUID : string) (alloc : AllocationInfo)
  : N (option error) :=
  let* prefix := cdiFilePrefix d claimUID in
  let* e := osWriteFile (prefix +:+ ".alloc.json") (AllocFile alloc) in
  match e with
  | Some e => ret (Some ("write allocation state: " +:+ e))
  | None => ret None
  end.

Definition removeAllocationState (d : Driver) (claimUID : string) : N unit :=
  let* prefix := cdiFilePrefix d claimUID in
  osRemove (prefix +:+ ".alloc.json") ;;
  ret tt.

Definition createCDISpec (d : Driver) (claimUID : string) (result : PrepareResult)
  : N (Result string) :=
  let* e := osMkdirAll in
  match e with
  | Some e => ret (Err ("failed to create CDI directory: " +:+ e))
  | None =>
      let spec :=
        {| cs_Version := cdiVersion;
           cs_Kind := driverName d +:+ "/" +:+ ai_Type (pr_Allocation result);
           cs_Devices := [{| cd_Name := pr_DeviceName result;
                             cd_ContainerEdits := pr_CDIEdits result |}] |} in
      let* prefix := cdiFilePrefix d claimUID in
      let* e := osWriteFile (prefix +:+ ".json") (CDISpecFile spec) in
      match e with
      | Some e => ret (Err ("failed to write CDI spec: " +:+ e))
      | None =>
          saveAllocation d claimUID (pr_Allocation result) ;;   (* a failure is logged only *)
          ret (Ok (driverName d +:+ "/" +:+ ai_Type (pr_Allocation result)
                   +:+ "=" +:+ pr_DeviceName result))
      end
  end.

Definition deleteCDISpec (d : Driver) (claimUID : string) : N unit :=
  let* prefix := cdiFilePrefix d claimUID in
  osRemove (prefix +:+ ".json") ;;
  removeAllocationState d claimUID.

(** ** Allocation state persistence *)

(** One iteration of the loop of [restoreAllocations]. *)
Definition restoreOne (d : Driver) (name : string) : N Driver :=
  let* r := osReadFile name in
  match r with
  | Err _ => ret d
  | Ok data =>
      match parseAllocation data with
      | None => ret d
      | Some alloc =>
          if String.eqb (ai_ClaimUID alloc) "" then ret d
          else ret (set_allocations (<[ai_ClaimUID alloc := alloc]>) d)
      end
  end.

Definition restoreAllocations (d : Driver) : N Driver :=
  let* p := cdiFilePrefix d "00000000" in
  match slice_to p (String.length (replaceSlash (driverName d)) + 1) with
  | None => panic
  | Some prefix =>
      let* matches := osGlob prefix ".alloc.json" in
      foldM restoreOne d matches
  end.

(** ** kubeletplugin.DRAPlugin implementation *)

Definition failed (e : error) : ClaimResult := {| kr_Devices := []; kr_Err := Some e |}.

(** The body of the loop of [PrepareResourceClaims]. *)
Definition prepareOne (acc : Driver * gmap string ClaimResult) (rc : ResourceClaim)
  : M (Driver * gmap string ClaimResult) :=
  let d := acc.1 in
  let results := acc.2 in
  let uid := cl_UID rc in
  match allocations d !! uid with
  | Some existing =>
      (* Idempotent: if we already have state for this claim, return it. *)
      let cdiDeviceID :=
        driverName d +:+ "/" +:+ ai_Type existing +:+ "=" +:+ ai_DeviceName existing in
      ret (d, <[uid := prepareResultFromAlloc d existing cdiDeviceID]> results)
  | None =>
      let* r := prepareClaim d rc in
      match r with
      | Err e => ret (d, <[uid := failed e]> results)
      | Ok result =>
          let* c := liftN (createCDISpec d uid result) in
          match c with
          | Err e =>
              unprepareAllocation d (pr_Allocation result) ;;
              ret (d, <[uid := failed e]> results)
          | Ok cdiDeviceID =>
              ret (set_allocations (<[uid := pr_Allocation result]>) d,
                   <[uid := {| kr_Devices := [{| dv_PoolName := pr_PoolName result;
                                                 dv_DeviceName := pr_DeviceName result;
                                                 dv_CDIDeviceIDs := [cdiDeviceID] |}];
                               kr_Err := None |}]> results)
          end
      end
  end.

Definition PrepareResourceClaims (d : Driver) (claims : list ResourceClaim)
  : M (Driver * gmap string ClaimResult) :=
  let* d := liftN (restoreAllocations d) in
  foldM prepareOne (d, ∅) claims.

(** The body of the loop of [UnprepareResourceClaims]; in the result map
    [Some None] is an entry holding the nil error. *)
Definition unprepareOne (acc : Driver * gmap string (option error)) (claim : NamespacedObject)
  : M (Driver * gmap string (option error)) :=
  let d := acc.1 in
  let results := acc.2 in
  let uid := no_UID claim in
  match allocations d !! uid with
  | None => ret (d, <[uid := None]> results)
  | Some alloc =>
      let* e := unprepareAllocation d alloc in
      match e with
      | Some err => ret (d, <[uid := Some err]> results)
      | None =>
          liftN (deleteCDISpec d uid) ;;
          ret (set_allocations (delete uid) d, <[uid := None]> results)
      end
  end.

Definition UnprepareResourceClaims (d : Driver) (claims : list NamespacedObject)
  : M (Driver * gmap string (option error)) :=
  let* d := liftN (restoreAllocations d) in
  foldM unprepareOne (d, ∅) claims.

(** [buildHandlerRegistry] of [main.go], for the handlers embedded here: the
    dummy, the IPoIB and the uverbs handler, and the RoCE combo composed of
    the uverbs and a dummy handler. *)
Definition buildHandlerRegistry : HandlerRegistry :=
  let registry := NewHandlerRegistry in
  let registry := Register registry (leaf dummyHandler) in
  let registry := Register registry (leaf ipoibHandler) in
  let uverbs := leaf (uverbsHandler {| uh_Tracker := true |}) in
  let registry := Register registry uverbs in
  let roce := NewRoCEHandler uverbs (leaf dummyHandler) in
  Register registry (roceHandler roce).

(* ================================================================== *)
(** * Discovery of the RDMA devices of the node *)
(* ================================================================== *)

(** [resourceapi.DeviceAttribute], for the value the RDMA discovery sets. *)
Inductive DeviceAttribute := StringValue (s : string).

(** [resourceapi.Device], for the fields the RDMA discovery sets;
    [AllowMultipleAllocations] is a [*bool]. *)
Record PublishedDevice := {
  pd_Name : string;
  pd_Attributes : gmap string DeviceAttribute;
  pd_AllowMultipleAllocations : option bool;
}.

(** [string(mode)]. *)
Definition netnsModeString (m : NetnsMode) : string :=
  match m with
  | NetnsShared => "shared"
  | NetnsExclusive => "exclusive"
  end.

Definition resolveIBDeviceName (uverbsName : string) : N string :=
  λ n, let sysPath := pathJoin (pathJoin "/sys/class/infiniband_verbs" uverbsName) "ibdev" in
       match sysfsFiles (env n) !! sysPath with
       | None => Done "" n
       | Some data => Done (TrimSpace data) n
       end.

(** One iteration of the loop of [discoverRDMADevices]. *)
Definition discoverRDMADevice (mode : NetnsMode) (devices : list PublishedDevice)
    (name : string) : N (list PublishedDevice) :=
  if negb (hasPrefix name "uverbs") then ret devices
  else
    let attributes :=
      <["dra.example.com/rdma-netns-mode" := StringValue (netnsModeString mode)]>
      (<["dra.example.com/device" := StringValue (pathJoin "/dev/infiniband" name)]>
      (<["dra.example.com/type" := StringValue "rdma"]> ∅)) in
    let allow := if mode is NetnsShared then Some true else None in
    let* ibDev := resolveIBDeviceName name in
    let attributes :=
      if negb (String.eqb ibDev "")
      then <["dra.example.com/ibdev" := StringValue ibDev]> attributes
      else attributes in
    ret (devices ++ [{| pd_Name := name; pd_Attributes := attributes;
                        pd_AllowMultipleAllocations := allow |}]).

Definition discoverRDMADevices : N (list PublishedDevice) :=
  let* mode := DetectNetnsMode in
  λ n, match ibDevEntries (env n) with
       | Err _ => Done [] n
       | Ok entries => foldM (discoverRDMADevice mode) [] entries n
       end.

(* ================================================================== *)
(** * Vocabulary of the properties *)
(* ================================================================== *)

(** Whether a handler declares the pair [(typ, kind)]. *)
Definition declares (h : DeviceHandler) (typ : DeviceType) (kind : string) : bool :=
  String.eqb (Type_ h) typ && bool_decide (kind ∈ Kinds h).

(** The specification of lookup, in the words of the contract: of the
    handlers registered so far, the last one that declares the pair. *)
Definition lastRegistered (hs : list DeviceHandler) (typ : DeviceType) (kind : string)
  : option DeviceHandler :=
  List.find (λ h, declares h typ kind) (rev hs).

(** The kinds registered under a type; none when the type is unknown. *)
Definition kindsOf (hs : gmap string (gmap string DeviceHandler)) (typ : DeviceType)
  : gmap string DeviceHandler := default ∅ (hs !! typ).

(** What the two loops of [RunPodSandbox] do to the tracker. *)

(** Re-registration puts every move back under its claim UID. *)
Definition reAddAll (moves : list PendingMove) (t : RDMANetnsTracker) : RDMANetnsTracker :=
  foldl (λ t m, AddPending t (pm_ClaimUID m) (pm_IBDev m)) t moves.

(** The move loop marks active some of the moves, in order, and skips the
    others. *)
Inductive markedSome (podUID netnsPath : string)
  : list PendingMove → RDMANetnsTracker → RDMANetnsTracker → Prop :=
| marked_nil t : markedSome podUID netnsPath [] t t
| marked_skip m ms t t' :
    markedSome podUID netnsPath ms t t' → markedSome podUID netnsPath (m :: ms) t t'
| marked_mark m ms t t' :
    markedSome podUID netnsPath ms
      (MarkActive t (pm_ClaimUID m) podUID (pm_IBDev m) netnsPath) t' →
    markedSome podUID netnsPath (m :: ms) t t'.

(** ** The life cycle of a claim in the tracker *)

(** The state of a claim, read off the two maps. *)
Inductive ClaimState := Unregistered | Pending | Active | PendingAndActive.

Definition claimState (t : RDMANetnsTracker) (c : string) : ClaimState :=
  match pending t !! c, active t !! c with
  | None, None => Unregistered
  | Some _, None => Pending
  | None, Some _ => Active
  | Some _, Some _ => PendingAndActive
  end.

(** The documented moves of a claim: unregistered → pending → active →
    unregistered, and the shortcut pending → unregistered. *)
Inductive transition : ClaimState → ClaimState → Prop :=
| tr_stay s : transition s s
| tr_register : transition Unregistered Pending
| tr_relocate : transition Pending Active
| tr_release : transition Active Unregistered
| tr_cancel : transition Pending Unregistered.

(** The events that call the tracker, as its comments document them, each
    taken as one step: [Prepare] registers a pending move for a claim that
    has no active move (the orchestrator prepares a claim once, so a claim
    whose device sits in a pod is not prepared again); a failed [Prepare] or
    an [Unprepare] removes the pending move; a sandbox-created event runs
    [RunPodSandbox], which drains and marks active; [Unprepare] removes the
    active move of its claim, a sandbox-stopped event those of its pod. *)
Inductive lifecycle : RDMANetnsTracker → RDMANetnsTracker → Prop :=
| lc_prepare t c d :
    active t !! c = None → lifecycle t (AddPending t c d)
| lc_removePending t c :
    lifecycle t (RemovePending t c)
| lc_sandboxCreated n pod r n' :
    RunPodSandbox pod n = Done r n' → lifecycle (rdmaTracker n) (rdmaTracker n')
| lc_removeActive t c :
    lifecycle t (RemoveActive t c).2
| lc_sandboxStopped t p :
    lifecycle t (RemoveActiveForPod t p).2.

(** No claim has both a pending and an active move. *)
Definition exclusive (t : RDMANetnsTracker) : Prop :=
  ∀ c, ¬ (is_Some (pending t !! c) ∧ is_Some (active t !! c)).

(** Every pending move is stored under its own claim UID. *)
Definition keyed (t : RDMANetnsTracker) : Prop :=
  ∀ k m, pending t !! k = Some m → pm_ClaimUID m = k.

(** ** Scenarios: a node, a driver, claims *)

Definition noFault : string → option error := λ _, None.

(** A node on which no call fails.  [/dev/infiniband/uverbs0] exists and
    belongs to the IB device [mlx5_0]; [mode] is the RDMA netns mode of the
    system. *)
Definition quietEnv (mode : string) : Env :=
  {| statOK := {["/dev/infiniband/uverbs0"]};
     ibDevEntries := Ok ["uverbs0"];
     sysfsFiles := {["/sys/class/infiniband_verbs/uverbs0/ibdev" := "mlx5_0"]};
     rdmaSysMode := Ok mode;
     linkAddErr := noFault;
     linkSetUpErr := noFault;
     linkDelErr := noFault;
     rdmaSetNsErr := noFault;
     netnsOpen := {[hostNetns]};
     netnsSetErr := noFault;
     cdiMkdirErr := None;
     cdiWriteErr := noFault;
     cdiReadErr := noFault;
     cdiRemoveErr := noFault |}.

Definition freshNode (mode : string) : Node :=
  {| env := quietEnv mode;
     links := ∅;
     rdmaDevs := {["mlx5_0" := hostNetns]};
     cdiFiles := ∅;
     cachedMode := None;
     rdmaTracker := NewRDMANetnsTracker |}.

Definition freshWorld : World := {| node := freshNode "shared"; calls := [] |}.

Definition exampleDriver : Driver := New "dra.example.com" buildHandlerRegistry.

Definition dummyNetdev : NetdevConfig :=
  {| nc_Kind := "dummy"; nc_InterfaceName := "eth1"; nc_MTU := 0; nc_Parent := "";
     nc_Mode := ""; nc_VFIndex := 0; nc_HostDevice := ""; nc_Pkey := 0 |}.

Definition roceConfig : DeviceConfig :=
  {| dc_Type := DeviceTypeCombo; dc_Netdev := None; dc_RDMA := None;
     dc_Combo := Some {| cc_RDMA := {| rc_PreferDevice := "" |};
                         cc_Netdev := dummyNetdev |} |}.

(** Claim X of the scenario: a RoCE claim for which the scheduler picked
    [uverbs0]. *)
Definition claimX : ResourceClaim :=
  {| cl_UID := "12345678-0000-0000-0000-000000000000";
     cl_Namespace := "default";
     cl_Name := "claim-x";
     cl_Config := [Some {| oc_Driver := "dra.example.com";
                           oc_Parameters := Some roceConfig |}];
     cl_Allocation := Some [{| ar_Driver := "dra.example.com"; ar_Pool := "node-1";
                               ar_Device := "uverbs0"; ar_Request := "rdma" |}] |}.

(** The request the driver passes to the handler for claim X. *)
Definition requestX : PrepareRequest :=
  {| pq_ClaimUID := cl_UID claimX;
     pq_Namespace := cl_Namespace claimX;
     pq_ClaimName := cl_Name claimX;
     pq_AllocatedDevice := "uverbs0";
     pq_Config := roceConfig |}.

(** The combo of [main.go]: the uverbs handler and a dummy handler. *)
Definition productionRoCE : RoCEHandler :=
  NewRoCEHandler (leaf (uverbsHandler {| uh_Tracker := true |})) (leaf dummyHandler).

(** The per-claim result of a batch call. *)
Definition resultOf {A} (o : Outcome World (Driver * gmap string A)) (uid : string)
  : option A :=
  match o with
  | Done (_, results) _ => results !! uid
  | Panic _ => None
  end.

(** A restart of the plugin.  The kernel objects and the files of the node
    stay; the memory of the process starts anew: the cached netns mode of
    [rdma/system.go] is not set and the tracker [main.go] creates is
    empty. *)
Definition restarted (w : World) : World :=
  {| node := {| env := env (node w);
                links := links (node w);
                rdmaDevs := rdmaDevs (node w);
                cdiFiles := cdiFiles (node w);
                cachedMode := None;
                rdmaTracker := NewRDMANetnsTracker |};
     calls := calls w |}.

(** A batch [Prepare] followed by a second one for the same claims, by the
    same process or, after a restart, by a new driver that finds only what
    the first one left on the node. *)
Definition prepareTwice (restart : bool) (d : Driver) (claims : list ResourceClaim)
  : M (Driver * gmap string ClaimResult) :=
  λ w, match PrepareResourceClaims d claims w with
       | Done (d1, _) w1 =>
           if restart
           then PrepareResourceClaims (New (driverName d) (registry d)) claims (restarted w1)
           else PrepareResourceClaims d1 claims w1
       | Panic w1 => Panic w1
       end.

(** The same node, except that the kernel refuses to create interfaces. *)
Definition noLinkEnv : Env :=
  {| statOK := statOK (quietEnv "shared");
     ibDevEntries := ibDevEntries (quietEnv "shared");
     sysfsFiles := sysfsFiles (quietEnv "shared");
     rdmaSysMode := Ok "shared";
     linkAddErr := λ _, Some "operation not permitted";
     linkSetUpErr := noFault;
     linkDelErr := noFault;
     rdmaSetNsErr := noFault;
     netnsOpen := {[hostNetns]};
     netnsSetErr := noFault;
     cdiMkdirErr := None;
     cdiWriteErr := noFault;
     cdiReadErr := noFault;
     cdiRemoveErr := noFault |}.

Definition noLinkWorld : World :=
  {| node := {| env := noLinkEnv; links := ∅; rdmaDevs := {["mlx5_0" := hostNetns]};
                cdiFiles := ∅; cachedMode := None; rdmaTracker := NewRDMANetnsTracker |};
     calls := [] |}.

(** What a combo [Prepare] returned, and the calls it made. *)
Definition outcomeAndCalls {A} (o : Outcome World A) : option (A * list Call) :=
  match o with
  | Done a w => Some (a, calls w)
  | Panic _ => None
  end.

(** ** Scenario: a sandbox with three claims *)

Definition claimA : string := "aaaaaaaa-0000-4000-8000-000000000001".
Definition claimB : string := "bbbbbbbb-0000-4000-8000-000000000002".
Definition claimC : string := "cccccccc-0000-4000-8000-000000000003".
Definition podNetns : string := "/proc/4242/ns/net".

(** A node in exclusive mode with three pending moves.  The device of
    claim A, [mlx5_0], is not in the host namespace, so its handle cannot be
    resolved; the kernel refuses to move the device of claim B, [mlx5_1];
    the device of claim C, [mlx5_2], can be moved. *)
Definition sandboxNode : Node :=
  {| env :=
       {| statOK := ∅;
          ibDevEntries := Ok [];
          sysfsFiles := ∅;
          rdmaSysMode := Ok "exclusive";
          linkAddErr := noFault;
          linkSetUpErr := noFault;
          linkDelErr := noFault;
          rdmaSetNsErr := λ dev, if String.eqb dev "mlx5_1"
                                 then Some "operation not permitted" else None;
          netnsOpen := {[hostNetns; podNetns]};
          netnsSetErr := noFault;
          cdiMkdirErr := None;
          cdiWriteErr := noFault;
          cdiReadErr := noFault;
          cdiRemoveErr := noFault |};
     links := ∅;
     rdmaDevs := {["mlx5_1" := hostNetns; "mlx5_2" := hostNetns]};
     cdiFiles := ∅;
     cachedMode := Some NetnsExclusive;
     rdmaTracker :=
       AddPending (AddPending (AddPending NewRDMANetnsTracker claimA "mlx5_0")
                     claimB "mlx5_1") claimC "mlx5_2" |}.

Definition sandboxPod : PodSandbox :=
  {| ps_Uid := "pod-1";
     ps_Namespace := "default";
     ps_Name := "workload";
     ps_Annotations :=
       [("resource.kubernetes.io/app", claimA +:+ "," +:+ claimB +:+ "," +:+ claimC)];
     ps_Linux := Some [{| ns_Type := "network"; ns_Path := podNetns |}] |}.

(** What a sandbox event returned, and the states it left the claims in. *)
Definition sandboxOutcome (o : Outcome Node (option error)) (claims : list string)
  : option (option error * list ClaimState) :=
  match o with
  | Done r n => Some (r, map (claimState (rdmaTracker n)) claims)
  | Panic _ => None
  end.

(** What a batch call left behind: the number of handler calls made so far
    and the names of the network interfaces on the node. *)
Definition footprint {A} (o : Outcome World A) : option (nat * list string) :=
  match o with
  | Done _ w => Some (length (calls w), (map_to_list (links (node w))).*1)
  | Panic _ => None
  end.

(** The calls of a log, by callee and method name. *)
Definition methodName (m : Method) : string :=
  match m with
  | MValidate _ => "Validate"
  | MPrepare _ => "Prepare"
  | MUnprepare _ => "Unprepare"
  end.

Definition callSummary {A} (o : Outcome World A) : option (A * list (Callee * string)) :=
  match o with
  | Done a w => Some (a, map (λ c, (callee c, methodName (method c))) (calls w))
  | Panic _ => None
  end.

(** A node on which the interface of claim X exists and cannot be deleted. *)
Definition busyWorld : World :=
  {| node :=
       {| env :=
            {| statOK := statOK (quietEnv "shared");
               ibDevEntries := ibDevEntries (quietEnv "shared");
               sysfsFiles := sysfsFiles (quietEnv "shared");
               rdmaSysMode := Ok "shared";
               linkAddErr := noFault;
               linkSetUpErr := noFault;
               linkDelErr := λ _, Some "device or resource busy";
               rdmaSetNsErr := noFault;
               netnsOpen := {[hostNetns]};
               netnsSetErr := noFault;
               cdiMkdirErr := None;
               cdiWriteErr := noFault;
               cdiReadErr := noFault;
               cdiRemoveErr := noFault |};
          links := {["dm12345678" := {| lk_Kind := Dummy; lk_MTU := 0; lk_Up := true |}]};
          rdmaDevs := {["mlx5_0" := hostNetns]};
          cdiFiles := ∅;
          cachedMode := None;
          rdmaTracker := NewRDMANetnsTracker |};
     calls := [] |}.

(** The release request for the combined allocation of claim X. *)
Definition releaseX : UnprepareRequest :=
  {| uq_ClaimUID := cl_UID claimX;
     uq_Allocation :=
       {| ai_Type := DeviceTypeCombo; ai_Kind := "roce"; ai_ClaimUID := cl_UID claimX;
          ai_DeviceName := "";
          ai_Metadata := {["rdma_device" := "uverbs0"; "net_interface" := "dm12345678";
                           "rdma_uverbs_device" := "uverbs0"; "rdma_ibdev" := "mlx5_0";
                           "net_created" := "dm12345678"; "net_host_end" := ""]} |} |}.

(** ** The test doubles of the repository *)

(** [fakeHandler] of [combo_test.go]: [Prepare] returns a fixed result or
    error, [Unprepare] a fixed error.  Its call flags are the call log. *)
Definition fakeHandler (typ : DeviceType) (kinds : list string)
    (prepare : Result PrepareResult) (unprepareErr : option error) : LeafHandler :=
  {| lh_Type := typ;
     lh_Kinds := kinds;
     lh_Prepare := λ _, ret prepare;
     lh_Unprepare := λ _, ret unprepareErr;
     lh_Validate := λ _, ret None |}.

Definition noEdits : ContainerEdits :=
  {| ce_DeviceNodes := []; ce_Mounts := []; ce_NetDevices := []; ce_Env := [] |}.

(** The sub-results of [TestRoCEHandler_PrepareSuccess]. *)
Definition testRdmaResult : PrepareResult :=
  {| pr_PoolName := "rdma-pool";
     pr_DeviceName := "uverbs0";
     pr_CDIEdits :=
       {| ce_DeviceNodes := [{| dn_Path := "/dev/infiniband/uverbs0";
                                dn_HostPath := "/dev/infiniband/uverbs0";
                                dn_Permissions := "" |}];
          ce_Mounts := []; ce_NetDevices := []; ce_Env := [] |};
     pr_Allocation :=
       {| ai_Type := DeviceTypeRDMA; ai_Kind := "uverbs";
          ai_ClaimUID := "aabbccdd-0000-0000-0000-000000000000"; ai_DeviceName := "";
          ai_Metadata := {["uverbsDevice" := "uverbs0"; "ibdev" := "mlx5_0"]} |} |}.

Definition testNetResult : PrepareResult :=
  {| pr_PoolName := "net-pool";
     pr_DeviceName := "dmaabbccdd";
     pr_CDIEdits :=
       {| ce_DeviceNodes := []; ce_Mounts := [];
          ce_NetDevices := [{| nd_HostInterfaceName := "dmaabbccdd"; nd_Name := "eth1" |}];
          ce_Env := [] |};
     pr_Allocation :=
       {| ai_Type := DeviceTypeNetdev; ai_Kind := "dummy";
          ai_ClaimUID := "aabbccdd-0000-0000-0000-000000000000"; ai_DeviceName := "";
          ai_Metadata := {["createdInterface" := "dmaabbccdd"]} |} |}.

Definition testRequest (uid : string) : PrepareRequest :=
  {| pq_ClaimUID := uid; pq_Namespace := ""; pq_ClaimName := ""; pq_AllocatedDevice := "";
     pq_Config :=
       {| dc_Type := DeviceTypeCombo; dc_Netdev := None; dc_RDMA := None;
          dc_Combo := Some {| cc_RDMA := {| rc_PreferDevice := "uverbs0" |};
                              cc_Netdev := dummyNetdev |} |} |}.

Definition netdevOnly (nd : NetdevConfig) : DeviceConfig :=
  {| dc_Type := DeviceTypeNetdev; dc_Netdev := Some nd; dc_RDMA := None; dc_Combo := None |}.

Definition ipoibNetdev (parent mode : string) (pkey : Z) : NetdevConfig :=
  {| nc_Kind := "ipoib"; nc_InterfaceName := ""; nc_MTU := 0; nc_Parent := parent;
     nc_Mode := mode; nc_VFIndex := 0; nc_HostDevice := ""; nc_Pkey := pkey |}.

(** The double quote, for the JSON of a test case. *)
Definition quote : string := String (ascii_of_nat 34) EmptyString.

(** What a handler method returned, the node apart. *)
Definition returned {S A} (o : Outcome S A) : option A :=
  match o with
  | Done a _ => Some a
  | Panic _ => None
  end.

(** A computation on the node that always returns and leaves the tracker
    alone. *)
Definition keepsTracker {A} (m : N A) : Prop :=
  ∀ n, ∃ a n', m n = Done a n' ∧ rdmaTracker n' = rdmaTracker n.

(** ** Strings, states and names *)

(** Strings of ASCII bytes: on these a rune of Go's [range] is a byte. *)
Definition isASCII (s : string) : Prop :=
  Forall (λ c, nat_of_ascii c < 128) (String.list_ascii_of_string s).

(** The shape 8-4-4-4-12 read byte by byte, from the byte index [i] on:
    hyphens at the indices 8, 13, 18 and 23, hexadecimal digits elsewhere. *)
Fixpoint uuidShape (i : nat) (s : string) : bool :=
  match s with
  | EmptyString => true
  | String c r =>
      (if bool_decide (i = 8 ∨ i = 13 ∨ i = 18 ∨ i = 23)
       then Ascii.eqb c "-"%char else isHexDigit c)
      && uuidShape (S i) r
  end.

(** A value of 36 bytes that begins with the two bytes of U+0131, the
    dotless i; the low byte of that rune is the digit 1. *)
Definition dotlessUUID : string :=
  String (ascii_of_nat 196) (String (ascii_of_nat 177) "abcdef-1234-5678-abcd-1234567890ab").

(** The tracker and the device table after every move of a list succeeded. *)
Definition markAll (podUID netnsPath : string) (moves : list PendingMove)
    (t : RDMANetnsTracker) : RDMANetnsTracker :=
  foldl (λ t m, MarkActive t (pm_ClaimUID m) podUID (pm_IBDev m) netnsPath) t moves.

Definition moveAll (ns : string) (moves : list PendingMove) (devs : gmap string string)
  : gmap string string :=
  foldl (λ devs m, <[pm_IBDev m := ns]> devs) devs moves.

(** The mode [DetectNetnsMode] answers in a state of the node. *)
Definition modeOf (n : Node) : NetnsMode :=
  match cachedMode n with
  | Some m => m
  | None =>
      match rdmaSysMode (env n) with
      | Ok mode => if String.eqb mode "exclusive" then NetnsExclusive else NetnsShared
      | Err _ => NetnsShared
      end
  end.

(** Whether the handlers find the node in exclusive mode. *)
Definition isExclusive (n : Node) : bool :=
  if modeOf n is NetnsExclusive then true else false.

(** Whether a thread can enter the namespace at [path]: the path is not
    empty, can be opened, and [netns.Set] succeeds. *)
Definition canEnter (n : Node) (path : string) : bool :=
  bool_decide (path ≠ "" ∧ path ∈ netnsOpen (env n))
  && (if netnsSetErr (env n) path is None then true else false).

(** The interface a handler creates for a claim: a two-letter prefix and the
    first eight bytes of the claim UID. *)
Definition claimIfName (prefix uid : string) : string :=
  prefix +:+ String.substring 0 8 uid.

(** The MTU a handler passes to [netlink.LinkAdd]: the configured one when
    positive, else the zero value (the kernel default). *)
Definition requestedMTU (cfg : NetdevConfig) : Z :=
  if (0 <? nc_MTU cfg)%Z then nc_MTU cfg else 0%Z.

(** The names of the two artifacts of a claim in [/etc/cdi]. *)
Definition artifactPrefix (d : Driver) (uid : string) : string :=
  replaceSlash (driverName d) +:+ "-" +:+ String.substring 0 8 uid.

Definition specFile (d : Driver) (uid : string) : string := artifactPrefix d uid +:+ ".json".
Definition stateFile (d : Driver) (uid : string) : string :=
  artifactPrefix d uid +:+ ".alloc.json".

(** The CDI document [createCDISpec] writes for a result. *)
Definition specOf (d : Driver) (result : PrepareResult) : CDISpec :=
  {| cs_Version := cdiVersion;
     cs_Kind := driverName d +:+ "/" +:+ ai_Type (pr_Allocation result);
     cs_Devices := [{| cd_Name := pr_DeviceName result;
                       cd_ContainerEdits := pr_CDIEdits result |}] |}.

(** The pattern of [restoreAllocations] without its star: the state files of
    this driver start with it. *)
Definition statePrefix (d : Driver) : string := replaceSlash (driverName d) +:+ "-".

(** A driver after one state file was read: the body of the loop of
    [restoreAllocations], as a function. *)
Definition restoredFrom (n : Node) (d : Driver) (name : string) : Driver :=
  match cdiFiles n !! name with
  | None => d
  | Some data =>
      match cdiReadErr (env n) name with
      | Some _ => d
      | None =>
          match parseAllocation data with
          | None => d
          | Some alloc =>
              if String.eqb (ai_ClaimUID alloc) "" then d
              else set_allocations (<[ai_ClaimUID alloc := alloc]>) d
          end
      end
  end.

(** What [restoreAllocations] reads of a state file, if anything. *)
Definition readable (n : Node) (name : string) : option AllocationInfo :=
  match cdiFiles n !! name with
  | None => None
  | Some data =>
      match cdiReadErr (env n) name with
      | Some _ => None
      | None =>
          match parseAllocation data with
          | None => None
          | Some alloc => if String.eqb (ai_ClaimUID alloc) "" then None else Some alloc
          end
      end
  end.

(** A handler that panics on no request whose claim UID has eight bytes or
    more. *)
Definition answers (h : DeviceHandler) : Prop :=
  (∀ cfg w, ∃ r w', Validate h cfg w = Done r w')
  ∧ (∀ req w, 8 ≤ String.length (pq_ClaimUID req) → ∃ r w', Prepare h req w = Done r w')
  ∧ (∀ ureq w, ∃ r w', Unprepare h ureq w = Done r w').

(** The leaf handlers of the repository that are embedded here. *)
Definition embeddedLeaf (l : LeafHandler) : Prop :=
  l = dummyHandler ∨ l = ipoibHandler ∨ ∃ h, l = uverbsHandler h.

(** The device discovery publishes for an entry of [/dev/infiniband]. *)
Definition publishedFor (n : Node) (name : string) : PublishedDevice :=
  let ibDev := match sysfsFiles (env n)
                     !! pathJoin (pathJoin "/sys/class/infiniband_verbs" name) "ibdev" with
               | Some data => TrimSpace data
               | None => ""
               end in
  {| pd_Name := name;
     pd_Attributes :=
       (if negb (String.eqb ibDev "")
        then <["dra.example.com/ibdev" := StringValue ibDev]>
        else id)
         (<["dra.example.com/rdma-netns-mode" := StringValue (netnsModeString (modeOf n))]>
         (<["dra.example.com/device" := StringValue (pathJoin "/dev/infiniband" name)]>
         (<["dra.example.com/type" := StringValue "rdma"]> ∅)));
     pd_AllowMultipleAllocations := if isExclusive n then None else Some true |}.

(** The state a computation ends in. *)
Definition stateOf {S A} (o : Outcome S A) : S :=
  match o with
  | Done _ s => s
  | Panic s => s
  end.

(** ** Scenario: claim X is released after a restart *)

(** The node after the driver prepared claim X, and the plugin restarted. *)
Definition restartedWorld : World :=
  restarted (stateOf (PrepareResourceClaims exampleDriver [claimX] freshWorld)).

(** Claim X as the kubelet names it in a release. *)
Definition objectX : NamespacedObject :=
  {| no_UID := cl_UID claimX; no_Namespace := cl_Namespace claimX; no_Name := cl_Name claimX |}.

(** ** Scenario: a relocation that succeeds *)

(** A node in exclusive mode on which no call fails and the network
    namespace of the pod can be opened. *)
Definition relocNode : Node :=
  {| env :=
       {| statOK := statOK (quietEnv "exclusive");
          ibDevEntries := ibDevEntries (quietEnv "exclusive");
          sysfsFiles := sysfsFiles (quietEnv "exclusive");
          rdmaSysMode := Ok "exclusive";
          linkAddErr := noFault;
          linkSetUpErr := noFault;
          linkDelErr := noFault;
          rdmaSetNsErr := noFault;
          netnsOpen := {[hostNetns; podNetns]};
          netnsSetErr := noFault;
          cdiMkdirErr := None;
          cdiWriteErr := noFault;
          cdiReadErr := noFault;
          cdiRemoveErr := noFault |};
     links := ∅;
     rdmaDevs := {["mlx5_0" := hostNetns]};
     cdiFiles := ∅;
     cachedMode := None;
     rdmaTracker := NewRDMANetnsTracker |}.

(** The request for [uverbs0] on behalf of claim C. *)
Definition uverbsRequest : PrepareRequest :=
  {| pq_ClaimUID := claimC;
     pq_Namespace := "default";
     pq_ClaimName := "claim-c";
     pq_AllocatedDevice := "uverbs0";
     pq_Config := {| dc_Type := DeviceTypeRDMA; dc_Netdev := None;
                     dc_RDMA := Some {| rc_PreferDevice := "" |}; dc_Combo := None |} |}.

(** The node once the uverbs handler has registered the move of claim C. *)
Definition pendingNode : Node :=
  set_tracker (λ t, AddPending t claimC "mlx5_0") relocNode.

(** A pod that uses claim C. *)
Definition relocPod : PodSandbox :=
  {| ps_Uid := "pod-2";
     ps_Namespace := "default";
     ps_Name := "trainer";
     ps_Annotations := [("resource.kubernetes.io/rdma", claimC)];
     ps_Linux := Some [{| ns_Type := "network"; ns_Path := podNetns |}] |}.

(** The pod of the sandbox scenario, on the host network: the runtime
    reports no namespaces for it. *)
Definition hostNetworkPod : PodSandbox :=
  {| ps_Uid := "pod-3";
     ps_Namespace := "default";
     ps_Name := "agent";
     ps_Annotations := ps_Annotations sandboxPod;
     ps_Linux := None |}.

(** ** Scenario: a claim for a dummy interface *)

Definition dummyClaim : ResourceClaim :=
  {| cl_UID := claimA;
     cl_Namespace := "default";
     cl_Name := "claim-a";
     cl_Config := [Some {| oc_Driver := "dra.example.com";
                           oc_Parameters := Some (netdevOnly dummyNetdev) |}];
     cl_Allocation := None |}.

Definition dummyRequest : PrepareRequest :=
  {| pq_ClaimUID := claimA;
     pq_Namespace := "default";
     pq_ClaimName := "claim-a";
     pq_AllocatedDevice := "";
     pq_Config := netdevOnly dummyNetdev |}.


(** What the dummy handler returns for claim A on the fresh node, and the
    world it leaves. *)
Definition dummyResult : PrepareResult :=
  match returned (prepareClaim exampleDriver dummyClaim freshWorld) with
  | Some (Ok result) => result
  | _ => testNetResult
  end.

Definition dummyPrepared : World := stateOf (prepareClaim exampleDriver dummyClaim freshWorld).

(* ================================================================== *)
(** * Properties of the registry *)
(* ================================================================== *)


Section Registry.
Implicit Types (r : HandlerRegistry) (h : DeviceHandler).
Implicit Types (hs : gmap string (gmap string DeviceHandler)).
Implicit Types (typ kind : string).


Lemma Get_kindsOf r typ kind : Get r typ kind = kindsOf (handlers r) typ !! kind.
Proof.
  unfold Get, kindsOf. destruct (handlers r !! typ) as [kinds|]; simpl; [done|].
  by rewrite lookup_empty.
Qed.

Lemma kindsOf_registerKind h typ hs kind typ' :
  kindsOf (registerKind h typ hs kind) typ' =
    if decide (typ = typ') then <[kind := h]> (kindsOf hs typ) else kindsOf hs typ'.
Proof.
  unfold kindsOf, registerKind. case_decide as Heq.
  - subst. by rewrite lookup_insert_eq.
  - by rewrite lookup_insert_ne.
Qed.

Lemma kindsOf_foldl_other h typ typ' ks hs :
  typ ≠ typ' → kindsOf (foldl (registerKind h typ) hs ks) typ' = kindsOf hs typ'.
Proof.
  intros Hne. revert hs. induction ks as [|k ks IH]; intros hs; simpl; [done|].
  rewrite IH, kindsOf_registerKind. by rewrite decide_False.
Qed.

Lemma kindsOf_foldl_same h typ ks hs kind :
  kindsOf (foldl (registerKind h typ) hs ks) typ !! kind =
    if bool_decide (kind ∈ ks) then Some h else kindsOf hs typ !! kind.
Proof.
  revert hs. induction ks as [|k ks IH]; intros hs; cbn [foldl].
  - by rewrite bool_decide_eq_false_2 by apply not_elem_of_nil.
  - rewrite IH, kindsOf_registerKind, decide_True by done.
    destruct (decide (kind ∈ ks)) as [Hin|Hnin].
    + rewrite !bool_decide_eq_true_2; [done| |done]. apply elem_of_cons. by right.
    + rewrite (bool_decide_eq_false_2 _ Hnin).
      destruct (decide (kind = k)) as [->|Hne].
      * rewrite lookup_insert_eq, bool_decide_eq_true_2; [done|]. apply elem_of_cons. by left.
      * rewrite lookup_insert_ne by done.
        rewrite bool_decide_eq_false_2; [done|].
        intros [?|?]%elem_of_cons; done.
Qed.

(** What [Register] does to a lookup: it answers with the new handler on
    every pair the handler declares, and leaves every other pair alone. *)
Lemma Get_Register r h typ kind :
  Get (Register r h) typ kind = if declares h typ kind then Some h else Get r typ kind.
Proof.
  rewrite !Get_kindsOf. unfold Register, declares. simpl.
  set (hs0 := match handlers r !! Type_ h with
              | Some _ => handlers r
              | None => <[Type_ h := ∅]> (handlers r)
              end).
  assert (Hhs0 : ∀ t, kindsOf hs0 t = kindsOf (handlers r) t).
  { intros t. unfold hs0, kindsOf.
    destruct (handlers r !! Type_ h) eqn:E; [done|].
    destruct (decide (Type_ h = t)) as [<-|Hne].
    - by rewrite lookup_insert_eq, E.
    - by rewrite lookup_insert_ne. }
  destruct (String.eqb_spec (Type_ h) typ) as [<-|Hne]; simpl.
  - by rewrite kindsOf_foldl_same, Hhs0.
  - by rewrite kindsOf_foldl_other, Hhs0.
Qed.

Lemma Get_New typ kind : Get NewHandlerRegistry typ kind = None.
Proof. unfold Get, NewHandlerRegistry. simpl. by rewrite lookup_empty. Qed.

Lemma find_none_intro {A} (f : A → bool) (l : list A) :
  (∀ x, x ∈ l → f x = false) → List.find f l = None.
Proof.
  induction l as [|a l IH]; intros Hall; simpl; [done|].
  rewrite (Hall a) by (apply elem_of_cons; by left).
  apply IH. intros x Hx. apply Hall, elem_of_cons. by right.
Qed.

Lemma Get_registered (regs : list DeviceHandler) typ kind :
  Get (foldl Register NewHandlerRegistry regs) typ kind = lastRegistered regs typ kind.
Proof.
  unfold lastRegistered.
  induction regs as [|h regs IH] using rev_ind; simpl.
  - apply Get_New.
  - rewrite foldl_app, rev_app_distr. simpl. rewrite Get_Register, IH. done.
Qed.

(** C9.  After any sequence of [Register] calls on a new registry,
    [Get] returns exactly the last registered handler that declares the
    pair (so none for a pair no registered handler declares); a single
    [Register] makes its handler the answer for every pair the handler
    declares; [MustGet] returns the handler [Get] returns, and the
    not-found error exactly when [Get] returns none. *)
Theorem C9_registry_semantics (regs : list DeviceHandler) (typ kind : string) :
  let r := foldl Register NewHandlerRegistry regs in
  Get r typ kind = lastRegistered regs typ kind
  ∧ (∀ h, declares h typ kind = true → Get (Register r h) typ kind = Some h)
  ∧ (∀ h, declares h typ kind = false → Get (Register r h) typ kind = Get r typ kind)
  ∧ ((∀ h, h ∈ regs → declares h typ kind = false) →
       Get r typ kind = None
       ∧ MustGet r typ kind
         = Err ("no handler registered for type=" +:+ typ +:+ " kind=" +:+ kind))
  ∧ (∀ h, Get r typ kind = Some h ↔ MustGet r typ kind = Ok h).
Proof.
  intros r. split_and!.
  - apply Get_registered.
  - intros h Hd. by rewrite Get_Register, Hd.
  - intros h Hd. by rewrite Get_Register, Hd.
  - intros Hnone.
    assert (Get r typ kind = None) as Hget.
    { unfold r. rewrite Get_registered. unfold lastRegistered.
      apply find_none_intro. intros h Hin. apply Hnone.
      apply list_elem_of_In, in_rev. by apply list_elem_of_In. }
    split; [done|]. unfold MustGet. by rewrite Hget.
  - intros h. unfold MustGet. destruct (Get r typ kind); split; congruence.
Qed.
End Registry.

(* ================================================================== *)
(** * Properties of the relocation tracker *)
(* ================================================================== *)

Section Tracker.
Implicit Types (t : RDMANetnsTracker) (c uid : string) (cs : list string).

Lemma consume_cons_Some t uid cs m :
  pending t !! uid = Some m →
  ConsumePendingForClaims t (uid :: cs) =
    (m :: (ConsumePendingForClaims (RemovePending t uid) cs).1,
     (ConsumePendingForClaims (RemovePending t uid) cs).2).
Proof.
  intros Hm. simpl. rewrite Hm. unfold RemovePending.
  by destruct (ConsumePendingForClaims _ cs).
Qed.

Lemma consume_cons_None t uid cs :
  pending t !! uid = None →
  ConsumePendingForClaims t (uid :: cs) = ConsumePendingForClaims t cs.
Proof. intros Hm. simpl. by rewrite Hm. Qed.

(** Draining never touches the active moves. *)
Lemma consume_active t cs : active (ConsumePendingForClaims t cs).2 = active t.
Proof.
  revert t. induction cs as [|uid cs IH]; intros t; [done|].
  destruct (pending t !! uid) as [m|] eqn:E.
  - rewrite (consume_cons_Some _ _ _ _ E). simpl. by rewrite IH.
  - rewrite (consume_cons_None _ _ _ E). apply IH.
Qed.

(** After draining, a queried claim has no pending move, and the pending
    move of any other claim is the one it had. *)
Lemma consume_pending t cs c :
  pending (ConsumePendingForClaims t cs).2 !! c =
    if decide (c ∈ cs) then None else pending t !! c.
Proof.
  revert t. induction cs as [|uid cs IH]; intros t.
  - cbn [ConsumePendingForClaims snd]. by rewrite decide_False by apply not_elem_of_nil.
  - destruct (pending t !! uid) as [m|] eqn:E.
    + rewrite (consume_cons_Some _ _ _ _ E). cbn [snd]. rewrite IH.
      unfold RemovePending. cbn [pending].
      destruct (decide (c ∈ cs)) as [Hin|Hnin].
      * rewrite decide_True; [done|]. apply elem_of_cons. by right.
      * destruct (decide (c = uid)) as [->|Hne].
        -- rewrite lookup_delete_eq, decide_True; [done|]. apply elem_of_cons. by left.
        -- rewrite lookup_delete_ne by done. rewrite decide_False; [done|].
           intros [?|?]%elem_of_cons; done.
    + rewrite (consume_cons_None _ _ _ E), IH.
      destruct (decide (c ∈ cs)) as [Hin|Hnin].
      * rewrite decide_True; [done|]. apply elem_of_cons. by right.
      * destruct (decide (c = uid)) as [->|Hne].
        -- rewrite decide_True; [done|]. apply elem_of_cons. by left.
        -- rewrite decide_False; [done|]. intros [?|?]%elem_of_cons; done.
Qed.

(** Every move returned was the pending move of a queried claim. *)
Lemma consume_moves t cs m :
  m ∈ (ConsumePendingForClaims t cs).1 → ∃ k, k ∈ cs ∧ pending t !! k = Some m.
Proof.
  revert t. induction cs as [|uid cs IH]; intros t.
  - simpl. by intros ?%elem_of_nil.
  - destruct (pending t !! uid) as [m0|] eqn:E.
    + rewrite (consume_cons_Some _ _ _ _ E). cbn [fst].
      intros [->|Hin]%elem_of_cons.
      * exists uid. split; [apply elem_of_cons; by left | done].
      * destruct (IH _ Hin) as (k & Hk & Hlk). simpl in Hlk.
        exists k. split; [apply elem_of_cons; by right|].
        destruct (decide (uid = k)) as [->|Hne].
        -- by rewrite lookup_delete_eq in Hlk.
        -- by rewrite lookup_delete_ne in Hlk.
    + rewrite (consume_cons_None _ _ _ E). intros Hin.
      destruct (IH _ Hin) as (k & Hk & Hlk).
      exists k. split; [apply elem_of_cons; by right | done].
Qed.

(** A queried claim with a pending move has that move returned. *)
Lemma consume_moves_complete t cs k m :
  k ∈ cs → pending t !! k = Some m → m ∈ (ConsumePendingForClaims t cs).1.
Proof.
  revert t. induction cs as [|uid cs IH]; intros t.
  - by intros ?%elem_of_nil.
  - intros Hk Hm. destruct (pending t !! uid) as [m0|] eqn:E.
    + rewrite (consume_cons_Some _ _ _ _ E). cbn [fst].
      destruct (decide (uid = k)) as [->|Hne].
      * rewrite E in Hm. injection Hm as ->. apply elem_of_cons. by left.
      * apply elem_of_cons. right. apply IH.
        -- apply elem_of_cons in Hk as [?|?]; [congruence | done].
        -- simpl. by rewrite lookup_delete_ne.
    + rewrite (consume_cons_None _ _ _ E). apply IH; [|done].
      apply elem_of_cons in Hk as [->|?]; [congruence | done].
Qed.

Lemma removeActiveForPod_moves t p m :
  m ∈ (RemoveActiveForPod t p).1 ↔ ∃ k, active t !! k = Some m ∧ am_PodUID m = p.
Proof.
  unfold RemoveActiveForPod. cbn [fst]. rewrite list_elem_of_fmap. split.
  - intros ([k m'] & -> & Hin). apply elem_of_map_to_list in Hin.
    apply map_lookup_filter_Some in Hin as [Hlk Hp]. by exists k.
  - intros (k & Hlk & Hp). exists (k, m). split; [done|].
    apply elem_of_map_to_list, map_lookup_filter_Some. done.
Qed.

Lemma removeActiveForPod_active t p k :
  active (RemoveActiveForPod t p).2 !! k =
    match active t !! k with
    | Some m => if decide (am_PodUID m = p) then None else Some m
    | None => None
    end.
Proof.
  unfold RemoveActiveForPod. cbn [snd active].
  rewrite map_lookup_filter. destruct (active t !! k) as [m|]; simpl; [|done].
  destruct (decide (am_PodUID m = p)) as [Heq|Hne].
  - rewrite option_guard_False; [done|]. simpl. by intros ?.
  - by rewrite option_guard_True.
Qed.

Lemma removeActiveForPod_pending t p : pending (RemoveActiveForPod t p).2 = pending t.
Proof. done. Qed.

(** C8.  Drain semantics of the tracker.  After [AddPending c d], draining
    [[c]] returns exactly the one move of [c], with device [d], and leaves
    [c] without a pending move, so that draining [[c]] again returns the
    empty list and changes nothing.  After [MarkActive c p d n],
    [RemoveActiveForPod p] returns that move (and only that move when no
    other claim is active in pod [p]) and removes it, so that a repeated
    call returns the empty list and changes nothing.  Draining pending
    moves leaves the pending moves of the claims that were not queried and
    all active moves as they were; removing the active moves of a pod leaves
    the active moves of other pods and all pending moves as they were. *)
Theorem C8_tracker_drain (t : RDMANetnsTracker) (c d p n : string) :
  let mv := {| pm_IBDev := d; pm_ClaimUID := c |} in
  let t1 := (ConsumePendingForClaims (AddPending t c d) [c]).2 in
  let am := {| am_IBDev := d; am_PodUID := p; am_NetnsPath := n |} in
  let t2 := (RemoveActiveForPod (MarkActive t c p d n) p).2 in
  ((ConsumePendingForClaims (AddPending t c d) [c]).1 = [mv]
   ∧ pending t1 !! c = None
   ∧ ConsumePendingForClaims t1 [c] = ([], t1)
   ∧ (∀ c', c' ≠ c → pending t1 !! c' = pending t !! c')
   ∧ active t1 = active t)
  ∧ (∀ cs c', c' ∉ cs →
       pending (ConsumePendingForClaims t cs).2 !! c' = pending t !! c')
  ∧ (∀ cs, active (ConsumePendingForClaims t cs).2 = active t)
  ∧ (am ∈ (RemoveActiveForPod (MarkActive t c p d n) p).1
     ∧ ((∀ c' m, c' ≠ c → active t !! c' = Some m → am_PodUID m ≠ p) →
          (RemoveActiveForPod (MarkActive t c p d n) p).1 = [am])
     ∧ active t2 !! c = None
     ∧ (RemoveActiveForPod t2 p).1 = []
     ∧ active (RemoveActiveForPod t2 p).2 = active t2
     ∧ (∀ c' m, c' ≠ c → active t !! c' = Some m → am_PodUID m ≠ p →
          active t2 !! c' = Some m)
     ∧ pending t2 = pending t).
Proof.
  intros mv t1 am t2. split_and!.
  - unfold AddPending. simpl. by rewrite lookup_insert_eq.
  - unfold t1. rewrite consume_pending. rewrite decide_True; [done|].
    apply elem_of_cons. by left.
  - assert (pending t1 !! c = None) as Hnone.
    { unfold t1. rewrite consume_pending. rewrite decide_True; [done|].
      apply elem_of_cons. by left. }
    simpl. by rewrite Hnone.
  - intros c' Hne. unfold t1. rewrite consume_pending.
    rewrite decide_False by (intros [?|?%elem_of_nil]%elem_of_cons; done).
    unfold AddPending. simpl. by rewrite lookup_insert_ne.
  - unfold t1. by rewrite consume_active.
  - intros cs c' Hnin. rewrite consume_pending. by rewrite decide_False.
  - apply consume_active.
  - apply removeActiveForPod_moves. exists c. split; [|done].
    unfold MarkActive. simpl. by rewrite lookup_insert_eq.
  - intros Hothers. unfold RemoveActiveForPod, MarkActive. cbn [fst active]. fold am.
    assert (filter (λ kv : string * ActiveMove, am_PodUID kv.2 = p) (<[c := am]> (active t))
            = {[c := am]}) as ->.
    { apply map_eq. intros k. rewrite map_lookup_filter.
      destruct (decide (k = c)) as [->|Hne].
      - rewrite lookup_insert_eq, lookup_singleton_eq. simpl.
        by rewrite option_guard_True.
      - rewrite lookup_insert_ne, lookup_singleton_ne by done.
        destruct (active t !! k) as [m|] eqn:E; simpl; [|done].
        rewrite option_guard_False; [done|]. simpl. by apply (Hothers k). }
    by rewrite map_to_list_singleton.
  - unfold t2. rewrite removeActiveForPod_active. unfold MarkActive. simpl.
    rewrite lookup_insert_eq. simpl. by rewrite decide_True.
  - assert (∀ m, m ∉ (RemoveActiveForPod t2 p).1) as Hnone.
    { intros m (k & Hlk & Hp)%removeActiveForPod_moves.
      unfold t2 in Hlk. rewrite removeActiveForPod_active in Hlk.
      destruct (active (MarkActive t c p d n) !! k) as [m'|]; [|done].
      destruct (decide (am_PodUID m' = p)); congruence. }
    by apply elem_of_nil_inv.
  - apply map_eq. intros k. rewrite removeActiveForPod_active.
    unfold t2. rewrite removeActiveForPod_active.
    destruct (active (MarkActive t c p d n) !! k) as [m'|]; [|done].
    destruct (decide (am_PodUID m' = p)) as [|Hne]; [done|].
    by rewrite decide_False.
  - intros c' m Hne Hlk Hp. unfold t2. rewrite removeActiveForPod_active.
    unfold MarkActive. cbn [active]. rewrite lookup_insert_ne by done.
    rewrite Hlk. by rewrite decide_False.
  - done.
Qed.
End Tracker.

(* ================================================================== *)
(** * The tracker under the sandbox events *)
(* ================================================================== *)


Section SandboxEvents.
Implicit Types (t : RDMANetnsTracker) (n : Node) (m : PendingMove).
Implicit Types (moves : list PendingMove) (c : string).

Lemma forEach_cons {S A} (f : A → St S unit) (a : A) (l : list A) (s : S) :
  forEach f (a :: l) s =
    match f a s with
    | Done _ s' => forEach f l s'
    | Panic s' => Panic s'
    end.
Proof. done. Qed.

Lemma reAddPending_spec moves n :
  reAddPending moves n = Done tt (set_tracker (reAddAll moves) n).
Proof.
  revert n. induction moves as [|m moves IH]; intros n.
  - by destruct n.
  - unfold reAddPending in *. rewrite forEach_cons. unfold modify at 1.
    rewrite IH. by destruct n.
Qed.

Lemma moveIntoPod_spec podUID netnsPath podNS m n :
  ∃ n', moveIntoPod podUID netnsPath podNS m n = Done tt n'
        ∧ (rdmaTracker n' = rdmaTracker n
           ∨ rdmaTracker n' =
               MarkActive (rdmaTracker n) (pm_ClaimUID m) podUID (pm_IBDev m) netnsPath).
Proof.
  unfold moveIntoPod, bind, RdmaLinkByName, RdmaLinkSetNsFd, ret, modify.
  destruct (rdmaDevs n !! pm_IBDev m) as [owner|]; [|by eauto].
  destruct (decide (owner = hostNetns)); [|by eauto].
  destruct (rdmaSetNsErr (env n) (pm_IBDev m)); [by eauto|].
  eexists. split; [done|]. by right.
Qed.

Lemma moveLoop_spec podUID netnsPath podNS moves n :
  ∃ n', forEach (moveIntoPod podUID netnsPath podNS) moves n = Done tt n'
        ∧ markedSome podUID netnsPath moves (rdmaTracker n) (rdmaTracker n').
Proof.
  revert n. induction moves as [|m moves IH]; intros n.
  - exists n. split; [done|]. constructor.
  - rewrite forEach_cons.
    destruct (moveIntoPod_spec podUID netnsPath podNS m n) as (n1 & -> & Ht).
    destruct (IH n1) as (n' & -> & Hms).
    exists n'. split; [done|].
    destruct Ht as [Ht|Ht]; rewrite Ht in Hms.
    + by apply marked_skip.
    + by apply marked_mark.
Qed.

(** The effect of a sandbox-created event on the tracker: the pending
    moves of the pod's claims are drained and then either (the namespace
    cannot be opened) all put back, or marked active one by one, those
    whose relocation fails being skipped. *)
Lemma RunPodSandbox_tracker pod n r n' :
  RunPodSandbox pod n = Done r n' →
  ∃ cs, let drained := ConsumePendingForClaims (rdmaTracker n) cs in
        rdmaTracker n' = drained.2 ∧ drained.1 = []
        ∨ rdmaTracker n' = reAddAll drained.1 drained.2
        ∨ markedSome (ps_Uid pod) (getNetNSPath pod) drained.1 drained.2 (rdmaTracker n').
Proof.
  unfold RunPodSandbox. set (cs := extractClaimUIDs (ps_Annotations pod)).
  destruct (decide (length cs = 0)) as [Hcs|Hcs].
  { intros [= <- <-]. exists []. left. done. }
  unfold bind at 1. unfold trackerConsume.
  destruct (ConsumePendingForClaims (rdmaTracker n) cs) as [moves tc] eqn:Hdr.
  intros Hrun. exists cs. rewrite Hdr. cbn [fst snd]. revert Hrun.
  destruct (decide (length moves = 0)) as [Hmv|Hmv].
  { intros [= <- <-]. left. split; [by destruct n|]. by destruct moves. }
  destruct (decide (getNetNSPath pod ≠ "")) as [Hpath|Hpath].
  - unfold bind at 1. unfold netnsGetFromPath.
    destruct (decide (getNetNSPath pod ∈ netnsOpen (env (set_tracker (λ _, tc) n)))).
    + unfold bind at 1.
      destruct (moveLoop_spec (ps_Uid pod) (getNetNSPath pod) (getNetNSPath pod) moves
                  (set_tracker (λ _, tc) n)) as (n1 & -> & Hms).
      intros [= <- <-]. right. right. by destruct n.
    + unfold bind at 1. rewrite reAddPending_spec.
      intros [= <- <-]. right. left. by destruct n.
  - unfold bind at 1. rewrite reAddPending_spec.
    intros [= <- <-]. right. left. by destruct n.
Qed.
End SandboxEvents.

(* ================================================================== *)
(** * The life cycle invariant of the tracker *)
(* ================================================================== *)

Section Lifecycle.
Implicit Types (t : RDMANetnsTracker) (m : PendingMove) (c k : string).
Implicit Types (moves : list PendingMove).

Lemma reAddAll_active moves t : active (reAddAll moves t) = active t.
Proof.
  revert t. induction moves as [|m moves IH]; intros t; [done|].
  unfold reAddAll in *. cbn [foldl]. by rewrite IH.
Qed.

(** Putting back moves that came out of a keyed map restores every entry. *)
Lemma reAddAll_pending moves t k :
  pending (reAddAll moves t) !! k =
    match List.find (λ m, String.eqb (pm_ClaimUID m) k) (rev moves) with
    | Some m => Some {| pm_IBDev := pm_IBDev m; pm_ClaimUID := pm_ClaimUID m |}
    | None => pending t !! k
    end.
Proof.
  revert t. induction moves as [|m moves IH] using rev_ind; intros t; [done|].
  unfold reAddAll in *. rewrite foldl_app, rev_app_distr. cbn [foldl rev app List.find].
  unfold AddPending at 1. cbn [pending].
  destruct (String.eqb_spec (pm_ClaimUID m) k) as [<-|Hne].
  - by rewrite lookup_insert_eq.
  - rewrite lookup_insert_ne by done. apply IH.
Qed.

(** Draining and putting back what was drained restores the tracker. *)
Lemma reAddAll_consume t (cs : list string) :
  keyed t →
  reAddAll (ConsumePendingForClaims t cs).1 (ConsumePendingForClaims t cs).2 = t.
Proof.
  intros Hkey.
  assert (pending (reAddAll (ConsumePendingForClaims t cs).1 (ConsumePendingForClaims t cs).2)
          = pending t) as Hp.
  { apply map_eq. intros c. rewrite reAddAll_pending.
    destruct (List.find _ _) as [m|] eqn:Hfind.
    - apply find_some in Hfind as [Hin Heq].
      apply in_rev, list_elem_of_In in Hin. apply String.eqb_eq in Heq.
      apply consume_moves in Hin as (k & Hk & Hlk).
      pose proof (Hkey _ _ Hlk) as <-. rewrite <- Heq, Hlk. by destruct m.
    - rewrite consume_pending. destruct (decide (c ∈ cs)) as [Hin|]; [|done].
      destruct (pending t !! c) as [m|] eqn:E; [|done]. exfalso.
      assert (String.eqb (pm_ClaimUID m) c = false) as Hfalse.
      { apply (find_none _ _ Hfind m). apply (proj1 (in_rev _ _)).
        apply list_elem_of_In. by eapply consume_moves_complete. }
      apply String.eqb_neq in Hfalse. by apply Hfalse, Hkey. }
  assert (active (reAddAll (ConsumePendingForClaims t cs).1 (ConsumePendingForClaims t cs).2)
          = active t) as Ha by (by rewrite reAddAll_active, consume_active).
  destruct (reAddAll _ _), t. cbn in *. by subst.
Qed.

Lemma markedSome_pending podUID path moves t t' :
  markedSome podUID path moves t t' → pending t' = pending t.
Proof. induction 1; [done|done|]. by rewrite IHmarkedSome. Qed.

(** The move loop changes the active move of a claim only to the active
    form of one of the moves of that claim. *)
Lemma markedSome_active podUID path moves t t' k :
  markedSome podUID path moves t t' →
  active t' !! k = active t !! k
  ∨ ∃ m, m ∈ moves ∧ pm_ClaimUID m = k
         ∧ active t' !! k = Some {| am_IBDev := pm_IBDev m; am_PodUID := podUID;
                                    am_NetnsPath := path |}.
Proof.
  induction 1 as [t|m ms t t' _ IH|m ms t t' _ IH].
  - by left.
  - destruct IH as [IH|(m' & Hin & Hk & Hlk)]; [by left|].
    right. exists m'. split; [|done]. apply elem_of_cons. by right.
  - destruct IH as [IH|(m' & Hin & Hk & Hlk)].
    + unfold MarkActive in IH. cbn [active] in IH.
      destruct (decide (pm_ClaimUID m = k)) as [Heq|Hne].
      * right. exists m. split; [apply elem_of_cons; by left|]. split; [done|].
        by rewrite IH, Heq, lookup_insert_eq.
      * left. by rewrite IH, lookup_insert_ne.
    + right. exists m'. split; [|done]. apply elem_of_cons. by right.
Qed.
(** What one event does to one claim: nothing; or it registers a pending
    move for a claim that has no active move; or it drains the pending move
    of a claim that has no active move (and may mark the claim active); or it
    removes the active move; or it removes the pending move. *)
Lemma lifecycle_claim t t' c :
  exclusive t → keyed t → lifecycle t t' →
  (pending t' !! c = pending t !! c ∧ active t' !! c = active t !! c)
  ∨ (active t !! c = None ∧ active t' !! c = None
     ∧ ∃ m, pending t' !! c = Some m ∧ pm_ClaimUID m = c)
  ∨ (is_Some (pending t !! c) ∧ active t !! c = None ∧ pending t' !! c = None)
  ∨ (pending t' !! c = pending t !! c ∧ active t' !! c = None)
  ∨ (pending t' !! c = None ∧ active t' !! c = active t !! c).
Proof.
  intros Hex Hkey Hstep.
  destruct Hstep as [t c0 d Hact|t c0|n pod r n' Hrun|t c0|t p].
  - (* Prepare *)
    unfold AddPending. cbn [pending active].
    destruct (decide (c0 = c)) as [->|Hne].
    + right. left. rewrite lookup_insert_eq. eauto.
    + left. by rewrite lookup_insert_ne.
  - (* RemovePending *)
    unfold RemovePending. cbn [pending active].
    destruct (decide (c0 = c)) as [->|Hne].
    + do 4 right. by rewrite lookup_delete_eq.
    + left. by rewrite lookup_delete_ne.
  - (* sandbox created *)
    apply RunPodSandbox_tracker in Hrun as (cs & Hrun). cbn zeta in Hrun.
    set (t := rdmaTracker n) in *. set (t' := rdmaTracker n') in *.
    pose proof (consume_pending t cs c) as Hp.
    pose proof (consume_active t cs) as Ha.
    assert (Hmoves : ∀ m, m ∈ (ConsumePendingForClaims t cs).1 →
                          pm_ClaimUID m ∈ cs ∧ pending t !! pm_ClaimUID m = Some m).
    { intros m (k & Hk & Hlk)%consume_moves. by rewrite (Hkey _ _ Hlk). }
    assert (Hnomove : c ∈ cs →
              (∀ m, m ∈ (ConsumePendingForClaims t cs).1 → pm_ClaimUID m ≠ c) →
              pending t !! c = None).
    { intros Hin Hno. destruct (pending t !! c) as [m|] eqn:E; [|done].
      exfalso. apply (Hno m); [by eapply consume_moves_complete | by apply Hkey]. }
    destruct Hrun as [[Ht' Hnil]|[Ht'|Hms]].
    + (* nothing was pending *)
      left. rewrite Ht'. rewrite <- (reAddAll_consume t cs Hkey) at 2 4.
      by rewrite Hnil.
    + (* all moves were put back *)
      left. by rewrite Ht', (reAddAll_consume t cs Hkey).
    + (* the move loop ran *)
      pose proof (markedSome_pending _ _ _ _ _ Hms) as Hp'.
      destruct (markedSome_active _ _ _ _ _ c Hms) as [Ha'|(m & Hin & Heq & Ha')].
      * rewrite Ha in Ha'. rewrite Hp', Hp.
        destruct (decide (c ∈ cs)) as [Hin|]; [|by left].
        destruct (pending t !! c) as [m|] eqn:E; [|by left].
        right. right. left. split; [by eauto|]. split; [|done].
        destruct (active t !! c) eqn:Eact; [|done].
        exfalso. apply (Hex c). rewrite E, Eact. eauto.
      * destruct (Hmoves m Hin) as [Hcs Hlk]. rewrite Heq in Hcs, Hlk.
        right. right. left. split; [by eauto|]. split.
        -- destruct (active t !! c) eqn:Eact; [|done].
           exfalso. apply (Hex c). rewrite Hlk, Eact. eauto.
        -- rewrite Hp', Hp. by rewrite decide_True.
  - (* RemoveActive *)
    unfold RemoveActive. destruct (active t !! c0) as [m|] eqn:E; cbn [snd pending active].
    + destruct (decide (c0 = c)) as [->|Hne].
      * do 3 right. left. by rewrite lookup_delete_eq.
      * left. by rewrite lookup_delete_ne.
    + by left.
  - (* sandbox stopped *)
    rewrite removeActiveForPod_active. simpl.
    destruct (active t !! c) as [m|]; [|by left].
    destruct (decide (am_PodUID m = p)); [|by left].
    do 3 right. by left.
Qed.

(** Each of these five effects keeps the claim on the documented path. *)
Lemma lifecycle_step t t' :
  exclusive t → keyed t → lifecycle t t' →
  exclusive t' ∧ keyed t' ∧ ∀ c, transition (claimState t c) (claimState t' c).
Proof.
  intros Hex Hkey Hstep.
  assert (Hc := λ c, lifecycle_claim t t' c Hex Hkey Hstep).
  split_and!.
  - intros c [[m Hp] [a Ha]]. specialize (Hex c).
    destruct (Hc c) as [[Hp' Ha']|[(_ & Ha' & _)|[(_ & _ & Hp')|[[_ Ha']|[Hp' _]]]]];
      try congruence.
    apply Hex. rewrite <- Hp', <- Ha', Hp, Ha. eauto.
  - intros c m Hp.
    destruct (Hc c) as [[Hp' _]|[(_ & _ & m' & Hp' & Hm')|[(_ & _ & Hp')|[[Hp' _]|[Hp' _]]]]];
      try congruence.
    + apply Hkey. by rewrite <- Hp'.
    + apply Hkey. by rewrite <- Hp'.
  - intros c. specialize (Hex c). unfold claimState.
    destruct (Hc c) as [[Hp' Ha']|[(Ha & Ha' & m' & Hp' & _)
                      |[([m Hp] & Ha & Hp')|[[Hp' Ha']|[Hp' Ha']]]]].
    + rewrite Hp', Ha'. constructor.
    + rewrite Ha, Ha', Hp'. destruct (pending t !! c); constructor.
    + rewrite Hp, Ha, Hp'. destruct (active t' !! c); constructor.
    + rewrite Hp', Ha'.
      destruct (pending t !! c) eqn:Ep, (active t !! c) eqn:Ea; try constructor.
      exfalso. apply Hex. eauto.
    + rewrite Hp', Ha'.
      destruct (pending t !! c) eqn:Ep, (active t !! c) eqn:Ea; try constructor.
      exfalso. apply Hex. eauto.
Qed.

Lemma lifecycle_reachable t :
  rtc lifecycle NewRDMANetnsTracker t → exclusive t ∧ keyed t.
Proof.
  revert t. apply rtc_ind_r.
  - split.
    + intros c [[m Hm] _]. simpl in Hm. by rewrite lookup_empty in Hm.
    + intros k m Hm. simpl in Hm. by rewrite lookup_empty in Hm.
  - intros t t' _ Hstep [Hex Hkey].
    destruct (lifecycle_step t t' Hex Hkey Hstep) as (? & ? & _). done.
Qed.

(** C7.  In every state the tracker reaches from the empty tracker through
    the documented events, no claim has a pending and an active move at the
    same time, and every further event moves every claim along unregistered
    → pending → active → unregistered, or pending → unregistered, or leaves
    it where it is. *)
Theorem C7_tracker_lifecycle_invariant (t : RDMANetnsTracker) :
  rtc lifecycle NewRDMANetnsTracker t →
  (∀ c, ¬ (is_Some (pending t !! c) ∧ is_Some (active t !! c)))
  ∧ (∀ c, claimState t c ≠ PendingAndActive)
  ∧ (∀ t', lifecycle t t' → ∀ c, transition (claimState t c) (claimState t' c)).
Proof.
  intros [Hex Hkey]%lifecycle_reachable. split_and!.
  - exact Hex.
  - intros c. specialize (Hex c). unfold claimState.
    destruct (pending t !! c), (active t !! c); try done.
    intros _. apply Hex. eauto.
  - intros t' Hstep. by destruct (lifecycle_step t t' Hex Hkey Hstep) as (_ & _ & ?).
Qed.
End Lifecycle.

(* ================================================================== *)
(** * Properties of the RoCE combo handler *)
(* ================================================================== *)

Section Combo.
Implicit Types (r nd : LeafHandler) (w : World).

Lemma append_assoc (a b c : string) : (a +:+ b) +:+ c = a +:+ (b +:+ c).
Proof.
  induction a as [|x a IH]; [done|].
  change (String x ((a +:+ b) +:+ c) = String x (a +:+ (b +:+ c))). by rewrite IH.
Qed.

(** A call of a leaf handler's method: the call is recorded, then the
    method runs on the node. *)
Lemma callPrepare_leaf c l req w :
  callPrepare c (leaf l) req w =
    match lh_Prepare l req (node w) with
    | Done res n => Done res {| node := n;
                                calls := calls w ++ [{| callee := c; method := MPrepare req |}] |}
    | Panic n => Panic {| node := n;
                          calls := calls w ++ [{| callee := c; method := MPrepare req |}] |}
    end.
Proof. done. Qed.

Lemma callUnprepare_leaf c l req w :
  callUnprepare c (leaf l) req w =
    match lh_Unprepare l req (node w) with
    | Done res n => Done res {| node := n;
                                calls := calls w ++ [{| callee := c; method := MUnprepare req |}] |}
    | Panic n => Panic {| node := n;
                          calls := calls w ++ [{| callee := c; method := MUnprepare req |}] |}
    end.
Proof. done. Qed.

Lemma callValidate_leaf c l cfg w :
  callValidate c (leaf l) cfg w =
    match lh_Validate l cfg (node w) with
    | Done res n => Done res {| node := n;
                                calls := calls w ++ [{| callee := c; method := MValidate cfg |}] |}
    | Panic n => Panic {| node := n;
                          calls := calls w ++ [{| callee := c; method := MValidate cfg |}] |}
    end.
Proof. done. Qed.

(** C5.  The combo [Unprepare] calls the netdev sub-handler's [Unprepare]
    and then the RDMA sub-handler's [Unprepare], whatever the first one
    returned: for any two sub-handlers and any pair of outcomes [e1], [e2],
    exactly these two calls are made, the node ends as the two of them leave
    it, and the error returned is none when both succeeded and otherwise
    names every failure that occurred. *)
Theorem C5_combo_unprepare_runs_both r nd (req : UnprepareRequest) w
    (e1 e2 : option error) (n1 n2 : Node) :
  let netReq := {| uq_ClaimUID := uq_ClaimUID req; uq_Allocation := netAllocOf req |} in
  let rdmaReq := {| uq_ClaimUID := uq_ClaimUID req; uq_Allocation := rdmaAllocOf req |} in
  lh_Unprepare nd netReq (node w) = Done e1 n1 →
  lh_Unprepare r rdmaReq n1 = Done e2 n2 →
  RoCEHandler_Unprepare (NewRoCEHandler (leaf r) (leaf nd)) req w =
    Done (match e1, e2 with
          | None, None => None
          | Some a, None =>
              Some ("roce unprepare errors: [netdev unprepare: " +:+ a +:+ "]")
          | None, Some b =>
              Some ("roce unprepare errors: [rdma unprepare: " +:+ b +:+ "]")
          | Some a, Some b =>
              Some ("roce unprepare errors: [netdev unprepare: " +:+ a
                    +:+ " rdma unprepare: " +:+ b +:+ "]")
          end)
         {| node := n2;
            calls := calls w ++ [{| callee := NetdevSub; method := MUnprepare netReq |};
                                 {| callee := RdmaSub; method := MUnprepare rdmaReq |}] |}.
Proof.
  intros netReq rdmaReq H1 H2.
  unfold RoCEHandler_Unprepare, NewRoCEHandler. cbn [rdmaHandler netdevHandler].
  unfold bind at 1. rewrite callUnprepare_leaf. fold netReq. rewrite H1.
  unfold bind at 1. rewrite callUnprepare_leaf. cbn [node calls]. fold rdmaReq. rewrite H2.
  rewrite <- app_assoc. cbn [app].
  destruct e1 as [a|], e2 as [b|]; cbn; try done.
  unfold ret. do 2 f_equal. unfold showErrs. cbn.
  rewrite !append_assoc. reflexivity.
Qed.
(** The driver reports a failed handler and writes nothing: the driver
    struct and the node are as the handler left them. *)
Lemma prepareOne_handler_error (d : Driver) (results : gmap string ClaimResult)
    (rc : ResourceClaim) w (e : error) (w1 : World) :
  allocations d !! cl_UID rc = None →
  prepareClaim d rc w = Done (Err e) w1 →
  prepareOne (d, results) rc w = Done (d, <[cl_UID rc := failed e]> results) w1.
Proof.
  intros Hnone Hprep. unfold prepareOne. cbn [fst snd]. rewrite Hnone.
  unfold bind. by rewrite Hprep.
Qed.

(** C2.  The combo [Prepare], for any two sub-handlers.  (a) When the RDMA
    sub-handler's [Prepare] fails, that call is the only call made: the
    netdev sub-handler is not called, and the error is returned.  (b) When
    the RDMA [Prepare] succeeds and the netdev [Prepare] fails, exactly three
    calls are made, the RDMA [Prepare], the netdev [Prepare] and one RDMA
    [Unprepare] on the allocation the RDMA [Prepare] returned; whatever that
    [Unprepare] returns, the netdev error is returned, and no result.
    (c) In the driver, with the combo registered, case (b) leaves the driver
    without an allocation for the claim and the node as the three handler
    calls left it: nothing is written. *)
Theorem C2_combo_prepare_rollback r nd (req : PrepareRequest) (cfg : ComboConfig) w :
  dc_Combo (pq_Config req) = Some cfg →
  let h := NewRoCEHandler (leaf r) (leaf nd) in
  let rdmaPrepare := {| callee := RdmaSub; method := MPrepare (rdmaReqOf req cfg) |} in
  let netPrepare := {| callee := NetdevSub; method := MPrepare (netReqOf req cfg) |} in
  let rollback a :=
    {| callee := RdmaSub;
       method := MUnprepare {| uq_ClaimUID := pq_ClaimUID req; uq_Allocation := a |} |} in
  (∀ e n1,
     lh_Prepare r (rdmaReqOf req cfg) (node w) = Done (Err e) n1 →
     RoCEHandler_Prepare h req w =
       Done (Err ("rdma prepare failed: " +:+ e))
            {| node := n1; calls := calls w ++ [rdmaPrepare] |})
  ∧ (∀ rdmaResult e x n1 n2 n3,
       lh_Prepare r (rdmaReqOf req cfg) (node w) = Done (Ok rdmaResult) n1 →
       lh_Prepare nd (netReqOf req cfg) n1 = Done (Err e) n2 →
       lh_Unprepare r {| uq_ClaimUID := pq_ClaimUID req;
                         uq_Allocation := pr_Allocation rdmaResult |} n2 = Done x n3 →
       RoCEHandler_Prepare h req w =
         Done (Err ("netdev prepare failed: " +:+ e))
              {| node := n3;
                 calls := calls w ++ [rdmaPrepare; netPrepare;
                                      rollback (pr_Allocation rdmaResult)] |})
  ∧ (∀ (d : Driver) (rc : ResourceClaim) (results : gmap string ClaimResult)
       rdmaResult e x n1 n2 n3,
       allocations d !! cl_UID rc = None →
       parseConfig d rc = pq_Config req →
       dc_Type (pq_Config req) = DeviceTypeCombo →
       req = {| pq_ClaimUID := cl_UID rc; pq_Namespace := cl_Namespace rc;
                pq_ClaimName := cl_Name rc;
                pq_AllocatedDevice := getAllocatedDevice d rc;
                pq_Config := pq_Config req |} →
       Get (registry d) DeviceTypeCombo "roce" = Some (roceHandler h) →
       lh_Prepare r (rdmaReqOf req cfg) (node w) = Done (Ok rdmaResult) n1 →
       lh_Prepare nd (netReqOf req cfg) n1 = Done (Err e) n2 →
       lh_Unprepare r {| uq_ClaimUID := pq_ClaimUID req;
                         uq_Allocation := pr_Allocation rdmaResult |} n2 = Done x n3 →
       prepareOne (d, results) rc w =
         Done (d, <[cl_UID rc := failed ("netdev prepare failed: " +:+ e)]> results)
              {| node := n3;
                 calls := calls w
                   ++ [{| callee := ViaRegistry DeviceTypeCombo "roce";
                          method := MValidate (pq_Config req) |};
                       {| callee := ViaRegistry DeviceTypeCombo "roce";
                          method := MPrepare req |};
                       rdmaPrepare; netPrepare; rollback (pr_Allocation rdmaResult)] |}).
Proof.
  intros Hcfg h rdmaPrepare netPrepare rollback.
  assert (Hb : ∀ w0 rdmaResult e x n1 n2 n3,
    lh_Prepare r (rdmaReqOf req cfg) (node w0) = Done (Ok rdmaResult) n1 →
    lh_Prepare nd (netReqOf req cfg) n1 = Done (Err e) n2 →
    lh_Unprepare r {| uq_ClaimUID := pq_ClaimUID req;
                      uq_Allocation := pr_Allocation rdmaResult |} n2 = Done x n3 →
    RoCEHandler_Prepare h req w0 =
      Done (Err ("netdev prepare failed: " +:+ e))
           {| node := n3;
              calls := calls w0 ++ [rdmaPrepare; netPrepare;
                                    rollback (pr_Allocation rdmaResult)] |}).
  { intros w0 rdmaResult e x n1 n2 n3 H1 H2 H3.
    unfold RoCEHandler_Prepare, h, NewRoCEHandler. rewrite Hcfg.
    cbn [rdmaHandler netdevHandler].
    unfold bind at 1. rewrite callPrepare_leaf, H1.
    unfold bind at 1. rewrite callPrepare_leaf. cbn [node calls]. rewrite H2.
    unfold bind at 1. rewrite callUnprepare_leaf. cbn [node calls]. rewrite H3.
    unfold ret. by rewrite <- !app_assoc. }
  split_and!.
  - intros e n1 H1.
    unfold RoCEHandler_Prepare, h, NewRoCEHandler. rewrite Hcfg.
    cbn [rdmaHandler netdevHandler].
    unfold bind at 1. by rewrite callPrepare_leaf, H1.
  - intros rdmaResult e x n1 n2 n3. apply Hb.
  - intros d rc results rdmaResult e x n1 n2 n3 Hnone Hparse Htype Hreq Hget H1 H2 H3.
    apply prepareOne_handler_error; [done|].
    unfold prepareClaim. rewrite Hparse, Htype.
    assert (GetKind (pq_Config req) = "roce") as ->.
    { unfold GetKind. by rewrite Htype. }
    unfold MustGet. rewrite Hget.
    unfold bind at 1. unfold callValidate, bind, record, modify, roceHandler.
    cbn [Validate]. unfold RoCEHandler_Validate. rewrite Hcfg. unfold ret.
    unfold callPrepare, bind, record, modify. cbn [Prepare].
    rewrite <- Hreq.
    erewrite Hb; [|cbn [node]; eassumption..].
    cbn [calls]. by rewrite <- !app_assoc.
Qed.
End Combo.

Section ComboScenarios.

(** What the combo returns on joint success of its sub-handlers. *)
Lemma roce_prepare_joint_success (r nd : LeafHandler) (req : PrepareRequest)
    (cfg : ComboConfig) (w : World) rdmaResult netResult n1 n2 :
  dc_Combo (pq_Config req) = Some cfg →
  lh_Prepare r (rdmaReqOf req cfg) (node w) = Done (Ok rdmaResult) n1 →
  lh_Prepare nd (netReqOf req cfg) n1 = Done (Ok netResult) n2 →
  RoCEHandler_Prepare (NewRoCEHandler (leaf r) (leaf nd)) req w =
    Done (Ok (roceResult req rdmaResult netResult))
         {| node := n2;
            calls := calls w ++ [{| callee := RdmaSub; method := MPrepare (rdmaReqOf req cfg) |};
                                 {| callee := NetdevSub;
                                    method := MPrepare (netReqOf req cfg) |}] |}.
Proof.
  intros Hcfg H1 H2.
  unfold RoCEHandler_Prepare, NewRoCEHandler. rewrite Hcfg. cbn [rdmaHandler netdevHandler].
  unfold bind at 1. rewrite callPrepare_leaf, H1.
  unfold bind at 1. rewrite callPrepare_leaf. cbn [node calls]. rewrite H2.
  unfold ret. by rewrite <- !app_assoc.
Qed.

(** C6.  On joint success the result of the combo [Prepare] carries the
    RDMA device name as its device name, and its metadata carries
    [rdma_device] and [net_interface]; but the device name of the combined
    [AllocationInfo] is the empty string, not the RDMA device name: the
    source never sets the field.  Shown for every pair of sub-results, and
    on the scenario (RDMA device [uverbs0], interface [dm12345678]) with the
    handlers [main.go] composes. *)
Theorem C6_combo_allocation_has_no_device_name :
  (∀ req rdmaResult netResult,
     let res := roceResult req rdmaResult netResult in
     pr_DeviceName res = pr_DeviceName rdmaResult
     ∧ mget (ai_Metadata (pr_Allocation res)) "rdma_device" = pr_DeviceName rdmaResult
     ∧ mget (ai_Metadata (pr_Allocation res)) "net_interface" = pr_DeviceName netResult
     ∧ ai_DeviceName (pr_Allocation res) = "")
  ∧ match RoCEHandler_Prepare productionRoCE requestX freshWorld with
    | Done (Ok res) _ =>
        (pr_DeviceName res,
         mget (ai_Metadata (pr_Allocation res)) "rdma_device",
         mget (ai_Metadata (pr_Allocation res)) "net_interface",
         ai_DeviceName (pr_Allocation res))
    | _ => ("", "", "", "")
    end = ("uverbs0", "uverbs0", "dm12345678", "").
Proof.
  split.
  - intros req rdmaResult netResult res. unfold res, roceResult, mget. cbn.
    rewrite lookup_insert_eq. rewrite lookup_insert_ne by done.
    by rewrite lookup_insert_eq.
  - vm_compute. reflexivity.
Qed.
End ComboScenarios.

(* ================================================================== *)
(** * Properties of the orchestrator *)
(* ================================================================== *)

Section Orchestrator.
Implicit Types (d : Driver) (w : World) (n : Node) (uid : string).

(** The idempotent path of [Prepare]: for a claim the driver has an
    allocation for, the result is computed from that allocation alone; no
    handler method is called and the node is not touched. *)
Lemma prepareOne_replay d (results : gmap string ClaimResult) (rc : ResourceClaim) w
    (existing : AllocationInfo) :
  allocations d !! cl_UID rc = Some existing →
  prepareOne (d, results) rc w =
    Done (d, <[cl_UID rc :=
                 {| kr_Devices :=
                      [{| dv_PoolName := default "default" (ai_Metadata existing !! "poolName");
                          dv_DeviceName := ai_DeviceName existing;
                          dv_CDIDeviceIDs :=
                            [driverName d +:+ "/" +:+ ai_Type existing +:+ "="
                             +:+ ai_DeviceName existing] |}];
                    kr_Err := None |}]> results) w.
Proof.
  intros Hex. unfold prepareOne. cbn [fst snd]. rewrite Hex.
  unfold prepareResultFromAlloc, ret. by destruct (ai_Metadata existing !! "poolName").
Qed.

(** The first preparation of a claim whose handler succeeds and whose
    artifacts can be named and written. *)
Lemma prepareOne_first d (results : gmap string ClaimResult) (rc : ResourceClaim) w
    (result : PrepareResult) (w1 : World) (cdiDeviceID : string) (n2 : Node) :
  allocations d !! cl_UID rc = None →
  prepareClaim d rc w = Done (Ok result) w1 →
  createCDISpec d (cl_UID rc) result (node w1) = Done (Ok cdiDeviceID) n2 →
  prepareOne (d, results) rc w =
    Done (set_allocations (<[cl_UID rc := pr_Allocation result]>) d,
          <[cl_UID rc := {| kr_Devices := [{| dv_PoolName := pr_PoolName result;
                                              dv_DeviceName := pr_DeviceName result;
                                              dv_CDIDeviceIDs := [cdiDeviceID] |}];
                            kr_Err := None |}]> results)
         {| node := n2; calls := calls w1 |}.
Proof.
  intros Hnone Hprep Hcdi. unfold prepareOne. cbn [fst snd]. rewrite Hnone.
  unfold bind at 1. rewrite Hprep. unfold bind at 1. unfold liftN. by rewrite Hcdi.
Qed.

(** The identifier [createCDISpec] returns. *)
Lemma createCDISpec_id d uid (result : PrepareResult) n (cdiDeviceID : string) n2 :
  createCDISpec d uid result n = Done (Ok cdiDeviceID) n2 →
  cdiDeviceID = driverName d +:+ "/" +:+ ai_Type (pr_Allocation result) +:+ "="
                +:+ pr_DeviceName result.
Proof.
  unfold createCDISpec, bind, osMkdirAll, cdiFilePrefix, osWriteFile, saveAllocation, ret, panic.
  destruct (cdiMkdirErr (env n)); [done|].
  destruct (slice_to uid 8); [|done].
  destruct (cdiWriteErr (env n) _); [done|]. cbn.
  unfold bind, cdiFilePrefix, osWriteFile, ret.
  destruct (slice_to uid 8); [|done]. cbn.
  destruct (cdiWriteErr (env n) _); cbn; congruence.
Qed.

(** When the handler's result agrees with the allocation it returns (same
    device name; pool name [default], or recorded under [poolName]), the
    replay from that allocation is the result of the first call. *)
Lemma replay_agrees d (results : gmap string ClaimResult) (rc : ResourceClaim) w
    (result : PrepareResult) (w1 : World) (cdiDeviceID : string) (n2 : Node)
    (results' : gmap string ClaimResult) (w' : World) :
  allocations d !! cl_UID rc = None →
  prepareClaim d rc w = Done (Ok result) w1 →
  createCDISpec d (cl_UID rc) result (node w1) = Done (Ok cdiDeviceID) n2 →
  ai_DeviceName (pr_Allocation result) = pr_DeviceName result →
  default "default" (ai_Metadata (pr_Allocation result) !! "poolName") = pr_PoolName result →
  ∃ d1 r1 w2,
    prepareOne (d, results) rc w = Done (d1, r1) w2
    ∧ ∃ r2, prepareOne (d1, results') rc w' = Done (d1, r2) w'
            ∧ r2 !! cl_UID rc = r1 !! cl_UID rc.
Proof.
  intros Hnone Hprep Hcdi Hdev Hpool.
  eexists _, _, _. split; [by eapply prepareOne_first|].
  eexists. split.
  - apply prepareOne_replay. cbn. by rewrite lookup_insert_eq.
  - rewrite !lookup_insert_eq. rewrite Hdev, Hpool.
    by rewrite (createCDISpec_id _ _ _ _ _ _ Hcdi).
Qed.

(** C1.  The idempotent path returns what it reads in the stored
    [AllocationInfo], and for a RoCE claim that is not what the first call
    returned.  On the scenario, the first [Prepare] of claim X returns pool
    [default], device [uverbs0] and the identifier
    [dra.example.com/combo=uverbs0]; a second [Prepare] of the same claim, by
    the same process or after a restart, calls no handler and adds no
    interface, but returns the empty device name and the identifier
    [dra.example.com/combo=]. *)
Theorem C1_replay_of_combo_claim_differs :
  let uid := cl_UID claimX in
  let first := PrepareResourceClaims exampleDriver [claimX] freshWorld in
  let again := prepareTwice false exampleDriver [claimX] freshWorld in
  let restarted := prepareTwice true exampleDriver [claimX] freshWorld in
  resultOf first uid
    = Some {| kr_Devices := [{| dv_PoolName := "default"; dv_DeviceName := "uverbs0";
                                dv_CDIDeviceIDs := ["dra.example.com/combo=uverbs0"] |}];
              kr_Err := None |}
  ∧ resultOf again uid
    = Some {| kr_Devices := [{| dv_PoolName := "default"; dv_DeviceName := "";
                                dv_CDIDeviceIDs := ["dra.example.com/combo="] |}];
              kr_Err := None |}
  ∧ resultOf restarted uid = resultOf again uid
  ∧ resultOf again uid ≠ resultOf first uid
  ∧ footprint first = Some (4, ["dm12345678"])
  ∧ footprint again = footprint first
  ∧ footprint restarted = footprint first.
Proof.
  intros uid first again restarted.
  assert (Hfirst : resultOf first uid
    = Some {| kr_Devices := [{| dv_PoolName := "default"; dv_DeviceName := "uverbs0";
                                dv_CDIDeviceIDs := ["dra.example.com/combo=uverbs0"] |}];
              kr_Err := None |}) by (vm_compute; reflexivity).
  assert (Hagain : resultOf again uid
    = Some {| kr_Devices := [{| dv_PoolName := "default"; dv_DeviceName := "";
                                dv_CDIDeviceIDs := ["dra.example.com/combo="] |}];
              kr_Err := None |}) by (vm_compute; reflexivity).
  split_and!.
  - exact Hfirst.
  - exact Hagain.
  - rewrite Hagain. vm_compute. reflexivity.
  - rewrite Hfirst, Hagain. discriminate.
  - vm_compute. reflexivity.
  - vm_compute. reflexivity.
  - vm_compute. reflexivity.
Qed.
End Orchestrator.

(* ================================================================== *)
(** * The sandbox-created event on failing relocations *)
(* ================================================================== *)

Section SandboxScenario.

(** The move loop always runs to its end: a failing move does not stop the
    moves after it. *)
Lemma RunPodSandbox_total (pod : PodSandbox) (n : Node) :
  ∃ r n', RunPodSandbox pod n = Done r n'.
Proof.
  unfold RunPodSandbox.
  destruct (decide _) as [?|_]; [by eauto|].
  unfold bind at 1, trackerConsume.
  destruct (ConsumePendingForClaims _ _) as [moves tc].
  destruct (decide _) as [?|_]; [by eauto|].
  destruct (decide _) as [_|_].
  - unfold bind at 1, netnsGetFromPath. destruct (decide _) as [_|_].
    + unfold bind at 1.
      destruct (moveLoop_spec (ps_Uid pod) (getNetNSPath pod) (getNetNSPath pod) moves
                  (set_tracker (λ _, tc) n)) as (n2 & -> & _).
      by eauto.
    + unfold bind at 1. rewrite reAddPending_spec. by eauto.
  - unfold bind at 1. rewrite reAddPending_spec. by eauto.
Qed.

(** One iteration of the move loop whose device cannot be resolved or moved
    leaves the tracker as it is: the drained move is not put back. *)
Lemma moveIntoPod_failure (podUID netnsPath podNS : string) (m : PendingMove) (n : Node) :
  rdmaDevs n !! pm_IBDev m ≠ Some hostNetns ∨ is_Some (rdmaSetNsErr (env n) (pm_IBDev m)) →
  moveIntoPod podUID netnsPath podNS m n = Done tt n.
Proof.
  intros Hfail.
  unfold moveIntoPod, bind, RdmaLinkByName, RdmaLinkSetNsFd, ret.
  destruct (rdmaDevs n !! pm_IBDev m) as [owner|] eqn:E; [|done].
  destruct (decide (owner = hostNetns)) as [->|]; [|done].
  destruct Hfail as [Hfail|[e He]]; [done|]. by rewrite He.
Qed.

(** C3.  A sandbox-created event whose moves fail one by one.  On the
    scenario the three claims A, B and C are pending; the handle of A's
    device cannot be resolved, the reassignment of B's device is refused,
    C's device moves.  [RunPodSandbox] returns no error and goes on to C,
    which ends active; but A and B end unregistered: their moves were
    drained and are not registered as pending again. *)
Theorem C3_failed_move_is_not_registered_again :
  map (claimState (rdmaTracker sandboxNode)) [claimA; claimB; claimC]
    = [Pending; Pending; Pending]
  ∧ extractClaimUIDs (ps_Annotations sandboxPod) = [claimA; claimB; claimC]
  ∧ sandboxOutcome (RunPodSandbox sandboxPod sandboxNode) [claimA; claimB; claimC]
    = Some (None, [Unregistered; Unregistered; Active]).
Proof. split_and!; vm_compute; reflexivity. Qed.

(** When the namespace of the sandbox is unknown or cannot be opened, on the
    other hand, every drained move is registered again: the tracker ends as
    it was. *)
Lemma RunPodSandbox_netns_failure (pod : PodSandbox) (n : Node) :
  keyed (rdmaTracker n) →
  getNetNSPath pod ∉ netnsOpen (env n) →
  ∃ r n', RunPodSandbox pod n = Done r n' ∧ rdmaTracker n' = rdmaTracker n.
Proof.
  intros Hkey Hclosed. unfold RunPodSandbox.
  destruct (decide _) as [?|_]; [by eauto|].
  unfold bind at 1, trackerConsume.
  pose proof (reAddAll_consume (rdmaTracker n)
                (extractClaimUIDs (ps_Annotations pod)) Hkey) as Hback.
  destruct (ConsumePendingForClaims _ _) as [moves tc]. cbn [fst snd] in Hback.
  destruct (decide _) as [Hnil|_].
  { eexists _, _. split; [done|]. destruct moves; [|done]. by rewrite <- Hback. }
  destruct (decide _) as [_|_].
  - unfold bind at 1, netnsGetFromPath. rewrite decide_False by done.
    unfold bind at 1. rewrite reAddPending_spec. eexists _, _. split; [done|]. exact Hback.
  - unfold bind at 1. rewrite reAddPending_spec. eexists _, _. split; [done|]. exact Hback.
Qed.

(** On the scenario, with a namespace that is gone: *)
Lemma RunPodSandbox_netns_failure_keeps_pending :
  let n := set_rdmaDevs (λ _, ∅) sandboxNode in
  let pod := {| ps_Uid := "pod-1"; ps_Namespace := "default"; ps_Name := "workload";
                ps_Annotations := ps_Annotations sandboxPod;
                ps_Linux := Some [{| ns_Type := "network"; ns_Path := "/proc/1/ns/gone" |}] |} in
  sandboxOutcome (RunPodSandbox pod n) [claimA; claimB; claimC]
    = Some (Some "get pod netns: open /proc/1/ns/gone: no such file or directory",
            [Pending; Pending; Pending]).
Proof. vm_compute. reflexivity. Qed.

(** The guards of the life cycle matter: the tracker's methods alone do not
    keep a claim from being pending and active at once. *)
Lemma tracker_methods_alone_allow_both (c p d n : string) :
  claimState (MarkActive (AddPending NewRDMANetnsTracker c d) c p d n) c = PendingAndActive.
Proof.
  unfold claimState, MarkActive, AddPending. cbn [pending active].
  by rewrite !lookup_insert_eq.
Qed.
End SandboxScenario.

(* ================================================================== *)
(** * Release, and the claim UIDs the driver can name artifacts for *)
(* ================================================================== *)

Section Release.
Implicit Types (d : Driver) (w : World) (n : Node) (uid : string).

(** [os.Remove] never changes the answers of the node, and leaves in
    [/etc/cdi] either what was there or that without the file. *)
Lemma osRemove_spec (name : string) n :
  ∃ e, osRemove name n =
         Done e (set_cdiFiles (λ files, if cdiRemoveErr (env n) name is Some _ then files
                                        else delete name files) n).
Proof.
  unfold osRemove. destruct (cdiFiles n !! name) eqn:E.
  - destruct (cdiRemoveErr (env n) name); eexists; [|done]. by destruct n.
  - eexists. f_equal. destruct n. unfold set_cdiFiles. cbn in *. f_equal.
    destruct (cdiRemoveErr _ _); [done|]. by rewrite delete_id.
Qed.

Lemma cdiFilePrefix_ok d uid n :
  8 ≤ String.length uid →
  cdiFilePrefix d uid n =
    Done (replaceSlash (driverName d) +:+ "-" +:+ String.substring 0 8 uid) n.
Proof. intros Hlen. unfold cdiFilePrefix, slice_to. by rewrite decide_True. Qed.

Lemma cdiFilePrefix_panic d uid n :
  String.length uid < 8 → cdiFilePrefix d uid n = Panic n.
Proof. intros Hlen. unfold cdiFilePrefix, slice_to. rewrite decide_False by lia. done. Qed.

(** [deleteCDISpec] for a UID it can name artifacts for: both files are
    removed, unless [os.Remove] itself fails. *)
Lemma deleteCDISpec_ok d uid n :
  8 ≤ String.length uid →
  let prefix := replaceSlash (driverName d) +:+ "-" +:+ String.substring 0 8 uid in
  ∃ n', deleteCDISpec d uid n = Done tt n'
        ∧ env n' = env n ∧ links n' = links n ∧ rdmaDevs n' = rdmaDevs n
        ∧ rdmaTracker n' = rdmaTracker n
        ∧ (∀ name x, cdiFiles n' !! name = Some x → cdiFiles n !! name = Some x)
        ∧ ((∀ name, cdiRemoveErr (env n) name = None) →
           cdiFiles n' = delete (prefix +:+ ".alloc.json") (delete (prefix +:+ ".json") (cdiFiles n))).
Proof.
  intros Hlen prefix.
  unfold deleteCDISpec, removeAllocationState. unfold bind at 1.
  rewrite cdiFilePrefix_ok by done. fold prefix.
  unfold bind at 1. destruct (osRemove_spec (prefix +:+ ".json") n) as [e1 ->].
  unfold bind at 1. rewrite cdiFilePrefix_ok by done. fold prefix.
  unfold bind at 1. destruct (osRemove_spec (prefix +:+ ".alloc.json")
    (set_cdiFiles (λ files, if cdiRemoveErr (env n) (prefix +:+ ".json") is Some _ then files
                            else delete (prefix +:+ ".json") files) n)) as [e2 ->].
  eexists. split; [done|]. cbn. split_and!; try done.
  - intros name x.
    destruct (cdiRemoveErr (env n) (prefix +:+ ".alloc.json")),
             (cdiRemoveErr (env n) (prefix +:+ ".json")); try done.
    + by intros [_ ?]%lookup_delete_Some.
    + by intros [_ ?]%lookup_delete_Some.
    + by intros [_ [_ ?]%lookup_delete_Some]%lookup_delete_Some.
  - intros Hno. by rewrite !Hno.
Qed.

(** Release of one claim, the body of the loop of
    [UnprepareResourceClaims].  (a) When the driver has no allocation for
    the UID, the claim is reported released (nil error), no handler is
    called and nothing changes.  (b) When no handler is registered for the
    allocation's type and kind, or (c) the handler's [Unprepare] returns an
    error, that error is reported for this claim, the allocation stays in
    memory and the node is as the handler left it: the driver removes no
    file; the results of other claims are not touched.  (d) When [Unprepare]
    succeeds, the claim is reported released, the allocation is removed from
    memory, and the driver removes the two artifacts of the claim (and no
    other file) as far as [os.Remove] lets it. *)
Lemma unprepareOne_cases d (results : gmap string (option error))
    (claim : NamespacedObject) w :
  let uid := no_UID claim in
  (allocations d !! uid = None →
     unprepareOne (d, results) claim w = Done (d, <[uid := None]> results) w)
  ∧ (∀ alloc,
       allocations d !! uid = Some alloc →
       Get (registry d) (ai_Type alloc) (ai_Kind alloc) = None →
       unprepareOne (d, results) claim w =
         Done (d, <[uid := Some ("no handler for type=" +:+ ai_Type alloc +:+ " kind="
                                 +:+ ai_Kind alloc +:+ " during unprepare")]> results) w)
  ∧ (∀ alloc h err w1,
       allocations d !! uid = Some alloc →
       Get (registry d) (ai_Type alloc) (ai_Kind alloc) = Some h →
       callUnprepare (ViaRegistry (ai_Type alloc) (ai_Kind alloc)) h
         {| uq_ClaimUID := ai_ClaimUID alloc; uq_Allocation := alloc |} w = Done (Some err) w1 →
       unprepareOne (d, results) claim w = Done (d, <[uid := Some err]> results) w1)
  ∧ (∀ alloc h w1,
       allocations d !! uid = Some alloc →
       Get (registry d) (ai_Type alloc) (ai_Kind alloc) = Some h →
       callUnprepare (ViaRegistry (ai_Type alloc) (ai_Kind alloc)) h
         {| uq_ClaimUID := ai_ClaimUID alloc; uq_Allocation := alloc |} w = Done None w1 →
       8 ≤ String.length uid →
       let prefix := replaceSlash (driverName d) +:+ "-" +:+ String.substring 0 8 uid in
       ∃ w2,
         unprepareOne (d, results) claim w =
           Done (set_allocations (delete uid) d, <[uid := None]> results) w2
         ∧ calls w2 = calls w1
         ∧ links (node w2) = links (node w1)
         ∧ rdmaTracker (node w2) = rdmaTracker (node w1)
         ∧ (∀ name x, cdiFiles (node w2) !! name = Some x →
                      cdiFiles (node w1) !! name = Some x)
         ∧ ((∀ name, cdiRemoveErr (env (node w1)) name = None) →
            cdiFiles (node w2) =
              delete (prefix +:+ ".alloc.json") (delete (prefix +:+ ".json")
                (cdiFiles (node w1))))).
Proof.
  intros uid. split_and!.
  - intros Hnone. unfold unprepareOne. cbn [fst snd]. fold uid. by rewrite Hnone.
  - intros alloc Halloc Hget. unfold unprepareOne. cbn [fst snd]. fold uid. rewrite Halloc.
    unfold bind at 1. unfold unprepareAllocation. by rewrite Hget.
  - intros alloc h err w1 Halloc Hget Hcall. unfold unprepareOne. cbn [fst snd]. fold uid.
    rewrite Halloc. unfold bind at 1. unfold unprepareAllocation. by rewrite Hget, Hcall.
  - intros alloc h w1 Halloc Hget Hcall Hlen prefix.
    destruct (deleteCDISpec_ok d uid (node w1) Hlen)
      as (n' & Hdel & _ & Hlinks & _ & Htr & Hsub & Hrm).
    exists {| node := n'; calls := calls w1 |}. split_and!; try done.
    unfold unprepareOne. cbn [fst snd]. fold uid.
    rewrite Halloc. unfold bind at 1. unfold unprepareAllocation. rewrite Hget, Hcall.
    unfold bind at 1, liftN. by rewrite Hdel.
Qed.

(** C10.  The driver names the artifacts of a claim after the first eight
    bytes of its UID, without a length check.  For a UID of fewer than eight
    bytes the slice panics: in [cdiFilePrefix], hence in [saveAllocation],
    [removeAllocationState] and [deleteCDISpec], and in [createCDISpec] once
    the directory exists; in the [Prepare] of the dummy and of the IPoIB
    handler once the configuration is accepted.  At the boundary, the
    [Prepare] of such a claim whose handler succeeded and the release of such
    a claim whose [Unprepare] succeeded panic instead of returning a
    per-claim error.  For a UID of eight bytes or more [cdiFilePrefix]
    returns the prefix. *)
Theorem C10_claim_uid_needs_eight_bytes d uid :
  (String.length uid < 8 →
     (∀ n, cdiFilePrefix d uid n = Panic n)
     ∧ (∀ alloc n, saveAllocation d uid alloc n = Panic n)
     ∧ (∀ n, removeAllocationState d uid n = Panic n)
     ∧ (∀ n, deleteCDISpec d uid n = Panic n)
     ∧ (∀ result n, cdiMkdirErr (env n) = None → createCDISpec d uid result n = Panic n)
     ∧ (∀ req n, pq_ClaimUID req = uid → is_Some (dc_Netdev (pq_Config req)) →
                 DummyHandler_Prepare req n = Panic n)
     ∧ (∀ req n, pq_ClaimUID req = uid →
                 IpoibHandler_Validate (pq_Config req) n = Done None n →
                 (∀ nd, dc_Netdev (pq_Config req) = Some nd →
                        ∃ connected, ipoibMode (nc_Mode nd) = Ok connected) →
                 IpoibHandler_Prepare req n = Panic n)
     ∧ (∀ (results : gmap string ClaimResult) rc w result w1,
          cl_UID rc = uid → allocations d !! uid = None →
          prepareClaim d rc w = Done (Ok result) w1 →
          cdiMkdirErr (env (node w1)) = None →
          prepareOne (d, results) rc w = Panic w1)
     ∧ (∀ (results : gmap string (option error)) claim w alloc w1,
          no_UID claim = uid → allocations d !! uid = Some alloc →
          unprepareAllocation d alloc w = Done None w1 →
          unprepareOne (d, results) claim w = Panic w1))
  ∧ (8 ≤ String.length uid →
     ∀ n, cdiFilePrefix d uid n =
            Done (replaceSlash (driverName d) +:+ "-" +:+ String.substring 0 8 uid) n).
Proof.
  split; [|intros Hlen n; by apply cdiFilePrefix_ok].
  intros Hlen.
  assert (Hslice : slice_to uid 8 = None).
  { unfold slice_to. by rewrite decide_False by lia. }
  assert (Hprefix := λ n, cdiFilePrefix_panic d uid n Hlen).
  split_and!.
  - done.
  - intros alloc n. unfold saveAllocation, bind. by rewrite Hprefix.
  - intros n. unfold removeAllocationState, bind. by rewrite Hprefix.
  - intros n. unfold deleteCDISpec, bind. by rewrite Hprefix.
  - intros result n Hmk. unfold createCDISpec, bind, osMkdirAll. rewrite Hmk.
    by rewrite Hprefix.
  - intros req n <- [nd Hnd]. unfold DummyHandler_Prepare. by rewrite Hnd, Hslice.
  - intros req n <- Hval Hmode. unfold IpoibHandler_Prepare.
    unfold IpoibHandler_Validate in Hval.
    destruct (dc_Netdev (pq_Config req)) as [nd|]; [|done].
    destruct (String.eqb (nc_Parent nd) ""); [done|].
    destruct (nc_Pkey nd =? 0)%Z; [done|].
    destruct (Hmode nd eq_refl) as [connected ->]. by rewrite Hslice.
  - intros results rc w result w1 Huid Hnone Hprep Hmk.
    unfold prepareOne. cbn [fst snd]. rewrite Huid, Hnone.
    unfold bind at 1. rewrite Hprep. unfold bind at 1, liftN.
    unfold createCDISpec, bind, osMkdirAll. rewrite Hmk, Hprefix. by destruct w1.
  - intros results claim w alloc w1 Huid Halloc Hunprep.
    unfold unprepareOne. cbn [fst snd]. rewrite Huid, Halloc.
    unfold bind at 1. rewrite Hunprep. unfold bind at 1, liftN.
    unfold deleteCDISpec, bind. rewrite Hprefix. by destruct w1.
Qed.
End Release.

(* ================================================================== *)
(** * The theorems at work on the scenarios *)
(* ================================================================== *)

(** Release of claim X when its interface cannot be deleted: the RDMA side
    is released all the same, and the error names the failure. *)
Lemma C5_witness :
  callSummary (RoCEHandler_Unprepare productionRoCE releaseX busyWorld)
  = Some (Some ("roce unprepare errors: [netdev unprepare: failed to delete dummy "
                +:+ "interface dm12345678: device or resource busy]"),
          [(NetdevSub, "Unprepare"); (RdmaSub, "Unprepare")]).
Proof.
  unfold productionRoCE.
  rewrite (C5_combo_unprepare_runs_both (uverbsHandler {| uh_Tracker := true |}) dummyHandler
             releaseX busyWorld
             (Some "failed to delete dummy interface dm12345678: device or resource busy")
             None (node busyWorld) (set_cachedMode (Some NetnsShared) (node busyWorld))).
  - reflexivity.
  - vm_compute. reflexivity.
  - vm_compute. reflexivity.
Defined.

(** [Prepare] of claim X when the kernel refuses the dummy interface: the
    uverbs device is prepared, the interface is not, the uverbs device is
    released once; the driver reports the failure and keeps no allocation. *)
Lemma C2_witness :
  dc_Combo (pq_Config requestX)
  = Some {| cc_RDMA := {| rc_PreferDevice := "" |}; cc_Netdev := dummyNetdev |}
  ∧ callSummary (RoCEHandler_Prepare productionRoCE requestX noLinkWorld)
    = Some (Err ("netdev prepare failed: failed to create dummy interface dm12345678: "
                 +:+ "operation not permitted"),
            [(RdmaSub, "Prepare"); (NetdevSub, "Prepare"); (RdmaSub, "Unprepare")])
  ∧ callSummary (prepareOne (exampleDriver, ∅) claimX noLinkWorld)
    = Some ((exampleDriver,
             {[cl_UID claimX :=
                 failed ("netdev prepare failed: failed to create dummy interface "
                         +:+ "dm12345678: operation not permitted")]}),
            [(ViaRegistry DeviceTypeCombo "roce", "Validate");
             (ViaRegistry DeviceTypeCombo "roce", "Prepare");
             (RdmaSub, "Prepare"); (NetdevSub, "Prepare"); (RdmaSub, "Unprepare")]).
Proof.
  destruct (C2_combo_prepare_rollback (uverbsHandler {| uh_Tracker := true |}) dummyHandler
              requestX {| cc_RDMA := {| rc_PreferDevice := "" |}; cc_Netdev := dummyNetdev |}
              noLinkWorld eq_refl) as (_ & Hb & Hc).
  split_and!.
  - reflexivity.
  - unfold productionRoCE.
    erewrite Hb; [reflexivity | vm_compute; reflexivity ..].
  - erewrite (Hc exampleDriver claimX ∅).
    + reflexivity.
    + reflexivity.
    + reflexivity.
    + reflexivity.
    + reflexivity.
    + reflexivity.
    + vm_compute. reflexivity.
    + vm_compute. reflexivity.
    + vm_compute. reflexivity.
Defined.

(** The tracker after [AddPending("claim-1", "mlx5_0")] on a new tracker. *)
Lemma C7_witness :
  let t := AddPending NewRDMANetnsTracker "claim-1" "mlx5_0" in
  (∀ c, ¬ (is_Some (pending t !! c) ∧ is_Some (active t !! c)))
  ∧ (∀ c, claimState t c ≠ PendingAndActive)
  ∧ (∀ t', lifecycle t t' → ∀ c, transition (claimState t c) (claimState t' c)).
Proof.
  apply C7_tracker_lifecycle_invariant.
  apply rtc_once, lc_prepare. reflexivity.
Defined.

(** A UID of five bytes. *)
Lemma C10_witness :
  String.length "short" < 8
  ∧ (∀ n, deleteCDISpec exampleDriver "short" n = Panic n)
  ∧ (∀ n, IpoibHandler_Prepare
            {| pq_ClaimUID := "short"; pq_Namespace := "default"; pq_ClaimName := "c";
               pq_AllocatedDevice := "";
               pq_Config := {| dc_Type := DeviceTypeNetdev;
                               dc_Netdev := Some {| nc_Kind := "ipoib"; nc_InterfaceName := "";
                                                    nc_MTU := 0; nc_Parent := "ib0";
                                                    nc_Mode := ""; nc_VFIndex := 0;
                                                    nc_HostDevice := ""; nc_Pkey := 0x8001 |};
                               dc_RDMA := None; dc_Combo := None |} |} n = Panic n).
Proof.
  assert (Hlen : String.length "short" < 8) by (vm_compute; lia).
  destruct (proj1 (C10_claim_uid_needs_eight_bytes exampleDriver "short") Hlen)
    as (_ & _ & _ & Hdel & _ & _ & Hib & _).
  split_and!; [exact Hlen | exact Hdel |].
  intros n. apply Hib; [reflexivity | reflexivity |].
  intros nd [= <-]. by exists false.
Defined.

(* ================================================================== *)
(** * The tests of the repository, run on the embedding *)
(* ================================================================== *)

Section RepositoryTests.

(** [TestIsUUID]. *)
Example test_isUUID :
  map isUUID ["aabbccdd-1234-5678-abcd-1234567890ab";
              "AABBCCDD-1234-5678-ABCD-1234567890AB";
              "aabbccdd12345678abcd1234567890ab";
              "aabbccdd-1234-5678-abcd-1234567890a";
              "aabbccdd-1234-5678-abcd-1234567890abc";
              "ggbbccdd-1234-5678-abcd-1234567890ab";
              ""]
  = [true; true; false; false; false; false; false].
Proof. vm_compute. reflexivity. Qed.

(** [TestExtractUUIDs]. *)
Example test_extractUUIDs :
  map (λ s, length (extractUUIDs s))
    [""; "hello world"; "uid=aabbccdd-1234-5678-abcd-1234567890ab";
     "aabbccdd-1234-5678-abcd-1234567890ab,eeff0011-2233-4455-6677-8899aabbccdd";
     "{" +:+ quote +:+ "uid" +:+ quote +:+ ":" +:+ quote
       +:+ "aabbccdd-1234-5678-abcd-1234567890ab" +:+ quote +:+ "}"]
  = [0; 0; 1; 2; 1].
Proof. vm_compute. reflexivity. Qed.

(** [TestExtractClaimUIDs] and [TestExtractClaimUIDs_Dedup]. *)
Example test_extractClaimUIDs :
  extractClaimUIDs [("resource.kubernetes.io/my-container",
                     "aabbccdd-1234-5678-abcd-1234567890ab");
                    ("other-annotation", "eeff0011-2233-4455-6677-8899aabbccdd")]
  = ["aabbccdd-1234-5678-abcd-1234567890ab"]
  ∧ extractClaimUIDs [("resource.kubernetes.io/c1", "aabbccdd-1234-5678-abcd-1234567890ab");
                      ("resource.kubernetes.io/c2", "aabbccdd-1234-5678-abcd-1234567890ab")]
    = ["aabbccdd-1234-5678-abcd-1234567890ab"].
Proof. split; vm_compute; reflexivity. Qed.

(** [TestDeviceConfig_GetKind]. *)
Example test_GetKind :
  map GetKind
    [{| dc_Type := DeviceTypeNetdev; dc_RDMA := None; dc_Combo := None;
        dc_Netdev := Some {| nc_Kind := "macvlan"; nc_InterfaceName := ""; nc_MTU := 0;
                             nc_Parent := ""; nc_Mode := ""; nc_VFIndex := 0;
                             nc_HostDevice := ""; nc_Pkey := 0 |} |};
     {| dc_Type := DeviceTypeNetdev; dc_Netdev := None; dc_RDMA := None; dc_Combo := None |};
     {| dc_Type := DeviceTypeRDMA; dc_Netdev := None; dc_RDMA := None; dc_Combo := None |};
     {| dc_Type := DeviceTypeCombo; dc_Netdev := None; dc_RDMA := None; dc_Combo := None |};
     {| dc_Type := "alien"; dc_Netdev := None; dc_RDMA := None; dc_Combo := None |}]
  = ["macvlan"; ""; "uverbs"; "roce"; ""].
Proof. vm_compute. reflexivity. Qed.

(** [TestTracker_AddAndConsumePending]. *)
Example test_tracker_add_and_consume :
  let tr := AddPending (AddPending NewRDMANetnsTracker "claim-1" "mlx5_0") "claim-2" "mlx5_1" in
  let r1 := ConsumePendingForClaims tr ["claim-1"; "claim-3"] in
  let r2 := ConsumePendingForClaims r1.2 ["claim-1"] in
  let r3 := ConsumePendingForClaims r2.2 ["claim-2"] in
  map pm_IBDev r1.1 = ["mlx5_0"] ∧ r2.1 = [] ∧ length r3.1 = 1.
Proof. vm_compute. done. Qed.

(** [TestTracker_RemovePending] and [TestTracker_String]. *)
Example test_tracker_remove_and_summary :
  (ConsumePendingForClaims
     (RemovePending (AddPending NewRDMANetnsTracker "claim-1" "mlx5_0") "claim-1")
     ["claim-1"]).1 = []
  ∧ trackerSummary (MarkActive (AddPending NewRDMANetnsTracker "c1" "mlx5_0")
                      "c2" "p1" "mlx5_1" "") = (1, 1).
Proof. vm_compute. done. Qed.

(** [TestTracker_ActiveLifecycle]. *)
Example test_tracker_active_lifecycle :
  let tr := MarkActive (MarkActive (MarkActive NewRDMANetnsTracker
              "claim-1" "pod-uid-1" "mlx5_0" "") "claim-2" "pod-uid-1" "mlx5_1" "")
              "claim-3" "pod-uid-2" "mlx5_2" "" in
  let r1 := RemoveActive tr "claim-1" in
  let r2 := RemoveActive r1.2 "claim-1" in
  let r3 := RemoveActiveForPod r2.2 "pod-uid-1" in
  length (GetActiveForPod tr "pod-uid-1") = 2
  ∧ length (GetActiveForPod tr "pod-uid-2") = 1
  ∧ (am_IBDev <$> r1.1, am_PodUID <$> r1.1) = (Some "mlx5_0", Some "pod-uid-1")
  ∧ r2.1 = None
  ∧ map am_IBDev r3.1 = ["mlx5_1"]
  ∧ length (GetActiveForPod r3.2 "pod-uid-2") = 1.
Proof. vm_compute. done. Qed.

(** [TestHandlerRegistry_RegisterAndGet], [_MustGet] and [_OverwriteKind],
    read on the kinds a lookup finds. *)
Example test_registry :
  let h := leaf (fakeHandler DeviceTypeNetdev ["macvlan"; "ipvlan"] (Err "") None) in
  let reg := Register NewHandlerRegistry h in
  let h1 := leaf (fakeHandler DeviceTypeNetdev ["dummy"] (Err "first") None) in
  let h2 := leaf (fakeHandler DeviceTypeNetdev ["dummy"] (Err "second") None) in
  Get reg DeviceTypeNetdev "macvlan" = Some h
  ∧ Get reg DeviceTypeNetdev "ipvlan" = Some h
  ∧ Get reg DeviceTypeNetdev "veth" = None
  ∧ Get reg DeviceTypeRDMA "uverbs" = None
  ∧ MustGet reg DeviceTypeNetdev "dummy"
    = Err "no handler registered for type=netdev kind=dummy"
  ∧ Get (Register (Register NewHandlerRegistry h1) h2) DeviceTypeNetdev "dummy" = Some h2.
Proof.
  intros h reg h1 h2. unfold reg. unfold MustGet. rewrite !Get_Register, !Get_New.
  split_and!; reflexivity.
Qed.

(** [TestRoCEHandler_PrepareSuccess]. *)
Example test_roce_prepare_success :
  let h := NewRoCEHandler (leaf (fakeHandler DeviceTypeRDMA ["uverbs"] (Ok testRdmaResult) None))
             (leaf (fakeHandler DeviceTypeNetdev ["dummy"] (Ok testNetResult) None)) in
  match callSummary (RoCEHandler_Prepare h
                       (testRequest "aabbccdd-0000-0000-0000-000000000000") freshWorld) with
  | Some (Ok result, made) =>
      (made, pr_PoolName result, pr_DeviceName result,
       length (ce_DeviceNodes (pr_CDIEdits result)),
       length (ce_NetDevices (pr_CDIEdits result)),
       mget (ai_Metadata (pr_Allocation result)) "rdma_device",
       mget (ai_Metadata (pr_Allocation result)) "net_interface",
       ai_Kind (pr_Allocation result))
      = ([(RdmaSub, "Prepare"); (NetdevSub, "Prepare")], "rdma-pool", "uverbs0", 1, 1,
         "uverbs0", "dmaabbccdd", "roce")
  | _ => False
  end.
Proof. vm_compute. reflexivity. Qed.

(** [TestRoCEHandler_PrepareRdmaFails] and
    [TestRoCEHandler_PrepareNetdevFailsRollsBackRdma]. *)
Example test_roce_prepare_failures :
  let req := testRequest "rollback0-0000-0000-0000-000000000000" in
  callSummary (RoCEHandler_Prepare
    (NewRoCEHandler (leaf (fakeHandler DeviceTypeRDMA ["uverbs"] (Err "rdma device not found") None))
       (leaf (fakeHandler DeviceTypeNetdev ["dummy"] (Ok testNetResult) None))) req freshWorld)
  = Some (Err "rdma prepare failed: rdma device not found", [(RdmaSub, "Prepare")])
  ∧ callSummary (RoCEHandler_Prepare
      (NewRoCEHandler (leaf (fakeHandler DeviceTypeRDMA ["uverbs"] (Ok testRdmaResult) None))
         (leaf (fakeHandler DeviceTypeNetdev ["dummy"] (Err "netdev creation failed") None)))
      req freshWorld)
    = Some (Err "netdev prepare failed: netdev creation failed",
            [(RdmaSub, "Prepare"); (NetdevSub, "Prepare"); (RdmaSub, "Unprepare")]).
Proof. split; vm_compute; reflexivity. Qed.

(** [TestRoCEHandler_UnprepareSuccess] and [_UnpreparePartialFailure]. *)
Example test_roce_unprepare :
  callSummary (RoCEHandler_Unprepare
    (NewRoCEHandler (leaf (fakeHandler DeviceTypeRDMA ["uverbs"] (Err "") None))
       (leaf (fakeHandler DeviceTypeNetdev ["dummy"] (Err "") None))) releaseX freshWorld)
  = Some (None, [(NetdevSub, "Unprepare"); (RdmaSub, "Unprepare")])
  ∧ callSummary (RoCEHandler_Unprepare
      (NewRoCEHandler
         (leaf (fakeHandler DeviceTypeRDMA ["uverbs"] (Err "") (Some "rdma cleanup failed")))
         (leaf (fakeHandler DeviceTypeNetdev ["dummy"] (Err "") None))) releaseX freshWorld)
    = Some (Some "roce unprepare errors: [rdma unprepare: rdma cleanup failed]",
            [(NetdevSub, "Unprepare"); (RdmaSub, "Unprepare")]).
Proof. split; vm_compute; reflexivity. Qed.

(** [TestDummyHandler_PrepareAndUnprepare], on a node that lets the handler
    create interfaces. *)
Example test_dummy_prepare_and_unprepare :
  let req := {| pq_ClaimUID := "aabbccdd-1111-2222-3333-444444444444"; pq_Namespace := "";
                pq_ClaimName := ""; pq_AllocatedDevice := "";
                pq_Config := netdevOnly {| nc_Kind := "dummy"; nc_InterfaceName := "test0";
                                           nc_MTU := 0; nc_Parent := ""; nc_Mode := "";
                                           nc_VFIndex := 0; nc_HostDevice := "";
                                           nc_Pkey := 0 |} |} in
  match DummyHandler_Prepare req (freshNode "shared") with
  | Done (Ok result) n1 =>
      (pr_DeviceName result, ai_Kind (pr_Allocation result),
       map nd_Name (ce_NetDevices (pr_CDIEdits result)),
       (map_to_list (links n1)).*1)
      = ("dmaabbccdd", "dummy", ["test0"], ["dmaabbccdd"])
      ∧ match DummyHandler_Unprepare {| uq_ClaimUID := pq_ClaimUID req;
                                        uq_Allocation := pr_Allocation result |} n1 with
        | Done e n2 => (e, (map_to_list (links n2)).*1) = (None, [])
        | Panic _ => False
        end
  | _ => False
  end.
Proof. vm_compute. done. Qed.

(** [TestIpoibHandler_Validate], [_PrepareNilConfig], [_MissingParent] and
    [_UnsupportedMode]; and the partition key as [Prepare] records it. *)
Example test_ipoib :
  let validate cfg := returned (IpoibHandler_Validate cfg (freshNode "shared")) in
  let prepare uid cfg :=
    returned (IpoibHandler_Prepare
                {| pq_ClaimUID := uid; pq_Namespace := ""; pq_ClaimName := "";
                   pq_AllocatedDevice := ""; pq_Config := cfg |} (freshNode "shared")) in
  validate {| dc_Type := ""; dc_Netdev := None; dc_RDMA := None; dc_Combo := None |}
    = Some (Some "netdev config is required for ipoib")
  ∧ validate (netdevOnly (ipoibNetdev "" "" 0))
    = Some (Some "parent interface is required for ipoib")
  ∧ validate (netdevOnly (ipoibNetdev "ib0" "" 0)) = Some (Some "pkey is required for ipoib")
  ∧ validate (netdevOnly (ipoibNetdev "ib0" "" 0x8001)) = Some None
  ∧ prepare "ibnilcfg-0000-0000-0000-000000000000"
      {| dc_Type := DeviceTypeNetdev; dc_Netdev := None; dc_RDMA := None; dc_Combo := None |}
    = Some (Err "netdev config is required for ipoib")
  ∧ prepare "ibnop000-0000-0000-0000-000000000000"
      (netdevOnly (ipoibNetdev "does-not-exist-ib" "" 0x8001))
    = Some (Err "parent interface does-not-exist-ib not found: Link not found")
  ∧ prepare "ibbad000-0000-0000-0000-000000000000"
      (netdevOnly (ipoibNetdev "ib0" "badmode" 0x8001))
    = Some (Err "unsupported ipoib mode: badmode (want datagram or connected)")
  ∧ map hex04 [Z.lor 1 0x8000; Z.lor 0x8001 0x8000; 0x12; -1]%Z
    = ["8001"; "8001"; "0012"; "-001"].
Proof. vm_compute. split_and!; reflexivity. Qed.
End RepositoryTests.

(* ================================================================== *)
(** * The events of the life cycle are the events of the code *)
(* ================================================================== *)

Section EventsOfTheCode.
Implicit Types (n : Node).

Lemma keeps_ret {A} (a : A) : keepsTracker (ret a).
Proof. intros n. by exists a, n. Qed.

Lemma keeps_bind {A B} (m : N A) (k : A → N B) :
  keepsTracker m → (∀ a, keepsTracker (k a)) → keepsTracker (bind m k).
Proof.
  intros Hm Hk n. destruct (Hm n) as (a & n1 & Hrun & Ht).
  destruct (Hk a n1) as (b & n2 & Hrun' & Ht').
  exists b, n2. unfold bind. rewrite Hrun, Hrun'. split; [done|]. by rewrite Ht'.
Qed.

Lemma keeps_netnsGetFromPath path : keepsTracker (netnsGetFromPath path).
Proof. intros n. unfold netnsGetFromPath. destruct (decide _); by eauto. Qed.

Lemma keeps_netnsSet path : keepsTracker (netnsSet path).
Proof. intros n. unfold netnsSet. by eauto. Qed.

Lemma keeps_RdmaLinkByName cur name : keepsTracker (RdmaLinkByName cur name).
Proof.
  intros n. unfold RdmaLinkByName.
  destruct (rdmaDevs n !! name) as [owner|]; [destruct (decide _)|]; by eauto.
Qed.

Lemma keeps_RdmaLinkSetNsFd link ns : keepsTracker (RdmaLinkSetNsFd link ns).
Proof. intros n. unfold RdmaLinkSetNsFd. destruct (rdmaSetNsErr _ _); by eauto. Qed.

Lemma keeps_enterPodNetns path : keepsTracker (enterPodNetns path).
Proof.
  unfold enterPodNetns. destruct (decide _); [|apply keeps_ret].
  apply keeps_bind; [apply keeps_netnsGetFromPath|]. intros [podNS|e]; [|apply keeps_ret].
  apply keeps_bind; [apply keeps_netnsSet|]. intros [e|]; apply keeps_ret.
Qed.

Lemma keeps_forEach {A} (f : A → N unit) (l : list A) :
  (∀ a, keepsTracker (f a)) → keepsTracker (forEach f l).
Proof.
  intros Hf. induction l as [|a l IH]; [apply keeps_ret|].
  change (forEach f (a :: l)) with (bind (f a) (λ _, forEach f l)).
  apply keeps_bind; [apply Hf | by intros _].
Qed.

Lemma keeps_returnFromPod cur hostNS m : keepsTracker (returnFromPod cur hostNS m).
Proof.
  unfold returnFromPod. apply keeps_bind; [apply keeps_RdmaLinkByName|].
  intros [link|e]; [|apply keeps_ret].
  apply keeps_bind; [apply keeps_RdmaLinkSetNsFd | intros _; apply keeps_ret].
Qed.

Lemma keeps_returnRDMAToHost ibDev path : keepsTracker (returnRDMAToHost ibDev path).
Proof.
  unfold returnRDMAToHost. apply keeps_bind; [apply keeps_netnsGetFromPath|].
  intros [hostNS|e]; [|apply keeps_ret].
  apply keeps_bind; [apply keeps_enterPodNetns|]. intros entered.
  apply keeps_bind; [apply keeps_RdmaLinkByName|]. intros [link|e]; [|apply keeps_ret].
  apply keeps_bind; [apply keeps_RdmaLinkSetNsFd | intros _; apply keeps_ret].
Qed.

Lemma keeps_DetectNetnsMode : keepsTracker DetectNetnsMode.
Proof. intros n. unfold DetectNetnsMode. destruct (cachedMode n); by eauto. Qed.

(** A sandbox-stopped event removes the active moves of its pod, and does
    nothing else to the tracker. *)
Lemma StopPodSandbox_tracker (pod : PodSandbox) n :
  ∃ r n', StopPodSandbox pod n = Done r n'
          ∧ rdmaTracker n' = (RemoveActiveForPod (rdmaTracker n) (ps_Uid pod)).2.
Proof.
  unfold StopPodSandbox. unfold bind at 1, trackerRemoveActiveForPod.
  destruct (RemoveActiveForPod (rdmaTracker n) (ps_Uid pod)) as [moves t] eqn:Hrm.
  set (n1 := set_tracker (λ _, t) n).
  assert (rdmaTracker n1 = t) as Hn1 by done.
  destruct (decide _); [by exists None, n1|].
  assert (keepsTracker
            (let* r := netnsGetFromPath hostNetns in
             match r with
             | Err _ => ret None
             | Ok hostNS =>
                 let* enteredPodNS := enterPodNetns (getNetNSPath pod) in
                 forEach (returnFromPod (if enteredPodNS then getNetNSPath pod else hostNetns)
                            hostNS) moves ;;
                 ret (None : option error)
             end)) as Hkeeps.
  { apply keeps_bind; [apply keeps_netnsGetFromPath|]. intros [hostNS|e]; [|apply keeps_ret].
    apply keeps_bind; [apply keeps_enterPodNetns|]. intros entered.
    apply keeps_bind; [|intros _; apply keeps_ret].
    apply keeps_forEach. intros m. apply keeps_returnFromPod. }
  destruct (Hkeeps n1) as (r & n' & Hrun & Ht).
  exists r, n'. split; [exact Hrun|]. by rewrite Ht.
Qed.

(** The uverbs [Unprepare] removes the pending and the active move of its
    claim, or leaves the tracker alone. *)
Lemma UverbsHandler_Unprepare_tracker (h : UverbsHandler) (req : UnprepareRequest) n :
  ∃ n', UverbsHandler_Unprepare h req n = Done None n'
        ∧ (rdmaTracker n' = rdmaTracker n
           ∨ rdmaTracker n' =
               (RemoveActive (RemovePending (rdmaTracker n) (ai_ClaimUID (uq_Allocation req)))
                  (ai_ClaimUID (uq_Allocation req))).2).
Proof.
  unfold UverbsHandler_Unprepare. unfold bind at 1.
  destruct (keeps_DetectNetnsMode n) as (mode & n1 & -> & Ht1).
  destruct mode; [exists n1; by eauto|].
  destruct (negb _ && uh_Tracker h); [|exists n1; by eauto].
  unfold bind at 1. unfold bind at 1. unfold modify at 1.
  unfold bind at 1. unfold trackerRemoveActive.
  destruct (RemoveActive _ _) as [act t] eqn:Hact.
  match goal with
  | |- context [returnRDMAToHost ?d ?p ?x] =>
      destruct (keeps_returnRDMAToHost d p x) as ([] & n2 & -> & Ht2)
  end.
  exists n2. split; [done|]. right. rewrite Ht2. cbn in Hact |- *.
  rewrite Ht1 in Hact. by rewrite Hact.
Qed.

Lemma keeps_osStat path : keepsTracker (osStat path).
Proof. intros n. unfold osStat. destruct (decide _); by eauto. Qed.

Lemma keeps_findAvailableUverbs : keepsTracker findAvailableUverbs.
Proof.
  intros n. unfold findAvailableUverbs.
  destruct (ibDevEntries (env n)) as [entries|e]; [destruct (List.find _ _)|]; by eauto.
Qed.

Lemma keeps_resolveIBDevice name : keepsTracker (resolveIBDevice name).
Proof. intros n. unfold resolveIBDevice. destruct (sysfsFiles _ !! _); by eauto. Qed.

(** A computation that keeps the tracker, followed by one that registers
    at most a pending move for [c], registers at most that. *)
Lemma keeps_then {A B} (c : string) (m : N A) (k : A → N B) n (b : B) n' :
  keepsTracker m →
  (∀ a n1 n2, k a n1 = Done b n2 →
     rdmaTracker n2 = rdmaTracker n1
     ∨ ∃ ibDev, rdmaTracker n2 = AddPending (rdmaTracker n1) c ibDev) →
  bind m k n = Done b n' →
  rdmaTracker n' = rdmaTracker n
  ∨ ∃ ibDev, rdmaTracker n' = AddPending (rdmaTracker n) c ibDev.
Proof.
  intros Hm Hk. unfold bind. destruct (Hm n) as (a & n1 & -> & Ht).
  intros Hrun. rewrite <- Ht. by eapply Hk.
Qed.

(** The uverbs [Prepare] registers a pending move for its claim, or leaves
    the tracker alone. *)
Lemma UverbsHandler_Prepare_tracker (h : UverbsHandler) (req : PrepareRequest) n r n' :
  UverbsHandler_Prepare h req n = Done r n' →
  rdmaTracker n' = rdmaTracker n
  ∨ ∃ ibDev, rdmaTracker n' = AddPending (rdmaTracker n) (pq_ClaimUID req) ibDev.
Proof.
  unfold UverbsHandler_Prepare.
  apply keeps_then; [destruct (String.eqb _ _); [apply keeps_findAvailableUverbs|apply keeps_ret]|].
  intros [deviceName|e] n1 n2; [|intros [= _ <-]; by left].
  apply keeps_then; [apply keeps_osStat|].
  intros [e|] n3 n4; [intros [= _ <-]; by left|].
  apply keeps_then; [apply keeps_resolveIBDevice|]. intros ibDev n5 n6.
  apply keeps_then; [apply keeps_osStat|]. intros cm n7 n8.
  apply keeps_then; [apply keeps_osStat|]. intros umad n9 n10.
  apply keeps_then; [destruct (String.eqb _ _); [apply keeps_ret|apply keeps_osStat]|].
  intros sys n11 n12.
  apply keeps_then; [apply keeps_DetectNetnsMode|]. intros mode n13 n14.
  unfold bind, ret, modify.
  destruct mode; [intros [= _ <-]; by left|].
  destruct (negb _ && uh_Tracker h); intros [= _ <-]; [|by left].
  right. by exists ibDev.
Qed.

(** So each of these events of the code is a step, or a few steps, of the
    life cycle. *)
Lemma events_are_lifecycle_steps :
  (∀ pod n r n', StopPodSandbox pod n = Done r n' →
                 lifecycle (rdmaTracker n) (rdmaTracker n'))
  ∧ (∀ h req n r n', UverbsHandler_Unprepare h req n = Done r n' →
                     rtc lifecycle (rdmaTracker n) (rdmaTracker n'))
  ∧ (∀ h req n r n', active (rdmaTracker n) !! pq_ClaimUID req = None →
                     UverbsHandler_Prepare h req n = Done r n' →
                     rtc lifecycle (rdmaTracker n) (rdmaTracker n')).
Proof.
  split_and!.
  - intros pod n r n' Hrun.
    destruct (StopPodSandbox_tracker pod n) as (r0 & n0 & Hrun0 & Ht).
    rewrite Hrun0 in Hrun. injection Hrun as <- <-. rewrite Ht. constructor.
  - intros h req n r n' Hrun.
    destruct (UverbsHandler_Unprepare_tracker h req n) as (n0 & Hrun0 & Ht).
    rewrite Hrun0 in Hrun. injection Hrun as <- <-.
    destruct Ht as [->| ->]; [apply rtc_refl|].
    eapply rtc_l; [apply lc_removePending|]. apply rtc_once, lc_removeActive.
  - intros h req n r n' Hact Hrun.
    apply UverbsHandler_Prepare_tracker in Hrun as [->|[ibDev ->]]; [apply rtc_refl|].
    by apply rtc_once, lc_prepare.
Qed.
End EventsOfTheCode.

(* ================================================================== *)
(** * Listing the registry *)
(* ================================================================== *)

Section RegistryListing.
Implicit Types (r : HandlerRegistry) (h : DeviceHandler).
Implicit Types (typ kind : string).

Lemma listKind_foldl typ (ks : list (string * DeviceHandler)) result typ' :
  foldl (listKind typ) result ks !! typ' =
    if decide (typ = typ')
    then match ks with
         | [] => result !! typ
         | _ => Some (default [] (result !! typ) ++ ks.*1)
         end
    else result !! typ'.
Proof.
  revert result. induction ks as [|k ks IH]; intros result.
  { cbn. by destruct (decide _) as [->|]. }
  cbn [foldl]. rewrite IH. clear IH.
  destruct (decide (typ = typ')) as [->|Hne].
  - destruct ks as [|k' ks]; unfold listKind; rewrite lookup_insert_eq; cbn; [done|].
    by rewrite <- app_assoc.
  - unfold listKind. by rewrite lookup_insert_ne.
Qed.

Lemma ListRegistered_foldl (l : list (string * gmap string DeviceHandler)) result typ :
  NoDup l.*1 →
  foldl (λ result tk, foldl (listKind tk.1) result (map_to_list tk.2)) result l !! typ =
    match List.find (λ tk, String.eqb tk.1 typ) l with
    | Some tk =>
        match map_to_list tk.2 with
        | [] => result !! typ
        | ks => Some (default [] (result !! typ) ++ ks.*1)
        end
    | None => result !! typ
    end.
Proof.
  revert result. induction l as [|[t kinds] l IH]; intros result Hnd; [done|].
  apply NoDup_cons in Hnd as [Hnotin Hnd]. cbn [foldl List.find fst snd].
  rewrite IH by done. destruct (String.eqb_spec t typ) as [->|Hne].
  - assert (List.find (λ tk, String.eqb tk.1 typ) l = None) as ->.
    { apply find_none_intro. intros [t' k'] Hin. cbn. apply String.eqb_neq. intros ->.
      apply Hnotin. apply list_elem_of_fmap. by exists (typ, k'). }
    rewrite listKind_foldl, decide_True by done. cbn [snd]. by destruct (map_to_list kinds).
  - destruct (List.find _ l) as [tk|] eqn:Hfind.
    + apply find_some in Hfind as [Hin Heq]. apply String.eqb_eq in Heq.
      rewrite listKind_foldl, decide_False by done. done.
    + by rewrite listKind_foldl, decide_False by done.
Qed.

Lemma ListRegistered_lookup r typ :
  ListRegistered r !! typ =
    match handlers r !! typ with
    | Some kinds => if decide (kinds = ∅) then None else Some (map_to_list kinds).*1
    | None => None
    end.
Proof.
  unfold ListRegistered. rewrite ListRegistered_foldl by apply NoDup_fst_map_to_list.
  rewrite lookup_empty.
  destruct (List.find _ _) as [[t kinds]|] eqn:Hfind.
  - apply find_some in Hfind as [Hin Heq]. apply String.eqb_eq in Heq. cbn in Heq. subst t.
    apply list_elem_of_In, elem_of_map_to_list in Hin. rewrite Hin. cbn.
    destruct (decide (kinds = ∅)) as [->|Hne]; [by rewrite map_to_list_empty|].
    destruct (map_to_list kinds) eqn:Hl; [|done].
    by apply map_to_list_empty_iff in Hl.
  - destruct (handlers r !! typ) as [kinds|] eqn:Hlk; [|done].
    apply elem_of_map_to_list, list_elem_of_In in Hlk.
    eapply find_none in Hfind; [|exact Hlk]. cbn in Hfind.
    by rewrite String.eqb_refl in Hfind.
Qed.

(** X1.  [ListRegistered] agrees with [Get]: a kind is listed under a type
    exactly when [Get] resolves the pair, and no kind is listed twice; a type
    has an entry exactly when some kind of it resolves, and no entry is an
    empty list.  The order of a list is the order in which Go happens to
    visit the map; nothing is said about it. *)
Theorem ListRegistered_agrees_with_Get r typ kind :
  (kind ∈ default [] (ListRegistered r !! typ) ↔ is_Some (Get r typ kind))
  ∧ NoDup (default [] (ListRegistered r !! typ))
  ∧ (ListRegistered r !! typ = None ↔ ∀ k, Get r typ k = None)
  ∧ ListRegistered r !! typ ≠ Some [].
Proof.
  rewrite ListRegistered_lookup. unfold Get.
  destruct (handlers r !! typ) as [kinds|]; cbn.
  2:{ split_and!; [|constructor|done|done]. split; [by intros ?%elem_of_nil|by intros [? ?]]. }
  destruct (decide (kinds = ∅)) as [->|Hne]; cbn.
  { split_and!; [|constructor| |done].
    - rewrite lookup_empty. split; [by intros ?%elem_of_nil|by intros [? ?]].
    - split; [intros _ k; apply lookup_empty|done]. }
  split_and!.
  - rewrite list_elem_of_fmap. split.
    + intros ([k h] & -> & Hin). apply elem_of_map_to_list in Hin. by exists h.
    + intros [h Hh]. exists (kind, h). split; [done|]. by apply elem_of_map_to_list.
  - apply NoDup_fst_map_to_list.
  - split; [done|]. intros Hall. exfalso. apply Hne. apply map_eq. intros k.
    by rewrite Hall, lookup_empty.
  - intros [= Hnil]. apply fmap_nil_inv in Hnil. by apply map_to_list_empty_iff in Hnil.
Qed.
End RegistryListing.

(* ================================================================== *)
(** * Batches of tracker calls *)
(* ================================================================== *)

Section TrackerBatches.
Implicit Types (t : RDMANetnsTracker) (c uid : string) (cs : list string).




(** X3.  For a claim the tracker does not know, the tracker methods undo
    each other: cancelling a registration restores the tracker; removing a
    move just marked active returns that move and restores the tracker;
    cancelling or removing what is not there changes nothing; and a second
    registration replaces the first. *)
Theorem tracker_round_trips t c d d' p ns :
  claimState t c = Unregistered →
  RemovePending (AddPending t c d) c = t
  ∧ RemoveActive (MarkActive t c p d ns) c
    = (Some {| am_IBDev := d; am_PodUID := p; am_NetnsPath := ns |}, t)
  ∧ RemoveActive t c = (None, t)
  ∧ RemovePending t c = t
  ∧ AddPending (AddPending t c d) c d' = AddPending t c d'.
Proof.
  unfold claimState. destruct (pending t !! c) eqn:Hp, (active t !! c) eqn:Ha; try done.
  intros _. destruct t as [pe ac]. cbn in *.
  unfold RemovePending, AddPending, RemoveActive, MarkActive. cbn.
  split_and!.
  - by rewrite delete_insert_id.
  - by rewrite lookup_insert_eq, delete_insert_id.
  - by rewrite Ha.
  - by rewrite delete_id.
  - by rewrite insert_insert_eq.
Qed.

Lemma tracker_round_trips_witness :
  claimState NewRDMANetnsTracker "claim-1" = Unregistered
  ∧ RemovePending (AddPending NewRDMANetnsTracker "claim-1" "mlx5_0") "claim-1"
    = NewRDMANetnsTracker.
Proof.
  split; [reflexivity|].
  apply (tracker_round_trips NewRDMANetnsTracker "claim-1" "mlx5_0" "mlx5_1" "pod" "ns").
  reflexivity.
Defined.
End TrackerBatches.

(* ================================================================== *)
(** * The claim UID scanner *)
(* ================================================================== *)

Section ClaimUIDScanner.
Implicit Types (s u rest : string) (skip : nat).

Lemma substring_0_app u rest :
  String.substring 0 (String.length u) (u +:+ rest) = u.
Proof.
  induction u as [|c u IH]; [by destruct rest|].
  change (String c (String.substring 0 (String.length u) (u +:+ rest)) = String c u).
  by rewrite IH.
Qed.

Lemma length_app_string u rest :
  String.length (u +:+ rest) = String.length u + String.length rest.
Proof.
  induction u as [|c u IH]; [done|].
  change (S (String.length (u +:+ rest)) = S (String.length u + String.length rest)).
  by rewrite IH.
Qed.

Lemma isUUID_length u : isUUID u = true → String.length u = 36.
Proof. unfold isUUID. by destruct (decide _). Qed.

Lemma extractUUIDs_from_skip u rest :
  extractUUIDs_from (String.length u) (u +:+ rest) = extractUUIDs_from 0 rest.
Proof.
  induction u as [|c u IH]; [by destruct rest|].
  change (extractUUIDs_from (String.length u) (u +:+ rest) = extractUUIDs_from 0 rest).
  exact IH.
Qed.

Lemma extractUUIDs_head u rest :
  isUUID u = true → extractUUIDs (u +:+ rest) = u :: extractUUIDs rest.
Proof.
  intros Hu. pose proof (isUUID_length _ Hu) as Hlen. unfold extractUUIDs.
  destruct u as [|c u]; [done|].
  change (String c u +:+ rest) with (String c (u +:+ rest)).
  cbn [extractUUIDs_from].
  change (String c (u +:+ rest)) with (String c u +:+ rest).
  rewrite bool_decide_eq_true_2 by (rewrite length_app_string; lia).
  replace (String.substring 0 36 (String c u +:+ rest)) with (String c u)
    by (rewrite <- Hlen; symmetry; apply substring_0_app).
  rewrite Hu. cbn [andb]. f_equal.
  assert (String.length u = 35) as <- by (cbn in Hlen; lia).
  apply extractUUIDs_from_skip.
Qed.

Lemma extractUUIDs_from_sound skip s :
  Forall (λ u, isUUID u = true ∧ ∃ i, String.substring i 36 s = u)
         (extractUUIDs_from skip s)
  ∧ 36 * length (extractUUIDs_from skip s) ≤ String.length s - skip.
Proof.
  revert skip. induction s as [|c r IH]; intros skip; [split; [constructor|cbn; lia]|].
  assert (∀ k, Forall (λ u, isUUID u = true ∧ ∃ i, String.substring i 36 (String c r) = u)
                 (extractUUIDs_from k r)) as Hshift.
  { intros k. eapply Forall_impl; [apply (IH k)|].
    intros u (Hu & i & Hi). split; [done|]. by exists (S i). }
  destruct skip as [|k]; cbn [extractUUIDs_from].
  2:{ split; [apply Hshift|]. destruct (IH k) as [_ Hl]. cbn [String.length]. lia. }
  destruct (bool_decide (36 ≤ String.length (String c r))) eqn:Hlen; cbn [andb].
  2:{ split; [apply Hshift|]. destruct (IH 0) as [_ Hl]. cbn [String.length]. lia. }
  apply bool_decide_eq_true_1 in Hlen.
  destruct (isUUID (String.substring 0 36 (String c r))) eqn:Hu.
  - split.
    + constructor; [|apply Hshift]. split; [done|]. by exists 0.
    + destruct (IH 35) as [_ Hl]. cbn [String.length length] in *. lia.
  - split; [apply Hshift|]. destruct (IH 0) as [_ Hl]. cbn [String.length]. lia.
Qed.

Lemma byteOfRune_byteOf (c : ascii) : byteOfRune (byteOf c) = c.
Proof.
  unfold byteOfRune, byteOf. pose proof (nat_ascii_bounded c) as Hb.
  rewrite Z.mod_small by lia. rewrite Nat2Z.id. apply ascii_nat_embedding.
Qed.

Lemma decodeRune_ascii (c : ascii) (r : string) :
  nat_of_ascii c < 128 → decodeRune (String c r) = (byteOf c, 1).
Proof.
  intros Hc. unfold decodeRune.
  assert ((byteOf c <? 128)%Z = true) as -> by (apply Z.ltb_lt; unfold byteOf; lia).
  done.
Qed.

Lemma hyphen_byte (c : ascii) : (byteOf c =? 45)%Z = Ascii.eqb c "-"%char.
Proof.
  destruct (Ascii.eqb_spec c "-"%char) as [->|Hne]; [done|].
  apply Z.eqb_neq. intros Heq. apply Hne.
  rewrite <- (ascii_nat_embedding c), <- (ascii_nat_embedding "-"%char). f_equal.
  unfold byteOf in Heq. change (nat_of_ascii "-"%char) with 45. lia.
Qed.

Lemma isUUID_from_ascii i s : isASCII s → isUUID_from i 0 s = uuidShape i s.
Proof.
  unfold isASCII. revert i. induction s as [|c r IH]; intros i Hs; [done|].
  cbn [String.list_ascii_of_string] in Hs. apply Forall_cons in Hs as [Hc Hr].
  cbn [isUUID_from uuidShape]. rewrite decodeRune_ascii by done.
  cbn [Nat.sub]. rewrite IH by done. by rewrite byteOfRune_byteOf, hyphen_byte.
Qed.

(** X4.  [isUUID] reads its argument rune by rune.  On a string of ASCII
    bytes it accepts exactly the values of 36 bytes of the shape 8-4-4-4-12:
    hyphens at the indices 8, 13, 18 and 23, hexadecimal digits elsewhere.
    It accepts values of 36 bytes only, but not ASCII values only: of a rune
    beyond ASCII it tests the low byte, so the value that starts with the
    dotless i (U+0131, low byte [1]) passes although its bytes do not have
    the shape. *)
Theorem isUUID_reads_runes :
  (∀ s, isASCII s →
        isUUID s = bool_decide (String.length s = 36) && uuidShape 0 s)
  ∧ (∀ s, isUUID s = true → String.length s = 36)
  ∧ isUUID dotlessUUID = true ∧ uuidShape 0 dotlessUUID = false.
Proof.
  split_and!.
  - intros s Hs. unfold isUUID. destruct (decide (String.length s = 36)) as [Hl|Hl].
    + rewrite bool_decide_eq_true_2 by done. by apply isUUID_from_ascii.
    + by rewrite bool_decide_eq_false_2.
  - apply isUUID_length.
  - vm_compute. reflexivity.
  - vm_compute. reflexivity.
Qed.

(** X5.  The scan of [extractUUIDs].  Every value it returns is accepted by
    [isUUID] and is a stretch of 36 bytes of the input, and the input has 36
    bytes for each value returned.  A value at the head of the input is
    returned, and the scan goes on behind it; an ASCII byte at the head that
    is no hexadecimal digit is passed over. *)
Theorem extractUUIDs_scan s :
  Forall (λ u, isUUID u = true ∧ ∃ i, String.substring i 36 s = u) (extractUUIDs s)
  ∧ 36 * length (extractUUIDs s) ≤ String.length s
  ∧ (∀ u rest, isUUID u = true → s = u +:+ rest →
               extractUUIDs s = u :: extractUUIDs rest)
  ∧ (∀ c rest, nat_of_ascii c < 128 → isHexDigit c = false → s = String c rest →
               extractUUIDs s = extractUUIDs rest).
Proof.
  destruct (extractUUIDs_from_sound 0 s) as [Hsound Hlen].
  split_and!; [exact Hsound | unfold extractUUIDs; lia | |].
  - intros u rest Hu ->. by apply extractUUIDs_head.
  - intros c rest Hascii Hc ->. unfold extractUUIDs. cbn [extractUUIDs_from].
    destruct (bool_decide _) eqn:Hlen36; [|done]. cbn [andb].
    apply bool_decide_eq_true_1 in Hlen36.
    assert (isUUID (String.substring 0 36 (String c rest)) = false) as ->; [|done].
    unfold isUUID. destruct (decide _); [|done].
    change (String.substring 0 36 (String c rest))
      with (String c (String.substring 0 35 rest)).
    cbn [isUUID_from]. rewrite decodeRune_ascii by done.
    rewrite bool_decide_eq_false_2 by lia. by rewrite byteOfRune_byteOf, Hc.
Qed.

Lemma addCandidate_foldl (cands : list string) (seen : gset string) (uids : list string) :
  NoDup uids → (∀ x, x ∈ seen ↔ x ∈ uids) →
  let acc := foldl addCandidate (seen, uids) cands in
  NoDup acc.2 ∧ (∀ x, x ∈ acc.1 ↔ x ∈ acc.2)
  ∧ (∀ x, x ∈ acc.2 ↔ x ∈ uids ∨ x ∈ cands).
Proof.
  cbv zeta. revert seen uids. induction cands as [|c cands IH]; intros seen uids Hnd Hseen.
  { cbn. split_and!; [done|done|]. intros x. rewrite elem_of_nil. tauto. }
  cbn [foldl].
  destruct (decide (c ∈ seen)) as [Hin|Hnotin].
  - replace (addCandidate (seen, uids) c) with (seen, uids)
      by (unfold addCandidate; cbn; by rewrite decide_True).
    destruct (IH seen uids Hnd Hseen) as (H1 & H2 & H3). split_and!; [done|done|].
    intros x. rewrite H3, elem_of_cons. split; [tauto|].
    intros [?|[->|?]]; [tauto| |tauto]. left. by apply Hseen.
  - replace (addCandidate (seen, uids) c) with ({[c]} ∪ seen, uids ++ [c])
      by (unfold addCandidate; cbn; by rewrite decide_False).
    destruct (IH ({[c]} ∪ seen) (uids ++ [c])) as (H1 & H2 & H3).
    + apply NoDup_app. split_and!; [done| |apply NoDup_singleton].
      intros x Hx ->%list_elem_of_singleton. by apply Hnotin, Hseen.
    + intros x. rewrite elem_of_union, elem_of_singleton, elem_of_app, list_elem_of_singleton.
      rewrite Hseen. tauto.
    + split_and!; [done|done|]. intros x.
      rewrite H3, elem_of_app, list_elem_of_singleton, elem_of_cons. tauto.
Qed.

(** X6.  [extractClaimUIDs] returns, without repetition, exactly the values
    [extractUUIDs] finds in the annotations whose key starts with
    [resource.kubernetes.io/]; other annotations are not read. *)
Theorem extractClaimUIDs_spec (annotations : list (string * string)) :
  NoDup (extractClaimUIDs annotations)
  ∧ ∀ u, u ∈ extractClaimUIDs annotations ↔
         ∃ k v, (k, v) ∈ annotations
                ∧ hasPrefix k "resource.kubernetes.io/" = true
                ∧ u ∈ extractUUIDs v.
Proof.
  unfold extractClaimUIDs.
  set (step := λ (acc : gset string * list string) (kv : string * string),
          if hasPrefix kv.1 "resource.kubernetes.io/"
          then foldl addCandidate acc (extractUUIDs kv.2) else acc).
  assert (∀ l (seen : gset string) uids,
            NoDup uids → (∀ x, x ∈ seen ↔ x ∈ uids) →
            let acc := foldl step (seen, uids) l in
            NoDup acc.2
            ∧ ∀ u, u ∈ acc.2 ↔
                   u ∈ uids ∨ ∃ k v, (k, v) ∈ l
                                     ∧ hasPrefix k "resource.kubernetes.io/" = true
                                     ∧ u ∈ extractUUIDs v) as Hgen.
  { cbv zeta. induction l as [|[k v] l IH]; intros seen uids Hnd Hseen.
    { cbn. split; [done|]. intros u. split; [tauto|].
      intros [?|(k & v & Hin & _)]; [done|]. by apply elem_of_nil in Hin. }
    cbn [foldl].
    assert (step (seen, uids) (k, v) =
              if hasPrefix k "resource.kubernetes.io/"
              then foldl addCandidate (seen, uids) (extractUUIDs v)
              else (seen, uids)) as -> by done.
    destruct (hasPrefix k "resource.kubernetes.io/") eqn:Hpre.
    - destruct (addCandidate_foldl (extractUUIDs v) seen uids Hnd Hseen) as (H1 & H2 & H3).
      destruct (foldl addCandidate (seen, uids) (extractUUIDs v)) as [seen' uids'].
      cbn [fst snd] in *.
      destruct (IH seen' uids' H1 H2) as [H4 H5]. split; [done|].
      intros u. rewrite H5, H3. split.
      + intros [[?|Hu]|(k' & v' & Hin & Hp & Hu)]; [tauto| |].
        * right. exists k, v. split_and!; [by left|done|done].
        * right. exists k', v'. split_and!; [by right|done|done].
      + intros [?|(k' & v' & Hin & Hp & Hu)]; [tauto|].
        apply elem_of_cons in Hin as [[= -> ->]|Hin]; [tauto|].
        right. by exists k', v'.
    - destruct (IH seen uids Hnd Hseen) as [H4 H5]. split; [done|].
      intros u. rewrite H5. split.
      + intros [?|(k' & v' & Hin & Hp & Hu)]; [tauto|].
        right. exists k', v'. split_and!; [by right|done|done].
      + intros [?|(k' & v' & Hin & Hp & Hu)]; [tauto|].
        apply elem_of_cons in Hin as [[= -> ->]|Hin]; [congruence|].
        right. by exists k', v'. }
  destruct (Hgen annotations ∅ []) as [H1 H2];
    [constructor | intros x; rewrite elem_of_empty, elem_of_nil; tauto |].
  split; [exact H1|]. intros u. rewrite H2. rewrite elem_of_nil. tauto.
Qed.
End ClaimUIDScanner.

(* ================================================================== *)
(** * The sandbox-created event *)
(* ================================================================== *)

Section SandboxRelocation.
Implicit Types (t : RDMANetnsTracker) (n : Node) (m : PendingMove).
Implicit Types (moves : list PendingMove) (c : string).

Lemma consume_claims_NoDup t (cs : list string) :
  keyed t → NoDup (map pm_ClaimUID (ConsumePendingForClaims t cs).1).
Proof.
  revert t. induction cs as [|uid cs IH]; intros t Hkey; [constructor|].
  destruct (pending t !! uid) as [m|] eqn:Hlk.
  - rewrite (consume_cons_Some _ _ _ _ Hlk). cbn [fst map].
    assert (keyed (RemovePending t uid)) as Hkey'.
    { intros k m' Hm'. cbn in Hm'. apply lookup_delete_Some in Hm' as [_ Hm']. by apply Hkey. }
    apply NoDup_cons. split; [|by apply IH].
    intros Hin. apply list_elem_of_fmap in Hin as (m' & Heq & Hin).
    apply consume_moves in Hin as (k & _ & Hk). cbn in Hk.
    apply lookup_delete_Some in Hk as [Hne Hk].
    apply Hne. rewrite <- (Hkey _ _ Hk), <- Heq. symmetry. by apply Hkey.
  - rewrite (consume_cons_None _ _ _ Hlk). by apply IH.
Qed.

Lemma markAll_pending podUID path moves t : pending (markAll podUID path moves t) = pending t.
Proof.
  unfold markAll. revert t. induction moves as [|m moves IH]; intros t; [done|].
  cbn [foldl]. by rewrite IH.
Qed.

Lemma markAll_active_other podUID path moves t c :
  c ∉ map pm_ClaimUID moves →
  active (markAll podUID path moves t) !! c = active t !! c.
Proof.
  unfold markAll. revert t. induction moves as [|m moves IH]; intros t Hc; [done|].
  cbn in Hc. apply not_elem_of_cons in Hc as [Hne Hc]. cbn [foldl].
  rewrite IH by done. cbn. by rewrite lookup_insert_ne.
Qed.

Lemma markAll_active podUID path moves t m :
  NoDup (map pm_ClaimUID moves) → m ∈ moves →
  active (markAll podUID path moves t) !! pm_ClaimUID m =
    Some {| am_IBDev := pm_IBDev m; am_PodUID := podUID; am_NetnsPath := path |}.
Proof.
  revert t. induction moves as [|m' moves IH]; intros t Hnd Hin; [by apply elem_of_nil in Hin|].
  cbn in Hnd. apply NoDup_cons in Hnd as [Hnotin Hnd].
  apply elem_of_cons in Hin as [->|Hin].
  - change (markAll podUID path (m' :: moves) t)
      with (markAll podUID path moves
              (MarkActive t (pm_ClaimUID m') podUID (pm_IBDev m') path)).
    rewrite markAll_active_other by done. cbn. by rewrite lookup_insert_eq.
  - by apply IH.
Qed.

Lemma moveAll_lookup ns moves (devs : gmap string string) (dev : string) :
  moveAll ns moves devs !! dev =
    if decide (dev ∈ map pm_IBDev moves) then Some ns else devs !! dev.
Proof.
  unfold moveAll. revert devs. induction moves as [|m moves IH]; intros devs; [done|].
  cbn [foldl map]. rewrite IH. destruct (decide (dev ∈ map pm_IBDev moves)) as [Hin|Hnotin].
  - rewrite decide_True; [done|]. by right.
  - destruct (decide (dev = pm_IBDev m)) as [->|Hne].
    + rewrite decide_True by (by left). by rewrite lookup_insert_eq.
    + rewrite decide_False by (intros [?|?]%elem_of_cons; done).
      by rewrite lookup_insert_ne.
Qed.

(** The move loop when no move fails. *)
Lemma moveLoop_success podUID path podNS moves n :
  NoDup (map pm_IBDev moves) →
  (∀ m, m ∈ moves → rdmaDevs n !! pm_IBDev m = Some hostNetns
                    ∧ rdmaSetNsErr (env n) (pm_IBDev m) = None) →
  forEach (moveIntoPod podUID path podNS) moves n =
    Done tt (set_tracker (markAll podUID path moves) (set_rdmaDevs (moveAll podNS moves) n)).
Proof.
  revert n. induction moves as [|m moves IH]; intros n Hnd Hok.
  { cbn. unfold ret. by destruct n. }
  cbn in Hnd. apply NoDup_cons in Hnd as [Hnotin Hnd].
  rewrite forEach_cons. destruct (Hok m) as [Hdev Herr]; [by left|].
  unfold moveIntoPod. unfold bind at 1. unfold RdmaLinkByName. rewrite Hdev.
  rewrite decide_True by done. unfold bind at 1. unfold RdmaLinkSetNsFd. rewrite Herr.
  unfold modify. rewrite IH; [done|done|].
  intros m' Hm'. cbn. destruct (Hok m') as [Hdev' Herr']; [by right|].
  split; [|done]. rewrite lookup_insert_ne; [done|].
  intros Heq. apply Hnotin. rewrite Heq. apply list_elem_of_fmap. by exists m'.
Qed.

(** X7.  A sandbox-created event whose moves all succeed.  When the
    network namespace of the pod can be opened and the pending devices of
    the claims of the pod are in the host namespace and can be moved, the
    event returns nil; each of these claims is active for the pod, with its
    device and the path of the namespace, and no longer pending; each of the
    devices is in the namespace of the pod.  Claims the pod does not use,
    other devices, the interfaces and the files are as before.  (On a
    tracker that stores each move under its own claim, for moves that name
    different devices.) *)
Theorem RunPodSandbox_relocates (pod : PodSandbox) n :
  let cs := extractClaimUIDs (ps_Annotations pod) in
  let moves := (ConsumePendingForClaims (rdmaTracker n) cs).1 in
  keyed (rdmaTracker n) →
  getNetNSPath pod ≠ "" →
  getNetNSPath pod ∈ netnsOpen (env n) →
  NoDup (map pm_IBDev moves) →
  (∀ m, m ∈ moves → rdmaDevs n !! pm_IBDev m = Some hostNetns
                    ∧ rdmaSetNsErr (env n) (pm_IBDev m) = None) →
  ∃ n', RunPodSandbox pod n = Done None n'
        ∧ (∀ m, m ∈ moves →
             active (rdmaTracker n') !! pm_ClaimUID m
               = Some {| am_IBDev := pm_IBDev m; am_PodUID := ps_Uid pod;
                         am_NetnsPath := getNetNSPath pod |}
             ∧ pending (rdmaTracker n') !! pm_ClaimUID m = None
             ∧ rdmaDevs n' !! pm_IBDev m = Some (getNetNSPath pod))
        ∧ (∀ c, c ∉ cs → pending (rdmaTracker n') !! c = pending (rdmaTracker n) !! c)
        ∧ (∀ c, c ∉ map pm_ClaimUID moves →
                active (rdmaTracker n') !! c = active (rdmaTracker n) !! c)
        ∧ (∀ dev, dev ∉ map pm_IBDev moves → rdmaDevs n' !! dev = rdmaDevs n !! dev)
        ∧ links n' = links n ∧ cdiFiles n' = cdiFiles n ∧ env n' = env n.
Proof.
  intros cs moves Hkey Hpath Hopen Hnd Hok. unfold RunPodSandbox. fold cs.
  pose proof (consume_claims_NoDup (rdmaTracker n) cs Hkey) as Hndc. fold moves in Hndc.
  assert (∀ m, m ∈ moves → pm_ClaimUID m ∈ cs ∧ pending (rdmaTracker n) !! pm_ClaimUID m = Some m)
    as Hmoves.
  { intros m Hm. apply consume_moves in Hm as (k & Hk & Hlk).
    rewrite (Hkey _ _ Hlk). done. }
  destruct (decide (length cs = 0)) as [Hcs|Hcs].
  { apply length_zero_iff_nil in Hcs. exists n. split; [done|].
    assert (moves = []) as Hnil by (unfold moves; by rewrite Hcs).
    rewrite Hnil. split_and!; try done. intros m Hm. by apply elem_of_nil in Hm. }
  unfold bind at 1, trackerConsume.
  pose proof (consume_pending (rdmaTracker n) cs) as Hpend.
  pose proof (consume_active (rdmaTracker n) cs) as Hact.
  destruct (ConsumePendingForClaims (rdmaTracker n) cs) as [moves' t'] eqn:Hcons.
  cbn [fst snd] in *. subst moves.
  destruct (decide (length moves' = 0)) as [Hnil|Hnil].
  { apply length_zero_iff_nil in Hnil. subst moves'. eexists. split; [done|]. cbn.
    split_and!; try done.
    - intros m Hm. by apply elem_of_nil in Hm.
    - intros c Hc. by rewrite Hpend, decide_False.
    - intros c _. by rewrite Hact. }
  rewrite decide_True by done. unfold bind at 1, netnsGetFromPath. cbn [env set_tracker].
  rewrite decide_True by done. unfold bind at 1.
  rewrite moveLoop_success; [|done|done]. eexists. split; [done|]. cbn.
  split_and!; try done.
  - intros m Hm. destruct (Hmoves m Hm) as [Hin Hlk]. split_and!.
    + by apply markAll_active.
    + rewrite markAll_pending, Hpend. by rewrite decide_True.
    + rewrite moveAll_lookup, decide_True; [done|]. apply list_elem_of_fmap. by exists m.
  - intros c Hc. by rewrite markAll_pending, Hpend, decide_False.
  - intros c Hc. by rewrite markAll_active_other, Hact.
  - intros dev Hdev. by rewrite moveAll_lookup, decide_False.
Qed.

(** X8.  A sandbox-created event that cannot reach the namespace of the
    pod.  When the pod has no network namespace path, or the path cannot be
    opened, the node ends as it was: the moves that were drained are pending
    again.  The event returns nil when there was nothing to move or there is
    no path, and the error of the open otherwise. *)
Theorem RunPodSandbox_without_netns (pod : PodSandbox) n :
  let moves := (ConsumePendingForClaims (rdmaTracker n)
                  (extractClaimUIDs (ps_Annotations pod))).1 in
  keyed (rdmaTracker n) →
  getNetNSPath pod = "" ∨ getNetNSPath pod ∉ netnsOpen (env n) →
  RunPodSandbox pod n =
    Done (if decide (moves = [] ∨ getNetNSPath pod = "") then None
          else Some ("get pod netns: open " +:+ getNetNSPath pod
                     +:+ ": no such file or directory")) n.
Proof.
  intros moves Hkey Hclosed. unfold RunPodSandbox.
  set (cs := extractClaimUIDs (ps_Annotations pod)) in *.
  destruct (decide (length cs = 0)) as [Hcs|Hcs].
  { apply length_zero_iff_nil in Hcs.
    assert (moves = []) as Hnil by (unfold moves; by rewrite Hcs).
    rewrite decide_True by (by left). done. }
  unfold bind at 1, trackerConsume.
  pose proof (reAddAll_consume (rdmaTracker n) cs Hkey) as Hback.
  destruct (ConsumePendingForClaims (rdmaTracker n) cs) as [moves' t'] eqn:Hcons.
  cbn [fst snd] in *. subst moves.
  destruct (decide (length moves' = 0)) as [Hnil|Hnil].
  { apply length_zero_iff_nil in Hnil. subst moves'. rewrite decide_True by (by left).
    cbn in Hback. subst t'. unfold ret. by destruct n. }
  assert (moves' ≠ []) as Hne by (by destruct moves').
  assert (set_tracker (reAddAll moves') (set_tracker (λ _, t') n) = n) as Hn.
  { unfold set_tracker. cbn. rewrite Hback. by destruct n. }
  destruct (decide (getNetNSPath pod ≠ "")) as [Hpath|Hpath].
  - destruct Hclosed as [?|Hclosed]; [done|].
    unfold bind at 1, netnsGetFromPath. cbn [env set_tracker]. rewrite decide_False by done.
    unfold bind at 1. rewrite reAddPending_spec, Hn.
    rewrite decide_False by (intros [?|?]; done). done.
  - unfold bind at 1. rewrite reAddPending_spec, Hn.
    rewrite decide_True; [done|]. right. by apply dec_stable.
Qed.
End SandboxRelocation.

(* ================================================================== *)
(** * The uverbs handler: Prepare *)
(* ================================================================== *)

Section Uverbs.
Implicit Types (n : Node) (h : UverbsHandler).

Lemma bind_run {S A B} (m : St S A) (k : A → St S B) (s : S) (a : A) (s' : S) :
  m s = Done a s' → bind m k s = k a s'.
Proof. unfold bind. by intros ->. Qed.

Lemma osStat_run path n :
  osStat path n =
    Done (if decide (path ∈ statOK (env n)) then None
          else Some ("stat " +:+ path +:+ ": no such file or directory")) n.
Proof. unfold osStat. by destruct (decide _). Qed.

Lemma resolveIBDevice_run name n :
  resolveIBDevice name n =
    Done (match sysfsFiles (env n)
                  !! pathJoin (pathJoin "/sys/class/infiniband_verbs" name) "ibdev" with
          | Some data => TrimSpace data
          | None => ""
          end) n.
Proof. unfold resolveIBDevice. by destruct (_ !! _). Qed.

Lemma DetectNetnsMode_run n :
  DetectNetnsMode n = Done (modeOf n) (set_cachedMode (Some (modeOf n)) n).
Proof.
  unfold DetectNetnsMode, modeOf. destruct (cachedMode n) eqn:Hc; [|done].
  unfold set_cachedMode. rewrite <- Hc. by destruct n.
Qed.

Lemma UverbsHandler_Prepare_post h (req : PrepareRequest) n :
  match UverbsHandler_Prepare h req n with
  | Panic _ => False
  | Done (Err _) n' => n' = n
  | Done (Ok res) n' =>
      let alloc := pr_Allocation res in
      let ibDev := mget (ai_Metadata alloc) "ibdev" in
      (pq_AllocatedDevice req ≠ "" → pr_DeviceName res = pq_AllocatedDevice req)
      ∧ (pq_AllocatedDevice req = "" →
           ∃ entries, ibDevEntries (env n) = Ok entries
                      ∧ List.find (λ name, hasPrefix name "uverbs") entries
                        = Some (pr_DeviceName res))
      ∧ head (ce_DeviceNodes (pr_CDIEdits res))
        = Some (rwNode (pathJoin ibDevDir (pr_DeviceName res)))
      ∧ Forall (λ dn, dn_Path dn ∈ statOK (env n) ∧ dn_HostPath dn = dn_Path dn
                      ∧ dn_Permissions dn = "rw")
               (ce_DeviceNodes (pr_CDIEdits res))
      ∧ Forall (λ mt, mt_HostPath mt ∈ statOK (env n)
                      ∧ mt_HostPath mt = pathJoin "/sys/class/infiniband" ibDev)
               (ce_Mounts (pr_CDIEdits res))
      ∧ ce_NetDevices (pr_CDIEdits res) = []
      ∧ pr_PoolName res = "default"
      ∧ ai_Type alloc = DeviceTypeRDMA ∧ ai_Kind alloc = "uverbs"
      ∧ ai_ClaimUID alloc = pq_ClaimUID req
      ∧ ai_DeviceName alloc = pr_DeviceName res
      ∧ mget (ai_Metadata alloc) "uverbsDevice" = pr_DeviceName res
      ∧ n' = set_tracker
               (λ t, if isExclusive n && negb (String.eqb ibDev "") && uh_Tracker h
                     then AddPending t (pq_ClaimUID req) ibDev else t)
               (set_cachedMode (Some (modeOf n)) n)
  end.
Proof.
  unfold UverbsHandler_Prepare.
  assert (∃ found,
            (if String.eqb (pq_AllocatedDevice req) "" then findAvailableUverbs
             else ret (Ok (pq_AllocatedDevice req))) n = Done found n
            ∧ match found with
              | Ok dev =>
                  (pq_AllocatedDevice req ≠ "" → dev = pq_AllocatedDevice req)
                  ∧ (pq_AllocatedDevice req = "" →
                       ∃ entries, ibDevEntries (env n) = Ok entries
                                  ∧ List.find (λ name, hasPrefix name "uverbs") entries
                                    = Some dev)
              | Err _ => True
              end) as (found & Hfound & Hdev).
  { destruct (String.eqb_spec (pq_AllocatedDevice req) "") as [Heq|Hne].
    - unfold findAvailableUverbs. destruct (ibDevEntries (env n)) as [entries|e] eqn:He.
      + destruct (List.find _ entries) as [name|] eqn:Hf; eexists; (split; [done|]); [|done].
        split; [done|]. intros _. by exists entries.
      + by eexists.
    - eexists. split; [done|]. split; [done|]. by intros ?. }
  rewrite (bind_run _ _ _ _ _ Hfound). destruct found as [dev|e]; [|done].
  destruct Hdev as [Hdev1 Hdev2].
  rewrite (bind_run _ _ _ _ _ (osStat_run _ _)).
  destruct (decide (pathJoin ibDevDir dev ∈ statOK (env n))) as [Hstat|Hstat]; [|done].
  rewrite (bind_run _ _ _ _ _ (resolveIBDevice_run _ _)).
  set (ibDev := match sysfsFiles (env n) !! _ with Some data => TrimSpace data | None => "" end).
  rewrite (bind_run _ _ _ _ _ (osStat_run _ _)).
  rewrite (bind_run _ _ _ _ _ (osStat_run _ _)).
  assert (∃ sys,
            (if String.eqb ibDev "" then ret (Some "")
             else osStat (pathJoin "/sys/class/infiniband" ibDev)) n = Done sys n
            ∧ (sys = None → pathJoin "/sys/class/infiniband" ibDev ∈ statOK (env n)))
    as (sys & Hsys & Hsysok).
  { destruct (String.eqb ibDev ""); [by eexists|].
    rewrite osStat_run. eexists. split; [done|]. by destruct (decide _). }
  rewrite (bind_run _ _ _ _ _ Hsys).
  rewrite (bind_run _ _ _ _ _ (DetectNetnsMode_run _)).
  assert (mget (<["uverbsDevice":=dev]> (<["ibdev":=ibDev]>
                  (<["devPath":=pathJoin ibDevDir dev]> ∅))) "ibdev" = ibDev) as Hmeta.
  { unfold mget. rewrite lookup_insert_ne by done. by rewrite lookup_insert_eq. }
  assert (∃ u n',
            (if modeOf n is NetnsExclusive
             then if negb (String.eqb ibDev "") && uh_Tracker h
                  then modify (set_tracker (λ t, AddPending t (pq_ClaimUID req) ibDev))
                  else ret tt
             else ret tt) (set_cachedMode (Some (modeOf n)) n) = Done u n'
            ∧ n' = set_tracker
                     (λ t, if isExclusive n && negb (String.eqb ibDev "") && uh_Tracker h
                           then AddPending t (pq_ClaimUID req) ibDev else t)
                     (set_cachedMode (Some (modeOf n)) n))
    as (u & n' & Hreg & Hn').
  { unfold isExclusive. destruct (modeOf n) eqn:Hmode; cbn [andb].
    - eexists _, _. split; [done|]. unfold set_tracker. by destruct n.
    - destruct (negb (String.eqb ibDev "") && uh_Tracker h).
      + by eexists _, _.
      + eexists _, _. split; [done|]. unfold set_tracker. by destruct n. }
  rewrite (bind_run _ _ _ _ _ Hreg). unfold ret. cbn zeta.
  cbn [pr_Allocation pr_DeviceName pr_CDIEdits pr_PoolName ai_Metadata ai_Type ai_Kind
       ai_ClaimUID ai_DeviceName ce_DeviceNodes ce_Mounts ce_NetDevices].
  rewrite Hmeta. split_and!; try done.
  - apply Forall_app. split; [by repeat constructor|]. apply Forall_app. split.
    + destruct (decide (pathJoin ibDevDir "rdma_cm" ∈ statOK (env n))); by repeat constructor.
    + destruct (decide (pathJoin ibDevDir (replaceFirst "uverbs" "umad" dev) ∈ statOK (env n)));
        by repeat constructor.
  - destruct sys; [constructor|]. repeat constructor. by apply Hsysok.
Qed.

(** When the uverbs [Prepare] succeeds: a device is named or found, and its
    file exists. *)
Lemma UverbsHandler_Prepare_succeeds h (req : PrepareRequest) n :
  (∃ res n', UverbsHandler_Prepare h req n = Done (Ok res) n')
  ↔ ∃ dev,
      (if String.eqb (pq_AllocatedDevice req) ""
       then ∃ entries, ibDevEntries (env n) = Ok entries
                       ∧ List.find (λ name, hasPrefix name "uverbs") entries = Some dev
       else dev = pq_AllocatedDevice req)
      ∧ pathJoin ibDevDir dev ∈ statOK (env n).
Proof.
  split.
  - intros (res & n' & Hrun). pose proof (UverbsHandler_Prepare_post h req n) as Hpost.
    rewrite Hrun in Hpost. cbv zeta in Hpost.
    destruct Hpost as (Hnamed & Hfound & Hhead & Hnodes & _).
    exists (pr_DeviceName res). split.
    + destruct (String.eqb_spec (pq_AllocatedDevice req) "") as [Heq|Hne]; [by apply Hfound|].
      by apply Hnamed.
    + destruct (ce_DeviceNodes (pr_CDIEdits res)) as [|dn dns]; [done|].
      injection Hhead as ->. apply Forall_cons in Hnodes as [[Hin _] _]. exact Hin.
  - intros (dev & Hdev & Hstat). unfold UverbsHandler_Prepare.
    assert ((if String.eqb (pq_AllocatedDevice req) "" then findAvailableUverbs
             else ret (Ok (pq_AllocatedDevice req))) n = Done (Ok dev) n) as Hfound.
    { destruct (String.eqb (pq_AllocatedDevice req) ""); [|by rewrite Hdev].
      destruct Hdev as (entries & He & Hf). unfold findAvailableUverbs. by rewrite He, Hf. }
    rewrite (bind_run _ _ _ _ _ Hfound).
    rewrite (bind_run _ _ _ _ _ (osStat_run _ _)). rewrite decide_True by done.
    rewrite (bind_run _ _ _ _ _ (resolveIBDevice_run _ _)).
    rewrite (bind_run _ _ _ _ _ (osStat_run _ _)).
    rewrite (bind_run _ _ _ _ _ (osStat_run _ _)).
    set (ibDev := match sysfsFiles (env n) !! _ with Some data => TrimSpace data | None => "" end).
    assert (∃ sys, (if String.eqb ibDev "" then ret (Some "")
                    else osStat (pathJoin "/sys/class/infiniband" ibDev)) n = Done sys n)
      as (sys & Hsys).
    { destruct (String.eqb ibDev ""); [by eexists|]. rewrite osStat_run. by eexists. }
    rewrite (bind_run _ _ _ _ _ Hsys).
    rewrite (bind_run _ _ _ _ _ (DetectNetnsMode_run _)).
    unfold bind, ret, modify.
    destruct (modeOf n); [by eexists _, _|].
    destruct (negb (String.eqb ibDev "") && uh_Tracker h); by eexists _, _.
Qed.

(** X9.  The uverbs [Prepare] succeeds exactly when a device is to be had
    and its file exists: the allocated device when the request names one,
    else the first [uverbs*] entry of [/dev/infiniband].  It never panics,
    and on an error the node is as before.  On success the device is the allocated one when the request
    names one, else the first [uverbs*] entry of [/dev/infiniband]; its node
    is the first device node of the result, and every device node and every
    mount of the result exists on the host; no network device is handed
    over; the pool is [default]; the allocation records type [rdma], kind
    [uverbs], the claim and the device.  The node changes in two places
    only: the netns mode is cached, and, in exclusive mode, when the IB
    device is known and the handler has a tracker, the move of the claim is
    pending. *)
Theorem UverbsHandler_Prepare_outcome h (req : PrepareRequest) n :
  ((∃ res n', UverbsHandler_Prepare h req n = Done (Ok res) n')
   ↔ ∃ dev,
       (if String.eqb (pq_AllocatedDevice req) ""
        then ∃ entries, ibDevEntries (env n) = Ok entries
                        ∧ List.find (λ name, hasPrefix name "uverbs") entries = Some dev
        else dev = pq_AllocatedDevice req)
       ∧ pathJoin ibDevDir dev ∈ statOK (env n))
  ∧ match UverbsHandler_Prepare h req n with
    | Panic _ => False
    | Done (Err _) n' => n' = n
    | Done (Ok res) n' =>
        let alloc := pr_Allocation res in
        let ibDev := mget (ai_Metadata alloc) "ibdev" in
        (pq_AllocatedDevice req ≠ "" → pr_DeviceName res = pq_AllocatedDevice req)
        ∧ (pq_AllocatedDevice req = "" →
             ∃ entries, ibDevEntries (env n) = Ok entries
                        ∧ List.find (λ name, hasPrefix name "uverbs") entries
                          = Some (pr_DeviceName res))
        ∧ head (ce_DeviceNodes (pr_CDIEdits res))
          = Some (rwNode (pathJoin ibDevDir (pr_DeviceName res)))
        ∧ Forall (λ dn, dn_Path dn ∈ statOK (env n) ∧ dn_HostPath dn = dn_Path dn
                        ∧ dn_Permissions dn = "rw")
                 (ce_DeviceNodes (pr_CDIEdits res))
        ∧ Forall (λ mt, mt_HostPath mt ∈ statOK (env n)
                        ∧ mt_HostPath mt = pathJoin "/sys/class/infiniband" ibDev)
                 (ce_Mounts (pr_CDIEdits res))
        ∧ ce_NetDevices (pr_CDIEdits res) = []
        ∧ pr_PoolName res = "default"
        ∧ ai_Type alloc = DeviceTypeRDMA ∧ ai_Kind alloc = "uverbs"
        ∧ ai_ClaimUID alloc = pq_ClaimUID req
        ∧ ai_DeviceName alloc = pr_DeviceName res
        ∧ mget (ai_Metadata alloc) "uverbsDevice" = pr_DeviceName res
        ∧ n' = set_tracker
                 (λ t, if isExclusive n && negb (String.eqb ibDev "") && uh_Tracker h
                       then AddPending t (pq_ClaimUID req) ibDev else t)
                 (set_cachedMode (Some (modeOf n)) n)
    end.
Proof.
  split; [exact (UverbsHandler_Prepare_succeeds h req n)|].
  exact (UverbsHandler_Prepare_post h req n).
Qed.
End Uverbs.

(* ================================================================== *)
(** * The uverbs handler: Unprepare *)
(* ================================================================== *)

Section RdmaReturn.
Implicit Types (n : Node) (h : UverbsHandler) (t : RDMANetnsTracker).

Lemma netnsGetFromPath_run path n :
  netnsGetFromPath path n =
    Done (if decide (path ∈ netnsOpen (env n)) then Ok path
          else Err ("open " +:+ path +:+ ": no such file or directory")) n.
Proof. unfold netnsGetFromPath. by destruct (decide _). Qed.

Lemma enterPodNetns_run path n : enterPodNetns path n = Done (canEnter n path) n.
Proof.
  unfold enterPodNetns, canEnter.
  destruct (decide (path ≠ "")) as [Hne|Heq].
  - rewrite (bind_run _ _ _ _ _ (netnsGetFromPath_run _ _)).
    destruct (decide (path ∈ netnsOpen (env n))) as [Hin|Hnotin].
    + rewrite bool_decide_eq_true_2 by done. unfold bind, netnsSet.
      by destruct (netnsSetErr (env n) path).
    + by rewrite bool_decide_eq_false_2 by (by intros [_ ?]).
  - by rewrite bool_decide_eq_false_2 by (by intros [? _]).
Qed.

(** The device table after an attempt to return [ibDev] to the host, made
    from namespace [cur]. *)
Lemma returnFrom_run cur ibDev n :
  (let* l := RdmaLinkByName cur ibDev in
   match l with
   | Err _ => ret tt
   | Ok link => RdmaLinkSetNsFd link hostNetns ;; ret tt
   end) n =
  Done tt (if decide (rdmaDevs n !! ibDev = Some cur ∧ rdmaSetNsErr (env n) ibDev = None)
           then set_rdmaDevs (<[ibDev := hostNetns]>) n else n).
Proof.
  unfold bind at 1. unfold RdmaLinkByName.
  destruct (rdmaDevs n !! ibDev) as [owner|] eqn:Hdev.
  2:{ by rewrite decide_False by (by intros [? _]). }
  destruct (decide (owner = cur)) as [->|Hne].
  2:{ rewrite decide_False; [done|]. intros [[= ?] _]. done. }
  unfold bind, RdmaLinkSetNsFd. destruct (rdmaSetNsErr (env n) ibDev) eqn:Herr.
  - by rewrite decide_False by (by intros [_ ?]).
  - by rewrite decide_True.
Qed.

Lemma returnRDMAToHost_run ibDev path n :
  returnRDMAToHost ibDev path n =
    Done tt (if decide (hostNetns ∈ netnsOpen (env n)
                        ∧ rdmaDevs n !! ibDev
                          = Some (if canEnter n path then path else hostNetns)
                        ∧ rdmaSetNsErr (env n) ibDev = None)
             then set_rdmaDevs (<[ibDev := hostNetns]>) n else n).
Proof.
  unfold returnRDMAToHost.
  rewrite (bind_run _ _ _ _ _ (netnsGetFromPath_run _ _)).
  destruct (decide (hostNetns ∈ netnsOpen (env n))) as [Hhost|Hhost].
  2:{ by rewrite decide_False by (by intros [? _]). }
  rewrite (bind_run _ _ _ _ _ (enterPodNetns_run _ _)).
  rewrite returnFrom_run. f_equal. destruct (decide (_ ∧ _)) as [[H1 H2]|Hno].
  - by rewrite decide_True.
  - rewrite decide_False; [done|]. intros (_ & ? & ?). by apply Hno.
Qed.

(** X10.  The uverbs [Unprepare] always returns nil.  It touches neither
    interfaces nor files, and a device stays where it is or, the device of
    the allocation, is in the host namespace.  In exclusive mode, when the
    allocation records an IB device and the handler has a tracker, the
    pending and the active move of the claim are removed, and the device is
    back in the host namespace whenever the host namespace can be opened,
    the device is where the handler looks for it (the namespace of the
    active move if that can be entered, the host namespace otherwise) and
    the kernel lets it go.  In every other case tracker and devices are as
    before. *)
Theorem UverbsHandler_Unprepare_outcome h (req : UnprepareRequest) n :
  let uid := ai_ClaimUID (uq_Allocation req) in
  let ibDev := mget (ai_Metadata (uq_Allocation req)) "ibdev" in
  ∃ n', UverbsHandler_Unprepare h req n = Done None n'
        ∧ env n' = env n ∧ links n' = links n ∧ cdiFiles n' = cdiFiles n
        ∧ (∀ dev, rdmaDevs n' !! dev = rdmaDevs n !! dev
                  ∨ dev = ibDev ∧ rdmaDevs n' !! dev = Some hostNetns)
        ∧ if isExclusive n && negb (String.eqb ibDev "") && uh_Tracker h
          then pending (rdmaTracker n') = delete uid (pending (rdmaTracker n))
               ∧ active (rdmaTracker n') = delete uid (active (rdmaTracker n))
               ∧ (hostNetns ∈ netnsOpen (env n) →
                  rdmaSetNsErr (env n) ibDev = None →
                  let path := match active (rdmaTracker n) !! uid with
                              | Some a => am_NetnsPath a
                              | None => ""
                              end in
                  rdmaDevs n !! ibDev = Some (if canEnter n path then path else hostNetns) →
                  rdmaDevs n' !! ibDev = Some hostNetns)
          else rdmaTracker n' = rdmaTracker n ∧ rdmaDevs n' = rdmaDevs n.
Proof.
  intros uid ibDev. unfold UverbsHandler_Unprepare. fold ibDev. fold uid.
  rewrite (bind_run _ _ _ _ _ (DetectNetnsMode_run _)).
  unfold isExclusive.
  destruct (modeOf n) eqn:Hmode; cbn [andb].
  { eexists. split; [done|]. cbn. split_and!; try done. intros dev. by left. }
  destruct (negb (String.eqb ibDev "") && uh_Tracker h) eqn:Hb.
  2:{ eexists. split; [done|]. cbn. split_and!; try done. intros dev. by left. }
  unfold bind at 1. unfold bind at 1. unfold modify. cbn beta iota.
  unfold bind at 1. unfold trackerRemoveActive.
  cbn [rdmaTracker set_tracker set_cachedMode].
  unfold RemoveActive. cbn [active pending RemovePending].
  destruct (active (rdmaTracker n) !! uid) as [a|] eqn:Hact.
  - rewrite returnRDMAToHost_run. cbn [env rdmaDevs set_tracker set_cachedMode canEnter].
    unfold bind. eexists. split; [done|].
    destruct (decide _) as [(Hhost & Hdev & Herr)|Hno]; cbn.
    + split_and!; try done.
      * intros dev. destruct (decide (dev = ibDev)) as [->|Hne].
        -- right. by rewrite lookup_insert_eq.
        -- left. by rewrite lookup_insert_ne.
      * intros _ _ _. by rewrite lookup_insert_eq.
    + split_and!; try done.
      * intros dev. by left.
      * intros Hhost Herr Hdev. exfalso. apply Hno. done.
  - rewrite returnRDMAToHost_run. cbn [env rdmaDevs set_tracker set_cachedMode canEnter].
    unfold bind. eexists. split; [done|].
    destruct (decide _) as [(Hhost & Hdev & Herr)|Hno]; cbn.
    + split_and!; try done.
      * intros dev. destruct (decide (dev = ibDev)) as [->|Hne].
        -- right. by rewrite lookup_insert_eq.
        -- left. by rewrite lookup_insert_ne.
      * by rewrite delete_id.
      * intros _ _ _. by rewrite lookup_insert_eq.
    + split_and!; try done.
      * intros dev. by left.
      * by rewrite delete_id.
Qed.
End RdmaReturn.

(* ================================================================== *)
(** * The sandbox-stopped event *)
(* ================================================================== *)

Section SandboxStop.
Implicit Types (n : Node) (h : UverbsHandler) (t : RDMANetnsTracker).

Lemma returnLoop_spec cur (moves : list ActiveMove) n :
  ∃ n', forEach (returnFromPod cur hostNetns) moves n = Done tt n'
        ∧ env n' = env n ∧ links n' = links n ∧ cdiFiles n' = cdiFiles n
        ∧ rdmaTracker n' = rdmaTracker n
        ∧ (∀ dev, rdmaDevs n' !! dev = rdmaDevs n !! dev
                  ∨ dev ∈ map am_IBDev moves ∧ rdmaDevs n' !! dev = Some hostNetns)
        ∧ (∀ m, m ∈ moves → rdmaDevs n !! am_IBDev m = Some cur →
                rdmaSetNsErr (env n) (am_IBDev m) = None →
                rdmaDevs n' !! am_IBDev m = Some hostNetns).
Proof.
  revert n. induction moves as [|m moves IH]; intros n.
  { exists n. split_and!; try done; [by left|]. intros m Hm. by apply elem_of_nil in Hm. }
  rewrite forEach_cons. unfold returnFromPod at 1. rewrite returnFrom_run.
  set (n1 := if decide _ then _ else n).
  assert (env n1 = env n ∧ links n1 = links n ∧ cdiFiles n1 = cdiFiles n
          ∧ rdmaTracker n1 = rdmaTracker n) as (He & Hl & Hc & Ht).
  { unfold n1. by destruct (decide _). }
  assert (∀ dev, rdmaDevs n1 !! dev = rdmaDevs n !! dev
                 ∨ dev = am_IBDev m ∧ rdmaDevs n1 !! dev = Some hostNetns) as Hstep.
  { intros dev. unfold n1. destruct (decide _); [|by left]. cbn.
    destruct (decide (dev = am_IBDev m)) as [->|Hne].
    - right. by rewrite lookup_insert_eq.
    - left. by rewrite lookup_insert_ne. }
  destruct (IH n1) as (n' & Hrun & He' & Hl' & Hc' & Ht' & Hdevs & Hret).
  exists n'. split; [exact Hrun|]. split_and!; try congruence.
  - intros dev. destruct (Hdevs dev) as [Heq|[Hin Hhost]].
    + destruct (Hstep dev) as [Heq1|[-> Hhost]]; [left; congruence|].
      right. split; [by left|congruence].
    + right. split; [by right|done].
  - intros m' Hm' Hcur Herr. apply elem_of_cons in Hm' as [->|Hm'].
    + assert (rdmaDevs n1 !! am_IBDev m = Some hostNetns) as Hmoved.
      { unfold n1. rewrite decide_True by done. cbn. by rewrite lookup_insert_eq. }
      destruct (Hdevs (am_IBDev m)) as [Heq|[_ Hhost]]; congruence.
    + destruct (Hstep (am_IBDev m')) as [Heq1|[_ Hhost]].
      * apply Hret; [done|congruence|congruence].
      * destruct (Hdevs (am_IBDev m')) as [Heq|[_ Hhost']]; congruence.
Qed.

(** X11.  A sandbox-stopped event always returns nil.  It removes exactly
    the active moves of the pod from the tracker, touches neither interfaces
    nor files, and moves no device except, to the host namespace, the
    devices of these moves.  Each of them is back in the host namespace
    whenever the host namespace can be opened, the device is where the
    plugin looks for it (the namespace of the pod if that can be entered,
    the host namespace otherwise) and the kernel lets it go. *)
Theorem StopPodSandbox_outcome (pod : PodSandbox) n :
  let moves := (RemoveActiveForPod (rdmaTracker n) (ps_Uid pod)).1 in
  ∃ n', StopPodSandbox pod n = Done None n'
        ∧ rdmaTracker n' = (RemoveActiveForPod (rdmaTracker n) (ps_Uid pod)).2
        ∧ env n' = env n ∧ links n' = links n ∧ cdiFiles n' = cdiFiles n
        ∧ (∀ dev, rdmaDevs n' !! dev = rdmaDevs n !! dev
                  ∨ dev ∈ map am_IBDev moves ∧ rdmaDevs n' !! dev = Some hostNetns)
        ∧ (hostNetns ∈ netnsOpen (env n) →
           let cur := if canEnter n (getNetNSPath pod) then getNetNSPath pod
                      else hostNetns in
           ∀ m, m ∈ moves → rdmaDevs n !! am_IBDev m = Some cur →
                rdmaSetNsErr (env n) (am_IBDev m) = None →
                rdmaDevs n' !! am_IBDev m = Some hostNetns).
Proof.
  intros moves. unfold StopPodSandbox. unfold bind at 1, trackerRemoveActiveForPod.
  subst moves. destruct (RemoveActiveForPod (rdmaTracker n) (ps_Uid pod)) as [moves t'] eqn:Hrm.
  cbn [fst snd].
  destruct (decide (length moves = 0)) as [Hnil|Hnil].
  { apply length_zero_iff_nil in Hnil. subst moves. eexists. split; [done|]. cbn.
    split_and!; try done; [by left|]. intros _ m Hm. by apply elem_of_nil in Hm. }
  rewrite (bind_run _ _ _ _ _ (netnsGetFromPath_run _ _)). cbn [env set_tracker].
  destruct (decide (hostNetns ∈ netnsOpen (env n))) as [Hhost|Hhost].
  2:{ eexists. split; [done|]. cbn. split_and!; try done. by left. }
  rewrite (bind_run _ _ _ _ _ (enterPodNetns_run _ _)).
  unfold bind at 1.
  destruct (returnLoop_spec
              (if canEnter (set_tracker (λ _, t') n) (getNetNSPath pod)
               then getNetNSPath pod else hostNetns) moves (set_tracker (λ _, t') n))
    as (n' & Hrun & He & Hl & Hc & Ht & Hdevs & Hret).
  rewrite Hrun. exists n'. split; [done|]. split_and!; try done.
Qed.
End SandboxStop.

(* ================================================================== *)
(** * An RDMA claim from Prepare to Unprepare *)
(* ================================================================== *)

Section RelocationRoundTrip.
Implicit Types (n : Node) (h : UverbsHandler) (t : RDMANetnsTracker).

Lemma consume_nothing t (cs : list string) :
  (∀ c, c ∈ cs → pending t !! c = None) → ConsumePendingForClaims t cs = ([], t).
Proof.
  induction cs as [|c cs IH]; intros Hnone; [done|].
  rewrite consume_cons_None by (apply Hnone; by left).
  apply IH. intros c' Hc'. apply Hnone. by right.
Qed.

Lemma consume_single t (cs : list string) (uid : string) (m : PendingMove) :
  uid ∈ cs → pending t !! uid = Some m →
  (∀ c, c ∈ cs → c ≠ uid → pending t !! c = None) →
  ConsumePendingForClaims t cs = ([m], RemovePending t uid).
Proof.
  induction cs as [|c cs IH]; intros Hin Hlk Hothers; [by apply elem_of_nil in Hin|].
  destruct (decide (c = uid)) as [->|Hne].
  - rewrite (consume_cons_Some _ _ _ _ Hlk).
    rewrite consume_nothing; [done|]. intros c Hc. cbn.
    destruct (decide (c = uid)) as [->|Hne]; [by rewrite lookup_delete_eq|].
    rewrite lookup_delete_ne by done. apply Hothers; [by right|done].
  - rewrite consume_cons_None by (apply Hothers; [by left|done]).
    apply IH; [|done|].
    + apply elem_of_cons in Hin as [?|?]; [congruence|done].
    + intros c' Hc'. apply Hothers. by right.
Qed.

Lemma UverbsHandler_Prepare_exclusive h (req : PrepareRequest) n (data : string) :
  uh_Tracker h = true →
  isExclusive n = true →
  pq_AllocatedDevice req ≠ "" →
  pathJoin ibDevDir (pq_AllocatedDevice req) ∈ statOK (env n) →
  sysfsFiles (env n)
    !! pathJoin (pathJoin "/sys/class/infiniband_verbs" (pq_AllocatedDevice req)) "ibdev"
    = Some data →
  TrimSpace data ≠ "" →
  ∃ res, UverbsHandler_Prepare h req n =
           Done (Ok res)
                (set_tracker (λ t, AddPending t (pq_ClaimUID req) (TrimSpace data))
                   (set_cachedMode (Some NetnsExclusive) n))
         ∧ ai_ClaimUID (pr_Allocation res) = pq_ClaimUID req
         ∧ mget (ai_Metadata (pr_Allocation res)) "ibdev" = TrimSpace data.
Proof.
  intros Htr Hex Hdev Hstat Hsys Hib. unfold UverbsHandler_Prepare.
  apply String.eqb_neq in Hdev. rewrite Hdev.
  unfold bind at 1, ret at 1.
  rewrite (bind_run _ _ _ _ _ (osStat_run _ _)). rewrite decide_True by done.
  rewrite (bind_run _ _ _ _ _ (resolveIBDevice_run _ _)). rewrite Hsys.
  rewrite (bind_run _ _ _ _ _ (osStat_run _ _)).
  rewrite (bind_run _ _ _ _ _ (osStat_run _ _)).
  apply String.eqb_neq in Hib. rewrite Hib.
  rewrite (bind_run _ _ _ _ _ (osStat_run _ _)).
  rewrite (bind_run _ _ _ _ _ (DetectNetnsMode_run _)).
  unfold isExclusive in Hex. destruct (modeOf n); [done|].
  rewrite Htr. cbn [negb andb]. unfold bind, modify, ret.
  eexists. split; [done|]. cbn. split; [done|].
  unfold mget. rewrite lookup_insert_ne by done. by rewrite lookup_insert_eq.
Qed.

Lemma UverbsHandler_Unprepare_exclusive h (req : UnprepareRequest) n :
  uh_Tracker h = true →
  isExclusive n = true →
  mget (ai_Metadata (uq_Allocation req)) "ibdev" ≠ "" →
  UverbsHandler_Unprepare h req n =
    (returnRDMAToHost (mget (ai_Metadata (uq_Allocation req)) "ibdev")
       (match active (rdmaTracker n) !! ai_ClaimUID (uq_Allocation req) with
        | Some a => am_NetnsPath a
        | None => ""
        end) ;; ret None)
      (set_tracker (λ t, {| pending := delete (ai_ClaimUID (uq_Allocation req)) (pending t);
                            active := delete (ai_ClaimUID (uq_Allocation req)) (active t) |})
         (set_cachedMode (Some NetnsExclusive) n)).
Proof.
  intros Htr Hex Hib. unfold UverbsHandler_Unprepare.
  rewrite (bind_run _ _ _ _ _ (DetectNetnsMode_run _)).
  unfold isExclusive in Hex. destruct (modeOf n); [done|].
  apply String.eqb_neq in Hib. rewrite Hib, Htr. cbn [negb andb].
  unfold bind at 1. unfold bind at 1. unfold bind at 1. unfold modify.
  unfold bind at 1. unfold trackerRemoveActive.
  cbn [rdmaTracker set_tracker set_cachedMode].
  unfold RemoveActive. cbn [active pending RemovePending].
  destruct (active (rdmaTracker n) !! ai_ClaimUID (uq_Allocation req)) as [a|] eqn:Hact.
  - reflexivity.
  - unfold set_tracker, set_cachedMode. cbn. by rewrite (delete_id _ _ Hact).
Qed.

(** X12.  The life of an RDMA claim in exclusive mode.  [Prepare] registers
    the move: the claim is pending.  The sandbox-created event of the pod
    that uses the claim moves the device into the namespace of the pod: the
    claim is active.  [Unprepare] brings the device back and forgets the
    claim: tracker and devices are as before [Prepare], and interfaces and
    files were never touched.  (For a handler with a tracker and a request
    that names a device whose IB device is known, is in the host namespace
    and can be moved; a pod whose namespace can be entered and whose
    annotations name the claim and no other pending claim.) *)
Theorem rdma_relocation_round_trip h (req : PrepareRequest) (pod : PodSandbox) n
    (data : string) :
  let uid := pq_ClaimUID req in
  let dev := pq_AllocatedDevice req in
  let ibDev := TrimSpace data in
  let path := getNetNSPath pod in
  uh_Tracker h = true →
  isExclusive n = true →
  dev ≠ "" →
  pathJoin ibDevDir dev ∈ statOK (env n) →
  sysfsFiles (env n) !! pathJoin (pathJoin "/sys/class/infiniband_verbs" dev) "ibdev"
    = Some data →
  ibDev ≠ "" →
  rdmaDevs n !! ibDev = Some hostNetns →
  rdmaSetNsErr (env n) ibDev = None →
  hostNetns ∈ netnsOpen (env n) →
  canEnter n path = true →
  keyed (rdmaTracker n) →
  claimState (rdmaTracker n) uid = Unregistered →
  uid ∈ extractClaimUIDs (ps_Annotations pod) →
  (∀ c, c ∈ extractClaimUIDs (ps_Annotations pod) → c ≠ uid →
        pending (rdmaTracker n) !! c = None) →
  ∃ res n1 n2 n3,
    UverbsHandler_Prepare h req n = Done (Ok res) n1
    ∧ claimState (rdmaTracker n1) uid = Pending
    ∧ RunPodSandbox pod n1 = Done None n2
    ∧ claimState (rdmaTracker n2) uid = Active
    ∧ rdmaDevs n2 !! ibDev = Some path
    ∧ UverbsHandler_Unprepare h {| uq_ClaimUID := uid; uq_Allocation := pr_Allocation res |} n2
      = Done None n3
    ∧ rdmaTracker n3 = rdmaTracker n
    ∧ rdmaDevs n3 = rdmaDevs n
    ∧ links n3 = links n ∧ cdiFiles n3 = cdiFiles n ∧ env n3 = env n.
Proof.
  intros uid dev ibDev path Htr Hex Hdev Hstat Hsys Hib Hhostdev Herr Hhost Henter Hkey
    Hstate Huid Hothers.
  assert (pending (rdmaTracker n) !! uid = None ∧ active (rdmaTracker n) !! uid = None)
    as [Hp Ha].
  { unfold claimState in Hstate.
    by destruct (pending (rdmaTracker n) !! uid), (active (rdmaTracker n) !! uid). }
  assert (path ≠ "" ∧ path ∈ netnsOpen (env n) ∧ netnsSetErr (env n) path = None)
    as (Hpath & Hopen & Hset).
  { unfold canEnter in Henter. apply andb_true_iff in Henter as [H1 H2].
    apply bool_decide_eq_true_1 in H1 as [? ?]. split_and!; [done|done|].
    by destruct (netnsSetErr (env n) path). }
  destruct (UverbsHandler_Prepare_exclusive h req n data Htr Hex Hdev Hstat Hsys Hib)
    as (res & Hprep & Hresuid & Hresib).
  fold uid ibDev in Hprep, Hresuid, Hresib.
  set (n1 := set_tracker (λ t, AddPending t uid ibDev)
               (set_cachedMode (Some NetnsExclusive) n)) in *.
  set (m := {| pm_IBDev := ibDev; pm_ClaimUID := uid |}).
  (* the sandbox *)
  assert (ConsumePendingForClaims (rdmaTracker n1) (extractClaimUIDs (ps_Annotations pod))
          = ([m], RemovePending (rdmaTracker n1) uid)) as Hcons.
  { apply consume_single; [done| |].
    - cbn. by rewrite lookup_insert_eq.
    - intros c Hc Hne. cbn. rewrite lookup_insert_ne by done. by apply Hothers. }
  set (n2 := set_tracker (markAll (ps_Uid pod) path [m])
               (set_rdmaDevs (moveAll path [m])
                  (set_tracker (λ _, RemovePending (rdmaTracker n1) uid) n1))).
  assert (RunPodSandbox pod n1 = Done None n2) as Hrun.
  { unfold RunPodSandbox.
    rewrite decide_False by (intros Hlen; apply length_zero_iff_nil in Hlen;
                             rewrite Hlen in Huid; by apply elem_of_nil in Huid).
    unfold bind at 1, trackerConsume. rewrite Hcons.
    rewrite decide_False by done. fold path. rewrite decide_True by done.
    rewrite (bind_run _ _ _ _ _ (netnsGetFromPath_run _ _)). cbn [env set_tracker n1 set_cachedMode].
    rewrite decide_True by done. unfold bind at 1.
    rewrite moveLoop_success; [done|by repeat constructor; intros ?%elem_of_nil|].
    intros m' ->%list_elem_of_singleton. cbn. done. }
  (* the release *)
  set (ureq := {| uq_ClaimUID := uid; uq_Allocation := pr_Allocation res |}).
  assert (isExclusive n2 = true) as Hex2 by done.
  assert (mget (ai_Metadata (uq_Allocation ureq)) "ibdev" ≠ "") as Hib2
    by (cbn; by rewrite Hresib).
  pose proof (UverbsHandler_Unprepare_exclusive h ureq n2 Htr Hex2 Hib2) as Hunp.
  cbn [uq_Allocation ureq] in Hunp. rewrite Hresuid, Hresib in Hunp.
  assert (active (rdmaTracker n2) !! uid
          = Some {| am_IBDev := ibDev; am_PodUID := ps_Uid pod; am_NetnsPath := path |})
    as Hact2 by (cbn; by rewrite lookup_insert_eq).
  rewrite Hact2 in Hunp. cbn [am_NetnsPath] in Hunp.
  unfold bind in Hunp. rewrite returnRDMAToHost_run in Hunp.
  rewrite decide_True in Hunp.
  2:{ split_and!; [done| |done].
      replace (canEnter _ path) with (canEnter n path) by done. rewrite Henter.
      cbn. by rewrite lookup_insert_eq. }
  eexists res, n1, n2, _. split_and!; [exact Hprep| |exact Hrun| | |exact Hunp| | | | |].
  - unfold claimState. cbn. by rewrite lookup_insert_eq, Ha.
  - unfold claimState. rewrite Hact2. cbn. by rewrite lookup_delete_eq.
  - cbn. by rewrite lookup_insert_eq.
  - cbn. rewrite delete_insert_id by done. rewrite delete_insert_id by done.
    rewrite delete_id by done. by destruct (rdmaTracker n).
  - cbn. rewrite insert_insert_eq. by apply insert_id.
  - done.
  - done.
  - done.
Qed.
End RelocationRoundTrip.

(* ================================================================== *)
(** * The dummy handler *)
(* ================================================================== *)

Section NetdevHandlers.
Implicit Types (n : Node) (req : PrepareRequest) (cfg : NetdevConfig).

Lemma set_links_add_del name (l : Link) n :
  links n !! name = None →
  set_links (delete name) (set_links (<[name := l]>) n) = n.
Proof.
  intros Hfree. unfold set_links. cbn. rewrite delete_insert_id by done. by destruct n.
Qed.

Lemma LinkAdd_run name kind mtu n :
  LinkAdd name kind mtu n =
    match links n !! name with
    | Some _ => Done (Some "file exists") n
    | None =>
        match linkAddErr (env n) name with
        | Some e => Done (Some e) n
        | None => Done None (set_links (<[name := {| lk_Kind := kind; lk_MTU := mtu;
                                                     lk_Up := false |}]>) n)
        end
    end.
Proof. done. Qed.

(** After a successful [LinkAdd]: find, bring up, and on failure delete. *)
Lemma bring_up_run name kind mtu n :
  links n !! name = None →
  let n1 := set_links (<[name := {| lk_Kind := kind; lk_MTU := mtu; lk_Up := false |}]>) n in
  LinkByName name n1 = Done (Ok name) n1
  ∧ LinkSetUp name n1 =
      match linkSetUpErr (env n) name with
      | Some e => Done (Some e) n1
      | None => Done None (set_links (<[name := {| lk_Kind := kind; lk_MTU := mtu;
                                                   lk_Up := true |}]>) n)
      end
  ∧ LinkDel name n1 =
      match linkDelErr (env n) name with
      | Some e => Done (Some e) n1
      | None => Done None n
      end.
Proof.
  intros Hfree n1. unfold LinkByName, LinkSetUp, LinkDel. cbn [links env n1 set_links].
  rewrite lookup_insert_eq. split_and!; [done| |].
  - destruct (linkSetUpErr (env n) name); [done|]. unfold set_links. cbn.
    by rewrite insert_insert_eq.
  - destruct (linkDelErr (env n) name); [done|]. f_equal.
    apply (set_links_add_del name {| lk_Kind := kind; lk_MTU := mtu; lk_Up := false |} n Hfree).
Qed.

Lemma DummyHandler_Prepare_post req cfg n :
  dc_Netdev (pq_Config req) = Some cfg →
  8 ≤ String.length (pq_ClaimUID req) →
  let ifName := claimIfName "dm" (pq_ClaimUID req) in
  let created up := set_links (<[ifName := {| lk_Kind := Dummy; lk_MTU := requestedMTU cfg;
                                              lk_Up := up |}]>) n in
  match DummyHandler_Prepare req n with
  | Panic _ => False
  | Done (Ok res) n' =>
      links n !! ifName = None
      ∧ n' = created true
      ∧ pr_PoolName res = "default"
      ∧ pr_DeviceName res = ifName
      ∧ pr_CDIEdits res =
          {| ce_DeviceNodes := []; ce_Mounts := [];
             ce_NetDevices :=
               [{| nd_HostInterfaceName := ifName;
                   nd_Name := if String.eqb (nc_InterfaceName cfg) "" then "eth1"
                              else nc_InterfaceName cfg |}];
             ce_Env := [] |}
      ∧ ai_Type (pr_Allocation res) = DeviceTypeNetdev
      ∧ ai_Kind (pr_Allocation res) = "dummy"
      ∧ ai_ClaimUID (pr_Allocation res) = pq_ClaimUID req
      ∧ ai_DeviceName (pr_Allocation res) = ifName
      ∧ mget (ai_Metadata (pr_Allocation res)) "createdInterface" = ifName
  | Done (Err e) n' =>
      n' = n
      ∨ links n !! ifName = None
        ∧ is_Some (linkSetUpErr (env n) ifName)
        ∧ is_Some (linkDelErr (env n) ifName)
        ∧ n' = created false
  end.
Proof.
  intros Hcfg Hlen ifName created. unfold DummyHandler_Prepare. rewrite Hcfg.
  unfold slice_to. rewrite decide_True by done.
  change ("dm" +:+ String.substring 0 8 (pq_ClaimUID req)) with ifName.
  fold (requestedMTU cfg).
  unfold bind at 1. rewrite LinkAdd_run.
  destruct (links n !! ifName) as [l|] eqn:Hfree; [by left|].
  destruct (linkAddErr (env n) ifName) as [e|]; [by left|].
  destruct (bring_up_run ifName Dummy (requestedMTU cfg) n Hfree) as (Hby & Hup & Hdel).
  unfold bind at 1. rewrite Hby. unfold bind at 1. rewrite Hup.
  destruct (linkSetUpErr (env n) ifName) as [e|] eqn:Hue.
  - unfold bind. rewrite Hdel. destruct (linkDelErr (env n) ifName) as [e'|] eqn:Hde.
    + right. split_and!; [done|by eexists|by eexists|done].
    + by left.
  - unfold ret. split_and!; try done.
Qed.



(** Release of an interface by name, as the dummy and the IPoIB [Unprepare]
    do it. *)
Lemma DummyHandler_Unprepare_run (ureq : UnprepareRequest) n :
  let ifName := mget (ai_Metadata (uq_Allocation ureq)) "createdInterface" in
  DummyHandler_Unprepare ureq n =
    if String.eqb ifName "" then Done None n
    else match links n !! ifName with
         | None => Done None n
         | Some _ =>
             match linkDelErr (env n) ifName with
             | Some e => Done (Some ("failed to delete dummy interface " +:+ ifName
                                     +:+ ": " +:+ e)) n
             | None => Done None (set_links (delete ifName) n)
             end
         end.
Proof.
  intros ifName. unfold DummyHandler_Unprepare. fold ifName.
  destruct (String.eqb ifName ""); [done|].
  unfold bind at 1, LinkByName. destruct (links n !! ifName) as [l|] eqn:Hl; [|done].
  unfold bind, LinkDel. rewrite Hl. by destruct (linkDelErr (env n) ifName).
Qed.

(** X14.  After a successful dummy [Prepare], the [Unprepare] of the
    allocation it returned restores the node when the kernel lets the
    interface go; when not, it reports the failure and leaves the node
    alone.  On the node before [Prepare] the same [Unprepare] finds nothing
    to do. *)
Theorem DummyHandler_release_after_prepare req (res : PrepareResult) n n' :
  DummyHandler_Prepare req n = Done (Ok res) n' →
  let ureq := {| uq_ClaimUID := pq_ClaimUID req; uq_Allocation := pr_Allocation res |} in
  let ifName := pr_DeviceName res in
  (linkDelErr (env n) ifName = None → DummyHandler_Unprepare ureq n' = Done None n)
  ∧ (∀ e, linkDelErr (env n) ifName = Some e →
          DummyHandler_Unprepare ureq n' =
            Done (Some ("failed to delete dummy interface " +:+ ifName +:+ ": " +:+ e)) n')
  ∧ DummyHandler_Unprepare ureq n = Done None n.
Proof.
  intros Hprep ureq ifName.
  destruct (dc_Netdev (pq_Config req)) as [cfg|] eqn:Hcfg.
  2:{ unfold DummyHandler_Prepare in Hprep. by rewrite Hcfg in Hprep. }
  destruct (decide (8 ≤ String.length (pq_ClaimUID req))) as [Hlen|Hlen].
  2:{ unfold DummyHandler_Prepare, slice_to in Hprep. rewrite Hcfg in Hprep.
      by rewrite decide_False in Hprep. }
  pose proof (DummyHandler_Prepare_post req cfg n Hcfg Hlen) as Hpost.
  rewrite Hprep in Hpost. cbv zeta in Hpost.
  destruct Hpost as (Hfree & -> & _ & Hname & _ & _ & _ & _ & _ & Hmeta).
  subst ifName. rewrite Hname in *.
  assert (claimIfName "dm" (pq_ClaimUID req) ≠ "") as Hne by done.
  apply String.eqb_neq in Hne.
  split_and!.
  - intros Hdel. rewrite DummyHandler_Unprepare_run. cbn [uq_Allocation ureq].
    rewrite Hmeta, Hne. cbn [links env set_links]. rewrite lookup_insert_eq, Hdel.
    by rewrite set_links_add_del.
  - intros e Hdel. rewrite DummyHandler_Unprepare_run. cbn [uq_Allocation ureq].
    rewrite Hmeta, Hne. cbn [links env set_links]. by rewrite lookup_insert_eq, Hdel.
  - rewrite DummyHandler_Unprepare_run. cbn [uq_Allocation ureq].
    by rewrite Hmeta, Hne, Hfree.
Qed.
End NetdevHandlers.

(* ================================================================== *)
(** * The IPoIB handler *)
(* ================================================================== *)

Section Ipoib.
Implicit Types (n : Node) (req : PrepareRequest) (cfg : NetdevConfig).

(** The partition key of the interface: the configured one with the
    full-membership bit, cut to 16 bits. *)
Lemma pkey_full_membership (p : Z) :
  let pk := Z.land (Z.lor p 0x8000) 0xFFFF in
  (0x8000 ≤ pk ≤ 0xFFFF)%Z
  ∧ Z.testbit pk 15 = true
  ∧ ((0 < p ≤ 0xFFFF)%Z → pk = Z.lor p 0x8000).
Proof.
  intros pk.
  assert (∀ x, Z.testbit (Z.lor x 0x8000) 15 = true) as Hlor.
  { intros x. rewrite Z.lor_spec. replace (Z.testbit 0x8000 15) with true by reflexivity.
    apply orb_true_r. }
  assert (Z.testbit pk 15 = true) as Hbit.
  { unfold pk. rewrite Z.land_spec, Hlor. reflexivity. }
  assert (0 ≤ pk < 65536)%Z as Hrange.
  { unfold pk. change 0xFFFF%Z with (Z.ones 16). rewrite Z.land_ones by lia.
    apply Z.mod_pos_bound. lia. }
  split; [|split; [done|]].
  - apply Z.testbit_true in Hbit; [|lia]. change (2 ^ 15)%Z with 32768%Z in Hbit.
    split; [|lia]. destruct (decide (32768 ≤ pk)%Z) as [|Hlt]; [done|].
    rewrite Z.div_small in Hbit by lia. done.
  - intros Hp. unfold pk. change 0xFFFF%Z with (Z.ones 16). rewrite Z.land_ones by lia.
    apply Z.mod_small.
    assert (0 ≤ Z.lor p 0x8000)%Z as Hnn by (apply Z.lor_nonneg; lia).
    split; [done|].
    assert (Z.lor p 0x8000 ≠ 0)%Z as Hnz.
    { intros Hz. specialize (Hlor p). rewrite Hz in Hlor. by rewrite Z.bits_0 in Hlor. }
    apply Z.log2_lt_pow2; [lia|]. rewrite Z.log2_lor by lia.
    apply Z.max_lub_lt; [|done]. apply Z.log2_lt_pow2; lia.
Qed.

Lemma IpoibHandler_Prepare_post req n :
  let uid := pq_ClaimUID req in
  let ifName := claimIfName "ib" uid in
  match IpoibHandler_Prepare req n with
  | Panic n' => n' = n ∧ String.length uid < 8
  | Done (Err e) n' =>
      n' = n
      ∨ links n !! ifName = None
        ∧ is_Some (linkSetUpErr (env n) ifName)
        ∧ is_Some (linkDelErr (env n) ifName)
        ∧ ∃ l, lk_Up l = false ∧ n' = set_links (<[ifName := l]>) n
  | Done (Ok res) n' =>
      8 ≤ String.length uid
      ∧ ∃ cfg, dc_Netdev (pq_Config req) = Some cfg
          ∧ nc_Parent cfg ≠ "" ∧ is_Some (links n !! nc_Parent cfg)
          ∧ nc_Pkey cfg ≠ 0%Z
          ∧ nc_Mode cfg ∈ ["connected"; "datagram"; ""]
          ∧ links n !! ifName = None
          ∧ n' = set_links
                   (<[ifName :=
                        {| lk_Kind := IPoIB (nc_Parent cfg)
                                        (Z.land (Z.lor (nc_Pkey cfg) 0x8000) 0xFFFF)
                                        (String.eqb (nc_Mode cfg) "connected");
                           lk_MTU := requestedMTU cfg; lk_Up := true |}]>) n
          ∧ pr_PoolName res = "default"
          ∧ pr_DeviceName res = ifName
          ∧ ce_NetDevices (pr_CDIEdits res) =
              [{| nd_HostInterfaceName := ifName;
                  nd_Name := if String.eqb (nc_InterfaceName cfg) "" then "ib1"
                             else nc_InterfaceName cfg |}]
          ∧ ai_Type (pr_Allocation res) = DeviceTypeNetdev
          ∧ ai_Kind (pr_Allocation res) = "ipoib"
          ∧ ai_ClaimUID (pr_Allocation res) = uid
          ∧ ai_DeviceName (pr_Allocation res) = ifName
          ∧ mget (ai_Metadata (pr_Allocation res)) "createdInterface" = ifName
          ∧ mget (ai_Metadata (pr_Allocation res)) "parent" = nc_Parent cfg
  end.
Proof.
  intros uid ifName. unfold IpoibHandler_Prepare.
  destruct (dc_Netdev (pq_Config req)) as [cfg|] eqn:Hcfg; [|by left].
  destruct (String.eqb_spec (nc_Parent cfg) "") as [Hpar|Hpar]; [by left|].
  destruct (Z.eqb_spec (nc_Pkey cfg) 0) as [Hpk|Hpk]; [by left|].
  assert (match ipoibMode (nc_Mode cfg) with
          | Ok connected => connected = String.eqb (nc_Mode cfg) "connected"
                            ∧ nc_Mode cfg ∈ ["connected"; "datagram"; ""]
          | Err _ => True
          end) as Hmode.
  { unfold ipoibMode. destruct (String.eqb_spec (nc_Mode cfg) "connected") as [->|?].
    - split; [done|]. by left.
    - destruct (String.eqb_spec (nc_Mode cfg) "datagram") as [->|?]; cbn [orb].
      + split; [done|]. right. by left.
      + destruct (String.eqb_spec (nc_Mode cfg) "") as [->|?]; [|done].
        split; [done|]. right. right. by left. }
  destruct (ipoibMode (nc_Mode cfg)) as [connected|e]; [|by left].
  destruct Hmode as [-> Hmode].
  unfold slice_to. fold uid. destruct (decide (8 ≤ String.length uid)) as [Hlen|Hlen].
  2:{ unfold panic. split; [done|lia]. }
  change ("ib" +:+ String.substring 0 8 uid) with ifName.
  fold (requestedMTU cfg).
  unfold bind at 1, LinkByName.
  destruct (links n !! nc_Parent cfg) as [pl|] eqn:Hpl; [|by left].
  unfold bind at 1. rewrite LinkAdd_run.
  destruct (links n !! ifName) as [l|] eqn:Hfree; [by left|].
  destruct (linkAddErr (env n) ifName) as [e|]; [by left|].
  destruct (bring_up_run ifName
              (IPoIB (nc_Parent cfg) (Z.land (Z.lor (nc_Pkey cfg) 0x8000) 0xFFFF)
                 (String.eqb (nc_Mode cfg) "connected"))
              (requestedMTU cfg) n Hfree) as (_ & Hup & Hdel).
  unfold bind at 1. rewrite Hup.
  destruct (linkSetUpErr (env n) ifName) as [e|] eqn:Hue.
  - unfold bind. rewrite Hdel. destruct (linkDelErr (env n) ifName) as [e'|] eqn:Hde.
    + right. split_and!; [done|by eexists|by eexists|]. eexists. split; last done. done.
    + by left.
  - unfold ret. split; [done|]. exists cfg. split_and!; try done.
Qed.

(** When the IPoIB [Prepare] succeeds. *)
Lemma IpoibHandler_Prepare_succeeds req n :
  let uid := pq_ClaimUID req in
  let ifName := claimIfName "ib" uid in
  (∃ res n', IpoibHandler_Prepare req n = Done (Ok res) n')
  ↔ 8 ≤ String.length uid
    ∧ ∃ cfg, dc_Netdev (pq_Config req) = Some cfg
        ∧ nc_Parent cfg ≠ "" ∧ nc_Pkey cfg ≠ 0%Z
        ∧ nc_Mode cfg ∈ ["connected"; "datagram"; ""]
        ∧ is_Some (links n !! nc_Parent cfg)
        ∧ links n !! ifName = None
        ∧ linkAddErr (env n) ifName = None
        ∧ linkSetUpErr (env n) ifName = None.
Proof.
  intros uid ifName. unfold IpoibHandler_Prepare.
  destruct (dc_Netdev (pq_Config req)) as [cfg|] eqn:Hcfg.
  2:{ split; [by intros (? & ? & [=])|by intros (_ & ? & [=] & _)]. }
  assert (∀ P : NetdevConfig → Prop,
            (∃ c, Some cfg = Some c ∧ P c) ↔ P cfg) as Hex.
  { intros P. split; [by intros (c & [= <-] & ?)|intros ?; by exists cfg]. }
  rewrite Hex. clear Hex.
  destruct (String.eqb_spec (nc_Parent cfg) "") as [Hpar|Hpar].
  { split; [by intros (? & ? & [=])|by intros (_ & ? & _)]. }
  destruct (Z.eqb_spec (nc_Pkey cfg) 0) as [Hpk|Hpk].
  { split; [by intros (? & ? & [=])|by intros (_ & _ & ? & _)]. }
  assert (match ipoibMode (nc_Mode cfg) with
          | Ok connected => nc_Mode cfg ∈ ["connected"; "datagram"; ""]
          | Err _ => nc_Mode cfg ∉ ["connected"; "datagram"; ""]
          end) as Hmode.
  { unfold ipoibMode. destruct (String.eqb_spec (nc_Mode cfg) "connected") as [->|?].
    - by left.
    - destruct (String.eqb_spec (nc_Mode cfg) "datagram") as [->|?]; cbn [orb].
      + right. by left.
      + destruct (String.eqb_spec (nc_Mode cfg) "") as [->|?].
        * right. right. by left.
        * rewrite !not_elem_of_cons. split_and!; [done..|]. apply not_elem_of_nil. }
  destruct (ipoibMode (nc_Mode cfg)) as [connected|e].
  2:{ split; [by intros (? & ? & [=])|by intros (_ & _ & _ & ? & _)]. }
  unfold slice_to. fold uid. destruct (decide (8 ≤ String.length uid)) as [Hlen|Hlen].
  2:{ unfold panic. split; [by intros (? & ? & [=])|by intros (? & _)]. }
  change ("ib" +:+ String.substring 0 8 uid) with ifName.
  unfold bind at 1, LinkByName.
  destruct (links n !! nc_Parent cfg) as [pl|] eqn:Hpl.
  2:{ split; [by intros (? & ? & [=])|by intros (_ & _ & _ & _ & [? [=]] & _)]. }
  unfold bind at 1. rewrite LinkAdd_run.
  destruct (links n !! ifName) as [l|] eqn:Hfree.
  { split; [by intros (? & ? & [=])|by intros (_ & _ & _ & _ & _ & [=] & _)]. }
  destruct (linkAddErr (env n) ifName) as [e|].
  { split; [by intros (? & ? & [=])|by intros (_ & _ & _ & _ & _ & _ & [=] & _)]. }
  fold (requestedMTU cfg).
  destruct (bring_up_run ifName
              (IPoIB (nc_Parent cfg) (Z.land (Z.lor (nc_Pkey cfg) 0x8000) 0xFFFF) connected)
              (requestedMTU cfg) n Hfree) as (_ & Hup & Hdel).
  unfold bind at 1. rewrite Hup.
  destruct (linkSetUpErr (env n) ifName) as [e|] eqn:Hue.
  - unfold bind. rewrite Hdel.
    split; [|by intros (_ & _ & _ & _ & _ & _ & _ & [=])].
    by destruct (linkDelErr (env n) ifName); intros (? & ? & [=]).
  - split; [|intros _; by eexists _, _].
    intros _. split_and!; done.
Qed.

(** X15.  The IPoIB [Prepare] succeeds exactly when the claim UID has eight
    bytes or more, the configuration names a parent, a partition key other
    than zero and a supported mode, the parent exists, the name of the child
    is free, and the kernel neither refuses to add the child nor to bring it
    up.  It panics only for a claim UID of fewer than eight bytes, the node
    untouched.  On an error the node is as before,
    except when the child interface was created and could neither be brought
    up nor be deleted: then it is left behind, down.  On success the
    configuration names a parent that exists, a partition key other than
    zero and the mode [connected], [datagram] or none; the child [ib]
    followed by the first eight bytes of the UID, which did not exist, is up,
    on that parent, in that mode, with the MTU asked for; its partition key
    has the full-membership bit set and fits sixteen bits, and is the
    configured key with that bit set when the configured key fits; the
    allocation, of kind [ipoib], records the child as created. *)
Theorem IpoibHandler_Prepare_outcome req n :
  let uid := pq_ClaimUID req in
  let ifName := claimIfName "ib" uid in
  ((∃ res n', IpoibHandler_Prepare req n = Done (Ok res) n')
   ↔ 8 ≤ String.length uid
     ∧ ∃ cfg, dc_Netdev (pq_Config req) = Some cfg
         ∧ nc_Parent cfg ≠ "" ∧ nc_Pkey cfg ≠ 0%Z
         ∧ nc_Mode cfg ∈ ["connected"; "datagram"; ""]
         ∧ is_Some (links n !! nc_Parent cfg)
         ∧ links n !! ifName = None
         ∧ linkAddErr (env n) ifName = None
         ∧ linkSetUpErr (env n) ifName = None)
  ∧
  match IpoibHandler_Prepare req n with
  | Panic n' => n' = n ∧ String.length uid < 8
  | Done (Err e) n' =>
      n' = n
      ∨ links n !! ifName = None
        ∧ is_Some (linkSetUpErr (env n) ifName)
        ∧ is_Some (linkDelErr (env n) ifName)
        ∧ ∃ l, lk_Up l = false ∧ n' = set_links (<[ifName := l]>) n
  | Done (Ok res) n' =>
      8 ≤ String.length uid
      ∧ ∃ cfg pk,
          dc_Netdev (pq_Config req) = Some cfg
          ∧ nc_Parent cfg ≠ "" ∧ is_Some (links n !! nc_Parent cfg)
          ∧ nc_Pkey cfg ≠ 0%Z
          ∧ nc_Mode cfg ∈ ["connected"; "datagram"; ""]
          ∧ links n !! ifName = None
          ∧ n' = set_links
                   (<[ifName :=
                        {| lk_Kind := IPoIB (nc_Parent cfg) pk
                                        (String.eqb (nc_Mode cfg) "connected");
                           lk_MTU := requestedMTU cfg; lk_Up := true |}]>) n
          ∧ (0x8000 ≤ pk ≤ 0xFFFF)%Z
          ∧ Z.testbit pk 15 = true
          ∧ ((0 < nc_Pkey cfg ≤ 0xFFFF)%Z → pk = Z.lor (nc_Pkey cfg) 0x8000)
          ∧ pr_DeviceName res = ifName
          ∧ ai_Type (pr_Allocation res) = DeviceTypeNetdev
          ∧ ai_Kind (pr_Allocation res) = "ipoib"
          ∧ ai_ClaimUID (pr_Allocation res) = uid
          ∧ ai_DeviceName (pr_Allocation res) = ifName
          ∧ mget (ai_Metadata (pr_Allocation res)) "createdInterface" = ifName
  end.
Proof.
  intros uid ifName. split; [exact (IpoibHandler_Prepare_succeeds req n)|].
  pose proof (IpoibHandler_Prepare_post req n) as Hpost.
  cbv zeta in Hpost. fold uid ifName in Hpost.
  destruct (IpoibHandler_Prepare req n) as [[res|e] n'|n']; [|done|done].
  destruct Hpost as (Hlen & cfg & Hcfg & Hpar & Hpl & Hpk & Hmode & Hfree & Hn' & _ & Hname
                     & _ & Hty & Hkind & Huid & Hdn & Hci & _).
  split; [done|].
  exists cfg, (Z.land (Z.lor (nc_Pkey cfg) 0x8000) 0xFFFF).
  destruct (pkey_full_membership (nc_Pkey cfg)) as ([H1a H1b] & H2 & H3).
  split_and!; done.
Qed.

(** X16.  What [Validate] rejects, [Prepare] rejects, with the same error and
    without touching the node: for the dummy, the IPoIB and the RoCE
    handler.  The converse fails for IPoIB: a mode that is not supported
    passes [Validate] and is rejected by [Prepare] only. *)
Theorem Prepare_rechecks_Validate :
  (∀ req n e, DummyHandler_Validate (pq_Config req) n = Done (Some e) n →
              DummyHandler_Prepare req n = Done (Err e) n)
  ∧ (∀ req n e, IpoibHandler_Validate (pq_Config req) n = Done (Some e) n →
                IpoibHandler_Prepare req n = Done (Err e) n)
  ∧ (∀ h req w e, RoCEHandler_Validate h (pq_Config req) w = Done (Some e) w →
                  RoCEHandler_Prepare h req w = Done (Err e) w)
  ∧ (∀ req cfg n e,
       dc_Netdev (pq_Config req) = Some cfg →
       ipoibMode (nc_Mode cfg) = Err e →
       IpoibHandler_Validate (pq_Config req) n = Done None n →
       IpoibHandler_Prepare req n = Done (Err e) n).
Proof.
  split_and!.
  - intros req n e. unfold DummyHandler_Validate, DummyHandler_Prepare.
    destruct (dc_Netdev (pq_Config req)); [done|]. by intros [= <-].
  - intros req n e. unfold IpoibHandler_Validate, IpoibHandler_Prepare.
    destruct (dc_Netdev (pq_Config req)) as [cfg|]; [|by intros [= <-]].
    destruct (String.eqb (nc_Parent cfg) ""); [by intros [= <-]|].
    destruct (Z.eqb (nc_Pkey cfg) 0); [by intros [= <-]|done].
  - intros h req w e. unfold RoCEHandler_Validate, RoCEHandler_Prepare.
    destruct (dc_Combo (pq_Config req)); [done|]. by intros [= <-].
  - intros req cfg n e Hcfg Hmode. unfold IpoibHandler_Validate, IpoibHandler_Prepare.
    rewrite Hcfg. destruct (String.eqb (nc_Parent cfg) ""); [done|].
    destruct (Z.eqb (nc_Pkey cfg) 0); [done|]. by rewrite Hmode.
Qed.
End Ipoib.

(* ================================================================== *)
(** * The RoCE combo: release after prepare *)
(* ================================================================== *)

Section ComboRoundTrip.
Implicit Types (r nd : LeafHandler) (w : World) (n : Node).

Lemma roceResult_metadata (req : PrepareRequest) (rdmaResult netResult : PrepareResult)
    (k : string) :
  mget (ai_Metadata (pr_Allocation (roceResult req rdmaResult netResult))) k =
    if String.eqb k "rdma_device" then pr_DeviceName rdmaResult
    else if String.eqb k "net_interface" then pr_DeviceName netResult
    else if String.eqb k "rdma_uverbs_device"
         then mget (ai_Metadata (pr_Allocation rdmaResult)) "uverbsDevice"
    else if String.eqb k "rdma_ibdev" then mget (ai_Metadata (pr_Allocation rdmaResult)) "ibdev"
    else if String.eqb k "net_created"
         then mget (ai_Metadata (pr_Allocation netResult)) "createdInterface"
    else if String.eqb k "net_host_end"
         then mget (ai_Metadata (pr_Allocation netResult)) "hostEnd"
    else "".
Proof.
  unfold mget at 1. cbn.
  repeat match goal with
         | |- context [String.eqb k ?s] =>
             destruct (String.eqb_spec k s) as [->|?];
             [by rewrite lookup_insert_eq|];
             rewrite lookup_insert_ne by (by apply not_eq_sym)
         end.
  by rewrite lookup_empty.
Qed.

(** X17.  What the RoCE [Prepare] records in the combined allocation is
    what [Unprepare] reads back.  The allocation [Unprepare] builds for the
    netdev side carries exactly the created interface and the host end of
    the netdev result; the one for the RDMA side exactly the uverbs device
    and the IB device of the RDMA result; both are under the claim of the
    request, and every other key of theirs reads empty. *)
Theorem roce_metadata_round_trip (req : PrepareRequest) (rdmaResult netResult : PrepareResult) :
  let ureq := {| uq_ClaimUID := pq_ClaimUID req;
                 uq_Allocation := pr_Allocation (roceResult req rdmaResult netResult) |} in
  let rdmaMeta := ai_Metadata (pr_Allocation rdmaResult) in
  let netMeta := ai_Metadata (pr_Allocation netResult) in
  ai_Metadata (netAllocOf ureq)
    = {[ "createdInterface" := mget netMeta "createdInterface";
         "hostEnd" := mget netMeta "hostEnd" ]}
  ∧ ai_Metadata (rdmaAllocOf ureq)
    = {[ "uverbsDevice" := mget rdmaMeta "uverbsDevice";
         "ibdev" := mget rdmaMeta "ibdev" ]}
  ∧ ai_ClaimUID (netAllocOf ureq) = pq_ClaimUID req
  ∧ ai_ClaimUID (rdmaAllocOf ureq) = pq_ClaimUID req
  ∧ (∀ k, k ∉ ["createdInterface"; "hostEnd"] →
          mget (ai_Metadata (netAllocOf ureq)) k = "")
  ∧ (∀ k, k ∉ ["uverbsDevice"; "ibdev"] →
          mget (ai_Metadata (rdmaAllocOf ureq)) k = "").
Proof.
  intros ureq rdmaMeta netMeta.
  unfold netAllocOf, rdmaAllocOf. cbn [ai_Metadata ai_ClaimUID uq_ClaimUID uq_Allocation ureq].
  rewrite !roceResult_metadata. cbn [String.eqb Ascii.eqb Bool.eqb].
  split_and!; try done.
  - intros k Hk. unfold mget. rewrite !lookup_insert_ne; [done| |].
    + intros <-. apply Hk. right. by left.
    + intros <-. apply Hk. by left.
  - intros k Hk. unfold mget. rewrite !lookup_insert_ne; [done| |].
    + intros <-. apply Hk. right. by left.
    + intros <-. apply Hk. by left.
Qed.

Lemma roce_prepare_Ok_inv r nd (req : PrepareRequest) w (res : PrepareResult) w' :
  RoCEHandler_Prepare (NewRoCEHandler (leaf r) (leaf nd)) req w = Done (Ok res) w' →
  ∃ cfg rdmaResult netResult n1,
    dc_Combo (pq_Config req) = Some cfg
    ∧ lh_Prepare r (rdmaReqOf req cfg) (node w) = Done (Ok rdmaResult) n1
    ∧ lh_Prepare nd (netReqOf req cfg) n1 = Done (Ok netResult) (node w')
    ∧ res = roceResult req rdmaResult netResult
    ∧ calls w' = calls w ++ [{| callee := RdmaSub; method := MPrepare (rdmaReqOf req cfg) |};
                             {| callee := NetdevSub;
                                method := MPrepare (netReqOf req cfg) |}].
Proof.
  unfold RoCEHandler_Prepare. destruct (dc_Combo (pq_Config req)) as [cfg|]; [|done].
  cbn [rdmaHandler netdevHandler NewRoCEHandler].
  unfold bind at 1. rewrite callPrepare_leaf.
  destruct (lh_Prepare r _ (node w)) as [[rdmaResult|e] n1|n1] eqn:H1; [|done|done].
  unfold bind at 1. rewrite callPrepare_leaf. cbn [node calls].
  destruct (lh_Prepare nd _ n1) as [[netResult|e] n2|n2] eqn:H2.
  - intros [= <- <-]. exists cfg, rdmaResult, netResult, n1. cbn.
    split_and!; try done. by rewrite <- app_assoc.
  - unfold bind. rewrite callUnprepare_leaf. by destruct (lh_Unprepare r _ _).
  - done.
Qed.

Lemma roce_unprepare_run r nd (ureq : UnprepareRequest) w n1 n2 :
  let netReq := {| uq_ClaimUID := uq_ClaimUID ureq; uq_Allocation := netAllocOf ureq |} in
  let rdmaReq := {| uq_ClaimUID := uq_ClaimUID ureq; uq_Allocation := rdmaAllocOf ureq |} in
  lh_Unprepare nd netReq (node w) = Done None n1 →
  lh_Unprepare r rdmaReq n1 = Done None n2 →
  RoCEHandler_Unprepare (NewRoCEHandler (leaf r) (leaf nd)) ureq w =
    Done None {| node := n2;
                 calls := calls w ++ [{| callee := NetdevSub; method := MUnprepare netReq |};
                                      {| callee := RdmaSub; method := MUnprepare rdmaReq |}] |}.
Proof.
  intros netReq rdmaReq H1 H2. unfold RoCEHandler_Unprepare.
  cbn [rdmaHandler netdevHandler NewRoCEHandler].
  unfold bind at 1. rewrite callUnprepare_leaf. fold netReq. rewrite H1.
  unfold bind at 1. rewrite callUnprepare_leaf. cbn [node calls]. fold rdmaReq. rewrite H2.
  cbn. by rewrite <- app_assoc.
Qed.

Lemma UverbsHandler_Unprepare_shared (h : UverbsHandler) (ureq : UnprepareRequest) n :
  isExclusive n && negb (String.eqb (mget (ai_Metadata (uq_Allocation ureq)) "ibdev") "")
    && uh_Tracker h = false →
  UverbsHandler_Unprepare h ureq n = Done None (set_cachedMode (Some (modeOf n)) n).
Proof.
  intros Hb. unfold UverbsHandler_Unprepare.
  rewrite (bind_run _ _ _ _ _ (DetectNetnsMode_run _)).
  unfold isExclusive in Hb. destruct (modeOf n); [done|]. cbn [andb] in Hb.
  by rewrite Hb.
Qed.

Lemma set_cachedMode_idem (m : NetnsMode) n :
  set_cachedMode (Some m) (set_cachedMode (Some m) n) = set_cachedMode (Some m) n.
Proof. done. Qed.

(** X18.  The RoCE combo of [main.go], composed of the uverbs and the dummy
    handler.  When [Prepare] succeeded for a claim the tracker did not know
    and the kernel lets the interface go, the [Unprepare] of the allocation
    it returned returns nil and the node is as before [Prepare], the cached
    netns mode apart.  The calls were the two [Prepare], RDMA first, and the
    two [Unprepare], netdev first. *)
Theorem roce_release_after_prepare (req : PrepareRequest) (res : PrepareResult) w w' :
  RoCEHandler_Prepare productionRoCE req w = Done (Ok res) w' →
  linkDelErr (env (node w)) (claimIfName "dm" (pq_ClaimUID req)) = None →
  claimState (rdmaTracker (node w)) (pq_ClaimUID req) = Unregistered →
  ∃ w'',
    RoCEHandler_Unprepare productionRoCE
      {| uq_ClaimUID := pq_ClaimUID req; uq_Allocation := pr_Allocation res |} w'
    = Done None w''
    ∧ node w'' = set_cachedMode (Some (modeOf (node w))) (node w)
    ∧ map (λ c, (callee c, methodName (method c))) (calls w'')
      = map (λ c, (callee c, methodName (method c))) (calls w)
        ++ [(RdmaSub, "Prepare"); (NetdevSub, "Prepare");
            (NetdevSub, "Unprepare"); (RdmaSub, "Unprepare")].
Proof.
  intros Hprep Hdel Hstate. set (uid := pq_ClaimUID req) in *.
  set (n := node w) in *.
  assert (pending (rdmaTracker n) !! uid = None ∧ active (rdmaTracker n) !! uid = None)
    as [Hp Ha].
  { unfold claimState in Hstate.
    by destruct (pending (rdmaTracker n) !! uid), (active (rdmaTracker n) !! uid). }
  unfold productionRoCE in *.
  apply roce_prepare_Ok_inv in Hprep
    as (cfg & rdmaResult & netResult & n1 & Hcfg & Hrdma & Hnet & -> & Hcalls).
  fold n in Hrdma.
  (* the uverbs side *)
  pose proof (UverbsHandler_Prepare_post {| uh_Tracker := true |} (rdmaReqOf req cfg) n)
    as Hupost.
  cbn [lh_Prepare uverbsHandler] in Hrdma. rewrite Hrdma in Hupost. cbv zeta in Hupost.
  destruct Hupost as (_ & _ & _ & _ & _ & _ & _ & _ & _ & Hruid & _ & _ & Hn1).
  cbn [pq_ClaimUID rdmaReqOf uh_Tracker] in Hruid, Hn1. fold uid in Hruid, Hn1.
  set (ibDev := mget (ai_Metadata (pr_Allocation rdmaResult)) "ibdev") in *.
  rewrite andb_true_r in Hn1.
  (* the dummy side *)
  cbn [lh_Prepare dummyHandler] in Hnet.
  assert (8 ≤ String.length uid) as Hlen.
  { destruct (decide (8 ≤ String.length uid)) as [|Hshort]; [done|].
    unfold DummyHandler_Prepare, slice_to in Hnet. cbn in Hnet. fold uid in Hnet.
    by rewrite decide_False in Hnet. }
  pose proof (DummyHandler_Prepare_post (netReqOf req cfg) (cc_Netdev cfg) n1 eq_refl Hlen)
    as Hdpost.
  rewrite Hnet in Hdpost. cbv zeta in Hdpost. cbn [pq_ClaimUID netReqOf] in Hdpost.
  fold uid in Hdpost.
  destruct Hdpost as (Hfree & Hn2 & _ & _ & _ & _ & _ & _ & _ & Hcreated).
  (* the release *)
  set (ureq := {| uq_ClaimUID := uid;
                  uq_Allocation := pr_Allocation (roceResult req rdmaResult netResult) |}).
  assert (DummyHandler_Unprepare
            {| uq_ClaimUID := uq_ClaimUID ureq; uq_Allocation := netAllocOf ureq |} (node w')
          = Done None n1) as Hdu.
  { assert (mget (ai_Metadata (netAllocOf ureq)) "createdInterface" = claimIfName "dm" uid)
      as Hci.
    { unfold netAllocOf. cbn [uq_Allocation ai_Metadata ureq]. rewrite !roceResult_metadata.
      cbn [String.eqb Ascii.eqb Bool.eqb]. unfold mget at 1. rewrite lookup_insert_eq.
      exact Hcreated. }
    rewrite DummyHandler_Unprepare_run. cbv zeta. cbn [uq_Allocation]. rewrite Hci.
    replace (String.eqb (claimIfName "dm" uid) "") with false by done.
    rewrite Hn2. cbn [links env set_links]. rewrite lookup_insert_eq.
    replace (env n1) with (env n) by (by rewrite Hn1). rewrite Hdel.
    f_equal. apply set_links_add_del. exact Hfree. }
  assert (UverbsHandler_Unprepare {| uh_Tracker := true |}
            {| uq_ClaimUID := uq_ClaimUID ureq; uq_Allocation := rdmaAllocOf ureq |} n1
          = Done None (set_cachedMode (Some (modeOf n)) n)) as Huu.
  { assert (mget (ai_Metadata (rdmaAllocOf ureq)) "ibdev" = ibDev) as Hib.
    { unfold rdmaAllocOf. cbn [uq_Allocation ai_Metadata ureq]. rewrite !roceResult_metadata.
      cbn [String.eqb Ascii.eqb Bool.eqb]. unfold mget at 1.
      rewrite lookup_insert_ne by done. by rewrite lookup_insert_eq. }
    assert (modeOf n1 = modeOf n) as Hmode by (by rewrite Hn1).
    assert (isExclusive n1 = isExclusive n) as Hex by (unfold isExclusive; by rewrite Hmode).
    destruct (isExclusive n && negb (String.eqb ibDev "")) eqn:Hb.
    - apply andb_true_iff in Hb as [Hexn Hibn].
      rewrite UverbsHandler_Unprepare_exclusive;
        [|done|by rewrite Hex|cbn [uq_Allocation]; rewrite Hib;
           by apply String.eqb_neq, negb_true_iff].
      cbn [uq_Allocation]. rewrite Hib. cbn [ai_ClaimUID rdmaAllocOf uq_ClaimUID ureq].
      assert (modeOf n = NetnsExclusive) as Hmn.
      { unfold isExclusive in Hexn. by destruct (modeOf n). }
      rewrite Hn1. cbn [rdmaTracker set_tracker set_cachedMode
                                               active pending AddPending].
      rewrite Ha. unfold bind. rewrite returnRDMAToHost_run. cbn [am_NetnsPath].
      rewrite Hmn.
      set (nback := set_tracker _ (set_cachedMode (Some NetnsExclusive) _)).
      assert (nback = set_cachedMode (Some NetnsExclusive) n) as Hnb.
      { unfold nback, set_tracker, set_cachedMode. cbn.
        rewrite delete_insert_id by done. rewrite delete_id by done.
        by destruct (rdmaTracker n). }
      rewrite Hnb. destruct (decide _) as [(_ & Hdev & _)|_]; [|done].
      unfold ret. f_equal. unfold set_rdmaDevs, set_cachedMode. cbn.
      replace (canEnter _ "") with false in Hdev by done. cbn in Hdev.
      by rewrite (insert_id _ _ _ Hdev).
    - rewrite UverbsHandler_Unprepare_shared.
      + rewrite Hmode, Hn1. by destruct n.
      + cbn [uq_Allocation]. by rewrite Hib, Hex, Hb. }
  pose proof (roce_unprepare_run (uverbsHandler {| uh_Tracker := true |}) dummyHandler
                ureq w' n1 (set_cachedMode (Some (modeOf n)) n) Hdu Huu) as Hrun.
  eexists. split; [exact Hrun|]. split; [done|].
  cbn [calls]. rewrite Hcalls. rewrite !map_app. by rewrite <- app_assoc.
Qed.
End ComboRoundTrip.

(* ================================================================== *)
(** * The artifacts of a claim *)
(* ================================================================== *)

Section Artifacts.
Implicit Types (d : Driver) (w : World) (n : Node) (uid : string).

Lemma cdiFilePrefix_run d uid n :
  8 ≤ String.length uid → cdiFilePrefix d uid n = Done (artifactPrefix d uid) n.
Proof. intros Hlen. unfold cdiFilePrefix, slice_to. by rewrite decide_True. Qed.

Lemma osWriteFile_run name data n :
  osWriteFile name data n =
    match cdiWriteErr (env n) name with
    | Some e => Done (Some e) n
    | None => Done None (set_cdiFiles (<[name := data]>) n)
    end.
Proof. done. Qed.

Lemma createCDISpec_run d uid (result : PrepareResult) n :
  8 ≤ String.length uid →
  createCDISpec d uid result n =
    match cdiMkdirErr (env n) with
    | Some e => Done (Err ("failed to create CDI directory: " +:+ e)) n
    | None =>
        match cdiWriteErr (env n) (specFile d uid) with
        | Some e => Done (Err ("failed to write CDI spec: " +:+ e)) n
        | None =>
            Done (Ok (driverName d +:+ "/" +:+ ai_Type (pr_Allocation result)
                      +:+ "=" +:+ pr_DeviceName result))
                 (set_cdiFiles
                    (λ files,
                       let files := <[specFile d uid := CDISpecFile (specOf d result)]> files in
                       match cdiWriteErr (env n) (stateFile d uid) with
                       | Some _ => files
                       | None => <[stateFile d uid := AllocFile (pr_Allocation result)]> files
                       end) n)
        end
    end.
Proof.
  intros Hlen. unfold createCDISpec. unfold bind at 1, osMkdirAll.
  destruct (cdiMkdirErr (env n)) as [e|]; [done|].
  rewrite (bind_run _ _ _ _ _ (cdiFilePrefix_run d uid n Hlen)).
  unfold bind at 1. rewrite osWriteFile_run. fold (specFile d uid). fold (specOf d result).
  destruct (cdiWriteErr (env n) (specFile d uid)) as [e|]; [done|].
  unfold bind at 1, saveAllocation.
  rewrite (bind_run _ _ _ _ _ (cdiFilePrefix_run d uid _ Hlen)).
  unfold bind at 1. rewrite osWriteFile_run. fold (stateFile d uid).
  cbn [env set_cdiFiles].
  by destruct (cdiWriteErr (env n) (stateFile d uid)) as [e|].
Qed.

Lemma osRemove_run name n :
  cdiRemoveErr (env n) name = None →
  ∃ e, osRemove name n = Done e (set_cdiFiles (delete name) n).
Proof.
  intros Hrm. unfold osRemove. destruct (cdiFiles n !! name) as [data|] eqn:Hlk.
  - rewrite Hrm. by eexists.
  - eexists. f_equal. unfold set_cdiFiles. rewrite delete_id by done. by destruct n.
Qed.

Lemma deleteCDISpec_run d uid n :
  8 ≤ String.length uid →
  (∀ name, cdiRemoveErr (env n) name = None) →
  deleteCDISpec d uid n =
    Done tt (set_cdiFiles (λ files, delete (stateFile d uid) (delete (specFile d uid) files)) n).
Proof.
  intros Hlen Hrm. unfold deleteCDISpec.
  rewrite (bind_run _ _ _ _ _ (cdiFilePrefix_run d uid n Hlen)).
  fold (specFile d uid).
  destruct (osRemove_run (specFile d uid) n (Hrm _)) as [e1 He1].
  unfold bind at 1. rewrite He1. unfold removeAllocationState.
  rewrite (bind_run _ _ _ _ _ (cdiFilePrefix_run d uid _ Hlen)).
  fold (stateFile d uid).
  destruct (osRemove_run (stateFile d uid) (set_cdiFiles (delete (specFile d uid)) n) (Hrm _))
    as [e2 He2].
  unfold bind. by rewrite He2.
Qed.
End Artifacts.

(* ================================================================== *)
(** * Rehydration *)
(* ================================================================== *)

Section Restore.
Implicit Types (d : Driver) (w : World) (n : Node) (uid : string).

Lemma substring_skip (a b : string) (k : nat) :
  String.substring (String.length a) k (a +:+ b) = String.substring 0 k b.
Proof. induction a as [|c a IH]; [done|]. exact IH. Qed.

Lemma substring_all (s : string) : String.substring 0 (String.length s) s = s.
Proof.
  induction s as [|c s IH]; [done|].
  change (String c (String.substring 0 (String.length s) s) = String c s). by rewrite IH.
Qed.

Lemma hasPrefix_app (p x : string) : hasPrefix (p +:+ x) p = true.
Proof. unfold hasPrefix. apply String.prefix_correct, substring_0_app. Qed.

Lemma hasSuffix_app (x s : string) : hasSuffix (x +:+ s) s = true.
Proof.
  unfold hasSuffix. rewrite length_app_string. rewrite decide_True by lia.
  replace (String.length x + String.length s - String.length s) with (String.length x) by lia.
  rewrite substring_skip, substring_all. apply String.eqb_refl.
Qed.

Lemma stateFile_matches d uid : globMatch (statePrefix d) ".alloc.json" (stateFile d uid) = true.
Proof.
  unfold globMatch, stateFile, artifactPrefix, statePrefix.
  set (R := replaceSlash (driverName d)). set (u := String.substring 0 8 uid).
  replace ((R +:+ "-" +:+ u) +:+ ".alloc.json") with ((R +:+ "-") +:+ (u +:+ ".alloc.json"))
    by (by rewrite !append_assoc).
  rewrite hasPrefix_app. rewrite <- append_assoc. rewrite hasSuffix_app.
  rewrite bool_decide_eq_true_2; [done|]. rewrite !length_app_string. lia.
Qed.

Lemma restoreOne_run d name n : restoreOne d name n = Done (restoredFrom n d name) n.
Proof.
  unfold restoreOne, restoredFrom, bind, osReadFile.
  destruct (cdiFiles n !! name) as [data|]; [|done].
  destruct (cdiReadErr (env n) name); [done|].
  destruct (parseAllocation data) as [alloc|]; [|done].
  by destruct (String.eqb (ai_ClaimUID alloc) "").
Qed.

Lemma restoreLoop_run d (names : list string) n :
  foldM restoreOne d names n = Done (foldl (restoredFrom n) d names) n.
Proof.
  revert d. induction names as [|name names IH]; intros d; [done|].
  cbn [foldM foldl]. rewrite (bind_run _ _ _ _ _ (restoreOne_run _ _ _)). apply IH.
Qed.

Lemma restoreAllocations_run d n :
  restoreAllocations d n =
    Done (foldl (restoredFrom n) d
            (merge_sort (λ a b, Is_true (String.leb a b))
               (List.filter (globMatch (statePrefix d) ".alloc.json")
                  (map_to_list (cdiFiles n)).*1))) n.
Proof.
  unfold restoreAllocations.
  rewrite (bind_run _ _ _ _ _ (cdiFilePrefix_run d "00000000" n ltac:(cbn; lia))).
  unfold artifactPrefix, slice_to.
  set (R := replaceSlash (driverName d)).
  replace (R +:+ "-" +:+ String.substring 0 8 "00000000")
    with ((R +:+ "-") +:+ "00000000") by (by rewrite append_assoc).
  assert (String.length R + 1 = String.length (R +:+ "-")) as ->
    by (rewrite length_app_string; cbn; lia).
  rewrite decide_True by (rewrite (length_app_string (R +:+ "-")); lia).
  rewrite substring_0_app. unfold bind at 1, osGlob. fold (statePrefix d).
  apply restoreLoop_run.
Qed.

Lemma restoredFrom_fields n d name :
  driverName (restoredFrom n d name) = driverName d
  ∧ registry (restoredFrom n d name) = registry d
  ∧ ∀ uid, allocations (restoredFrom n d name) !! uid =
           match readable n name with
           | Some alloc => if decide (ai_ClaimUID alloc = uid) then Some alloc
                           else allocations d !! uid
           | None => allocations d !! uid
           end.
Proof.
  unfold restoredFrom, readable.
  destruct (cdiFiles n !! name) as [data|]; [|done].
  destruct (cdiReadErr (env n) name); [done|].
  destruct (parseAllocation data) as [alloc|]; [|done].
  destruct (String.eqb (ai_ClaimUID alloc) ""); [done|].
  split_and!; [done|done|]. intros uid. cbn.
  destruct (decide (ai_ClaimUID alloc = uid)) as [->|Hne].
  - by rewrite lookup_insert_eq.
  - by rewrite lookup_insert_ne.
Qed.

Lemma restored_fields n (names : list string) d :
  driverName (foldl (restoredFrom n) d names) = driverName d
  ∧ registry (foldl (restoredFrom n) d names) = registry d.
Proof.
  revert d. induction names as [|name names IH]; intros d; [done|].
  cbn [foldl]. destruct (IH (restoredFrom n d name)) as [-> ->].
  destruct (restoredFrom_fields n d name) as (H1 & H2 & _). done.
Qed.

(** Every entry after the loop was there before, or was read from one of
    the files. *)
Lemma restored_sources n (names : list string) d uid :
  allocations (foldl (restoredFrom n) d names) !! uid = allocations d !! uid
  ∨ ∃ name alloc, name ∈ names ∧ readable n name = Some alloc ∧ ai_ClaimUID alloc = uid
                  ∧ allocations (foldl (restoredFrom n) d names) !! uid = Some alloc.
Proof.
  revert d. induction names as [|name names IH]; intros d; [by left|].
  cbn [foldl]. destruct (IH (restoredFrom n d name)) as [Heq|(name' & alloc & Hin & Hr & Hu & Hlk)].
  - rewrite Heq. destruct (restoredFrom_fields n d name) as (_ & _ & Hal). rewrite Hal.
    destruct (readable n name) as [alloc|] eqn:Hr; [|by left].
    destruct (decide (ai_ClaimUID alloc = uid)) as [Hu|Hne]; [|by left].
    right. exists name, alloc. split_and!; [by left|done|done|done].
  - right. exists name', alloc. split_and!; [by right|done|done|done].
Qed.

Lemma restored_keeps n (names : list string) d uid :
  is_Some (allocations d !! uid) → is_Some (allocations (foldl (restoredFrom n) d names) !! uid).
Proof.
  revert d. induction names as [|name names IH]; intros d Hd; [done|].
  cbn [foldl]. apply IH. destruct (restoredFrom_fields n d name) as (_ & _ & Hal). rewrite Hal.
  destruct (readable n name) as [alloc|]; [|done]. by destruct (decide _).
Qed.

(** When all files that carry a claim UID agree on its allocation, and one
    of them is read, that allocation is restored. *)
Lemma restored_unique n (names : list string) d uid (alloc0 : AllocationInfo) :
  (∀ name alloc, name ∈ names → readable n name = Some alloc → ai_ClaimUID alloc = uid →
                 alloc = alloc0) →
  allocations d !! uid = Some alloc0
  ∨ (∃ name0, name0 ∈ names ∧ readable n name0 = Some alloc0 ∧ ai_ClaimUID alloc0 = uid) →
  allocations (foldl (restoredFrom n) d names) !! uid = Some alloc0.
Proof.
  revert d. induction names as [|name names IH]; intros d Huni Hsrc.
  { destruct Hsrc as [?|(name0 & Hin & _)]; [done|]. by apply elem_of_nil in Hin. }
  cbn [foldl]. apply IH.
  { intros name' alloc' Hin'. apply Huni. by right. }
  destruct (restoredFrom_fields n d name) as (_ & _ & Hal). rewrite Hal.
  destruct Hsrc as [Hd|(name0 & Hin & Hr & Hu)].
  - left. destruct (readable n name) as [alloc|] eqn:Hr; [|done].
    destruct (decide (ai_ClaimUID alloc = uid)) as [Hu|Hne]; [|done].
    f_equal. eapply Huni; [by left|done|done].
  - apply elem_of_cons in Hin as [->|Hin].
    + left. by rewrite Hr, decide_True.
    + right. by exists name0.
Qed.

Lemma restored_loads n (names : list string) d name (alloc : AllocationInfo) :
  name ∈ names → readable n name = Some alloc →
  is_Some (allocations (foldl (restoredFrom n) d names) !! ai_ClaimUID alloc).
Proof.
  revert d. induction names as [|x names IH]; intros d Hin Hr; [by apply elem_of_nil in Hin|].
  cbn [foldl]. apply elem_of_cons in Hin as [->|Hin]; [|by apply IH].
  apply restored_keeps. destruct (restoredFrom_fields n d x) as (_ & _ & Hal).
  rewrite Hal, Hr. rewrite decide_True by done. by eexists.
Qed.

(** A file that is read decides the entry of its claim: the entry after the
    loop was read from a file with that claim UID. *)
Lemma restored_overwrites n (names : list string) d name (alloc : AllocationInfo) :
  name ∈ names → readable n name = Some alloc →
  ∃ name' alloc', name' ∈ names ∧ readable n name' = Some alloc'
                  ∧ ai_ClaimUID alloc' = ai_ClaimUID alloc
                  ∧ allocations (foldl (restoredFrom n) d names) !! ai_ClaimUID alloc
                    = Some alloc'.
Proof.
  revert d. induction names as [|x names IH]; intros d Hin Hr; [by apply elem_of_nil in Hin|].
  cbn [foldl]. apply elem_of_cons in Hin as [->|Hin].
  - destruct (restored_sources n names (restoredFrom n d x) (ai_ClaimUID alloc))
      as [Heq|(name' & alloc' & Hin' & Hr' & Hu' & Hlk')].
    + exists x, alloc. split_and!; [by left|done|done|]. rewrite Heq.
      destruct (restoredFrom_fields n d x) as (_ & _ & Hal).
      by rewrite Hal, Hr, decide_True.
    + exists name', alloc'. split_and!; [by right|done|done|done].
  - destruct (IH (restoredFrom n d x) Hin Hr) as (name' & alloc' & Hin' & Hr' & Hu' & Hlk').
    exists name', alloc'. split_and!; [by right|done|done|done].
Qed.

(** X19.  [restoreAllocations] never fails and never touches the node.  It
    keeps the name and the registry of the driver; an allocation held in
    memory stays held (a state file may replace it); the entry of the empty
    UID is left alone; every allocation held afterwards was held before
    or is read from a state file of this driver ([<driver>-*.alloc.json])
    that carries its claim UID; the entry of a claim that no readable state
    file carries is as before; and the claim of every readable state file
    has an entry afterwards, read from a state file with that claim UID. *)
Theorem restoreAllocations_outcome d n :
  let stateFiles name := globMatch (statePrefix d) ".alloc.json" name = true in
  ∃ d', restoreAllocations d n = Done d' n
        ∧ driverName d' = driverName d ∧ registry d' = registry d
        ∧ (∀ uid, is_Some (allocations d !! uid) → is_Some (allocations d' !! uid))
        ∧ allocations d' !! "" = allocations d !! ""
        ∧ (∀ uid alloc,
             allocations d' !! uid = Some alloc →
             allocations d !! uid = Some alloc
             ∨ ∃ name, stateFiles name
                       ∧ readable n name = Some alloc ∧ ai_ClaimUID alloc = uid)
        ∧ (∀ uid,
             (∀ name alloc, stateFiles name → readable n name = Some alloc →
                            ai_ClaimUID alloc ≠ uid) →
             allocations d' !! uid = allocations d !! uid)
        ∧ (∀ name alloc,
             stateFiles name → readable n name = Some alloc →
             ∃ name' alloc', stateFiles name' ∧ readable n name' = Some alloc'
                             ∧ ai_ClaimUID alloc' = ai_ClaimUID alloc
                             ∧ allocations d' !! ai_ClaimUID alloc = Some alloc').
Proof.
  intros stateFiles. rewrite restoreAllocations_run.
  set (names := merge_sort _ _). exists (foldl (restoredFrom n) d names).
  destruct (restored_fields n names d) as [Hn Hr].
  assert (Hnames : ∀ name, name ∈ names ↔ stateFiles name ∧ is_Some (cdiFiles n !! name)).
  { intros name. unfold names. rewrite merge_sort_Permutation.
    rewrite list_elem_of_In, filter_In, <- list_elem_of_In.
    rewrite list_elem_of_fmap. split.
    - intros [([k v] & -> & Hkv%elem_of_map_to_list) Hm]. split; [done|]. by exists v.
    - intros [Hm [v Hv]]. split; [|done]. exists (name, v). split; [done|].
      by apply elem_of_map_to_list. }
  assert (Hstored : ∀ name alloc, readable n name = Some alloc → is_Some (cdiFiles n !! name)).
  { intros name alloc Hrd. unfold readable in Hrd. by destruct (cdiFiles n !! name). }
  split_and!; [done|done|done| | | | |].
  - intros uid. apply restored_keeps.
  - destruct (restored_sources n names d "") as [Heq|(name & alloc & _ & Hrd & Hu & _)]; [done|].
    unfold readable in Hrd. destruct (cdiFiles n !! name); [|done].
    destruct (cdiReadErr (env n) name); [done|]. destruct (parseAllocation _); [|done].
    destruct (String.eqb_spec (ai_ClaimUID a) ""); [done|]. congruence.
  - intros uid alloc Hlk.
    destruct (restored_sources n names d uid) as [Heq|(name & alloc' & Hin & Hrd & Hu & Hlk')].
    + left. congruence.
    + right. exists name. rewrite Hlk in Hlk'. injection Hlk' as <-. split_and!; [|done|done].
      by apply Hnames in Hin as [? _].
  - intros uid Hnone.
    destruct (restored_sources n names d uid) as [Heq|(name & alloc' & Hin & Hrd & Hu & _)];
      [done|].
    exfalso. apply (Hnone name alloc'); [|done|done]. by apply Hnames in Hin as [? _].
  - intros name alloc Hm Hrd.
    destruct (restored_overwrites n names d name alloc) as (name' & alloc' & Hin & ? & ? & ?);
      [|done|].
    { apply Hnames. split; [done|]. by eapply Hstored. }
    exists name', alloc'. split_and!; [|done|done|done]. by apply Hnames in Hin as [? _].
Qed.

Lemma append_inj_r (p a b : string) : p +:+ a = p +:+ b → a = b.
Proof.
  induction p as [|c p IH]; [done|]. intros Heq.
  change (String c (p +:+ a) = String c (p +:+ b)) in Heq. injection Heq as Heq. by apply IH.
Qed.

(** X20.  What [createCDISpec] persisted, a restarted driver restores.  When
    the state file could be written and can be read, the allocation carries a
    claim UID, and no other file of [/etc/cdi] carries that UID, the
    [restoreAllocations] of a new driver of the same name finds the
    allocation under its claim UID. *)
Theorem restore_after_createCDISpec d (reg : HandlerRegistry) uid (result : PrepareResult) n
    (id : string) n1 :
  let alloc := pr_Allocation result in
  8 ≤ String.length uid →
  createCDISpec d uid result n = Done (Ok id) n1 →
  cdiWriteErr (env n) (stateFile d uid) = None →
  cdiReadErr (env n) (stateFile d uid) = None →
  ai_ClaimUID alloc ≠ "" →
  (∀ name data a, cdiFiles n !! name = Some data → name ≠ stateFile d uid →
                  parseAllocation data = Some a → ai_ClaimUID a ≠ ai_ClaimUID alloc) →
  ∃ d', restoreAllocations (New (driverName d) reg) n1 = Done d' n1
        ∧ allocations d' !! ai_ClaimUID alloc = Some alloc.
Proof.
  intros alloc Hlen Hcreate Hwr Hrd Huid Hfresh.
  rewrite (createCDISpec_run d uid result n Hlen) in Hcreate.
  destruct (cdiMkdirErr (env n)); [done|].
  destruct (cdiWriteErr (env n) (specFile d uid)); [done|].
  rewrite Hwr in Hcreate. injection Hcreate as _ <-.
  set (n1 := set_cdiFiles _ n).
  assert (env n1 = env n) as Henv by done.
  assert (specFile d uid ≠ stateFile d uid) as Hdiff.
  { unfold specFile, stateFile. by intros ?%append_inj_r. }
  assert (cdiFiles n1 !! stateFile d uid = Some (AllocFile alloc)) as Hstate
    by (cbn; by rewrite lookup_insert_eq).
  assert (readable n1 (stateFile d uid) = Some alloc) as Hread.
  { unfold readable. rewrite Hstate, Henv, Hrd. cbn [parseAllocation].
    apply String.eqb_neq in Huid. by rewrite Huid. }
  rewrite restoreAllocations_run. eexists. split; [done|].
  apply restored_unique.
  - intros name a _ Hr Ha.
    destruct (decide (name = stateFile d uid)) as [->|Hns]; [congruence|].
    unfold readable in Hr.
    destruct (cdiFiles n1 !! name) as [data|] eqn:Hfile; [|done].
    destruct (cdiReadErr (env n1) name); [done|].
    destruct (parseAllocation data) as [a'|] eqn:Hparse; [|done].
    destruct (String.eqb_spec (ai_ClaimUID a') ""); [done|]. injection Hr as ->.
    exfalso. cbn in Hfile. rewrite lookup_insert_ne in Hfile by done.
    destruct (decide (name = specFile d uid)) as [->|Hnp].
    + rewrite lookup_insert_eq in Hfile. injection Hfile as <-. cbn in Hparse.
      injection Hparse as <-. done.
    + rewrite lookup_insert_ne in Hfile by done. by eapply Hfresh.
  - right. exists (stateFile d uid). split_and!; [|done|done].
    rewrite merge_sort_Permutation. apply list_elem_of_In, filter_In. split.
    + apply list_elem_of_In, list_elem_of_fmap. exists (stateFile d uid, AllocFile alloc).
      split; [done|]. by apply elem_of_map_to_list.
    + exact (stateFile_matches d uid).
Qed.
End Restore.

(* ================================================================== *)
(** * The release batch *)
(* ================================================================== *)

Section ReleaseBatch.
Implicit Types (d : Driver) (w : World) (n : Node) (uid : string).

Lemma foldM_snoc {S A B} (f : B → A → St S B) (b : B) (l : list A) (a : A) (s : S) :
  foldM f b (l ++ [a]) s =
    match foldM f b l s with
    | Done b' s' => f b' a s'
    | Panic s' => Panic s'
    end.
Proof.
  revert b s. induction l as [|x l IH]; intros b s.
  - cbn. unfold bind. by destruct (f b a s).
  - cbn [foldM app]. unfold bind. destruct (f b x s) as [b' s'|s']; [apply IH|done].
Qed.

(** What the rehydration finds: the allocations in memory and those of the
    state files of this driver that can be read. *)
Lemma restoreAllocations_finds d n :
  ∃ d0, restoreAllocations d n = Done d0 n
        ∧ driverName d0 = driverName d ∧ registry d0 = registry d
        ∧ ∀ uid, allocations d0 !! uid = None ↔
                 allocations d !! uid = None
                 ∧ ∀ name alloc, globMatch (statePrefix d) ".alloc.json" name = true →
                                 readable n name = Some alloc → ai_ClaimUID alloc ≠ uid.
Proof.
  rewrite restoreAllocations_run.
  set (names := merge_sort _ _). eexists. split; [done|].
  destruct (restored_fields n names d) as [Hn Hr]. split; [done|]. split; [done|].
  assert (Hnames : ∀ name, name ∈ names ↔
                           globMatch (statePrefix d) ".alloc.json" name = true
                           ∧ is_Some (cdiFiles n !! name)).
  { intros name. unfold names. rewrite merge_sort_Permutation.
    rewrite list_elem_of_In, filter_In, <- list_elem_of_In.
    rewrite list_elem_of_fmap. split.
    - intros [([k v] & -> & Hkv%elem_of_map_to_list) Hm]. split; [done|]. by exists v.
    - intros [Hm [v Hv]]. split; [|done]. exists (name, v). split; [done|].
      by apply elem_of_map_to_list. }
  intros uid. split.
  - intros Hnone. split.
    + destruct (allocations d !! uid) eqn:Hd; [|done].
      destruct (restored_keeps n names d uid) as [x Hx]; [by rewrite Hd|]. congruence.
    + intros name alloc Hm Hrd <-.
      destruct (restored_loads n names d name alloc) as [x Hx]; [|done|congruence].
      apply Hnames. split; [done|]. unfold readable in Hrd.
      by destruct (cdiFiles n !! name).
  - intros [Hd Hfiles].
    destruct (restored_sources n names d uid) as [->|(name & alloc & Hin & Hrd & Hu & _)];
      [done|].
    exfalso. apply (Hfiles name alloc); [|done|done]. by apply Hnames.
Qed.

Lemma UnprepareResourceClaims_snoc d (claims : list NamespacedObject) (claim : NamespacedObject) w :
  UnprepareResourceClaims d (claims ++ [claim]) w =
    match UnprepareResourceClaims d claims w with
    | Done acc w1 => unprepareOne acc claim w1
    | Panic w1 => Panic w1
    end.
Proof.
  unfold UnprepareResourceClaims, bind, liftN.
  destruct (restoreAllocations d (node w)) as [d0 n0|n0]; [|done].
  apply foldM_snoc.
Qed.

(** C4.  A batch release rehydrates the allocations and then releases the
    claims one after the other.  The rehydration leaves the node alone and
    finds the allocations the driver holds in memory and those of its state
    files that can be read; a batch without claims returns them and an empty
    result.  A claim added at the end of a batch is released in the state
    the batch before it ends in.  (a) When no allocation is known for its
    UID, the claim is reported released (nil error), no handler is called
    and nothing changes.  (b) When no handler is registered for the
    allocation's type and kind, or (c) the handler's [Unprepare] returns an
    error, that error is reported for this claim, the allocation stays in
    memory and the node is as the handler left it: the driver removes no
    file.  (d) When [Unprepare] succeeds, the claim is reported released,
    the allocation is removed from memory, and the driver removes the two
    artifacts of the claim (and no other file) as far as [os.Remove] lets
    it.  In each case the results of the claims before it are kept. *)
Theorem C4_release_per_claim d (claims : list NamespacedObject) (claim : NamespacedObject) w :
  let uid := no_UID claim in
  let batch := UnprepareResourceClaims d in
  ∃ d0,
    restoreAllocations d (node w) = Done d0 (node w)
    ∧ driverName d0 = driverName d ∧ registry d0 = registry d
    ∧ (∀ u, allocations d0 !! u = None ↔
            allocations d !! u = None
            ∧ ∀ name alloc, globMatch (statePrefix d) ".alloc.json" name = true →
                            readable (node w) name = Some alloc → ai_ClaimUID alloc ≠ u)
    ∧ batch [] w = Done (d0, ∅) w
    ∧ (∀ w1, batch claims w = Panic w1 → batch (claims ++ [claim]) w = Panic w1)
    ∧ ∀ d1 results w1,
        batch claims w = Done (d1, results) w1 →
        (allocations d1 !! uid = None →
           batch (claims ++ [claim]) w = Done (d1, <[uid := None]> results) w1)
        ∧ (∀ alloc,
             allocations d1 !! uid = Some alloc →
             Get (registry d1) (ai_Type alloc) (ai_Kind alloc) = None →
             batch (claims ++ [claim]) w =
               Done (d1, <[uid := Some ("no handler for type=" +:+ ai_Type alloc +:+ " kind="
                                        +:+ ai_Kind alloc +:+ " during unprepare")]> results) w1)
        ∧ (∀ alloc h err w2,
             allocations d1 !! uid = Some alloc →
             Get (registry d1) (ai_Type alloc) (ai_Kind alloc) = Some h →
             callUnprepare (ViaRegistry (ai_Type alloc) (ai_Kind alloc)) h
               {| uq_ClaimUID := ai_ClaimUID alloc; uq_Allocation := alloc |} w1
             = Done (Some err) w2 →
             batch (claims ++ [claim]) w = Done (d1, <[uid := Some err]> results) w2)
        ∧ (∀ alloc h w2,
             allocations d1 !! uid = Some alloc →
             Get (registry d1) (ai_Type alloc) (ai_Kind alloc) = Some h →
             callUnprepare (ViaRegistry (ai_Type alloc) (ai_Kind alloc)) h
               {| uq_ClaimUID := ai_ClaimUID alloc; uq_Allocation := alloc |} w1
             = Done None w2 →
             8 ≤ String.length uid →
             ∃ w3,
               batch (claims ++ [claim]) w =
                 Done (set_allocations (delete uid) d1, <[uid := None]> results) w3
               ∧ calls w3 = calls w2
               ∧ links (node w3) = links (node w2)
               ∧ rdmaTracker (node w3) = rdmaTracker (node w2)
               ∧ (∀ name x, cdiFiles (node w3) !! name = Some x →
                            cdiFiles (node w2) !! name = Some x)
               ∧ ((∀ name, cdiRemoveErr (env (node w2)) name = None) →
                  cdiFiles (node w3) =
                    delete (stateFile d1 uid) (delete (specFile d1 uid) (cdiFiles (node w2))))).
Proof.
  intros uid batch. subst batch.
  destruct (restoreAllocations_finds d (node w)) as (d0 & Hrun & Hn & Hr & Hfinds).
  exists d0. split; [done|]. split; [done|]. split; [done|]. split; [done|]. split.
  { unfold UnprepareResourceClaims, bind, liftN. rewrite Hrun. by destruct w. }
  split.
  { intros w1 Hp. by rewrite UnprepareResourceClaims_snoc, Hp. }
  intros d1 results w1 Hbatch. rewrite UnprepareResourceClaims_snoc, Hbatch.
  destruct (unprepareOne_cases d1 results claim w1) as (Ha & Hb & Hc & Hd).
  split; [exact Ha|]. split; [exact Hb|]. split; [exact Hc|].
  intros alloc h w2 Halloc Hget Hcall Hlen.
  destruct (Hd alloc h w2 Halloc Hget Hcall Hlen) as (w3 & H1 & H2 & H3 & H4 & H5 & H6).
  exists w3. split_and!; try done.
Qed.
End ReleaseBatch.

Section ReleaseScenario.

Lemma Get_roce :
  Get buildHandlerRegistry DeviceTypeCombo "roce" = Some (roceHandler productionRoCE).
Proof. unfold buildHandlerRegistry. cbv zeta. rewrite !Get_Register. reflexivity. Qed.

(** Claim X, prepared on the fresh node, is released by a driver that
    starts with empty memory: the allocation is found in its state file, the
    combo handler and through it the two sub-handlers are called, and the
    two artifacts and the interface are gone. *)
Lemma C4_witness :
  size (cdiFiles (node restartedWorld)) = 2
  ∧ is_Some (links (node restartedWorld) !! "dm12345678")
  ∧ ∃ d' w',
      UnprepareResourceClaims exampleDriver [objectX] restartedWorld
      = Done (d', {[cl_UID claimX := None]}) w'
      ∧ allocations d' !! cl_UID claimX = None
      ∧ cdiFiles (node w') = ∅
      ∧ links (node w') = ∅
      ∧ map (λ c, (callee c, methodName (method c))) (calls w')
        = map (λ c, (callee c, methodName (method c))) (calls restartedWorld)
          ++ [(ViaRegistry DeviceTypeCombo "roce", "Unprepare");
              (NetdevSub, "Unprepare"); (RdmaSub, "Unprepare")].
Proof.
  split; [vm_compute; reflexivity|]. split; [vm_compute; by eexists|].
  destruct (C4_release_per_claim exampleDriver [] objectX restartedWorld)
    as (d0 & Hrestore & Hn & Hreg & _ & Hempty & _ & Hstep).
  pose (alloc := default (pr_Allocation testRdmaResult)
                   (match restoreAllocations exampleDriver (node restartedWorld) with
                    | Done d _ => allocations d !! cl_UID claimX
                    | Panic _ => None
                    end)).
  assert (Halloc : allocations d0 !! no_UID objectX = Some alloc).
  { assert (match restoreAllocations exampleDriver (node restartedWorld) with
            | Done d _ => allocations d !! cl_UID claimX
            | Panic _ => None
            end = Some alloc) as Hc by (vm_compute; reflexivity).
    by rewrite Hrestore in Hc. }
  assert (Hty : ai_Type alloc = DeviceTypeCombo) by (vm_compute; reflexivity).
  assert (Hki : ai_Kind alloc = "roce") by (vm_compute; reflexivity).
  pose (ureq := {| uq_ClaimUID := ai_ClaimUID alloc; uq_Allocation := alloc |}).
  pose (w2 := stateOf (callUnprepare (ViaRegistry DeviceTypeCombo "roce")
                         (roceHandler productionRoCE) ureq restartedWorld)).
  assert (Hcall : callUnprepare (ViaRegistry (ai_Type alloc) (ai_Kind alloc))
                    (roceHandler productionRoCE) ureq restartedWorld = Done None w2)
    by (vm_compute; reflexivity).
  destruct (Hstep d0 ∅ restartedWorld Hempty) as (_ & _ & _ & Hd).
  destruct (Hd alloc (roceHandler productionRoCE) w2 Halloc) as (w3 & Hrun & Hcalls & Hlinks & _ & _ & Hfiles).
  - rewrite Hreg, Hty, Hki. exact Get_roce.
  - exact Hcall.
  - vm_compute. lia.
  - exists (set_allocations (delete (no_UID objectX)) d0), w3. split; [exact Hrun|].
    split; [apply lookup_delete_eq|]. split; [|split].
    + rewrite Hfiles by done.
      unfold stateFile, specFile, artifactPrefix. rewrite Hn. vm_compute. reflexivity.
    + rewrite Hlinks. vm_compute. reflexivity.
    + rewrite Hcalls. vm_compute. reflexivity.
Defined.

End ReleaseScenario.

(* ================================================================== *)
(** * Artifact names and claim inputs *)
(* ================================================================== *)

Section DriverEdges.
Implicit Types (d : Driver) (w : World) (n : Node) (uid : string).


Lemma deleteCDISpec_names d uid n :
  8 ≤ String.length uid →
  deleteCDISpec d uid n =
    (osRemove (specFile d uid) ;; osRemove (stateFile d uid) ;; ret tt) n.
Proof.
  intros Hlen. unfold deleteCDISpec.
  rewrite (bind_run _ _ _ _ _ (cdiFilePrefix_run d uid n Hlen)).
  fold (specFile d uid).
  destruct (osRemove_spec (specFile d uid) n) as [e1 He1].
  rewrite !(bind_run _ _ _ _ _ He1). unfold removeAllocationState.
  by rewrite (bind_run _ _ _ _ _ (cdiFilePrefix_run d uid _ Hlen)).
Qed.

(** X21.  The artifacts of a claim are named by the first eight bytes of
    its UID alone.  For two claims whose UIDs agree on these bytes
    [createCDISpec] writes, and [deleteCDISpec] removes, the same files:
    the release of one claim removes the artifacts of the other. *)
Theorem artifacts_named_by_uid_prefix d (uid1 uid2 : string) n :
  8 ≤ String.length uid1 → 8 ≤ String.length uid2 →
  String.substring 0 8 uid1 = String.substring 0 8 uid2 →
  (∀ result, createCDISpec d uid1 result n = createCDISpec d uid2 result n)
  ∧ deleteCDISpec d uid1 n = deleteCDISpec d uid2 n
  ∧ (∀ result id n1,
       createCDISpec d uid2 result n = Done (Ok id) n1 →
       (∀ name, cdiRemoveErr (env n) name = None) →
       ∃ n2, deleteCDISpec d uid1 n1 = Done tt n2
             ∧ cdiFiles n2 !! specFile d uid2 = None
             ∧ cdiFiles n2 !! stateFile d uid2 = None).
Proof.
  intros Hlen1 Hlen2 Hpre.
  assert (specFile d uid1 = specFile d uid2) as Hspec
    by (unfold specFile, artifactPrefix; by rewrite Hpre).
  assert (stateFile d uid1 = stateFile d uid2) as Hstate
    by (unfold stateFile, artifactPrefix; by rewrite Hpre).
  split_and!.
  - intros result. rewrite !createCDISpec_run by done. by rewrite Hspec, Hstate.
  - rewrite !deleteCDISpec_names by done. by rewrite Hspec, Hstate.
  - intros result id n1 Hcreate Hrm.
    assert (env n1 = env n) as Henv.
    { rewrite createCDISpec_run in Hcreate by done.
      destruct (cdiMkdirErr (env n)); [done|].
      destruct (cdiWriteErr (env n) (specFile d uid2)); [done|]. by injection Hcreate as _ <-. }
    rewrite deleteCDISpec_run; [|done|intros name; by rewrite Henv].
    eexists. split; [done|]. cbn. rewrite Hspec, Hstate. split.
    + destruct (decide (specFile d uid2 = stateFile d uid2)) as [->|Hne];
        [by rewrite lookup_delete_eq|].
      rewrite lookup_delete_ne by done. by rewrite lookup_delete_eq.
    + by rewrite lookup_delete_eq.
Qed.

(** X22.  Which configuration and which device a claim gives the driver.
    [parseConfig] returns the parameters of the first entry that is
    addressed to this driver and parses; so it returns the default
    configuration or the parameters of an entry of this driver, and the
    default when no entry of this driver parses.  [getAllocatedDevice]
    returns the device of the first allocation result of this driver; so it
    returns the empty name or the device of such a result, and the empty
    name when there is none. *)
Theorem claim_inputs_of_this_driver d (rc : ResourceClaim) :
  (∀ before o after parsed,
     cl_Config rc = before ++ Some o :: after →
     oc_Driver o = driverName d → oc_Parameters o = Some parsed →
     (∀ o', Some o' ∈ before → oc_Driver o' = driverName d → oc_Parameters o' = None) →
     parseConfig d rc = parsed)
  ∧ (parseConfig d rc = defaultConfig
     ∨ ∃ o, Some o ∈ cl_Config rc ∧ oc_Driver o = driverName d
            ∧ oc_Parameters o = Some (parseConfig d rc))
  ∧ ((∀ o, Some o ∈ cl_Config rc → oc_Driver o = driverName d → oc_Parameters o = None) →
     parseConfig d rc = defaultConfig)
  ∧ (∀ before r after,
       cl_Allocation rc = Some (before ++ r :: after) →
       ar_Driver r = driverName d →
       (∀ r', r' ∈ before → ar_Driver r' ≠ driverName d) →
       getAllocatedDevice d rc = ar_Device r)
  ∧ (getAllocatedDevice d rc = ""
     ∨ ∃ results r, cl_Allocation rc = Some results ∧ r ∈ results
                    ∧ ar_Driver r = driverName d ∧ ar_Device r = getAllocatedDevice d rc)
  ∧ ((∀ results r, cl_Allocation rc = Some results → r ∈ results →
                   ar_Driver r ≠ driverName d) →
     getAllocatedDevice d rc = "").
Proof.
  unfold parseConfig, getAllocatedDevice. split_and!.
  - intros before o after parsed -> Hdrv Hpar Hbefore.
    induction before as [|c before IH]; cbn [app parseConfigLoop].
    { by rewrite Hdrv, String.eqb_refl, Hpar. }
    assert (parseConfigLoop (driverName d) (before ++ Some o :: after) = parsed) as IH'.
    { apply IH. intros o' Hin. apply Hbefore. by right. }
    destruct c as [o'|]; [|done].
    destruct (String.eqb_spec (oc_Driver o') (driverName d)) as [Heq|Hne]; [|done].
    rewrite (Hbefore o'); [done|by left|done].
  - induction (cl_Config rc) as [|c cfgs IH]; [by left|]. cbn [parseConfigLoop].
    assert (parseConfigLoop (driverName d) cfgs = defaultConfig
            ∨ ∃ o, Some o ∈ c :: cfgs ∧ oc_Driver o = driverName d
                   ∧ oc_Parameters o = Some (parseConfigLoop (driverName d) cfgs)) as IH'.
    { destruct IH as [?|(o & Hin & ? & ?)]; [by left|]. right. exists o.
      split_and!; [by right|done|done]. }
    destruct c as [o|]; [|done].
    destruct (String.eqb_spec (oc_Driver o) (driverName d)) as [Heq|Hne]; [|done].
    destruct (oc_Parameters o) as [parsed|] eqn:Hp; [|done].
    right. exists o. split_and!; [by left|done|done].
  - intros Hnone. induction (cl_Config rc) as [|c cfgs IH]; [done|]. cbn [parseConfigLoop].
    assert (parseConfigLoop (driverName d) cfgs = defaultConfig) as IH'.
    { apply IH. intros o Hin. apply Hnone. by right. }
    destruct c as [o|]; [|done].
    destruct (String.eqb_spec (oc_Driver o) (driverName d)) as [Heq|Hne]; [|done].
    rewrite (Hnone o); [done|by left|done].
  - intros before r after -> Hdrv Hbefore.
    induction before as [|r' before IH]; cbn [app List.find].
    { by rewrite Hdrv, String.eqb_refl. }
    destruct (String.eqb_spec (ar_Driver r') (driverName d)) as [Heq|Hne].
    { exfalso. by apply (Hbefore r'); [left|]. }
    apply IH. intros r'' Hin. apply Hbefore. by right.
  - destruct (cl_Allocation rc) as [results|]; [|by left].
    destruct (List.find _ results) as [r|] eqn:Hfind; [|by left].
    apply find_some in Hfind as [Hin Heq]. apply String.eqb_eq in Heq.
    right. exists results, r. split_and!; [done|by apply list_elem_of_In|done|done].
  - intros Hnone. destruct (cl_Allocation rc) as [results|]; [|done].
    rewrite find_none_intro; [done|]. intros r Hin. apply String.eqb_neq. by eapply Hnone.
Qed.
End DriverEdges.

(* ================================================================== *)
(** * The batch calls return *)
(* ================================================================== *)

Section Batches.
Implicit Types (d : Driver) (w : World) (n : Node) (uid : string).

Lemma prepareOne_answers d (results : gmap string ClaimResult) (rc : ResourceClaim) w :
  8 ≤ String.length (cl_UID rc) →
  (∀ typ kind h, Get (registry d) typ kind = Some h → answers h) →
  ∃ d' r w', prepareOne (d, results) rc w = Done (d', <[cl_UID rc := r]> results) w'
             ∧ driverName d' = driverName d ∧ registry d' = registry d.
Proof.
  intros Hlen Hreg. unfold prepareOne. cbn [fst snd].
  destruct (allocations d !! cl_UID rc) as [existing|]; [by eexists _, _, _|].
  unfold bind at 1, prepareClaim, MustGet.
  destruct (Get (registry d) _ _) as [h|] eqn:Hget; [|by eexists _, _, _].
  destruct (Hreg _ _ _ Hget) as (Hval & Hprep & _).
  unfold bind at 1, callValidate. unfold bind at 1, record, modify.
  destruct (Hval (parseConfig d rc)
              {| node := node w;
                 calls := calls w ++ [{| callee := ViaRegistry (dc_Type (parseConfig d rc))
                                                     (GetKind (parseConfig d rc));
                                         method := MValidate (parseConfig d rc) |}] |})
    as (v & wv & ->).
  destruct v as [e|]; [by eexists _, _, _|].
  unfold callPrepare. unfold bind at 1, record, modify.
  lazymatch goal with
  | |- context [Prepare h ?req ?w0] => destruct (Hprep req w0 Hlen) as (r & wp & ->)
  end.
  destruct r as [result|e]; [|by eexists _, _, _].
  unfold bind at 1, liftN. rewrite (createCDISpec_run d _ result (node wp) Hlen).
  destruct (cdiMkdirErr (env (node wp))) as [e|].
  { unfold bind, unprepareAllocation.
    destruct (Get (registry d) (ai_Type (pr_Allocation result)) (ai_Kind (pr_Allocation result)))
      as [h'|] eqn:Hget'; [|by eexists _, _, _].
    destruct (Hreg _ _ _ Hget') as (_ & _ & Hun). unfold callUnprepare, bind, record, modify, ret. cbv beta.
    match goal with
    | |- context [Unprepare h' ?req ?w0] => destruct (Hun req w0) as (x & wu & ->)
    end.
    by eexists _, _, _. }
  destruct (cdiWriteErr (env (node wp)) _) as [e|]; [|by eexists _, _, _].
  unfold bind, unprepareAllocation.
  destruct (Get (registry d) (ai_Type (pr_Allocation result)) (ai_Kind (pr_Allocation result)))
      as [h'|] eqn:Hget'; [|by eexists _, _, _].
  destruct (Hreg _ _ _ Hget') as (_ & _ & Hun). unfold callUnprepare, bind, record, modify, ret. cbv beta.
  lazymatch goal with
  | |- context [Unprepare h' ?req ?w0] => destruct (Hun req w0) as (x & wu & ->)
  end.
  by eexists _, _, _.
Qed.

Lemma unprepareOne_answers d (results : gmap string (option error)) (claim : NamespacedObject) w :
  8 ≤ String.length (no_UID claim) →
  (∀ typ kind h, Get (registry d) typ kind = Some h → answers h) →
  ∃ d' r w', unprepareOne (d, results) claim w = Done (d', <[no_UID claim := r]> results) w'
             ∧ driverName d' = driverName d ∧ registry d' = registry d.
Proof.
  intros Hlen Hreg. unfold unprepareOne. cbn [fst snd].
  destruct (allocations d !! no_UID claim) as [alloc|]; [|by eexists _, _, _].
  unfold bind at 1, unprepareAllocation.
  destruct (Get (registry d) _ _) as [h|] eqn:Hget; [|by eexists _, _, _].
  destruct (Hreg _ _ _ Hget) as (_ & _ & Hun). unfold callUnprepare.
  unfold bind at 1, record, modify. cbv beta.
  lazymatch goal with
  | |- context [Unprepare h ?req ?w0] => destruct (Hun req w0) as (x & wu & ->)
  end.
  destruct x as [e|]; [by eexists _, _, _|].
  unfold bind, liftN.
  destruct (deleteCDISpec_ok d (no_UID claim) (node wu) Hlen) as (n' & -> & _).
  by eexists _, _, _.
Qed.

Lemma foldM_answers {A R} (one : Driver * gmap string R → A → M (Driver * gmap string R))
    (key : A → string) (d0 : Driver) (claims : list A) :
  (∀ d results a w,
     driverName d = driverName d0 → registry d = registry d0 → a ∈ claims →
     ∃ d' r w', one (d, results) a w = Done (d', <[key a := r]> results) w'
                ∧ driverName d' = driverName d ∧ registry d' = registry d) →
  ∀ d results w,
    driverName d = driverName d0 → registry d = registry d0 →
    ∃ d' results' w',
      foldM one (d, results) claims w = Done (d', results') w'
      ∧ (∀ uid, is_Some (results' !! uid) ↔ is_Some (results !! uid) ∨ uid ∈ map key claims)
      ∧ driverName d' = driverName d0 ∧ registry d' = registry d0.
Proof.
  induction claims as [|a claims IH]; intros Hone d results w Hn Hr.
  { eexists _, _, _. split; [done|]. split; [|done]. intros uid. cbn.
    rewrite elem_of_nil. tauto. }
  cbn [foldM]. destruct (Hone d results a w Hn Hr) as (d1 & r & w1 & Hrun & Hn1 & Hr1);
    [by left|].
  rewrite (bind_run _ _ _ _ _ Hrun).
  destruct (IH (λ d results a' w Hn Hr Hin, Hone d results a' w Hn Hr
                  (proj2 (elem_of_cons _ _ _) (or_intror Hin)))
              d1 (<[key a := r]> results) w1) as (d' & results' & w' & Hfold & Hdom & Hn' & Hr');
    [congruence|congruence|].
  exists d', results', w'. split; [done|]. split; [|done].
  intros uid. rewrite Hdom. cbn [map]. rewrite elem_of_cons.
  destruct (decide (uid = key a)) as [->|Hne].
  - rewrite lookup_insert_eq. split; [intros _; right; by left|by intros _; left].
  - rewrite lookup_insert_ne by done. split; [tauto|]. intros [?|[?|?]]; tauto.
Qed.

(** X23.  When no handler of the registry panics on a claim UID of eight
    bytes or more, the two batch calls return for every batch of such
    claims, with a result for each claim of the batch and for nothing else,
    and the driver keeps its name and its registry.  The handlers embedded
    here are such handlers. *)
Theorem batches_answer_every_claim d w :
  (∀ typ kind h, Get (registry d) typ kind = Some h → answers h) →
  (∀ claims : list ResourceClaim,
     Forall (λ rc, 8 ≤ String.length (cl_UID rc)) claims →
     ∃ d' results w',
       PrepareResourceClaims d claims w = Done (d', results) w'
       ∧ (∀ uid, is_Some (results !! uid) ↔ uid ∈ map cl_UID claims)
       ∧ driverName d' = driverName d ∧ registry d' = registry d)
  ∧ (∀ claims : list NamespacedObject,
       Forall (λ c, 8 ≤ String.length (no_UID c)) claims →
       ∃ d' results w',
         UnprepareResourceClaims d claims w = Done (d', results) w'
         ∧ (∀ uid, is_Some (results !! uid) ↔ uid ∈ map no_UID claims)
         ∧ driverName d' = driverName d ∧ registry d' = registry d).
Proof.
  intros Hreg.
  pose proof (restoreAllocations_run d (node w)) as Hrestore.
  set (d0 := foldl _ d _) in Hrestore.
  assert (driverName d0 = driverName d ∧ registry d0 = registry d) as [Hn0 Hr0]
    by apply restored_fields.
  clearbody d0.
  split.
  - intros claims Hlen. unfold PrepareResourceClaims, bind at 1, liftN. rewrite Hrestore.
    destruct (foldM_answers prepareOne cl_UID d0 claims) with (d := d0)
      (results := (∅ : gmap string ClaimResult))
      (w := {| node := node w; calls := calls w |})
      as (d' & results' & w' & Hfold & Hdom & Hn' & Hr'); [|done|done|].
    + intros d1 results a w1 Hn1 Hr1 Hin. apply prepareOne_answers.
      * rewrite Forall_forall in Hlen. by apply Hlen.
      * rewrite Hr1, Hr0. exact Hreg.
    + exists d', results', w'. split; [done|]. split; [|split; congruence].
      intros uid. rewrite Hdom, lookup_empty. split; [intros [[? ?]|?]; done|by right].
  - intros claims Hlen. unfold UnprepareResourceClaims, bind at 1, liftN. rewrite Hrestore.
    destruct (foldM_answers unprepareOne no_UID d0 claims) with (d := d0)
      (results := (∅ : gmap string (option error)))
      (w := {| node := node w; calls := calls w |})
      as (d' & results' & w' & Hfold & Hdom & Hn' & Hr'); [|done|done|].
    + intros d1 results a w1 Hn1 Hr1 Hin. apply unprepareOne_answers.
      * rewrite Forall_forall in Hlen. by apply Hlen.
      * rewrite Hr1, Hr0. exact Hreg.
    + exists d', results', w'. split; [done|]. split; [|split; congruence].
      intros uid. rewrite Hdom, lookup_empty. split; [intros [[? ?]|?]; done|by right].
Qed.
End Batches.

Section Answers.

Lemma liftN_Done {A} (m : N A) (w : World) :
  (∃ a n', m (node w) = Done a n') → ∃ a w', liftN m w = Done a w'.
Proof. intros (a & n' & H). unfold liftN. rewrite H. by eexists _, _. Qed.

Lemma leaf_answers (l : LeafHandler) :
  (∀ cfg n, ∃ r n', lh_Validate l cfg n = Done r n') →
  (∀ req n, 8 ≤ String.length (pq_ClaimUID req) → ∃ r n', lh_Prepare l req n = Done r n') →
  (∀ ureq n, ∃ r n', lh_Unprepare l ureq n = Done r n') →
  answers (leaf l).
Proof.
  intros Hv Hp Hu. split_and!.
  - intros cfg w. apply liftN_Done, Hv.
  - intros req w Hlen. by apply liftN_Done, Hp.
  - intros ureq w. apply liftN_Done, Hu.
Qed.

Lemma dummy_answers : answers (leaf dummyHandler).
Proof.
  apply leaf_answers; cbn.
  - intros cfg n. unfold DummyHandler_Validate. destruct (dc_Netdev cfg); by eexists _, _.
  - intros req n Hlen. destruct (dc_Netdev (pq_Config req)) as [cfg|] eqn:Hcfg.
    + pose proof (DummyHandler_Prepare_post req cfg n Hcfg Hlen) as H. cbv zeta in H.
      destruct (DummyHandler_Prepare req n) as [r n'|n']; [by eexists _, _|done].
    + unfold DummyHandler_Prepare. rewrite Hcfg. by eexists _, _.
  - intros ureq n. rewrite DummyHandler_Unprepare_run. cbv zeta.
    repeat case_match; by eexists _, _.
Qed.

Lemma ipoib_answers : answers (leaf ipoibHandler).
Proof.
  apply leaf_answers; cbn.
  - intros cfg n. unfold IpoibHandler_Validate. repeat case_match; by eexists _, _.
  - intros req n Hlen. pose proof (IpoibHandler_Prepare_post req n) as H. cbv zeta in H.
    destruct (IpoibHandler_Prepare req n) as [r n'|n']; [by eexists _, _|].
    destruct H as [_ H]. lia.
  - intros ureq n. unfold IpoibHandler_Unprepare.
    destruct (String.eqb _ ""); [by eexists _, _|].
    unfold bind at 1, LinkByName.
    destruct (links n !! _) as [lk|] eqn:Hl; [|by eexists _, _].
    unfold bind, LinkDel. rewrite Hl. destruct (linkDelErr (env n) _); by eexists _, _.
Qed.

Lemma uverbs_answers (h : UverbsHandler) : answers (leaf (uverbsHandler h)).
Proof.
  apply leaf_answers; cbn.
  - intros cfg n. by eexists _, _.
  - intros req n _. pose proof (UverbsHandler_Prepare_post h req n) as H.
    destruct (UverbsHandler_Prepare h req n) as [r n'|n']; [by eexists _, _|done].
  - intros ureq n. destruct (UverbsHandler_Unprepare_tracker h ureq n) as (n' & -> & _).
    by eexists _, _.
Qed.

Lemma roce_answers (rdma netdev : DeviceHandler) :
  answers rdma → answers netdev → answers (roceHandler (NewRoCEHandler rdma netdev)).
Proof.
  intros (_ & Hpr & Hur) (_ & Hpn & Hun). split_and!; cbn.
  - intros cfg w. unfold RoCEHandler_Validate. destruct (dc_Combo cfg); by eexists _, _.
  - intros req w Hlen. unfold RoCEHandler_Prepare.
    destruct (dc_Combo (pq_Config req)) as [cfg|]; [|by eexists _, _].
    unfold callPrepare, callUnprepare, bind, record, modify, ret. cbn.
    lazymatch goal with
    | |- context [Prepare rdma ?q ?w0] => destruct (Hpr q w0 Hlen) as (r & w1 & ->)
    end.
    destruct r as [rdmaResult|e]; [|by eexists _, _].
    lazymatch goal with
    | |- context [Prepare netdev ?q ?w0] => destruct (Hpn q w0 Hlen) as (r & w2 & ->)
    end.
    destruct r as [netResult|e]; [by eexists _, _|].
    lazymatch goal with
    | |- context [Unprepare rdma ?q ?w0] => destruct (Hur q w0) as (r & w3 & ->)
    end.
    by eexists _, _.
  - intros ureq w. unfold RoCEHandler_Unprepare.
    unfold callUnprepare, bind, record, modify, ret. cbn.
    lazymatch goal with
    | |- context [Unprepare netdev ?q ?w0] => destruct (Hun q w0) as (r1 & w1 & ->)
    end.
    lazymatch goal with
    | |- context [Unprepare rdma ?q ?w0] => destruct (Hur q w0) as (r2 & w2 & ->)
    end.
    destruct (decide _); by eexists _, _.
Qed.

Lemma buildHandlerRegistry_answers typ kind h :
  Get buildHandlerRegistry typ kind = Some h → answers h.
Proof.
  unfold buildHandlerRegistry. cbv zeta. rewrite !Get_Register, Get_New.
  repeat case_match; intros [= <-]; try done.
  - apply roce_answers; [apply uverbs_answers|apply dummy_answers].
  - apply uverbs_answers.
  - apply ipoib_answers.
  - apply dummy_answers.
Qed.

End Answers.

(* ================================================================== *)
(** * Replay of a claim *)
(* ================================================================== *)

Section Replay.
Implicit Types (d : Driver) (w : World) (n : Node) (uid : string).

Lemma leaf_result_agrees (l : LeafHandler) (req : PrepareRequest) n (res : PrepareResult) n' :
  embeddedLeaf l →
  lh_Prepare l req n = Done (Ok res) n' →
  ai_DeviceName (pr_Allocation res) = pr_DeviceName res
  ∧ pr_PoolName res = "default"
  ∧ ai_Metadata (pr_Allocation res) !! "poolName" = None
  ∧ ai_Type (pr_Allocation res) = lh_Type l
  ∧ [ai_Kind (pr_Allocation res)] = lh_Kinds l
  ∧ ai_ClaimUID (pr_Allocation res) = pq_ClaimUID req.
Proof.
  intros [->|[->|[h ->]]]; cbn [lh_Prepare lh_Type lh_Kinds dummyHandler ipoibHandler uverbsHandler].
  - unfold DummyHandler_Prepare.
    destruct (dc_Netdev (pq_Config req)) as [cfg|]; [|done].
    destruct (slice_to (pq_ClaimUID req) 8) as [uid8|]; [|done].
    unfold bind, LinkAdd, LinkByName, LinkSetUp, LinkDel, ret.
    repeat case_match; try done.
    all: intros [= <- <-]; by cbn.
  - unfold IpoibHandler_Prepare.
    destruct (dc_Netdev (pq_Config req)) as [cfg|]; [|done].
    destruct (String.eqb (nc_Parent cfg) ""); [done|].
    destruct (nc_Pkey cfg =? 0)%Z; [done|].
    destruct (ipoibMode (nc_Mode cfg)) as [connected|]; [|done].
    destruct (slice_to (pq_ClaimUID req) 8) as [uid8|]; [|done].
    unfold bind, LinkAdd, LinkByName, LinkSetUp, LinkDel, ret.
    repeat case_match; try done.
    all: intros [= <- <-]; by cbn.
  - unfold UverbsHandler_Prepare.
    unfold bind at 1.
    destruct ((if String.eqb (pq_AllocatedDevice req) "" then findAvailableUverbs
               else ret (Ok (pq_AllocatedDevice req))) n) as [[deviceName|e] n0|]; [|done|done].
    unfold bind at 1. destruct (osStat _ n0) as [[e|] n1|]; [done| |done].
    unfold bind at 1. destruct (resolveIBDevice deviceName n1) as [ibDev n2|]; [|done].
    unfold bind at 1. destruct (osStat _ n2) as [cm n3|]; [|done].
    unfold bind at 1. destruct (osStat _ n3) as [umad n4|]; [|done].
    unfold bind at 1.
    destruct ((if String.eqb ibDev "" then ret (Some "") else osStat _) n4) as [sys n5|]; [|done].
    unfold bind at 1. destruct (DetectNetnsMode n5) as [mode n6|]; [|done].
    unfold bind at 1.
    destruct ((if mode is NetnsExclusive
               then if negb (String.eqb ibDev "") && uh_Tracker h
                    then modify (set_tracker (λ t, AddPending t (pq_ClaimUID req) ibDev))
                    else ret tt
               else ret tt) n6) as [[] n7|]; [|done].
    intros [= <- <-]. by cbn.
Qed.

Lemma prepareClaim_leaf_inv d (rc : ResourceClaim) (l : LeafHandler) w (result : PrepareResult) w1 :
  Get (registry d) (dc_Type (parseConfig d rc)) (GetKind (parseConfig d rc)) = Some (leaf l) →
  prepareClaim d rc w = Done (Ok result) w1 →
  ∃ n0 n1,
    lh_Prepare l {| pq_ClaimUID := cl_UID rc; pq_Namespace := cl_Namespace rc;
                    pq_ClaimName := cl_Name rc;
                    pq_AllocatedDevice := getAllocatedDevice d rc;
                    pq_Config := parseConfig d rc |} n0 = Done (Ok result) n1
    ∧ lh_Validate l (parseConfig d rc) (node w) = Done None n0
    ∧ node w1 = n1
    ∧ map (λ c, (callee c, methodName (method c))) (calls w1)
      = map (λ c, (callee c, methodName (method c))) (calls w)
        ++ [(ViaRegistry (dc_Type (parseConfig d rc)) (GetKind (parseConfig d rc)), "Validate");
            (ViaRegistry (dc_Type (parseConfig d rc)) (GetKind (parseConfig d rc)), "Prepare")].
Proof.
  intros Hget. unfold prepareClaim, MustGet. rewrite Hget.
  unfold bind at 1. rewrite callValidate_leaf.
  destruct (lh_Validate l (parseConfig d rc) (node w)) as [[e|] n0|] eqn:Hv; [done| |done].
  rewrite callPrepare_leaf. cbn [node calls].
  destruct (lh_Prepare l _ n0) as [[res|e] n1|] eqn:Hp; [|done|done].
  intros [= <- <-]. exists n0, n1. split_and!; try done.
  cbn [calls]. by rewrite <- app_assoc, map_app.
Qed.

(** A claim of a leaf handler replays identically, by the same driver
    struct. *)
Lemma prepareOne_leaf_replay d (l : LeafHandler)
    (results results' : gmap string ClaimResult) (rc : ResourceClaim) w w' d1 r1 w1 :
  embeddedLeaf l →
  Get (registry d) (dc_Type (parseConfig d rc)) (GetKind (parseConfig d rc)) = Some (leaf l) →
  allocations d !! cl_UID rc = None →
  prepareOne (d, results) rc w = Done (d1, r1) w1 →
  (∃ r, r1 !! cl_UID rc = Some r ∧ kr_Err r = None) →
  ∃ r2, prepareOne (d1, results') rc w' = Done (d1, r2) w'
        ∧ r2 !! cl_UID rc = r1 !! cl_UID rc
        ∧ ∀ uid, uid ≠ cl_UID rc → r2 !! uid = results' !! uid.
Proof.
  intros Hl Hget Hnone Hrun (r & Hr & Hok).
  unfold prepareOne in Hrun. cbn [fst snd] in Hrun. rewrite Hnone in Hrun.
  unfold bind at 1 in Hrun.
  destruct (prepareClaim d rc w) as [[result|e] w0|] eqn:Hprep; [| |done].
  2:{ injection Hrun as <- <- <-. rewrite lookup_insert_eq in Hr. by injection Hr as <-. }
  destruct (prepareClaim_leaf_inv _ _ _ _ _ _ Hget Hprep) as (n0 & n1 & Hp & _).
  destruct (leaf_result_agrees _ _ _ _ _ Hl Hp) as (Hdev & Hpool & Hmeta & _).
  unfold bind at 1, liftN in Hrun.
  destruct (createCDISpec d (cl_UID rc) result (node w0)) as [[id|e] n2|] eqn:Hcdi; [| |done].
  2:{ unfold bind in Hrun.
      destruct (unprepareAllocation d (pr_Allocation result) _) as [x wx|]; [|done].
      injection Hrun as <- <- <-. rewrite lookup_insert_eq in Hr. by injection Hr as <-. }
  injection Hrun as <- <- <-.
  eexists. split; [|split].
  - apply prepareOne_replay. cbn. by rewrite lookup_insert_eq.
  - rewrite !lookup_insert_eq. rewrite Hdev, Hmeta, Hpool. cbn.
    by rewrite (createCDISpec_id _ _ _ _ _ _ Hcdi).
  - intros uid Hne. by rewrite lookup_insert_ne.
Qed.

End Replay.

(* ================================================================== *)
(** * Release after prepare, by the driver *)
(* ================================================================== *)

Section DriverRoundTrip.
Implicit Types (d : Driver) (w : World) (n : Node) (uid : string).

Lemma deleteCDISpec_run_two d uid n :
  8 ≤ String.length uid →
  cdiRemoveErr (env n) (specFile d uid) = None →
  cdiRemoveErr (env n) (stateFile d uid) = None →
  deleteCDISpec d uid n =
    Done tt (set_cdiFiles (λ files, delete (stateFile d uid) (delete (specFile d uid) files)) n).
Proof.
  intros Hlen Hrm1 Hrm2. unfold deleteCDISpec.
  rewrite (bind_run _ _ _ _ _ (cdiFilePrefix_run d uid n Hlen)).
  fold (specFile d uid).
  destruct (osRemove_run (specFile d uid) n Hrm1) as [e1 He1].
  unfold bind at 1. rewrite He1. unfold removeAllocationState.
  rewrite (bind_run _ _ _ _ _ (cdiFilePrefix_run d uid _ Hlen)).
  fold (stateFile d uid).
  destruct (osRemove_run (stateFile d uid) (set_cdiFiles (delete (specFile d uid)) n) Hrm2)
    as [e2 He2].
  unfold bind. by rewrite He2.
Qed.

(** The release of a claim the dummy handler prepared undoes the
    preparation.  The releasing driver [d'] is the preparing one, or one that
    knows the same allocation for the claim. *)
Lemma release_after_first d (results : gmap string ClaimResult)
    (results' : gmap string (option error)) (rc : ResourceClaim) (cfg : NetdevConfig)
    (claim : NamespacedObject) w d1 r1 w1 d' :
  let uid := cl_UID rc in
  let ifName := claimIfName "dm" uid in
  8 ≤ String.length uid →
  no_UID claim = uid →
  allocations d !! uid = None →
  dc_Type (parseConfig d rc) = DeviceTypeNetdev →
  dc_Netdev (parseConfig d rc) = Some cfg →
  nc_Kind cfg = "dummy" →
  Get (registry d) DeviceTypeNetdev "dummy" = Some (leaf dummyHandler) →
  linkDelErr (env (node w)) ifName = None →
  cdiRemoveErr (env (node w)) (specFile d uid) = None →
  cdiRemoveErr (env (node w)) (stateFile d uid) = None →
  prepareOne (d, results) rc w = Done (d1, r1) w1 →
  (∃ r, r1 !! uid = Some r ∧ kr_Err r = None) →
  driverName d' = driverName d → registry d' = registry d →
  allocations d' !! uid = allocations d1 !! uid →
  links (node w) !! ifName = None
  ∧ is_Some (links (node w1) !! ifName)
  ∧ is_Some (cdiFiles (node w1) !! specFile d uid)
  ∧ is_Some (allocations d1 !! uid)
  ∧ ∃ w2,
      unprepareOne (d', results') claim w1
      = Done (set_allocations (delete uid) d', <[uid := None]> results') w2
      ∧ node w2 = set_cdiFiles (λ files, delete (stateFile d uid) (delete (specFile d uid) files))
                    (node w)
      ∧ map (λ c, (callee c, methodName (method c))) (calls w2)
        = map (λ c, (callee c, methodName (method c))) (calls w)
          ++ [(ViaRegistry DeviceTypeNetdev "dummy", "Validate");
              (ViaRegistry DeviceTypeNetdev "dummy", "Prepare");
              (ViaRegistry DeviceTypeNetdev "dummy", "Unprepare")].
Proof.
  intros uid ifName Hlen Huid Hnone Htype Hcfg Hkind Hget Hdel Hrm1 Hrm2 Hrun (r & Hr & Hok)
    Hn' Hr' Ha'.
  assert (specFile d' uid = specFile d uid ∧ stateFile d' uid = stateFile d uid) as [Hsp Hst].
  { unfold specFile, stateFile, artifactPrefix. by rewrite Hn'. }
  assert (GetKind (parseConfig d rc) = "dummy") as HK.
  { unfold GetKind. by rewrite Htype, Hcfg. }
  unfold prepareOne in Hrun. cbn [fst snd] in Hrun. fold uid in Hrun. rewrite Hnone in Hrun.
  unfold bind at 1 in Hrun.
  destruct (prepareClaim d rc w) as [[result|e] w0|] eqn:Hprep; [| |done].
  2:{ injection Hrun as <- <- <-. rewrite lookup_insert_eq in Hr. by injection Hr as <-. }
  destruct (prepareClaim_leaf_inv d rc dummyHandler w result w0) as (n0 & n1 & Hp & Hv & Hn1 & Hcalls);
    [by rewrite Htype, HK|done|].
  cbn [lh_Prepare lh_Validate dummyHandler] in Hp, Hv.
  assert (n0 = node w) as ->.
  { unfold DummyHandler_Validate in Hv. rewrite Hcfg in Hv. by injection Hv. }
  pose proof (DummyHandler_Prepare_post
                {| pq_ClaimUID := cl_UID rc; pq_Namespace := cl_Namespace rc;
                   pq_ClaimName := cl_Name rc; pq_AllocatedDevice := getAllocatedDevice d rc;
                   pq_Config := parseConfig d rc |} cfg (node w) Hcfg Hlen) as Hpost.
  cbv zeta in Hpost. cbn [pq_ClaimUID] in Hpost. rewrite Hp in Hpost.
  destruct Hpost as (Hfree & Hn1' & _ & Hname & _ & Hty & Hki & Hcu & _ & Hci).
  unfold bind at 1, liftN in Hrun. rewrite (createCDISpec_run d uid result (node w0) Hlen) in Hrun.
  destruct (cdiMkdirErr (env (node w0))) as [e|].
  { unfold bind in Hrun.
    destruct (unprepareAllocation d (pr_Allocation result) _) as [x wx|]; [|done].
    injection Hrun as <- <- <-. rewrite lookup_insert_eq in Hr. by injection Hr as <-. }
  destruct (cdiWriteErr (env (node w0)) (specFile d uid)) as [e|].
  { unfold bind in Hrun.
    destruct (unprepareAllocation d (pr_Allocation result) _) as [x wx|]; [|done].
    injection Hrun as <- <- <-. rewrite lookup_insert_eq in Hr. by injection Hr as <-. }
  injection Hrun as <- <- <-. cbn [node calls].
  split; [done|]. rewrite Hn1, Hn1'. cbn [links cdiFiles set_cdiFiles set_links env].
  split; [by rewrite lookup_insert_eq|].
  split.
  { destruct (cdiWriteErr (env (node w)) (stateFile d uid)).
    - by rewrite lookup_insert_eq.
    - destruct (decide (stateFile d uid = specFile d uid)) as [->|Hne];
        [by rewrite lookup_insert_eq|].
      rewrite lookup_insert_ne by done. by rewrite lookup_insert_eq. }
  split; [cbn; by rewrite lookup_insert_eq|].
  unfold unprepareOne. cbn [fst snd]. rewrite Huid. fold uid. rewrite Ha'.
  cbn [allocations set_allocations]. rewrite lookup_insert_eq.
  unfold bind at 1, unprepareAllocation. rewrite Hr', Hty, Hki, Hget, callUnprepare_leaf.
  cbn [lh_Unprepare dummyHandler node calls].
  rewrite DummyHandler_Unprepare_run. cbv zeta. cbn [uq_Allocation]. rewrite Hci.
  fold uid. fold ifName.
  assert (String.eqb ifName "" = false) as ->.
  { apply String.eqb_neq. unfold ifName, claimIfName. by cbn. }
  cbn [links set_cdiFiles set_links env]. rewrite lookup_insert_eq, Hdel.
  unfold bind, liftN. cbn [node calls].
  rewrite deleteCDISpec_run_two; [|done|by rewrite Hsp|by rewrite Hst].
  rewrite Hsp, Hst.
  eexists. split; [|split].
  - done.
  - cbn [node]. unfold set_cdiFiles, set_links. cbn.
    rewrite delete_insert_id by done. f_equal.
    destruct (cdiWriteErr (env (node w)) (stateFile d uid)).
    + by rewrite delete_insert_eq.
    + rewrite (delete_delete _ (stateFile d uid)), delete_insert_eq.
      by rewrite (delete_delete _ (specFile d uid)), delete_insert_eq.
  - cbn [calls]. rewrite map_app, Hcalls, Htype, HK, <- app_assoc. done.
Qed.
End DriverRoundTrip.

(* ================================================================== *)
(** * Claims at the end of a batch *)
(* ================================================================== *)

Section BatchLevel.
Implicit Types (d : Driver) (w : World) (n : Node) (uid : string).

Lemma PrepareResourceClaims_snoc d (claims : list ResourceClaim) (rc : ResourceClaim) w :
  PrepareResourceClaims d (claims ++ [rc]) w =
    match PrepareResourceClaims d claims w with
    | Done acc w1 => prepareOne acc rc w1
    | Panic w1 => Panic w1
    end.
Proof.
  unfold PrepareResourceClaims, bind, liftN.
  destruct (restoreAllocations d (node w)) as [d0 n0|n0]; [|done].
  apply foldM_snoc.
Qed.

(** A rehydration keeps an allocation all state files agree with. *)
Lemma restoreAllocations_agreeing d n uid (alloc : AllocationInfo) :
  allocations d !! uid = Some alloc →
  (∀ name a, globMatch (statePrefix d) ".alloc.json" name = true →
             readable n name = Some a → ai_ClaimUID a = uid → a = alloc) →
  ∃ d', restoreAllocations d n = Done d' n
        ∧ driverName d' = driverName d ∧ registry d' = registry d
        ∧ allocations d' !! uid = Some alloc.
Proof.
  intros Hmem Hagree. rewrite restoreAllocations_run. set (names := merge_sort _ _).
  eexists. split; [done|]. destruct (restored_fields n names d) as [-> ->].
  split; [done|]. split; [done|].
  apply restored_unique; [|by left].
  intros name a Hin. apply Hagree.
  unfold names in Hin. rewrite merge_sort_Permutation in Hin.
  by apply list_elem_of_In, filter_In in Hin as [_ Hm].
Qed.

Lemma PrepareResourceClaims_one d d' (rc : ResourceClaim) w :
  restoreAllocations d (node w) = Done d' (node w) →
  PrepareResourceClaims d [rc] w = prepareOne (d', ∅) rc w.
Proof.
  intros Hr. unfold PrepareResourceClaims, bind, liftN. rewrite Hr. cbn [foldM].
  unfold bind, ret. destruct w as [n c]. cbn [node calls].
  by destruct (prepareOne (d', ∅) rc {| node := n; calls := c |}).
Qed.

Lemma UnprepareResourceClaims_one d d' (claim : NamespacedObject) w :
  restoreAllocations d (node w) = Done d' (node w) →
  UnprepareResourceClaims d [claim] w = unprepareOne (d', ∅) claim w.
Proof.
  intros Hr. unfold UnprepareResourceClaims, bind, liftN. rewrite Hr. cbn [foldM].
  unfold bind, ret. destruct w as [n c]. cbn [node calls].
  by destruct (unprepareOne (d', ∅) claim {| node := n; calls := c |}).
Qed.

(** What a successful first preparation by a leaf handler leaves in the
    driver and in the result. *)
Lemma prepareOne_leaf_first_inv d (l : LeafHandler) (results : gmap string ClaimResult)
    (rc : ResourceClaim) w d1 r1 w1 :
  embeddedLeaf l →
  Get (registry d) (dc_Type (parseConfig d rc)) (GetKind (parseConfig d rc)) = Some (leaf l) →
  allocations d !! cl_UID rc = None →
  prepareOne (d, results) rc w = Done (d1, r1) w1 →
  (∃ r, r1 !! cl_UID rc = Some r ∧ kr_Err r = None) →
  ∃ alloc,
    d1 = set_allocations (<[cl_UID rc := alloc]>) d
    ∧ r1 = <[cl_UID rc :=
               {| kr_Devices :=
                    [{| dv_PoolName := "default";
                        dv_DeviceName := ai_DeviceName alloc;
                        dv_CDIDeviceIDs :=
                          [driverName d +:+ "/" +:+ ai_Type alloc +:+ "="
                           +:+ ai_DeviceName alloc] |}];
                  kr_Err := None |}]> results
    ∧ ai_Metadata alloc !! "poolName" = None.
Proof.
  intros Hl Hget Hnone Hrun (r & Hr & Hok).
  unfold prepareOne in Hrun. cbn [fst snd] in Hrun. rewrite Hnone in Hrun.
  unfold bind at 1 in Hrun.
  destruct (prepareClaim d rc w) as [[result|e] w0|] eqn:Hprep; [| |done].
  2:{ injection Hrun as <- <- <-. rewrite lookup_insert_eq in Hr. by injection Hr as <-. }
  destruct (prepareClaim_leaf_inv _ _ _ _ _ _ Hget Hprep) as (n0 & n1 & Hp & _).
  destruct (leaf_result_agrees _ _ _ _ _ Hl Hp) as (Hdev & Hpool & Hmeta & _).
  unfold bind at 1, liftN in Hrun.
  destruct (createCDISpec d (cl_UID rc) result (node w0)) as [[id|e] n2|] eqn:Hcdi; [| |done].
  2:{ unfold bind in Hrun.
      destruct (unprepareAllocation d (pr_Allocation result) _) as [x wx|]; [|done].
      injection Hrun as <- <- <-. rewrite lookup_insert_eq in Hr. by injection Hr as <-. }
  injection Hrun as <- <- <-. exists (pr_Allocation result).
  split; [done|]. split; [|done].
  by rewrite (createCDISpec_id _ _ _ _ _ _ Hcdi), Hdev, Hpool.
Qed.


(** X25.  A claim that the dummy, the IPoIB or the uverbs handler prepared
    is answered alike when it is prepared again.  A later batch of the same
    driver with this claim, on a node whose state files agree with the
    allocation in memory, returns for it the result of the first call, calls
    no handler and leaves the node alone. *)
Theorem leaf_claim_replays_identically d (l : LeafHandler) (claims : list ResourceClaim)
    (rc : ResourceClaim) w d0 (r0 : gmap string ClaimResult) w0 d1 r1 w1 w' :
  let uid := cl_UID rc in
  embeddedLeaf l →
  PrepareResourceClaims d claims w = Done (d0, r0) w0 →
  Get (registry d0) (dc_Type (parseConfig d0 rc)) (GetKind (parseConfig d0 rc))
    = Some (leaf l) →
  allocations d0 !! uid = None →
  PrepareResourceClaims d (claims ++ [rc]) w = Done (d1, r1) w1 →
  (∃ r, r1 !! uid = Some r ∧ kr_Err r = None) →
  (∀ name a, globMatch (statePrefix d1) ".alloc.json" name = true →
             readable (node w') name = Some a → ai_ClaimUID a = uid →
             allocations d1 !! uid = Some a) →
  ∃ d2 r2,
    PrepareResourceClaims d1 [rc] w' = Done (d2, r2) w'
    ∧ r2 !! uid = r1 !! uid
    ∧ (∀ u, is_Some (r2 !! u) → u = uid)
    ∧ allocations d2 !! uid = allocations d1 !! uid.
Proof.
  intros uid Hl Hbatch Hget Hnone Hrun Hok Hagree. subst uid.
  rewrite PrepareResourceClaims_snoc, Hbatch in Hrun.
  destruct (prepareOne_leaf_first_inv d0 l r0 rc w0 d1 r1 w1 Hl Hget Hnone Hrun Hok)
    as (alloc & -> & -> & Hmeta).
  assert (Hmem : allocations (set_allocations (<[cl_UID rc := alloc]>) d0) !! cl_UID rc
                 = Some alloc) by (cbn; by rewrite lookup_insert_eq).
  destruct (restoreAllocations_agreeing _ (node w') (cl_UID rc) alloc Hmem)
    as (d2 & Hrestore & Hn2 & Hr2 & Ha2).
  { intros name a Hm Hrd Hu. specialize (Hagree name a Hm Hrd Hu).
    cbn in Hagree. rewrite lookup_insert_eq in Hagree. by injection Hagree. }
  exists d2. eexists. split.
  - rewrite (PrepareResourceClaims_one _ d2 rc w' Hrestore).
    apply (prepareOne_replay d2 ∅ rc w' alloc). exact Ha2.
  - rewrite !lookup_insert_eq, Hmeta, Hn2. split; [done|]. split.
    + intros u. destruct (decide (u = cl_UID rc)) as [->|Hne]; [done|].
      rewrite lookup_insert_ne by done. rewrite lookup_empty. by intros [? ?].
    + by rewrite Ha2, Hmem.
Qed.

(** X26.  The release of a claim that the driver prepared with the dummy
    handler undoes the preparation.  [UnprepareResourceClaims] reports nil
    for the claim and forgets the allocation, and the node is as before the
    claim was prepared, the two artifacts of the claim removed; the handler
    was called for [Validate], [Prepare] and [Unprepare], in this order. *)
Theorem driver_release_after_prepare d (claims : list ResourceClaim) (rc : ResourceClaim)
    (cfg : NetdevConfig) (claim : NamespacedObject) w d0 (r0 : gmap string ClaimResult) w0
    d1 r1 w1 :
  let uid := cl_UID rc in
  let ifName := claimIfName "dm" uid in
  8 ≤ String.length uid →
  no_UID claim = uid →
  PrepareResourceClaims d claims w = Done (d0, r0) w0 →
  allocations d0 !! uid = None →
  dc_Type (parseConfig d0 rc) = DeviceTypeNetdev →
  dc_Netdev (parseConfig d0 rc) = Some cfg →
  nc_Kind cfg = "dummy" →
  Get (registry d0) DeviceTypeNetdev "dummy" = Some (leaf dummyHandler) →
  linkDelErr (env (node w0)) ifName = None →
  cdiRemoveErr (env (node w0)) (specFile d0 uid) = None →
  cdiRemoveErr (env (node w0)) (stateFile d0 uid) = None →
  PrepareResourceClaims d (claims ++ [rc]) w = Done (d1, r1) w1 →
  (∃ r, r1 !! uid = Some r ∧ kr_Err r = None) →
  (∀ name a, globMatch (statePrefix d1) ".alloc.json" name = true →
             readable (node w1) name = Some a → ai_ClaimUID a = uid →
             allocations d1 !! uid = Some a) →
  links (node w0) !! ifName = None
  ∧ is_Some (links (node w1) !! ifName)
  ∧ is_Some (cdiFiles (node w1) !! specFile d0 uid)
  ∧ is_Some (allocations d1 !! uid)
  ∧ ∃ d2 w2,
      UnprepareResourceClaims d1 [claim] w1 = Done (d2, {[uid := None]}) w2
      ∧ allocations d2 !! uid = None
      ∧ node w2 = set_cdiFiles (λ files, delete (stateFile d0 uid)
                                           (delete (specFile d0 uid) files)) (node w0)
      ∧ map (λ c, (callee c, methodName (method c))) (calls w2)
        = map (λ c, (callee c, methodName (method c))) (calls w0)
          ++ [(ViaRegistry DeviceTypeNetdev "dummy", "Validate");
              (ViaRegistry DeviceTypeNetdev "dummy", "Prepare");
              (ViaRegistry DeviceTypeNetdev "dummy", "Unprepare")].
Proof.
  intros uid ifName Hlen Huid Hbatch Hnone Htype Hcfg Hkind Hget Hdel Hrm1 Hrm2 Hrun Hok Hagree.
  rewrite PrepareResourceClaims_snoc, Hbatch in Hrun.
  assert (∃ alloc, allocations d1 !! uid = Some alloc
                   ∧ driverName d1 = driverName d0 ∧ registry d1 = registry d0)
    as (alloc & Hmem & Hn1 & Hr1).
  { destruct (prepareOne_leaf_first_inv d0 dummyHandler r0 rc w0 d1 r1 w1) as (a & -> & _);
      [by left| |done|done|done|].
    - rewrite Htype. unfold GetKind. by rewrite Htype, Hcfg, Hkind.
    - exists a. cbn. by rewrite lookup_insert_eq. }
  destruct (restoreAllocations_agreeing d1 (node w1) uid alloc Hmem)
    as (d1' & Hrestore & Hn' & Hr' & Ha').
  { intros name a Hm Hrd Hu. specialize (Hagree name a Hm Hrd Hu). congruence. }
  destruct (release_after_first d0 r0 ∅ rc cfg claim w0 d1 r1 w1 d1'
              Hlen Huid Hnone Htype Hcfg Hkind Hget Hdel Hrm1 Hrm2 Hrun Hok)
    as (H1 & H2 & H3 & H4 & w2 & Hun & Hnode & Hcalls).
  - congruence.
  - congruence.
  - fold uid. congruence.
  - split; [done|]. split; [done|]. split; [done|]. split; [done|].
    exists (set_allocations (delete uid) d1'), w2.
    rewrite (UnprepareResourceClaims_one d1 d1' claim w1 Hrestore).
    split; [exact Hun|]. split; [apply lookup_delete_eq|]. split; [exact Hnode|exact Hcalls].
Qed.

End BatchLevel.

(* ================================================================== *)
(** * Discovery of the RDMA devices *)
(* ================================================================== *)

Section Discovery.
Implicit Types (n : Node).

Lemma discoverRDMADevice_run mode devices name n :
  mode = modeOf n →
  discoverRDMADevice mode devices name n =
    Done (if hasPrefix name "uverbs" then devices ++ [publishedFor n name] else devices) n.
Proof.
  intros ->. unfold discoverRDMADevice. destruct (hasPrefix name "uverbs"); [|done].
  cbn [negb]. unfold bind, resolveIBDeviceName, publishedFor, isExclusive, ret.
  destruct (sysfsFiles (env n) !! _) as [data|]; cbn.
  - destruct (String.eqb (TrimSpace data) ""); by destruct (modeOf n).
  - by destruct (modeOf n).
Qed.

Lemma discoverLoop_run mode entries devices n :
  mode = modeOf n →
  foldM (discoverRDMADevice mode) devices entries n =
    Done (devices ++ map (publishedFor n) (List.filter (λ name, hasPrefix name "uverbs") entries)) n.
Proof.
  intros Hm. revert devices. induction entries as [|name entries IH]; intros devices.
  { cbn. by rewrite app_nil_r. }
  cbn [foldM]. rewrite (bind_run _ _ _ _ _ (discoverRDMADevice_run _ devices name n Hm)).
  rewrite IH. cbn [List.filter]. destruct (hasPrefix name "uverbs"); [|done].
  cbn [map]. by rewrite <- app_assoc.
Qed.

Lemma modeOf_cached n : modeOf (set_cachedMode (Some (modeOf n)) n) = modeOf n.
Proof. done. Qed.

(** X27.  The RDMA discovery publishes what the uverbs handler uses: one
    device for each [uverbs*] entry of [/dev/infiniband], in that order, with
    its path, with the netns mode the handlers see from then on, and with
    the IB device [Prepare] resolves for it (no such attribute when there is
    none).  A device may be allocated more than once exactly in shared mode.
    The device [Prepare] falls back to, when a request names none, is the
    first one published. *)
Theorem discovery_agrees_with_the_handler n :
  let n' := set_cachedMode (Some (modeOf n)) n in
  let names := match ibDevEntries (env n) with
               | Ok entries => List.filter (λ name, hasPrefix name "uverbs") entries
               | Err _ => []
               end in
  discoverRDMADevices n = Done (map (publishedFor n) names) n'
  ∧ DetectNetnsMode n' = Done (modeOf n) n'
  ∧ findAvailableUverbs n' = Done (match names with
                                   | name :: _ => Ok name
                                   | [] =>
                                       match ibDevEntries (env n) with
                                       | Ok _ => Err ("no uverbs devices found in /dev/infiniband")
                                       | Err e => Err ("failed to read /dev/infiniband: " +:+ e)
                                       end
                                   end) n'
  ∧ ∀ name, name ∈ names →
      let dev := publishedFor n name in
      hasPrefix name "uverbs" = true
      ∧ pd_Attributes dev !! "dra.example.com/type" = Some (StringValue "rdma")
      ∧ pd_Attributes dev !! "dra.example.com/device"
        = Some (StringValue (pathJoin ibDevDir name))
      ∧ pd_Attributes dev !! "dra.example.com/rdma-netns-mode"
        = Some (StringValue (if isExclusive n then "exclusive" else "shared"))
      ∧ pd_AllowMultipleAllocations dev = (if isExclusive n then None else Some true)
      ∧ ∃ ibDev, resolveIBDevice name n' = Done ibDev n'
                 ∧ pd_Attributes dev !! "dra.example.com/ibdev"
                   = (if String.eqb ibDev "" then None else Some (StringValue ibDev)).
Proof.
  intros n' names. split_and!.
  - unfold discoverRDMADevices. rewrite (bind_run _ _ _ _ _ (DetectNetnsMode_run n)).
    fold n'. subst names. change (env n') with (env n).
    destruct (ibDevEntries (env n)) as [entries|e]; [|done].
    rewrite (discoverLoop_run _ entries [] n') by done. done.
  - rewrite DetectNetnsMode_run. done.
  - unfold findAvailableUverbs. change (env n') with (env n). subst names.
    destruct (ibDevEntries (env n)) as [entries|e]; [|done].
    induction entries as [|name entries IH]; [done|]. cbn [List.find List.filter].
    destruct (hasPrefix name "uverbs"); [done|]. exact IH.
  - intros name Hin dev.
    assert (hasPrefix name "uverbs" = true) as Hpre.
    { subst names. destruct (ibDevEntries (env n)) as [entries|e].
      - apply list_elem_of_In, filter_In in Hin. tauto.
      - by apply elem_of_nil in Hin. }
    split; [done|]. subst dev. unfold publishedFor. cbn [pd_Attributes pd_AllowMultipleAllocations].
    rewrite resolveIBDevice_run. change (env n') with (env n).
    set (ibDev := match sysfsFiles (env n) !! _ with Some data => TrimSpace data | None => "" end).
    unfold isExclusive.
    destruct (String.eqb ibDev "") eqn:Hib; cbn [negb id].
    + split_and!; try done; try by destruct (modeOf n).
      exists ibDev. by rewrite Hib.
    + split_and!; try done; try by destruct (modeOf n).
      exists ibDev. rewrite Hib. by rewrite lookup_insert_eq.
Qed.
End Discovery.

(* ================================================================== *)
(** * The scenarios of the handlers and of the driver *)
(* ================================================================== *)

Section SandboxScenarios.

Lemma keyed_New : keyed NewRDMANetnsTracker.
Proof. intros k m H. cbn in H. by rewrite lookup_empty in H. Qed.

Lemma keyed_AddPending t c d : keyed t → keyed (AddPending t c d).
Proof.
  intros Hk k m. cbn. destruct (decide (k = c)) as [->|Hne].
  - rewrite lookup_insert_eq. by intros [= <-].
  - rewrite lookup_insert_ne by done. apply Hk.
Qed.

Lemma keyed_sandboxNode : keyed (rdmaTracker sandboxNode).
Proof. repeat apply keyed_AddPending. apply keyed_New. Qed.


(** Claim C is pending on a node in exclusive mode; the pod that uses it
    starts. *)
Lemma RunPodSandbox_relocates_witness :
  ∃ n', RunPodSandbox relocPod pendingNode = Done None n'
        ∧ claimState (rdmaTracker n') claimC = Active
        ∧ rdmaDevs n' !! "mlx5_0" = Some podNetns.
Proof.
  assert (Hmoves : (ConsumePendingForClaims (rdmaTracker pendingNode)
                      (extractClaimUIDs (ps_Annotations relocPod))).1
                   = [{| pm_IBDev := "mlx5_0"; pm_ClaimUID := claimC |}]) by reflexivity.
  destruct (RunPodSandbox_relocates relocPod pendingNode) as (n' & Hrun & Hmove & _).
  - apply keyed_AddPending, keyed_New.
  - vm_compute. discriminate.
  - apply (bool_decide_unpack _). vm_compute. exact I.
  - rewrite Hmoves. apply (bool_decide_unpack _). vm_compute. exact I.
  - rewrite Hmoves. intros m ->%list_elem_of_singleton. split; reflexivity.
  - exists n'. split; [exact Hrun|].
    destruct (Hmove {| pm_IBDev := "mlx5_0"; pm_ClaimUID := claimC |}) as (Ha & Hp & Hd).
    { rewrite Hmoves. by apply list_elem_of_singleton. }
    cbn [pm_ClaimUID pm_IBDev] in Ha, Hp, Hd.
    split; [|exact Hd]. unfold claimState. by rewrite Ha, Hp.
Defined.

(** The pod of the sandbox scenario on the host network. *)
Lemma RunPodSandbox_without_netns_witness :
  getNetNSPath hostNetworkPod = ""
  ∧ RunPodSandbox hostNetworkPod sandboxNode = Done None sandboxNode.
Proof.
  split; [reflexivity|].
  rewrite (RunPodSandbox_without_netns hostNetworkPod sandboxNode keyed_sandboxNode
             (or_introl eq_refl)).
  cbv zeta. rewrite decide_True; [reflexivity|]. by right.
Defined.

(** Claim C from [Prepare] to [Unprepare], with the start of its pod in
    between. *)
Lemma rdma_relocation_round_trip_witness :
  ∃ res n1 n2 n3,
    UverbsHandler_Prepare {| uh_Tracker := true |} uverbsRequest relocNode = Done (Ok res) n1
    ∧ RunPodSandbox relocPod n1 = Done None n2
    ∧ rdmaDevs n2 !! "mlx5_0" = Some podNetns
    ∧ UverbsHandler_Unprepare {| uh_Tracker := true |}
        {| uq_ClaimUID := claimC; uq_Allocation := pr_Allocation res |} n2 = Done None n3
    ∧ rdmaTracker n3 = rdmaTracker relocNode
    ∧ rdmaDevs n3 = rdmaDevs relocNode.
Proof.
  destruct (rdma_relocation_round_trip {| uh_Tracker := true |} uverbsRequest relocPod relocNode
              "mlx5_0")
    as (res & n1 & n2 & n3 & H1 & _ & H2 & _ & H3 & H4 & H5 & H6 & _).
  - reflexivity.
  - reflexivity.
  - discriminate.
  - apply (bool_decide_unpack _). vm_compute. exact I.
  - reflexivity.
  - discriminate.
  - reflexivity.
  - reflexivity.
  - apply (bool_decide_unpack _). vm_compute. exact I.
  - vm_compute. reflexivity.
  - apply keyed_New.
  - reflexivity.
  - apply (bool_decide_unpack _). vm_compute. exact I.
  - intros c _ _. apply lookup_empty.
  - by exists res, n1, n2, n3.
Defined.

End SandboxScenarios.

Section HandlerScenarios.

Lemma claimA_length : 8 ≤ String.length claimA.
Proof. vm_compute. lia. Qed.


(** The same interface, created and released. *)
Lemma DummyHandler_release_after_prepare_witness :
  ∃ res n',
    DummyHandler_Prepare dummyRequest (freshNode "shared") = Done (Ok res) n'
    ∧ DummyHandler_Unprepare
        {| uq_ClaimUID := claimA; uq_Allocation := pr_Allocation res |} n'
      = Done None (freshNode "shared").
Proof.
  destruct (DummyHandler_Prepare dummyRequest (freshNode "shared")) as [[res|e] n'|] eqn:E.
  - exists res, n'. split; [reflexivity|].
    apply (proj1 (DummyHandler_release_after_prepare dummyRequest res (freshNode "shared") n' E)).
    reflexivity.
  - vm_compute in E. discriminate E.
  - vm_compute in E. discriminate E.
Defined.

(** Claim X on the fresh node: the combined allocation, made and released. *)
Lemma roce_release_after_prepare_witness :
  ∃ res w' w'',
    RoCEHandler_Prepare productionRoCE requestX freshWorld = Done (Ok res) w'
    ∧ RoCEHandler_Unprepare productionRoCE
        {| uq_ClaimUID := cl_UID claimX; uq_Allocation := pr_Allocation res |} w'
      = Done None w''
    ∧ links (node w'') = links (node freshWorld).
Proof.
  destruct (RoCEHandler_Prepare productionRoCE requestX freshWorld) as [[res|e] w'|] eqn:E.
  - destruct (roce_release_after_prepare requestX res freshWorld w' E eq_refl eq_refl)
      as (w'' & Hun & Hnode & _).
    exists res, w', w''. split; [reflexivity|]. split; [exact Hun|]. by rewrite Hnode.
  - vm_compute in E. discriminate E.
  - vm_compute in E. discriminate E.
Defined.

End HandlerScenarios.

Section DriverScenarios.

(** The first preparation of claim A. *)
Lemma dummyClaim_first :
  prepareOne (exampleDriver, ∅) dummyClaim freshWorld
  = Done (set_allocations (<[claimA := pr_Allocation dummyResult]>) exampleDriver,
          {[claimA := {| kr_Devices := [{| dv_PoolName := "default";
                                           dv_DeviceName := "dmaaaaaaaa";
                                           dv_CDIDeviceIDs :=
                                             ["dra.example.com/netdev=dmaaaaaaaa"] |}];
                         kr_Err := None |}]})
         {| node := stateOf (createCDISpec exampleDriver claimA dummyResult (node dummyPrepared));
            calls := calls dummyPrepared |}.
Proof.
  assert (Hprep : prepareClaim exampleDriver dummyClaim freshWorld
                  = Done (Ok dummyResult) dummyPrepared) by (vm_compute; reflexivity).
  assert (Hcdi : createCDISpec exampleDriver (cl_UID dummyClaim) dummyResult (node dummyPrepared)
                 = Done (Ok "dra.example.com/netdev=dmaaaaaaaa")
                     (stateOf (createCDISpec exampleDriver claimA dummyResult
                                 (node dummyPrepared)))) by (vm_compute; reflexivity).
  rewrite (prepareOne_first exampleDriver ∅ dummyClaim freshWorld dummyResult dummyPrepared
             _ _ eq_refl Hprep Hcdi).
  reflexivity.
Qed.

Lemma Get_dummy : Get buildHandlerRegistry DeviceTypeNetdev "dummy" = Some (leaf dummyHandler).
Proof. unfold buildHandlerRegistry. cbv zeta. rewrite !Get_Register. reflexivity. Qed.

(** The artifacts of the RDMA result of the combo tests, written on the
    fresh node; a new driver reads the allocation back. *)
Lemma restore_after_createCDISpec_witness :
  ∃ id n1 d',
    createCDISpec exampleDriver "aabbccdd-0000-0000-0000-000000000000" testRdmaResult
      (freshNode "shared") = Done (Ok id) n1
    ∧ restoreAllocations (New "dra.example.com" buildHandlerRegistry) n1 = Done d' n1
    ∧ allocations d' !! "aabbccdd-0000-0000-0000-000000000000"
      = Some (pr_Allocation testRdmaResult).
Proof.
  destruct (createCDISpec exampleDriver "aabbccdd-0000-0000-0000-000000000000" testRdmaResult
              (freshNode "shared")) as [[id|e] n1|] eqn:E.
  - destruct (restore_after_createCDISpec exampleDriver buildHandlerRegistry
                "aabbccdd-0000-0000-0000-000000000000" testRdmaResult (freshNode "shared")
                id n1) as (d' & Hr & Hl).
    + vm_compute. lia.
    + exact E.
    + reflexivity.
    + reflexivity.
    + discriminate.
    + intros name data a Hf. cbn in Hf. by rewrite lookup_empty in Hf.
    + by exists id, n1, d'.
  - vm_compute in E. discriminate E.
  - vm_compute in E. discriminate E.
Defined.

Lemma PrepareResourceClaims_nil d w :
  cdiFiles (node w) = ∅ → PrepareResourceClaims d [] w = Done (d, ∅) w.
Proof.
  intros Hf. unfold PrepareResourceClaims, bind, liftN.
  rewrite restoreAllocations_run, Hf, map_to_list_empty. cbn. by destruct w.
Qed.

Lemma dummyClaim_batch :
  PrepareResourceClaims exampleDriver ([] ++ [dummyClaim]) freshWorld
  = Done (set_allocations (<[claimA := pr_Allocation dummyResult]>) exampleDriver,
          {[claimA := {| kr_Devices := [{| dv_PoolName := "default";
                                           dv_DeviceName := "dmaaaaaaaa";
                                           dv_CDIDeviceIDs :=
                                             ["dra.example.com/netdev=dmaaaaaaaa"] |}];
                         kr_Err := None |}]})
         {| node := stateOf (createCDISpec exampleDriver claimA dummyResult (node dummyPrepared));
            calls := calls dummyPrepared |}.
Proof.
  rewrite PrepareResourceClaims_snoc, (PrepareResourceClaims_nil exampleDriver freshWorld eq_refl).
  exact dummyClaim_first.
Qed.

(** The state files of the node after claim A was prepared carry the
    allocation the driver holds. *)
Lemma dummyClaim_files name (a : AllocationInfo) :
  readable (stateOf (createCDISpec exampleDriver claimA dummyResult (node dummyPrepared))) name
    = Some a →
  ai_ClaimUID a = claimA →
  Some (pr_Allocation dummyResult) = Some a.
Proof.
  unfold readable. intros Hr _.
  destruct (cdiFiles _ !! name) as [data|] eqn:Hf; [|done].
  apply elem_of_map_to_list in Hf.
  assert (Hl : map_to_list (cdiFiles (stateOf (createCDISpec exampleDriver claimA dummyResult
                                                  (node dummyPrepared))))
               ≡ₚ [("dra.example.com-aaaaaaaa.json",
                    CDISpecFile (specOf exampleDriver dummyResult));
                   ("dra.example.com-aaaaaaaa.alloc.json",
                    AllocFile (pr_Allocation dummyResult))]).
  { assert (cdiFiles (stateOf (createCDISpec exampleDriver claimA dummyResult
                                 (node dummyPrepared)))
            = <["dra.example.com-aaaaaaaa.json" :=
                  CDISpecFile (specOf exampleDriver dummyResult)]>
                (<["dra.example.com-aaaaaaaa.alloc.json" :=
                     AllocFile (pr_Allocation dummyResult)]> ∅)) as ->
      by (vm_compute; reflexivity).
    rewrite map_to_list_insert by (vm_compute; reflexivity).
    by rewrite map_to_list_insert, map_to_list_empty by done. }
  rewrite Hl in Hf.
  apply elem_of_cons in Hf as [[= -> ->]|Hf].
  { destruct (cdiReadErr _ _); [done|]. cbn in Hr. done. }
  apply list_elem_of_singleton in Hf as [= -> ->].
  destruct (cdiReadErr _ _); [done|]. cbn [parseAllocation] in Hr.
  destruct (String.eqb _ ""); [done|]. by injection Hr as <-.
Qed.


(** Two claims whose UIDs begin alike. *)
Lemma artifacts_named_by_uid_prefix_witness :
  claimA ≠ "aaaaaaaa-1111-4111-8111-111111111111"
  ∧ deleteCDISpec exampleDriver claimA (freshNode "shared")
    = deleteCDISpec exampleDriver "aaaaaaaa-1111-4111-8111-111111111111" (freshNode "shared").
Proof.
  split; [discriminate|].
  apply (artifacts_named_by_uid_prefix exampleDriver claimA
           "aaaaaaaa-1111-4111-8111-111111111111" (freshNode "shared")).
  - exact claimA_length.
  - vm_compute. lia.
  - reflexivity.
Defined.

(** The driver of the scenario: a batch with claim X and claim A. *)
Lemma batches_answer_every_claim_witness :
  ∃ d' results w',
    PrepareResourceClaims exampleDriver [claimX; dummyClaim] freshWorld
    = Done (d', results) w'
    ∧ is_Some (results !! cl_UID claimX) ∧ is_Some (results !! claimA).
Proof.
  destruct (proj1 (batches_answer_every_claim exampleDriver freshWorld
                     buildHandlerRegistry_answers) [claimX; dummyClaim])
    as (d' & results & w' & Hrun & Hdom & _).
  - repeat constructor; vm_compute; lia.
  - exists d', results, w'. split; [exact Hrun|].
    split; apply Hdom; apply (bool_decide_unpack _); vm_compute; exact I.
Defined.

(** Claim A, prepared twice: the second batch finds the allocation and the
    state file of the first. *)
Lemma leaf_claim_replays_identically_witness :
  ∃ d1 r1 w1 d2 r2,
    PrepareResourceClaims exampleDriver [dummyClaim] freshWorld = Done (d1, r1) w1
    ∧ PrepareResourceClaims d1 [dummyClaim] w1 = Done (d2, r2) w1
    ∧ r2 !! claimA = r1 !! claimA.
Proof.
  destruct (leaf_claim_replays_identically exampleDriver dummyHandler [] dummyClaim
              freshWorld exampleDriver ∅ freshWorld _ _ _
              {| node := stateOf (createCDISpec exampleDriver claimA dummyResult
                                    (node dummyPrepared));
                 calls := calls dummyPrepared |}
              (or_introl eq_refl) (PrepareResourceClaims_nil exampleDriver freshWorld eq_refl) Get_dummy eq_refl
              dummyClaim_batch)
    as (d2 & r2 & Hrun & Hsame & _).
  - eexists. split; [apply lookup_insert_eq|reflexivity].
  - intros name a _ Hr Hu. cbn [allocations set_allocations].
    rewrite lookup_insert_eq. exact (dummyClaim_files name a Hr Hu).
  - eexists _, _, _, d2, r2. split; [exact dummyClaim_batch|]. split; [exact Hrun|exact Hsame].
Defined.

(** Claim A, prepared and released by the driver. *)
Lemma driver_release_after_prepare_witness :
  ∃ d1 r1 w1 d2 w2,
    PrepareResourceClaims exampleDriver [dummyClaim] freshWorld = Done (d1, r1) w1
    ∧ UnprepareResourceClaims d1
        [{| no_UID := claimA; no_Namespace := "default"; no_Name := "claim-a" |}] w1
      = Done (d2, {[claimA := None]}) w2
    ∧ node w2 = node freshWorld.
Proof.
  destruct (driver_release_after_prepare exampleDriver [] dummyClaim dummyNetdev
              {| no_UID := claimA; no_Namespace := "default"; no_Name := "claim-a" |}
              freshWorld exampleDriver ∅ freshWorld _ _ _ claimA_length eq_refl
              (PrepareResourceClaims_nil exampleDriver freshWorld eq_refl) eq_refl eq_refl
              eq_refl eq_refl Get_dummy
              eq_refl eq_refl eq_refl dummyClaim_batch)
    as (_ & _ & _ & _ & d2 & w2 & Hun & _ & Hnode & _).
  - eexists. split; [apply lookup_insert_eq|reflexivity].
  - intros name a _ Hr Hu. cbn [allocations set_allocations].
    rewrite lookup_insert_eq. exact (dummyClaim_files name a Hr Hu).
  - eexists _, _, _, d2, w2. split; [exact dummyClaim_batch|]. split; [exact Hun|].
    rewrite Hnode. vm_compute; reflexivity.
Defined.

End DriverScenarios.
